(** * Verification of parts of the XLA GPU tracer, the IndexFlatMap dataset
      iterator and the MHLO exporter.

    Sources embedded here:
    - third_party/xla/xla/backends/profiler/gpu/cupti_tracer.{h,cc}
    - tensorflow/core/kernels/data/experimental/index_flat_map_dataset_op.cc
    - third_party/xla/xla/translate/mhlo_to_hlo/mlir_hlo_to_hlo.cc

    C++ [size_t] values are integers in [Z] with the wrap-around modulo
    [2^64] written out where the code does arithmetic on them. *)

From stdpp Require Import gmap strings list fin_maps pretty.
From Stdlib Require Import ZArith Lia.

Local Open Scope Z_scope.

(** ** Machine integers *)

Definition size_t_modulus : Z := 2 ^ 64.

(** Conversion of an integer to [size_t] (also the result of [size_t]
    arithmetic): reduction modulo [2^64]. *)
Definition to_size_t (z : Z) : Z := z mod size_t_modulus.

Lemma to_size_t_range z : 0 <= to_size_t z < size_t_modulus.
Proof. unfold to_size_t, size_t_modulus. apply Z.mod_pos_bound. lia. Qed.

Lemma to_size_t_small z : 0 <= z < size_t_modulus -> to_size_t z = z.
Proof. intros H. unfold to_size_t. apply Z.mod_small. exact H. Qed.

(** ** [absl::Status] *)

Inductive StatusCode : Type :=
| kInternal
| kPermissionDenied
| kUnavailable
| kInvalidArgument
| kUnimplemented
| kFailedPrecondition.

Inductive Status : Type :=
| OkStatus
| Error (code : StatusCode) (message : string).

Definition ok (st : Status) : bool :=
  match st with OkStatus => true | Error _ _ => false end.

(** [absl::StatusOr<T>] *)
Inductive StatusOr (T : Type) : Type :=
| Value (v : T)
| Failed (code : StatusCode) (message : string).
Arguments Value {T} v.
Arguments Failed {T} code message.

(** ** [AppendOnlyBuffer<T>] (cupti_tracer.cc) *)

Module AppendOnlyBuffer.
Section WithElement.
Context {T : Type}.

Definition kBlockSize : Z := 32768.

(** [typedef std::vector<T> Block; typedef std::list<Block> BlockList;] *)
Abbreviation Block := (list T) (only parsing).
Abbreviation BlockList := (list (list T)) (only parsing).

(** The private members.  [last_block_] is a pointer to a node of
    [block_list_]; list nodes never move, so it is the index of that node. *)
Record t : Type := mk {
  block_size_ : Z;
  size_ : Z;
  block_list_ : BlockList;
  last_block_ : nat;
}.

(** [block_list_.emplace_back()] followed by taking the address of the new
    node; [reserve] only changes the capacity. *)
Definition emplace_back_block (b : t) : t :=
  {| block_size_ := block_size_ b;
     size_ := size_ b;
     block_list_ := block_list_ b ++ [[]];
     last_block_ := length (block_list_ b) |}.

Definition Clear (b : t) : t :=
  {| block_size_ := block_size_ b;
     size_ := 0;
     block_list_ := [[]];
     last_block_ := 0%nat |}.

(** [explicit AppendOnlyBuffer(size_t block_size = kBlockSize)] *)
Definition new (block_size : Z) : t :=
  Clear {| block_size_ := Z.max 1024 block_size;
           size_ := 0;
           block_list_ := [];
           last_block_ := 0%nat |}.

Definition GetBlocks (b : t) : BlockList := block_list_ b.

(** [last_block_->size()] *)
Definition last_block_size (b : t) : Z :=
  match block_list_ b !! last_block_ b with
  | Some blk => Z.of_nat (length blk)
  | None => 0
  end.

Definition Append (value : T) (b : t) : t :=
  let b1 := if block_size_ b <=? last_block_size b
            then emplace_back_block b else b in
  {| block_size_ := block_size_ b1;
     size_ := to_size_t (size_ b1 + 1);
     block_list_ := alter (fun blk => blk ++ [value]) (last_block_ b1)
                          (block_list_ b1);
     last_block_ := last_block_ b1 |}.

(** [Emplace(params...)] builds the element in place from [params]; the
    element so built is the argument here. *)
Definition Emplace (built : T) (b : t) : t :=
  let b1 := if block_size_ b <=? last_block_size b
            then emplace_back_block b else b in
  {| block_size_ := block_size_ b1;
     size_ := to_size_t (size_ b1 + 1);
     block_list_ := alter (fun blk => blk ++ [built]) (last_block_ b1)
                          (block_list_ b1);
     last_block_ := last_block_ b1 |}.

Definition Size (b : t) : Z := size_ b.

(** A [T*] into the buffer: the block and the position inside the block. *)
Definition pointer : Type := nat * nat.

Definition deref (b : t) (p : pointer) : option T :=
  match block_list_ b !! p.1 with
  | Some blk => blk !! p.2
  | None => None
  end.

(** [return (size_ > 0) ? (&(last_block_->back())) : (nullptr);] *)
Definition LastElement (b : t) : option pointer :=
  if 0 <? size_ b
  then Some (last_block_ b,
             Nat.pred (Z.to_nat (last_block_size b)))
  else None.

(** An assignment through a pointer into the buffer: the element pointed
    to becomes [f] of itself. *)
Definition modify (p : pointer) (f : T -> T) (b : t) : t :=
  {| block_size_ := block_size_ b;
     size_ := size_ b;
     block_list_ := alter (alter f p.2) p.1 (block_list_ b);
     last_block_ := last_block_ b |}.

(** [operator=(AppendOnlyBuffer &&another)]: the new value of [*this] and
    of [another]. *)
Definition move_assign (another : t) : t * t :=
  ({| block_size_ := block_size_ another;
      size_ := size_ another;
      block_list_ := block_list_ another;
      last_block_ := Nat.pred (length (block_list_ another)) |},
   Clear another).

(** Sequences of the public mutators. *)
Inductive op : Type :=
| OpAppend (value : T)
| OpEmplace (built : T)
| OpClear.

Definition step (b : t) (o : op) : t :=
  match o with
  | OpAppend v => Append v b
  | OpEmplace v => Emplace v b
  | OpClear => Clear b
  end.

Definition run (b : t) (ops : list op) : t := foldl step b ops.

(** The elements appended since the last [Clear], oldest first. *)
Definition record (acc : list T) (o : op) : list T :=
  match o with
  | OpAppend v => acc ++ [v]
  | OpEmplace v => acc ++ [v]
  | OpClear => []
  end.

Definition appended_since_clear (ops : list op) : list T :=
  foldl record [] ops.

(** All elements held, in block order. *)
Definition elements (b : t) : list T := concat (block_list_ b).

(** The representation invariant: the blocks before the last are full, the
    last one is not over-full, [last_block_] addresses the last node and
    the blocks hold exactly [l]. *)
Definition holds (b : t) (l : list T) : Prop :=
  exists (full : list Block) (lastb : Block),
    block_list_ b = full ++ [lastb] /\
    last_block_ b = length full /\
    Forall (fun blk => Z.of_nat (length blk) = block_size_ b) full /\
    Z.of_nat (length lastb) <= block_size_ b /\
    (lastb = [] -> full = []) /\
    concat full ++ lastb = l /\
    size_ b = to_size_t (Z.of_nat (length l)) /\
    1024 <= block_size_ b.

Lemma Emplace_Append v b : Emplace v b = Append v b.
Proof. reflexivity. Qed.

Lemma holds_Clear b l : holds b l -> holds (Clear b) [].
Proof.
  intros (full & lastb & _ & _ & _ & _ & _ & _ & _ & Hbs).
  exists [], []. simpl. repeat split; auto; try lia.
Qed.

Lemma holds_new bs : holds (new bs) [].
Proof.
  exists [], []. simpl. repeat split; auto; try lia.
Qed.

Lemma block_size_Clear b : block_size_ (Clear b) = block_size_ b.
Proof. reflexivity. Qed.

Lemma block_size_Append v b : block_size_ (Append v b) = block_size_ b.
Proof. unfold Append. destruct (_ <=? _); reflexivity. Qed.

Lemma holds_Append v b l :
  Z.of_nat (length l) + 1 < size_t_modulus ->
  holds b l -> holds (Append v b) (l ++ [v]).
Proof.
  intros Hlen (full & lastb & Hbl & Hlast & Hfull & Hle & Hne & Hcat & Hsz & Hbs).
  assert (Hlbs : last_block_size b = Z.of_nat (length lastb)).
  { unfold last_block_size. rewrite Hbl, Hlast.
    rewrite list_lookup_middle by reflexivity. reflexivity. }
  assert (Hsize : to_size_t (size_ b + 1) =
                  to_size_t (Z.of_nat (length (l ++ [v])))).
  { rewrite Hsz, length_app. simpl.
    rewrite (to_size_t_small (Z.of_nat (length l))) by lia. f_equal. lia. }
  unfold Append. rewrite Hlbs.
  destruct (Z.leb_spec (block_size_ b) (Z.of_nat (length lastb))) as [Hge|Hlt].
  - (* the last block is full: a fresh block receives the element *)
    exists (full ++ [lastb]), [v]. simpl.
    split_and!; auto.
    + rewrite Hbl.
      replace (length (full ++ [lastb])) with
        (length (full ++ [lastb]) + 0)%nat by lia.
      rewrite alter_app_r. reflexivity.
    + rewrite Hbl. reflexivity.
    + apply Forall_app. split; [exact Hfull|].
      constructor; [lia | constructor].
    + lia.
    + discriminate.
    + rewrite concat_app. simpl. rewrite app_nil_r, Hcat. reflexivity.
  - exists full, (lastb ++ [v]). simpl.
    split_and!; auto.
    + rewrite Hbl, Hlast.
      replace (length full) with (length full + 0)%nat by lia.
      rewrite alter_app_r. reflexivity.
    + rewrite length_app. simpl. lia.
    + intros Habs. destruct lastb; discriminate.
    + rewrite app_assoc, Hcat. reflexivity.
Qed.

Lemma record_length_le acc o :
  (length (record acc o) <= S (length acc))%nat.
Proof. destruct o; simpl; rewrite ?length_app; simpl; lia. Qed.

(** Running a sequence of operations keeps the invariant, as long as the
    element count stays representable in [size_t]. *)
Lemma holds_run ops : forall b l,
  holds b l ->
  Z.of_nat (length l) + Z.of_nat (length ops) < size_t_modulus ->
  holds (run b ops) (foldl record l ops).
Proof.
  induction ops as [|o ops IH]; intros b l Hb Hlen; [exact Hb|].
  simpl. apply IH.
  - destruct o; simpl.
    + apply holds_Append; [simpl in Hlen; lia | exact Hb].
    + rewrite Emplace_Append.
      apply holds_Append; [simpl in Hlen; lia | exact Hb].
    + eapply holds_Clear; exact Hb.
  - pose proof (record_length_le l o). simpl in Hlen. lia.
Qed.

Lemma holds_LastElement b l :
  Z.of_nat (length l) < size_t_modulus ->
  holds b l ->
  (LastElement b = None <-> Size b = 0) /\
  (Size b = 0 <-> l = []) /\
  match LastElement b with
  | Some p => deref b p = last l /\ is_Some (last l)
  | None => last l = None
  end.
Proof.
  intros Hlen (full & lastb & Hbl & Hlast & Hfull & Hle & Hne & Hcat & Hsz & Hbs).
  assert (Hsz' : size_ b = Z.of_nat (length l)).
  { rewrite Hsz. apply to_size_t_small. lia. }
  assert (Hlbs : last_block_size b = Z.of_nat (length lastb)).
  { unfold last_block_size. rewrite Hbl, Hlast.
    rewrite list_lookup_middle by reflexivity. reflexivity. }
  unfold LastElement, Size. rewrite Hsz'.
  destruct (Z.ltb_spec 0 (Z.of_nat (length l))) as [Hpos|Hzero].
  - split; [split; [discriminate | lia]|].
    split; [split; [lia | intros ->; simpl in Hpos; lia]|].
    assert (Hlastb : lastb <> []).
    { intros ->. rewrite (Hne eq_refl) in Hcat. simpl in Hcat.
      subst l. simpl in Hpos. lia. }
    unfold deref. simpl. rewrite Hbl, Hlast.
    rewrite list_lookup_middle by reflexivity.
    rewrite Hlbs, Nat2Z.id, <- last_lookup.
    subst l. rewrite last_app.
    destruct (last lastb) eqn:E; [split; [reflexivity | eauto]|].
    apply last_None in E. contradiction.
  - destruct l as [|x l']; [|simpl in Hzero; lia].
    simpl. split_and!; auto; tauto.
Qed.

Lemma holds_elements b l : holds b l -> elements b = l.
Proof.
  intros (full & lastb & Hbl & _ & _ & _ & _ & Hcat & _).
  unfold elements. rewrite Hbl, concat_app. simpl.
  rewrite app_nil_r. exact Hcat.
Qed.

(** Writing through the pointer that [LastElement] returns changes the
    newest element and nothing else. *)
Lemma holds_modify_last b l v f :
  Z.of_nat (length (l ++ [v])) < size_t_modulus ->
  holds b (l ++ [v]) ->
  exists p, LastElement b = Some p /\
            holds (modify p f b) (l ++ [f v]).
Proof.
  intros Hlen (full & lastb & Hbl & Hlast & Hfull & Hle & Hne & Hcat & Hsz & Hbs).
  assert (Hlastb : exists lb, lastb = lb ++ [v] /\ concat full ++ lb = l).
  { destruct (list_eq_nil_dec lastb) as [->|Hx].
    - rewrite (Hne eq_refl) in Hcat. simpl in Hcat.
      destruct l; discriminate.
    - destruct (exists_last Hx) as (lb & x & ->).
      rewrite app_assoc in Hcat. apply app_inj_tail in Hcat as [? ->].
      eauto. }
  destruct Hlastb as (lb & -> & Hl).
  assert (Hlbs : last_block_size b = Z.of_nat (length (lb ++ [v]))).
  { unfold last_block_size. rewrite Hbl, Hlast.
    rewrite list_lookup_middle by reflexivity. reflexivity. }
  unfold LastElement. rewrite Hlbs, Hsz.
  rewrite to_size_t_small by lia.
  destruct (Z.ltb_spec 0 (Z.of_nat (length (l ++ [v])))) as [_|Habs];
    [|rewrite length_app in Habs; simpl in Habs; lia].
  eexists. split; [reflexivity|].
  exists full, (lb ++ [f v]). unfold modify. simpl.
  rewrite Nat2Z.id, Hbl, Hlast.
  rewrite length_app in Hle. simpl in Hle.
  split_and!; auto.
  - replace (length full) with (length full + 0)%nat at 1 by lia.
    rewrite alter_app_r. simpl. do 2 f_equal.
    rewrite length_app. simpl.
    replace (Init.Nat.pred (length lb + 1)) with (length lb + 0)%nat by lia.
    rewrite alter_app_r. reflexivity.
  - rewrite length_app. simpl. exact Hle.
  - intros Habs. destruct lb; discriminate.
  - rewrite app_assoc, Hl. reflexivity.
  - rewrite Hsz, !length_app. reflexivity.
Qed.

Lemma record_run_length ops : forall l,
  (length (foldl record l ops) <= length l + length ops)%nat.
Proof.
  induction ops as [|o ops IH]; intros l; simpl; [lia|].
  pose proof (IH (record l o)). pose proof (record_length_le l o). lia.
Qed.

Lemma block_size_run ops : forall b, block_size_ (run b ops) = block_size_ b.
Proof.
  induction ops as [|o ops IH]; intros b; simpl; [reflexivity|].
  unfold run in IH. rewrite IH.
  destruct o; cbn [step]; rewrite ?Emplace_Append, ?block_size_Append;
    reflexivity.
Qed.

(** C9: after any sequence of Append/Emplace/Clear on a freshly built
    buffer, [Size()] is the number of elements appended since the last
    [Clear], the blocks hold exactly those elements in order, every block
    but the last holds exactly [block_size_] elements, [block_size_] is at
    least 1024, and [LastElement()] is null exactly when [Size()] is 0 and
    otherwise points to the most recently appended element.  The number of
    operations is assumed to be representable in [size_t]. *)
Theorem invariant_after_operations (block_size : Z) (ops : list op) :
  Z.of_nat (length ops) < size_t_modulus ->
  let b := run (new block_size) ops in
  let l := appended_since_clear ops in
  Size b = Z.of_nat (length l) /\
  elements b = l /\
  block_size_ b = Z.max 1024 block_size /\
  1024 <= block_size_ b /\
  (forall i blk, (S i < length (GetBlocks b))%nat ->
                 GetBlocks b !! i = Some blk ->
                 Z.of_nat (length blk) = block_size_ b) /\
  (LastElement b = None <-> Size b = 0) /\
  (Size b = 0 <-> l = []) /\
  (forall p, LastElement b = Some p ->
             is_Some (last l) /\ deref b p = last l).
Proof.
  intros Hlen b l.
  assert (Hl : (length l <= length ops)%nat).
  { pose proof (record_run_length ops []) as H. simpl in H. exact H. }
  assert (Hb : holds b l).
  { apply holds_run; [apply holds_new | simpl; lia]. }
  pose proof (holds_LastElement b l ltac:(lia) Hb) as (Hnull & Hzero & Hlast).
  destruct Hb as (full & lastb & Hbl & Hlb & Hfull & Hle & Hne & Hcat & Hsz & Hbs).
  split_and!; auto.
  - unfold Size. rewrite Hsz. apply to_size_t_small. lia.
  - unfold elements. rewrite Hbl, concat_app. simpl.
    rewrite app_nil_r. exact Hcat.
  - unfold b. rewrite block_size_run. reflexivity.
  - intros i blk Hi Hlook. unfold GetBlocks in *. rewrite Hbl in Hi, Hlook.
    rewrite length_app in Hi. simpl in Hi.
    rewrite lookup_app_l in Hlook by lia.
    rewrite Forall_lookup in Hfull. eapply Hfull. exact Hlook.
  - intros p Hp. rewrite Hp in Hlast. tauto.
Qed.

End WithElement.
Arguments t : clear implicits.
Arguments op : clear implicits.

(** A run on a buffer of numbers: two appends, a clear and two more. *)
Definition sample_ops : list (op nat) :=
  [OpAppend 7%nat; OpEmplace 8%nat; OpClear; OpAppend 9%nat; OpEmplace 10%nat].

Lemma invariant_after_operations_witness :
  Z.of_nat (length sample_ops) < size_t_modulus /\
  Size (run (new 0) sample_ops) = 2 /\
  elements (run (new 0) sample_ops) = [9%nat; 10%nat].
Proof.
  assert (H : Z.of_nat (length sample_ops) < size_t_modulus) by reflexivity.
  split; [exact H|].
  pose proof (invariant_after_operations 0 sample_ops H) as (Hs & He & _).
  split; [exact Hs | exact He].
Defined.

End AppendOnlyBuffer.

(** ** The CUPTI tracer (cupti_tracer.h, cupti_tracer.cc) *)

Module Cupti.

(** *** Vendor types (CUPTI headers), as far as the tracer reads them *)

Inductive CUptiError : Type :=
| CUPTI_ERROR_MAX_LIMIT_REACHED
| CUPTI_ERROR_INSUFFICIENT_PRIVILEGES
| CUPTI_ERROR_UM_PROFILING_NOT_SUPPORTED
| CUPTI_ERROR_UM_PROFILING_NOT_SUPPORTED_ON_DEVICE
| CUPTI_ERROR_UM_PROFILING_NOT_SUPPORTED_ON_NON_P2P_DEVICES
| CUPTI_ERROR_other (code : Z).

(** A [CUptiResult] is [CUPTI_SUCCESS] or one of the error enumerators. *)
Inductive CUptiResult : Type :=
| CUPTI_SUCCESS
| CUPTI_ERROR (e : CUptiError).

Inductive CUpti_CallbackDomain : Type :=
| CUPTI_CB_DOMAIN_DRIVER_API
| CUPTI_CB_DOMAIN_RUNTIME_API
| CUPTI_CB_DOMAIN_NVTX
| CUPTI_CB_DOMAIN_other (n : Z).

Inductive CUpti_ApiCallbackSite : Type :=
| CUPTI_API_ENTER
| CUPTI_API_EXIT
| CUPTI_API_CBSITE_other.

Inductive CUpti_ActivityKind : Type :=
| CUPTI_ACTIVITY_KIND_KERNEL
| CUPTI_ACTIVITY_KIND_CONCURRENT_KERNEL
| CUPTI_ACTIVITY_KIND_CDP_KERNEL
| CUPTI_ACTIVITY_KIND_MEMCPY
| CUPTI_ACTIVITY_KIND_MEMCPY2
| CUPTI_ACTIVITY_KIND_OVERHEAD
| CUPTI_ACTIVITY_KIND_UNIFIED_MEMORY_COUNTER
| CUPTI_ACTIVITY_KIND_MEMORY
| CUPTI_ACTIVITY_KIND_MEMSET
| CUPTI_ACTIVITY_KIND_SYNCHRONIZATION
| CUPTI_ACTIVITY_KIND_other (n : Z).

Inductive CUpti_ActivityMemcpyKind : Type :=
| CUPTI_ACTIVITY_MEMCPY_KIND_HTOD
| CUPTI_ACTIVITY_MEMCPY_KIND_DTOH
| CUPTI_ACTIVITY_MEMCPY_KIND_DTOD
| CUPTI_ACTIVITY_MEMCPY_KIND_PTOP
| CUPTI_ACTIVITY_MEMCPY_KIND_other (n : Z).

Inductive CUpti_ActivityObjectKind : Type :=
| CUPTI_ACTIVITY_OBJECT_UNKNOWN
| CUPTI_ACTIVITY_OBJECT_PROCESS
| CUPTI_ACTIVITY_OBJECT_THREAD
| CUPTI_ACTIVITY_OBJECT_DEVICE
| CUPTI_ACTIVITY_OBJECT_CONTEXT
| CUPTI_ACTIVITY_OBJECT_STREAM
| CUPTI_ACTIVITY_OBJECT_other (n : Z).

Inductive CUpti_ActivityOverheadKind : Type :=
| CUPTI_ACTIVITY_OVERHEAD_DRIVER_COMPILER
| CUPTI_ACTIVITY_OVERHEAD_CUPTI_BUFFER_FLUSH
| CUPTI_ACTIVITY_OVERHEAD_CUPTI_INSTRUMENTATION
| CUPTI_ACTIVITY_OVERHEAD_CUPTI_RESOURCE
| CUPTI_ACTIVITY_OVERHEAD_other (n : Z).

Inductive CUpti_ActivityUnifiedMemoryCounterKind : Type :=
| CUPTI_ACTIVITY_UNIFIED_MEMORY_COUNTER_KIND_BYTES_TRANSFER_HTOD
| CUPTI_ACTIVITY_UNIFIED_MEMORY_COUNTER_KIND_BYTES_TRANSFER_DTOH
| CUPTI_ACTIVITY_UNIFIED_MEMORY_COUNTER_KIND_CPU_PAGE_FAULT_COUNT
| CUPTI_ACTIVITY_UNIFIED_MEMORY_COUNTER_KIND_GPU_PAGE_FAULT
| CUPTI_ACTIVITY_UNIFIED_MEMORY_COUNTER_KIND_THRASHING
| CUPTI_ACTIVITY_UNIFIED_MEMORY_COUNTER_KIND_THROTTLING
| CUPTI_ACTIVITY_UNIFIED_MEMORY_COUNTER_KIND_REMOTE_MAP
| CUPTI_ACTIVITY_UNIFIED_MEMORY_COUNTER_KIND_BYTES_TRANSFER_DTOD
| CUPTI_ACTIVITY_UNIFIED_MEMORY_COUNTER_KIND_other (n : Z).

Inductive CUpti_ActivitySynchronizationType : Type :=
| CUPTI_ACTIVITY_SYNCHRONIZATION_TYPE_EVENT_SYNCHRONIZE
| CUPTI_ACTIVITY_SYNCHRONIZATION_TYPE_STREAM_WAIT_EVENT
| CUPTI_ACTIVITY_SYNCHRONIZATION_TYPE_STREAM_SYNCHRONIZE
| CUPTI_ACTIVITY_SYNCHRONIZATION_TYPE_CONTEXT_SYNCHRONIZE
| CUPTI_ACTIVITY_SYNCHRONIZATION_TYPE_other (n : Z).

(** The activity record structs.  Only the members that reach the common
    fields of a [CuptiTracerEvent] are kept; launch geometry, byte counts
    and channel ids feed the type-specific union of the event, which is left
    out below. *)
Record KernelRecord : Type := {
  kernel_name : string;
  kernel_start : Z;
  kernel_end : Z;
  kernel_deviceId : Z;
  kernel_contextId : Z;
  kernel_streamId : Z;
  kernel_correlationId : Z;
}.

Record MemcpyRecord : Type := {
  memcpy_copyKind : CUpti_ActivityMemcpyKind;
  memcpy_start : Z;
  memcpy_end : Z;
  memcpy_deviceId : Z;
  memcpy_contextId : Z;
  memcpy_streamId : Z;
  memcpy_correlationId : Z;
}.

Record MemcpyP2PRecord : Type := {
  p2p_start : Z;
  p2p_end : Z;
  p2p_srcDeviceId : Z;
  p2p_dstDeviceId : Z;
  p2p_contextId : Z;
  p2p_streamId : Z;
  p2p_correlationId : Z;
}.

Record OverheadRecord : Type := {
  overhead_overheadKind : CUpti_ActivityOverheadKind;
  overhead_objectKind : CUpti_ActivityObjectKind;
  overhead_start : Z;
  overhead_end : Z;
  overhead_threadId : Z;   (* objectId.pt.threadId *)
  overhead_deviceId : Z;   (* objectId.dcs.deviceId *)
  overhead_streamId : Z;   (* objectId.dcs.streamId *)
}.

Record UnifiedMemoryRecord : Type := {
  um_counterKind : CUpti_ActivityUnifiedMemoryCounterKind;
  um_start : Z;
  um_end : Z;
  um_srcId : Z;
  um_dstId : Z;
}.

Record MemoryRecord : Type := {
  memory_memoryKind : Z;
  memory_start : Z;
  memory_end : Z;
  memory_deviceId : Z;
  memory_contextId : Z;
}.

Record MemsetRecord : Type := {
  memset_memoryKind : Z;
  memset_start : Z;
  memset_end : Z;
  memset_deviceId : Z;
  memset_correlationId : Z;
  memset_contextId : Z;
  memset_streamId : Z;
}.

Record SynchronizationRecord : Type := {
  sync_type : CUpti_ActivitySynchronizationType;
  sync_start : Z;
  sync_end : Z;
  sync_correlationId : Z;
  sync_contextId : Z;
}.

(** A [CUpti_Activity*]: the [kind] tag and the struct it is cast to. *)
Inductive CUpti_Activity : Type :=
| ActivityKernel (concurrent : bool) (r : KernelRecord)
| ActivityCdpKernel (r : KernelRecord)
| ActivityMemcpy (r : MemcpyRecord)
| ActivityMemcpy2 (r : MemcpyP2PRecord)
| ActivityOverhead (r : OverheadRecord)
| ActivityUnifiedMemoryCounter (r : UnifiedMemoryRecord)
| ActivityMemory (r : MemoryRecord)
| ActivityMemset (r : MemsetRecord)
| ActivitySynchronization (r : SynchronizationRecord)
| ActivityOther (kind : Z).

Definition kind (record : CUpti_Activity) : CUpti_ActivityKind :=
  match record with
  | ActivityKernel false _ => CUPTI_ACTIVITY_KIND_KERNEL
  | ActivityKernel true _ => CUPTI_ACTIVITY_KIND_CONCURRENT_KERNEL
  | ActivityCdpKernel _ => CUPTI_ACTIVITY_KIND_CDP_KERNEL
  | ActivityMemcpy _ => CUPTI_ACTIVITY_KIND_MEMCPY
  | ActivityMemcpy2 _ => CUPTI_ACTIVITY_KIND_MEMCPY2
  | ActivityOverhead _ => CUPTI_ACTIVITY_KIND_OVERHEAD
  | ActivityUnifiedMemoryCounter _ => CUPTI_ACTIVITY_KIND_UNIFIED_MEMORY_COUNTER
  | ActivityMemory _ => CUPTI_ACTIVITY_KIND_MEMORY
  | ActivityMemset _ => CUPTI_ACTIVITY_KIND_MEMSET
  | ActivitySynchronization _ => CUPTI_ACTIVITY_KIND_SYNCHRONIZATION
  | ActivityOther n => CUPTI_ACTIVITY_KIND_other n
  end.

(** [CUpti_CallbackData], and for the NVTX domain the message that
    [CUpti_NvtxData] carries. *)
Record CUpti_CallbackData : Type := {
  callbackSite : CUpti_ApiCallbackSite;
  context : option Z;          (* [nullptr] is [None] *)
  contextUid : Z;
  correlationId : Z;
  functionName : string;
  nvtx_message : string;
}.

(** *** The collector's types (cupti_collector.h is not among the sources;
    the enumerators and members below are those the tracer names) *)

Inductive CuptiTracerEventType : Type :=
| Unsupported
| Kernel
| MemcpyH2D
| MemcpyD2H
| MemcpyD2D
| MemcpyP2P
| MemcpyOther
| MemoryAlloc
| MemoryFree
| Memset
| Overhead
| UnifiedMemory
| Generic
| MemoryResidency
| HostRegister
| HostUnregister.

Inductive CuptiTracerEventSource : Type :=
| Invalid
| DriverCallback
| Activity.

(** [CuptiTracerEvent], without its type-specific union ([kernel_info],
    [memcpy_info], ...). *)
Record CuptiTracerEvent : Type := {
  type : CuptiTracerEventType;
  source : CuptiTracerEventSource;
  name : string;
  annotation : string;
  nvtx_range : string;
  start_time_ns : Z;
  end_time_ns : Z;
  device_id : Z;
  correlation_id : Z;
  thread_id : Z;
  context_id : Z;
  stream_id : Z;
}.

(** [struct AnnotationInfo { string_view annotation; string_view nvtx_range; }] *)
Record AnnotationInfo : Type := {
  info_annotation : string;
  info_nvtx_range : string;
}.

(** [AnnotationMap]: correlation id to annotation. *)
Abbreviation AnnotationMap := (gmap Z AnnotationInfo).

Record CuptiTracerCollectorOptions : Type := {
  max_callback_api_events : Z;
  max_activity_api_events : Z;
  max_annotation_strings : Z;
  num_gpus : Z;
}.

(** Modelled from the spec: the part of [CuptiTraceCollector] that the base
    class implements (cupti_collector.h is missing): the options, and the
    annotation map that [SetAnnotationMap] stores and [LookUpAnnotation]
    searches by correlation id, answering an empty [AnnotationInfo] for an
    id that is absent.  The virtual [AddEvent] and [Flush] are calls
    recorded in the trace of the state below. *)
Record CuptiTraceCollector : Type := {
  options_ : CuptiTracerCollectorOptions;
  annotation_map_ : AnnotationMap;
}.

Definition SetAnnotationMap (map : AnnotationMap) (c : CuptiTraceCollector)
  : CuptiTraceCollector :=
  {| options_ := options_ c; annotation_map_ := map |}.

Definition LookUpAnnotation (c : CuptiTraceCollector)
    (device_id correlation_id : Z) : AnnotationInfo :=
  match annotation_map_ c !! correlation_id with
  | Some info => info
  | None => {| info_annotation := ""; info_nvtx_range := "" |}
  end.

(** *** [CuptiTracerOptions] (cupti_tracer.h) *)

Record CuptiTracerOptions : Type := {
  required_callback_api_events : bool;
  cbids_selected : list Z;
  activities_selected : list CUpti_ActivityKind;
  cupti_finalize : bool;
  sync_devices_before_stop : bool;
  enable_nvtx_tracking : bool;
}.

(** *** [CallbackAnnotationsAndEvents] (cupti_tracer.cc) *)

Record EventWithAnnotation : Type := {
  ewa_correlation_id : Z;
  ewa_annotation : string;
  ewa_nvtx_range : string;
  ewa_event : CuptiTracerEvent;
}.

Record CallbackAnnotationsAndEvents : Type := {
  annotations : gset string;
  nvtx_ranges : gset string;
  event_annotation_buffer : AppendOnlyBuffer.t EventWithAnnotation;
  num_dropped_events : Z;
}.

(** The three static members. *)
Record Statics : Type := {
  s_callback_api_event_count : Z;
  s_max_annotation_strings : Z;
  s_max_callback_api_events : Z;
}.

(** [CallbackAnnotationsAndEvents() = default] *)
Definition CallbackAnnotationsAndEvents_new : CallbackAnnotationsAndEvents :=
  {| annotations := ∅;
     nvtx_ranges := ∅;
     event_annotation_buffer := AppendOnlyBuffer.new AppendOnlyBuffer.kBlockSize;
     num_dropped_events := 0 |}.

(** The move constructor: the object built, and what is left in [another]. *)
Definition CallbackAnnotationsAndEvents_move (another : CallbackAnnotationsAndEvents)
  : CallbackAnnotationsAndEvents * CallbackAnnotationsAndEvents :=
  let '(buf, cleared) :=
    AppendOnlyBuffer.move_assign (event_annotation_buffer another) in
  ({| annotations := annotations another;
      nvtx_ranges := nvtx_ranges another;
      event_annotation_buffer := buf;
      num_dropped_events := num_dropped_events another |},
   {| annotations := ∅;
      nvtx_ranges := ∅;
      event_annotation_buffer := cleared;
      num_dropped_events := 0 |}).

Definition clear (d : CallbackAnnotationsAndEvents) : CallbackAnnotationsAndEvents :=
  {| annotations := ∅;
     nvtx_ranges := ∅;
     event_annotation_buffer := AppendOnlyBuffer.Clear (event_annotation_buffer d);
     num_dropped_events := 0 |}.

Section Add.
(** The value-initialised [CuptiTracerEvent event{}]; its member
    initialisers are in the missing header. *)
Variable event0 : CuptiTracerEvent.

(** [bool Add(device_id, correlation_id, annotation, nvtx_range)]: the
    result, the static members and the object afterwards. *)
Definition Add (device_id correlation_id : Z) (annotation nvtx_range : string)
    (st : Statics) (d : CallbackAnnotationsAndEvents)
  : bool * Statics * CallbackAnnotationsAndEvents :=
  if (s_max_callback_api_events st =? 0) ||
     (s_callback_api_event_count st <? s_max_callback_api_events st)
  then
    let st' := {| s_callback_api_event_count :=
                    to_size_t (s_callback_api_event_count st + 1);
                  s_max_annotation_strings := s_max_annotation_strings st;
                  s_max_callback_api_events := s_max_callback_api_events st |} in
    let too_many_annotations :=
      (0 <? s_max_annotation_strings st) &&
      (s_max_annotation_strings st <=? Z.of_nat (size (annotations d))) in
    let keep_annotation :=
      negb (too_many_annotations || bool_decide (annotation = "")) in
    let keep_nvtx_range :=
      negb (too_many_annotations || bool_decide (nvtx_range = "")) in
    let annotations1 :=
      if keep_annotation then {[ annotation ]} ∪ annotations d
      else annotations d in
    let nvtx_ranges1 :=
      if keep_nvtx_range then {[ nvtx_range ]} ∪ nvtx_ranges d
      else nvtx_ranges d in
    (true, st',
     {| annotations := annotations1;
        nvtx_ranges := nvtx_ranges1;
        event_annotation_buffer :=
          AppendOnlyBuffer.Emplace
            {| ewa_correlation_id := correlation_id;
               ewa_annotation := if keep_annotation then annotation else "";
               ewa_nvtx_range := if keep_nvtx_range then nvtx_range else "";
               ewa_event := event0 |}
            (event_annotation_buffer d);
        num_dropped_events := num_dropped_events d |})
  else
    (false, st,
     {| annotations := annotations d;
        nvtx_ranges := nvtx_ranges d;
        event_annotation_buffer := event_annotation_buffer d;
        num_dropped_events := to_size_t (num_dropped_events d + 1) |}).
End Add.

(** *** Objects outside the tracer *)

(** Enumerators and helpers of the missing headers whose values the tracer
    uses. *)
Class VendorConstants : Type := {
  CUPTI_DRIVER_TRACE_CBID_cuLaunchCooperativeKernelMultiDevice : Z;
  CUPTI_CBID_NVTX_nvtxDomainRangePushEx : Z;
  CUPTI_CBID_NVTX_nvtxDomainRangePop : Z;
  counter_kind_value : CUpti_ActivityUnifiedMemoryCounterKind -> Z;
  GetMemoryKindName : Z -> string;
}.

(** [struct ActivityBufferAndSize]; a null [buffer] is [None]. *)
Record ActivityBufferAndSize : Type := {
  buffer : option Z;
  size : Z;
}.

(** The arguments of one [ProcessCuptiActivityBuffer] callback; [cb_size]
    is its [valid_size]. *)
Record CompletedBuffer : Type := {
  cb_context : Z;
  cb_stream_id : Z;
  cb_buffer : option Z;
  cb_size : Z;
}.

(** [CuptiInterface] (cupti_interface.h is missing): the answers of the
    driver.  [cupti_ActivityGetNextRecord buffer size] is what repeated calls
    on one buffer yield: its records, each with [CUPTI_SUCCESS], and then the
    first other status.  [cupti_ActivityFlushAll_completed] lists the buffers
    that the driver hands to the registered callback during a flush. *)
Record CuptiInterface : Type := {
  cupti_EnableCallback : bool -> CUpti_CallbackDomain -> Z -> CUptiResult;
  cupti_EnableDomain : bool -> CUpti_CallbackDomain -> CUptiResult;
  cupti_Unsubscribe : CUptiResult;
  cupti_ActivityDisable : CUpti_ActivityKind -> CUptiResult;
  cupti_ActivityFlushAll : CUptiResult;
  cupti_ActivityFlushAll_completed : list CompletedBuffer;
  cupti_ActivityConfigureUnifiedMemoryCounter : bool -> CUptiResult;
  cupti_Finalize : CUptiResult;
  cupti_GetDeviceId : Z -> CUptiResult * Z;
  cupti_ActivityGetNumDroppedRecords : Z -> Z -> CUptiResult * Z;
  cupti_Disabled : bool;
  cupti_GetResultString : CUptiError -> string;
  cupti_ActivityGetNextRecord :
    option Z -> Z -> list CUpti_Activity * CUptiError;
}.

(** [class CuptiDriverApiHook] (cupti_tracer.h): the status each virtual
    method returns, and what [OnDriverApiExit] writes through
    [tracer->LastCallbackEvent()]. *)
Record CuptiDriverApiHook : Type := {
  OnDriverApiEnter :
    Z -> CUpti_CallbackDomain -> Z -> CUpti_CallbackData -> Status;
  OnDriverApiExit :
    Z -> CUpti_CallbackDomain -> Z -> CUpti_CallbackData -> Status;
  OnDriverApiExit_event :
    Z -> CUpti_CallbackDomain -> Z -> CUpti_CallbackData ->
    CuptiTracerEvent -> CuptiTracerEvent;
  SyncAndFlush : Status;
}.

(** [tsl::profiler::BufferPool] (buffer_pool.h is missing). *)
Class BufferPool : Type := {
  pool : Type;
  GetOrCreateBuffer : pool -> option Z * pool;
  ReclaimBuffer : Z -> pool -> pool;
}.

(** Calls that leave the tracer. *)
Inductive Call : Type :=
| CuptiEnableCallback (enable : bool) (domain : CUpti_CallbackDomain) (cbid : Z)
| CuptiEnableDomain (enable : bool) (domain : CUpti_CallbackDomain)
| CuptiUnsubscribe
| CuptiActivityDisable (activity : CUpti_ActivityKind)
| CuptiActivityFlushAll
| CuptiActivityConfigureUnifiedMemoryCounter (enable : bool)
| CuptiCleanUp
| CuptiFinalize
| HookOnDriverApiEnter (device_id : Z) (domain : CUpti_CallbackDomain) (cbid : Z)
| HookOnDriverApiExit (device_id : Z) (domain : CUpti_CallbackDomain) (cbid : Z)
| HookSyncAndFlush
| CollectorSetAnnotationMap (map : AnnotationMap)
| CollectorAddEvent (event : CuptiTracerEvent)
| CollectorFlush
| AnnotationStackEnable (enable : bool)
| NVTXRangeTrackerEnterRange (message : string)
| NVTXRangeTrackerExitRange.

Section Tracer.
Context {constants : VendorConstants}.
Context {buffer_pool : BufferPool}.
(** The [cupti_interface_] member (never null), and the global object that
    [GetCuptiInterface()] returns. *)
Variable cupti_interface_ : CuptiInterface.
Variable GetCuptiInterface : CuptiInterface.
Variable event0 : CuptiTracerEvent.

(** *** The state: [CuptiTracer], the statics and the singleton *)

Record State : Type := {
  (* members of [CuptiTracer] *)
  collected_annotation_and_events_ : list CallbackAnnotationsAndEvents;
  merged_annotation_map_ : AnnotationMap;
  activity_buffers_ : list ActivityBufferAndSize;
  estimated_num_dropped_activity_events_ : Z;
  estimated_num_activity_events_ : Z;
  cupti_dropped_activity_event_count_ : Z;
  dropped_callback_event_count_ : Z;
  num_gpus_ : Z;
  option_ : option CuptiTracerOptions;
  collector_ : option CuptiTraceCollector;
  api_tracing_enabled_ : bool;
  activity_tracing_enabled_ : bool;
  cupti_driver_api_hook_ : option CuptiDriverApiHook;
  buffer_pool_ : pool;
  (* the static members of [CallbackAnnotationsAndEvents] *)
  statics : Statics;
  (* the [CallbackAnnotationsAndEventsCollection] singleton; the active
     set is listed in its iteration order, each thread with its object *)
  active_set_ : list (Z * CallbackAnnotationsAndEvents);
  deactived_list_ : list CallbackAnnotationsAndEvents;
  (* the calls made so far to objects outside the tracer, oldest first *)
  trace : list Call;
}.

Definition set_collected_annotation_and_events_ v (r : State) : State :=
  {| collected_annotation_and_events_ := v;
     merged_annotation_map_ := merged_annotation_map_ r;
     activity_buffers_ := activity_buffers_ r;
     estimated_num_dropped_activity_events_ := estimated_num_dropped_activity_events_ r;
     estimated_num_activity_events_ := estimated_num_activity_events_ r;
     cupti_dropped_activity_event_count_ := cupti_dropped_activity_event_count_ r;
     dropped_callback_event_count_ := dropped_callback_event_count_ r;
     num_gpus_ := num_gpus_ r;
     option_ := option_ r;
     collector_ := collector_ r;
     api_tracing_enabled_ := api_tracing_enabled_ r;
     activity_tracing_enabled_ := activity_tracing_enabled_ r;
     cupti_driver_api_hook_ := cupti_driver_api_hook_ r;
     buffer_pool_ := buffer_pool_ r;
     statics := statics r;
     active_set_ := active_set_ r;
     deactived_list_ := deactived_list_ r;
     trace := trace r |}.
Definition set_merged_annotation_map_ v (r : State) : State :=
  {| collected_annotation_and_events_ := collected_annotation_and_events_ r;
     merged_annotation_map_ := v;
     activity_buffers_ := activity_buffers_ r;
     estimated_num_dropped_activity_events_ := estimated_num_dropped_activity_events_ r;
     estimated_num_activity_events_ := estimated_num_activity_events_ r;
     cupti_dropped_activity_event_count_ := cupti_dropped_activity_event_count_ r;
     dropped_callback_event_count_ := dropped_callback_event_count_ r;
     num_gpus_ := num_gpus_ r;
     option_ := option_ r;
     collector_ := collector_ r;
     api_tracing_enabled_ := api_tracing_enabled_ r;
     activity_tracing_enabled_ := activity_tracing_enabled_ r;
     cupti_driver_api_hook_ := cupti_driver_api_hook_ r;
     buffer_pool_ := buffer_pool_ r;
     statics := statics r;
     active_set_ := active_set_ r;
     deactived_list_ := deactived_list_ r;
     trace := trace r |}.
Definition set_activity_buffers_ v (r : State) : State :=
  {| collected_annotation_and_events_ := collected_annotation_and_events_ r;
     merged_annotation_map_ := merged_annotation_map_ r;
     activity_buffers_ := v;
     estimated_num_dropped_activity_events_ := estimated_num_dropped_activity_events_ r;
     estimated_num_activity_events_ := estimated_num_activity_events_ r;
     cupti_dropped_activity_event_count_ := cupti_dropped_activity_event_count_ r;
     dropped_callback_event_count_ := dropped_callback_event_count_ r;
     num_gpus_ := num_gpus_ r;
     option_ := option_ r;
     collector_ := collector_ r;
     api_tracing_enabled_ := api_tracing_enabled_ r;
     activity_tracing_enabled_ := activity_tracing_enabled_ r;
     cupti_driver_api_hook_ := cupti_driver_api_hook_ r;
     buffer_pool_ := buffer_pool_ r;
     statics := statics r;
     active_set_ := active_set_ r;
     deactived_list_ := deactived_list_ r;
     trace := trace r |}.
Definition set_estimated_num_dropped_activity_events_ v (r : State) : State :=
  {| collected_annotation_and_events_ := collected_annotation_and_events_ r;
     merged_annotation_map_ := merged_annotation_map_ r;
     activity_buffers_ := activity_buffers_ r;
     estimated_num_dropped_activity_events_ := v;
     estimated_num_activity_events_ := estimated_num_activity_events_ r;
     cupti_dropped_activity_event_count_ := cupti_dropped_activity_event_count_ r;
     dropped_callback_event_count_ := dropped_callback_event_count_ r;
     num_gpus_ := num_gpus_ r;
     option_ := option_ r;
     collector_ := collector_ r;
     api_tracing_enabled_ := api_tracing_enabled_ r;
     activity_tracing_enabled_ := activity_tracing_enabled_ r;
     cupti_driver_api_hook_ := cupti_driver_api_hook_ r;
     buffer_pool_ := buffer_pool_ r;
     statics := statics r;
     active_set_ := active_set_ r;
     deactived_list_ := deactived_list_ r;
     trace := trace r |}.
Definition set_estimated_num_activity_events_ v (r : State) : State :=
  {| collected_annotation_and_events_ := collected_annotation_and_events_ r;
     merged_annotation_map_ := merged_annotation_map_ r;
     activity_buffers_ := activity_buffers_ r;
     estimated_num_dropped_activity_events_ := estimated_num_dropped_activity_events_ r;
     estimated_num_activity_events_ := v;
     cupti_dropped_activity_event_count_ := cupti_dropped_activity_event_count_ r;
     dropped_callback_event_count_ := dropped_callback_event_count_ r;
     num_gpus_ := num_gpus_ r;
     option_ := option_ r;
     collector_ := collector_ r;
     api_tracing_enabled_ := api_tracing_enabled_ r;
     activity_tracing_enabled_ := activity_tracing_enabled_ r;
     cupti_driver_api_hook_ := cupti_driver_api_hook_ r;
     buffer_pool_ := buffer_pool_ r;
     statics := statics r;
     active_set_ := active_set_ r;
     deactived_list_ := deactived_list_ r;
     trace := trace r |}.
Definition set_cupti_dropped_activity_event_count_ v (r : State) : State :=
  {| collected_annotation_and_events_ := collected_annotation_and_events_ r;
     merged_annotation_map_ := merged_annotation_map_ r;
     activity_buffers_ := activity_buffers_ r;
     estimated_num_dropped_activity_events_ := estimated_num_dropped_activity_events_ r;
     estimated_num_activity_events_ := estimated_num_activity_events_ r;
     cupti_dropped_activity_event_count_ := v;
     dropped_callback_event_count_ := dropped_callback_event_count_ r;
     num_gpus_ := num_gpus_ r;
     option_ := option_ r;
     collector_ := collector_ r;
     api_tracing_enabled_ := api_tracing_enabled_ r;
     activity_tracing_enabled_ := activity_tracing_enabled_ r;
     cupti_driver_api_hook_ := cupti_driver_api_hook_ r;
     buffer_pool_ := buffer_pool_ r;
     statics := statics r;
     active_set_ := active_set_ r;
     deactived_list_ := deactived_list_ r;
     trace := trace r |}.
Definition set_dropped_callback_event_count_ v (r : State) : State :=
  {| collected_annotation_and_events_ := collected_annotation_and_events_ r;
     merged_annotation_map_ := merged_annotation_map_ r;
     activity_buffers_ := activity_buffers_ r;
     estimated_num_dropped_activity_events_ := estimated_num_dropped_activity_events_ r;
     estimated_num_activity_events_ := estimated_num_activity_events_ r;
     cupti_dropped_activity_event_count_ := cupti_dropped_activity_event_count_ r;
     dropped_callback_event_count_ := v;
     num_gpus_ := num_gpus_ r;
     option_ := option_ r;
     collector_ := collector_ r;
     api_tracing_enabled_ := api_tracing_enabled_ r;
     activity_tracing_enabled_ := activity_tracing_enabled_ r;
     cupti_driver_api_hook_ := cupti_driver_api_hook_ r;
     buffer_pool_ := buffer_pool_ r;
     statics := statics r;
     active_set_ := active_set_ r;
     deactived_list_ := deactived_list_ r;
     trace := trace r |}.
Definition set_option_ v (r : State) : State :=
  {| collected_annotation_and_events_ := collected_annotation_and_events_ r;
     merged_annotation_map_ := merged_annotation_map_ r;
     activity_buffers_ := activity_buffers_ r;
     estimated_num_dropped_activity_events_ := estimated_num_dropped_activity_events_ r;
     estimated_num_activity_events_ := estimated_num_activity_events_ r;
     cupti_dropped_activity_event_count_ := cupti_dropped_activity_event_count_ r;
     dropped_callback_event_count_ := dropped_callback_event_count_ r;
     num_gpus_ := num_gpus_ r;
     option_ := v;
     collector_ := collector_ r;
     api_tracing_enabled_ := api_tracing_enabled_ r;
     activity_tracing_enabled_ := activity_tracing_enabled_ r;
     cupti_driver_api_hook_ := cupti_driver_api_hook_ r;
     buffer_pool_ := buffer_pool_ r;
     statics := statics r;
     active_set_ := active_set_ r;
     deactived_list_ := deactived_list_ r;
     trace := trace r |}.
Definition set_collector_ v (r : State) : State :=
  {| collected_annotation_and_events_ := collected_annotation_and_events_ r;
     merged_annotation_map_ := merged_annotation_map_ r;
     activity_buffers_ := activity_buffers_ r;
     estimated_num_dropped_activity_events_ := estimated_num_dropped_activity_events_ r;
     estimated_num_activity_events_ := estimated_num_activity_events_ r;
     cupti_dropped_activity_event_count_ := cupti_dropped_activity_event_count_ r;
     dropped_callback_event_count_ := dropped_callback_event_count_ r;
     num_gpus_ := num_gpus_ r;
     option_ := option_ r;
     collector_ := v;
     api_tracing_enabled_ := api_tracing_enabled_ r;
     activity_tracing_enabled_ := activity_tracing_enabled_ r;
     cupti_driver_api_hook_ := cupti_driver_api_hook_ r;
     buffer_pool_ := buffer_pool_ r;
     statics := statics r;
     active_set_ := active_set_ r;
     deactived_list_ := deactived_list_ r;
     trace := trace r |}.
Definition set_api_tracing_enabled_ v (r : State) : State :=
  {| collected_annotation_and_events_ := collected_annotation_and_events_ r;
     merged_annotation_map_ := merged_annotation_map_ r;
     activity_buffers_ := activity_buffers_ r;
     estimated_num_dropped_activity_events_ := estimated_num_dropped_activity_events_ r;
     estimated_num_activity_events_ := estimated_num_activity_events_ r;
     cupti_dropped_activity_event_count_ := cupti_dropped_activity_event_count_ r;
     dropped_callback_event_count_ := dropped_callback_event_count_ r;
     num_gpus_ := num_gpus_ r;
     option_ := option_ r;
     collector_ := collector_ r;
     api_tracing_enabled_ := v;
     activity_tracing_enabled_ := activity_tracing_enabled_ r;
     cupti_driver_api_hook_ := cupti_driver_api_hook_ r;
     buffer_pool_ := buffer_pool_ r;
     statics := statics r;
     active_set_ := active_set_ r;
     deactived_list_ := deactived_list_ r;
     trace := trace r |}.
Definition set_activity_tracing_enabled_ v (r : State) : State :=
  {| collected_annotation_and_events_ := collected_annotation_and_events_ r;
     merged_annotation_map_ := merged_annotation_map_ r;
     activity_buffers_ := activity_buffers_ r;
     estimated_num_dropped_activity_events_ := estimated_num_dropped_activity_events_ r;
     estimated_num_activity_events_ := estimated_num_activity_events_ r;
     cupti_dropped_activity_event_count_ := cupti_dropped_activity_event_count_ r;
     dropped_callback_event_count_ := dropped_callback_event_count_ r;
     num_gpus_ := num_gpus_ r;
     option_ := option_ r;
     collector_ := collector_ r;
     api_tracing_enabled_ := api_tracing_enabled_ r;
     activity_tracing_enabled_ := v;
     cupti_driver_api_hook_ := cupti_driver_api_hook_ r;
     buffer_pool_ := buffer_pool_ r;
     statics := statics r;
     active_set_ := active_set_ r;
     deactived_list_ := deactived_list_ r;
     trace := trace r |}.
Definition set_cupti_driver_api_hook_ v (r : State) : State :=
  {| collected_annotation_and_events_ := collected_annotation_and_events_ r;
     merged_annotation_map_ := merged_annotation_map_ r;
     activity_buffers_ := activity_buffers_ r;
     estimated_num_dropped_activity_events_ := estimated_num_dropped_activity_events_ r;
     estimated_num_activity_events_ := estimated_num_activity_events_ r;
     cupti_dropped_activity_event_count_ := cupti_dropped_activity_event_count_ r;
     dropped_callback_event_count_ := dropped_callback_event_count_ r;
     num_gpus_ := num_gpus_ r;
     option_ := option_ r;
     collector_ := collector_ r;
     api_tracing_enabled_ := api_tracing_enabled_ r;
     activity_tracing_enabled_ := activity_tracing_enabled_ r;
     cupti_driver_api_hook_ := v;
     buffer_pool_ := buffer_pool_ r;
     statics := statics r;
     active_set_ := active_set_ r;
     deactived_list_ := deactived_list_ r;
     trace := trace r |}.
Definition set_buffer_pool_ v (r : State) : State :=
  {| collected_annotation_and_events_ := collected_annotation_and_events_ r;
     merged_annotation_map_ := merged_annotation_map_ r;
     activity_buffers_ := activity_buffers_ r;
     estimated_num_dropped_activity_events_ := estimated_num_dropped_activity_events_ r;
     estimated_num_activity_events_ := estimated_num_activity_events_ r;
     cupti_dropped_activity_event_count_ := cupti_dropped_activity_event_count_ r;
     dropped_callback_event_count_ := dropped_callback_event_count_ r;
     num_gpus_ := num_gpus_ r;
     option_ := option_ r;
     collector_ := collector_ r;
     api_tracing_enabled_ := api_tracing_enabled_ r;
     activity_tracing_enabled_ := activity_tracing_enabled_ r;
     cupti_driver_api_hook_ := cupti_driver_api_hook_ r;
     buffer_pool_ := v;
     statics := statics r;
     active_set_ := active_set_ r;
     deactived_list_ := deactived_list_ r;
     trace := trace r |}.
Definition set_statics v (r : State) : State :=
  {| collected_annotation_and_events_ := collected_annotation_and_events_ r;
     merged_annotation_map_ := merged_annotation_map_ r;
     activity_buffers_ := activity_buffers_ r;
     estimated_num_dropped_activity_events_ := estimated_num_dropped_activity_events_ r;
     estimated_num_activity_events_ := estimated_num_activity_events_ r;
     cupti_dropped_activity_event_count_ := cupti_dropped_activity_event_count_ r;
     dropped_callback_event_count_ := dropped_callback_event_count_ r;
     num_gpus_ := num_gpus_ r;
     option_ := option_ r;
     collector_ := collector_ r;
     api_tracing_enabled_ := api_tracing_enabled_ r;
     activity_tracing_enabled_ := activity_tracing_enabled_ r;
     cupti_driver_api_hook_ := cupti_driver_api_hook_ r;
     buffer_pool_ := buffer_pool_ r;
     statics := v;
     active_set_ := active_set_ r;
     deactived_list_ := deactived_list_ r;
     trace := trace r |}.
Definition set_active_set_ v (r : State) : State :=
  {| collected_annotation_and_events_ := collected_annotation_and_events_ r;
     merged_annotation_map_ := merged_annotation_map_ r;
     activity_buffers_ := activity_buffers_ r;
     estimated_num_dropped_activity_events_ := estimated_num_dropped_activity_events_ r;
     estimated_num_activity_events_ := estimated_num_activity_events_ r;
     cupti_dropped_activity_event_count_ := cupti_dropped_activity_event_count_ r;
     dropped_callback_event_count_ := dropped_callback_event_count_ r;
     num_gpus_ := num_gpus_ r;
     option_ := option_ r;
     collector_ := collector_ r;
     api_tracing_enabled_ := api_tracing_enabled_ r;
     activity_tracing_enabled_ := activity_tracing_enabled_ r;
     cupti_driver_api_hook_ := cupti_driver_api_hook_ r;
     buffer_pool_ := buffer_pool_ r;
     statics := statics r;
     active_set_ := v;
     deactived_list_ := deactived_list_ r;
     trace := trace r |}.
Definition set_deactived_list_ v (r : State) : State :=
  {| collected_annotation_and_events_ := collected_annotation_and_events_ r;
     merged_annotation_map_ := merged_annotation_map_ r;
     activity_buffers_ := activity_buffers_ r;
     estimated_num_dropped_activity_events_ := estimated_num_dropped_activity_events_ r;
     estimated_num_activity_events_ := estimated_num_activity_events_ r;
     cupti_dropped_activity_event_count_ := cupti_dropped_activity_event_count_ r;
     dropped_callback_event_count_ := dropped_callback_event_count_ r;
     num_gpus_ := num_gpus_ r;
     option_ := option_ r;
     collector_ := collector_ r;
     api_tracing_enabled_ := api_tracing_enabled_ r;
     activity_tracing_enabled_ := activity_tracing_enabled_ r;
     cupti_driver_api_hook_ := cupti_driver_api_hook_ r;
     buffer_pool_ := buffer_pool_ r;
     statics := statics r;
     active_set_ := active_set_ r;
     deactived_list_ := v;
     trace := trace r |}.
Definition set_trace v (r : State) : State :=
  {| collected_annotation_and_events_ := collected_annotation_and_events_ r;
     merged_annotation_map_ := merged_annotation_map_ r;
     activity_buffers_ := activity_buffers_ r;
     estimated_num_dropped_activity_events_ := estimated_num_dropped_activity_events_ r;
     estimated_num_activity_events_ := estimated_num_activity_events_ r;
     cupti_dropped_activity_event_count_ := cupti_dropped_activity_event_count_ r;
     dropped_callback_event_count_ := dropped_callback_event_count_ r;
     num_gpus_ := num_gpus_ r;
     option_ := option_ r;
     collector_ := collector_ r;
     api_tracing_enabled_ := api_tracing_enabled_ r;
     activity_tracing_enabled_ := activity_tracing_enabled_ r;
     cupti_driver_api_hook_ := cupti_driver_api_hook_ r;
     buffer_pool_ := buffer_pool_ r;
     statics := statics r;
     active_set_ := active_set_ r;
     deactived_list_ := deactived_list_ r;
     trace := v |}.

Definition log (c : Call) (s : State) : State :=
  set_trace (trace s ++ [c]) s.

Definition kBufferSizeInBytes : Z := 32 * 1024.

(** *** Error macros *)

(** The status that [RETURN_IF_CUPTI_ERROR] returns for a failed call. *)
Definition cupti_error_status (e : CUptiError) : Status :=
  match e with
  | CUPTI_ERROR_INSUFFICIENT_PRIVILEGES =>
      Error kPermissionDenied "CUPTI need root access!"
  | _ => Error kInternal ("CUPTI call error" +:+ cupti_GetResultString cupti_interface_ e)
  end.

(** Functions that return a [Status] and may dereference a null pointer:
    [None] is that undefined behaviour. *)
Abbreviation M := (State -> option (Status * State)).

Definition RETURN_IF_CUPTI_ERROR (r : CUptiResult) (k : M) : M :=
  fun s =>
    match r with
    | CUPTI_SUCCESS => k s
    | CUPTI_ERROR e => Some (cupti_error_status e, s)
    end.

Definition TF_RETURN_IF_ERROR (st : Status) (k : M) : M :=
  fun s => if ok st then k s else Some (st, s).

(** *** The per-thread objects *)

(** [CreateNew()] when the [thread_local] of [thread] is first touched. *)
Definition thread_local_object (thread : Z) (s : State)
  : CallbackAnnotationsAndEvents * State :=
  match list_find (fun e => e.1 = thread) (active_set_ s) with
  | Some (_, (_, d)) => (d, s)
  | None =>
      (CallbackAnnotationsAndEvents_new,
       set_active_set_
         (active_set_ s ++ [(thread, CallbackAnnotationsAndEvents_new)]) s)
  end.

(** Writing through [callback_annotations_and_events_] of [thread]. *)
Definition store_thread_local (thread : Z) (d : CallbackAnnotationsAndEvents)
    (s : State) : State :=
  match list_find (fun e => e.1 = thread) (active_set_ s) with
  | Some (i, _) => set_active_set_ (<[i := (thread, d)]> (active_set_ s)) s
  | None => set_active_set_ (active_set_ s ++ [(thread, d)]) s
  end.

(** [Deactivate(ptr_)], run when [thread] exits. *)
Definition Deactivate (thread : Z) (s : State) : State :=
  match list_find (fun e => e.1 = thread) (active_set_ s) with
  | Some (i, (_, d)) =>
      set_deactived_list_ (deactived_list_ s ++ [d])
        (set_active_set_ (delete i (active_set_ s)) s)
  | None => s
  end.

(** [CollectAll()] with both default arguments: the list returned and
    the singleton afterwards. *)
Definition CollectAll (s : State)
  : list CallbackAnnotationsAndEvents * State :=
  let moved := map (fun e => CallbackAnnotationsAndEvents_move e.2)
                   (active_set_ s) in
  (map fst moved ++ deactived_list_ s,
   set_deactived_list_ []
     (set_active_set_
        (zip_with (fun e m => (e.1, m.2)) (active_set_ s) moved) s)).

(** [LastCallbackEvent()] of [thread]: the pointer, if not null. *)
Definition LastCallbackEvent (thread : Z) (s : State)
  : option AppendOnlyBuffer.pointer * State :=
  let '(d, s1) := thread_local_object thread s in
  (AppendOnlyBuffer.LastElement (event_annotation_buffer d), s1).

(** [event_ptr->... = ...]: a write to the [event] member through the
    pointer that [LastCallbackEvent] returned. *)
Definition write_event (p : AppendOnlyBuffer.pointer)
    (f : CuptiTracerEvent -> CuptiTracerEvent)
    (b : AppendOnlyBuffer.t EventWithAnnotation)
  : AppendOnlyBuffer.t EventWithAnnotation :=
  AppendOnlyBuffer.modify p
    (fun e => {| ewa_correlation_id := ewa_correlation_id e;
                 ewa_annotation := ewa_annotation e;
                 ewa_nvtx_range := ewa_nvtx_range e;
                 ewa_event := f (ewa_event e) |}) b.

(** *** [HandleCallback] *)

Definition HandleNVTXCallback (cbid : Z) (cbdata : CUpti_CallbackData) : M :=
  fun s =>
    if cbid =? CUPTI_CBID_NVTX_nvtxDomainRangePushEx
    then Some (OkStatus, log (NVTXRangeTrackerEnterRange (nvtx_message cbdata)) s)
    else if cbid =? CUPTI_CBID_NVTX_nvtxDomainRangePop
    then Some (OkStatus, log NVTXRangeTrackerExitRange s)
    else Some (OkStatus, s).

(** The hook's [OnDriverApiExit]: the call, and the write to the last
    callback event of the calling thread when there is one. *)
Definition call_OnDriverApiExit (hook : CuptiDriverApiHook) (thread : Z)
    (device_id : Z) (domain : CUpti_CallbackDomain) (cbid : Z)
    (cbdata : CUpti_CallbackData) (s : State) : Status * State :=
  let s1 := log (HookOnDriverApiExit device_id domain cbid) s in
  let '(p, s2) := LastCallbackEvent thread s1 in
  let '(d, s3) := thread_local_object thread s2 in
  let s4 :=
    match p with
    | Some p =>
        store_thread_local thread
          {| annotations := annotations d;
             nvtx_ranges := nvtx_ranges d;
             event_annotation_buffer :=
               write_event p
                 (OnDriverApiExit_event hook device_id domain cbid cbdata)
                 (event_annotation_buffer d);
             num_dropped_events := num_dropped_events d |} s3
    | None => s3
    end in
  (OnDriverApiExit hook device_id domain cbid cbdata, s4).

(** [HandleCallback], run on [thread].  [internalCuCall] is the
    thread-local counter of that name, [annotation] what
    [AnnotationStack::Get()] returns there and [current_range] what
    [NVTXRangeTracker::CurrentRange()] returns. *)
Definition HandleCallback (thread internalCuCall : Z)
    (annotation current_range : string)
    (domain : CUpti_CallbackDomain) (cbid : Z) (cbdata : CUpti_CallbackData)
  : M :=
  fun s =>
    if negb (api_tracing_enabled_ s) then Some (OkStatus, s) else
    match cupti_driver_api_hook_ s with
    | None => Some (OkStatus, s)
    | Some hook =>
    match domain with
    | CUPTI_CB_DOMAIN_NVTX => HandleNVTXCallback cbid cbdata s
    | CUPTI_CB_DOMAIN_RUNTIME_API | CUPTI_CB_DOMAIN_other _ =>
        Some (OkStatus, s)
    | CUPTI_CB_DOMAIN_DRIVER_API =>
    if negb (internalCuCall =? 0) then Some (OkStatus, s) else
    match context cbdata with
    | None => Some (Error kInternal "cutpi callback without context", s)
    | Some ctx =>
    let '(r, device_id) := cupti_GetDeviceId cupti_interface_ ctx in
    RETURN_IF_CUPTI_ERROR r (fun s =>
    if num_gpus_ s mod 2 ^ 32 <=? device_id
    then Some (Error kInternal ("Invalid device id:" +:+ pretty device_id), s)
    else
    match callbackSite cbdata with
    | CUPTI_API_ENTER =>
        TF_RETURN_IF_ERROR (OnDriverApiEnter hook device_id domain cbid cbdata)
          (fun s => Some (OkStatus, s))
          (log (HookOnDriverApiEnter device_id domain cbid) s)
    | CUPTI_API_EXIT =>
        let nvtx_range :=
          if cbid =? CUPTI_DRIVER_TRACE_CBID_cuLaunchCooperativeKernelMultiDevice
          then "" else current_range in
        let '(d, s1) := thread_local_object thread s in
        let '(appended, st, d') :=
          Add event0 device_id (correlationId cbdata) annotation nvtx_range
              (statics s1) d in
        let s2 := store_thread_local thread d' (set_statics st s1) in
        if appended
        then
          let '(status, s3) :=
            call_OnDriverApiExit hook thread device_id domain cbid cbdata s2 in
          TF_RETURN_IF_ERROR status (fun s => Some (OkStatus, s)) s3
        else Some (OkStatus, s2)
    | CUPTI_API_CBSITE_other => Some (OkStatus, s)
    end) s
    end
    end
    end.

(** *** Activity buffers *)

(** [RequestActivityBuffer(&buffer, &size)]: the two values written. *)
Definition RequestActivityBuffer (s : State) : option Z * Z * State :=
  let '(b, pool') := GetOrCreateBuffer (buffer_pool_ s) in
  let s1 := set_buffer_pool_ pool' s in
  match b with
  | None => (None, 0, s1)
  | Some p => (Some p, kBufferSizeInBytes, s1)
  end.

(** Unsigned 64-bit [max(end, start + 1)]. *)
Definition end_after_start (start_ end_ : Z) : Z :=
  Z.max end_ (to_size_t (start_ + 1)).

Definition getActivityOverheadKindString (k : CUpti_ActivityOverheadKind)
  : string :=
  match k with
  | CUPTI_ACTIVITY_OVERHEAD_DRIVER_COMPILER => "COMPILER"
  | CUPTI_ACTIVITY_OVERHEAD_CUPTI_BUFFER_FLUSH => "BUFFER_FLUSH"
  | CUPTI_ACTIVITY_OVERHEAD_CUPTI_INSTRUMENTATION => "INSTRUMENTATION"
  | CUPTI_ACTIVITY_OVERHEAD_CUPTI_RESOURCE => "RESOURCE"
  | CUPTI_ACTIVITY_OVERHEAD_other _ => "<UNKNOWN>"
  end.

Definition getActivityUnifiedMemoryKindString
    (k : CUpti_ActivityUnifiedMemoryCounterKind) : string :=
  match k with
  | CUPTI_ACTIVITY_UNIFIED_MEMORY_COUNTER_KIND_BYTES_TRANSFER_HTOD =>
      "UM_BYTES_TRANSFER_HTOD"
  | CUPTI_ACTIVITY_UNIFIED_MEMORY_COUNTER_KIND_BYTES_TRANSFER_DTOH =>
      "UM_BYTES_TRANSFER_DTOH"
  | CUPTI_ACTIVITY_UNIFIED_MEMORY_COUNTER_KIND_CPU_PAGE_FAULT_COUNT =>
      "UM_CPU_PAGE_FAULT"
  | CUPTI_ACTIVITY_UNIFIED_MEMORY_COUNTER_KIND_GPU_PAGE_FAULT =>
      "UM_GPU_PAGE_FAULT"
  | CUPTI_ACTIVITY_UNIFIED_MEMORY_COUNTER_KIND_THRASHING => "UM_THRASHING"
  | CUPTI_ACTIVITY_UNIFIED_MEMORY_COUNTER_KIND_THROTTLING => "UM_THROTTLING"
  | CUPTI_ACTIVITY_UNIFIED_MEMORY_COUNTER_KIND_REMOTE_MAP => "UM_REMOTE_MAP"
  | CUPTI_ACTIVITY_UNIFIED_MEMORY_COUNTER_KIND_BYTES_TRANSFER_DTOD =>
      "UM_BYTES_TRANSFER_DTOD"
  | CUPTI_ACTIVITY_UNIFIED_MEMORY_COUNTER_KIND_other _ => "<UNKNOWN>"
  end.

(** The [Add...ActivityEvent] functions: the event handed to
    [collector->AddEvent], or [None] when the function returns without
    adding one. *)
Definition AddKernelActivityEvent (collector : CuptiTraceCollector)
    (kernel : KernelRecord) : option CuptiTracerEvent :=
  let info := LookUpAnnotation collector (kernel_deviceId kernel)
                               (kernel_correlationId kernel) in
  Some {| type := Kernel;
          source := Activity;
          name := kernel_name kernel;
          annotation := info_annotation info;
          nvtx_range := info_nvtx_range info;
          start_time_ns := kernel_start kernel;
          end_time_ns := kernel_end kernel;
          device_id := kernel_deviceId kernel;
          correlation_id := kernel_correlationId kernel;
          thread_id := thread_id event0;
          context_id := kernel_contextId kernel;
          stream_id := kernel_streamId kernel |}.

Definition AddMemcpyActivityEvent (collector : CuptiTraceCollector)
    (memcpy : MemcpyRecord) : option CuptiTracerEvent :=
  let '(ty, nm) :=
    match memcpy_copyKind memcpy with
    | CUPTI_ACTIVITY_MEMCPY_KIND_HTOD => (MemcpyH2D, "MemcpyH2D")
    | CUPTI_ACTIVITY_MEMCPY_KIND_DTOH => (MemcpyD2H, "MemcpyD2H")
    | CUPTI_ACTIVITY_MEMCPY_KIND_DTOD => (MemcpyD2D, "MemcpyD2D")
    | CUPTI_ACTIVITY_MEMCPY_KIND_PTOP => (MemcpyP2P, "MemcpyP2P")
    | CUPTI_ACTIVITY_MEMCPY_KIND_other _ => (MemcpyOther, "MemcpyOther")
    end in
  let info := LookUpAnnotation collector (memcpy_deviceId memcpy)
                               (memcpy_correlationId memcpy) in
  Some {| type := ty;
          source := Activity;
          name := nm;
          annotation := info_annotation info;
          nvtx_range := nvtx_range event0;
          start_time_ns := memcpy_start memcpy;
          end_time_ns := memcpy_end memcpy;
          device_id := memcpy_deviceId memcpy;
          correlation_id := memcpy_correlationId memcpy;
          thread_id := thread_id event0;
          context_id := memcpy_contextId memcpy;
          stream_id := memcpy_streamId memcpy |}.

Definition AddMemcpyP2PActivityEvent (collector : CuptiTraceCollector)
    (memcpy : MemcpyP2PRecord) : option CuptiTracerEvent :=
  let info := LookUpAnnotation collector (p2p_srcDeviceId memcpy)
                               (p2p_correlationId memcpy) in
  Some {| type := MemcpyP2P;
          source := Activity;
          name := "MemcpyP2P";
          annotation := info_annotation info;
          nvtx_range := nvtx_range event0;
          start_time_ns := p2p_start memcpy;
          end_time_ns := p2p_end memcpy;
          device_id := p2p_srcDeviceId memcpy;
          correlation_id := p2p_correlationId memcpy;
          thread_id := thread_id event0;
          context_id := p2p_contextId memcpy;
          stream_id := p2p_streamId memcpy |}.

Definition AddCuptiOverheadActivityEvent (collector : CuptiTraceCollector)
    (overhead : OverheadRecord) : option CuptiTracerEvent :=
  let event (thread stream device : Z) :=
    {| type := Overhead;
       source := Activity;
       name := getActivityOverheadKindString (overhead_overheadKind overhead);
       annotation := annotation event0;
       nvtx_range := nvtx_range event0;
       start_time_ns := overhead_start overhead;
       end_time_ns := overhead_end overhead;
       device_id := device;
       correlation_id := correlation_id event0;
       thread_id := thread;
       context_id := context_id event0;
       stream_id := stream |} in
  match overhead_objectKind overhead with
  | CUPTI_ACTIVITY_OBJECT_UNKNOWN => None
  | CUPTI_ACTIVITY_OBJECT_THREAD | CUPTI_ACTIVITY_OBJECT_PROCESS =>
      Some (event (overhead_threadId overhead) (stream_id event0) 0)
  | CUPTI_ACTIVITY_OBJECT_STREAM =>
      Some (event (thread_id event0) (overhead_streamId overhead)
                  (overhead_deviceId overhead))
  | CUPTI_ACTIVITY_OBJECT_DEVICE | CUPTI_ACTIVITY_OBJECT_CONTEXT =>
      Some (event (thread_id event0) (stream_id event0)
                  (overhead_deviceId overhead))
  | CUPTI_ACTIVITY_OBJECT_other _ => None
  end.

Definition kPseudoStreamId : Z := 268435456.  (* 0x10000000 *)

Definition AddUnifiedMemoryActivityEvent (collector : CuptiTraceCollector)
    (record : UnifiedMemoryRecord) : option CuptiTracerEvent :=
  let trim :=
    match um_counterKind record with
    | CUPTI_ACTIVITY_UNIFIED_MEMORY_COUNTER_KIND_CPU_PAGE_FAULT_COUNT
    | CUPTI_ACTIVITY_UNIFIED_MEMORY_COUNTER_KIND_THRASHING
    | CUPTI_ACTIVITY_UNIFIED_MEMORY_COUNTER_KIND_REMOTE_MAP => true
    | _ => um_end record <=? um_start record
    end in
  Some {| type := UnifiedMemory;
          source := Activity;
          name := getActivityUnifiedMemoryKindString (um_counterKind record);
          annotation := annotation event0;
          nvtx_range := nvtx_range event0;
          start_time_ns := um_start record;
          end_time_ns := if trim then to_size_t (um_start record + 1)
                         else um_end record;
          device_id := um_srcId record;
          correlation_id := correlation_id event0;
          thread_id := thread_id event0;
          context_id := context_id event0;
          stream_id := kPseudoStreamId +
                       counter_kind_value (um_counterKind record) |}.

Definition AddMemoryActivityEvent (collector : CuptiTraceCollector)
    (memory : MemoryRecord) : option CuptiTracerEvent :=
  Some {| type := MemoryResidency;
          source := Activity;
          name := "Memory " +:+ GetMemoryKindName (memory_memoryKind memory);
          annotation := annotation event0;
          nvtx_range := nvtx_range event0;
          start_time_ns := memory_start memory;
          end_time_ns := end_after_start (memory_start memory)
                                         (memory_end memory);
          device_id := memory_deviceId memory;
          correlation_id := correlation_id event0;
          thread_id := thread_id event0;
          context_id := memory_contextId memory;
          stream_id := 0 |}.

Definition AddMemsetActivityEvent (collector : CuptiTraceCollector)
    (memset : MemsetRecord) : option CuptiTracerEvent :=
  Some {| type := Memset;
          source := Activity;
          name := "Memset " +:+ pretty (memset_memoryKind memset);
          annotation := annotation event0;
          nvtx_range := nvtx_range event0;
          start_time_ns := memset_start memset;
          end_time_ns := end_after_start (memset_start memset)
                                         (memset_end memset);
          device_id := memset_deviceId memset;
          correlation_id := memset_correlationId memset;
          thread_id := thread_id event0;
          context_id := memset_contextId memset;
          stream_id := memset_streamId memset |}.

Definition AddSynchronizationActivityEvent (collector : CuptiTraceCollector)
    (sync : SynchronizationRecord) : option CuptiTracerEvent :=
  Some {| type := Generic;
          source := Activity;
          name :=
            match sync_type sync with
            | CUPTI_ACTIVITY_SYNCHRONIZATION_TYPE_EVENT_SYNCHRONIZE =>
                "cuEventSynchronize"
            | CUPTI_ACTIVITY_SYNCHRONIZATION_TYPE_STREAM_WAIT_EVENT =>
                "cuStreamWaitEvent"
            | CUPTI_ACTIVITY_SYNCHRONIZATION_TYPE_STREAM_SYNCHRONIZE =>
                "cuStreamSynchronize"
            | CUPTI_ACTIVITY_SYNCHRONIZATION_TYPE_CONTEXT_SYNCHRONIZE =>
                "cuCtxSynchronize"
            | CUPTI_ACTIVITY_SYNCHRONIZATION_TYPE_other _ =>
                "unknown synchronization event"
            end;
          annotation := annotation event0;
          nvtx_range := nvtx_range event0;
          start_time_ns := sync_start sync;
          end_time_ns := end_after_start (sync_start sync) (sync_end sync);
          device_id := device_id event0;
          correlation_id := sync_correlationId sync;
          thread_id := thread_id event0;
          context_id := sync_contextId sync;
          stream_id := stream_id event0 |}.

(** The [switch (record->kind)] of [ConvertActivityBuffer]. *)
Definition convert_record (collector : CuptiTraceCollector)
    (record : CUpti_Activity) : option CuptiTracerEvent :=
  match record with
  | ActivityKernel _ r => AddKernelActivityEvent collector r
  | ActivityCdpKernel r => AddKernelActivityEvent collector r
  | ActivityMemcpy r => AddMemcpyActivityEvent collector r
  | ActivityMemcpy2 r => AddMemcpyP2PActivityEvent collector r
  | ActivityOverhead r => AddCuptiOverheadActivityEvent collector r
  | ActivityUnifiedMemoryCounter r => AddUnifiedMemoryActivityEvent collector r
  | ActivityMemory r => AddMemoryActivityEvent collector r
  | ActivityMemset r => AddMemsetActivityEvent collector r
  | ActivitySynchronization r => AddSynchronizationActivityEvent collector r
  | ActivityOther _ => None
  end.

(** Whether the case taken for [record] dereferences [collector_]. *)
Definition uses_collector (record : CUpti_Activity) : bool :=
  match record with
  | ActivityOverhead r =>
      match overhead_objectKind r with
      | CUPTI_ACTIVITY_OBJECT_UNKNOWN | CUPTI_ACTIVITY_OBJECT_other _ => false
      | _ => true
      end
  | ActivityOther _ => false
  | _ => true
  end.

(** One pass of the [while (true)] loop per record that
    [ActivityGetNextRecord] yields. *)
Fixpoint convert_records (records : list CUpti_Activity) (s : State)
  : option State :=
  match records with
  | [] => Some s
  | record :: rest =>
      match collector_ s with
      | None => if uses_collector record then None
                else convert_records rest s
      | Some collector =>
          match convert_record collector record with
          | Some event => convert_records rest (log (CollectorAddEvent event) s)
          | None => convert_records rest s
          end
      end
  end.

Definition ConvertActivityBuffer (buffer : option Z) (size : Z) : M :=
  fun s =>
    let '(records, status) :=
      cupti_ActivityGetNextRecord GetCuptiInterface buffer size in
    match convert_records records s with
    | None => None
    | Some s1 =>
        match status with
        | CUPTI_ERROR_MAX_LIMIT_REACHED => Some (OkStatus, s1)
        | _ => Some (Error kInternal "Parse cupti activity buffer error.", s1)
        end
    end.

Definition kMaxCuptiActivityEventSize : Z := 64.

(** The state after the dropped-record report of
    [ProcessActivityBuffer]. *)
Definition after_dropped_report (context stream_id : Z) (s : State) : State :=
  match cupti_ActivityGetNumDroppedRecords cupti_interface_
          context stream_id with
  | (CUPTI_SUCCESS, dropped) =>
      set_cupti_dropped_activity_event_count_
        (to_size_t (cupti_dropped_activity_event_count_ s + dropped)) s
  | (CUPTI_ERROR _, _) => s
  end.

(** [ProcessActivityBuffer].  [reclaim] is the [absl::Cleanup], which
    runs on every return while [buffer] is still non-null. *)
Definition ProcessActivityBuffer (context stream_id : Z) (buffer : option Z)
    (size : Z) : M :=
  fun s =>
    let reclaim (s : State) : State :=
      match buffer with
      | Some p => set_buffer_pool_ (ReclaimBuffer p (buffer_pool_ s)) s
      | None => s
      end in
    if size =? 0 then Some (OkStatus, reclaim s) else
    if negb (activity_tracing_enabled_ s) then Some (OkStatus, reclaim s) else
    if cupti_Disabled cupti_interface_
    then Some (Error kInternal "Disabled.", reclaim s) else
    let s1 := after_dropped_report context stream_id s in
    let estimated_event_count :=
      to_size_t (size + kMaxCuptiActivityEventSize - 1)
      / kMaxCuptiActivityEventSize in
    match collector_ s1 with
    | None => None
    | Some collector =>
        if max_activity_api_events (options_ collector)
           <=? estimated_num_activity_events_ s1
        then
          Some (OkStatus,
                reclaim
                  (set_estimated_num_dropped_activity_events_
                     (to_size_t (estimated_num_dropped_activity_events_ s1
                                 + estimated_event_count)) s1))
        else
          Some (OkStatus,
                set_activity_buffers_
                  (activity_buffers_ s1
                   ++ [{| buffer := buffer; size := size |}])
                  (set_estimated_num_activity_events_
                     (to_size_t (estimated_num_activity_events_ s1
                                 + estimated_event_count)) s1))
    end.

(** The driver completing buffers: [ProcessCuptiActivityBuffer] runs
    [ProcessActivityBuffer] on each and only logs the status. *)
Fixpoint deliver (completed : list CompletedBuffer) (s : State)
  : option State :=
  match completed with
  | [] => Some s
  | b :: rest =>
      match ProcessActivityBuffer (cb_context b) (cb_stream_id b)
                                  (cb_buffer b) (cb_size b) s with
      | None => None
      | Some (_, s1) => deliver rest s1
      end
  end.

(** [FinalizeActivityBuffers]: the loop takes the front buffer off
    [activity_buffers_] and converts it, until the list is empty. *)
Fixpoint FinalizeActivityBuffers_loop (cached : list ActivityBufferAndSize)
    (s : State) : option State :=
  match cached with
  | [] => Some s
  | buffer_and_size :: rest =>
      match ConvertActivityBuffer (buffer buffer_and_size)
              (size buffer_and_size) (set_activity_buffers_ rest s) with
      | None => None
      | Some (_, s1) => FinalizeActivityBuffers_loop rest s1
      end
  end.

Definition FinalizeActivityBuffers (s : State) : option State :=
  FinalizeActivityBuffers_loop (activity_buffers_ s) s.

(** *** Callback buffers *)

(** [merged_annotation_map_.emplace(key, info)]: no effect when the key is
    present. *)
Definition emplace (key : Z) (info : AnnotationInfo) (m : AnnotationMap)
  : AnnotationMap :=
  match m !! key with
  | Some _ => m
  | None => <[key := info]> m
  end.

(** The events of one per-thread object, block after block. *)
Definition buffered_events (d : CallbackAnnotationsAndEvents)
  : list EventWithAnnotation :=
  concat (AppendOnlyBuffer.GetBlocks (event_annotation_buffer d)).

Definition has_annotation (e : EventWithAnnotation) : bool :=
  negb (bool_decide (ewa_annotation e = "")) ||
  negb (bool_decide (ewa_nvtx_range e = "")).

Definition merge_event (m : AnnotationMap) (e : EventWithAnnotation)
  : AnnotationMap :=
  if has_annotation e
  then emplace (ewa_correlation_id e)
               {| info_annotation := ewa_annotation e;
                  info_nvtx_range := ewa_nvtx_range e |} m
  else m.

(** A range-[for] whose body may dereference a null pointer. *)
Fixpoint for_each {A : Type} (body : A -> State -> option State)
    (l : list A) (s : State) : option State :=
  match l with
  | [] => Some s
  | x :: rest =>
      match body x s with
      | None => None
      | Some s1 => for_each body rest s1
      end
  end.

(** The body of the innermost loop of
    [GatherAllCallbackAnnotationsAndEvents]. *)
Definition gather_event (s : State) (e : EventWithAnnotation) : State :=
  set_merged_annotation_map_ (merge_event (merged_annotation_map_ s) e) s.

(** The body of its outermost loop. *)
Definition gather_thread (s : State) (d : CallbackAnnotationsAndEvents)
  : State :=
  let s1 :=
    foldl (fun s block => foldl gather_event s block) s
          (AppendOnlyBuffer.GetBlocks (event_annotation_buffer d)) in
  set_dropped_callback_event_count_
    (to_size_t (dropped_callback_event_count_ s1 + num_dropped_events d)) s1.

Definition GatherAllCallbackAnnotationsAndEvents (s : State) : option State :=
  let '(collected, s1) := CollectAll s in
  let s2 := set_collected_annotation_and_events_ collected s1 in
  let s3 := set_dropped_callback_event_count_ 0
              (set_merged_annotation_map_ ∅ s2) in
  let s4 := foldl gather_thread s3 (collected_annotation_and_events_ s3) in
  match collector_ s4 with
  | None => None
  | Some collector =>
      (* [SetAnnotationMap(std::move(merged_annotation_map_))] *)
      Some (log (CollectorSetAnnotationMap (merged_annotation_map_ s4))
              (set_collector_
                 (Some (SetAnnotationMap (merged_annotation_map_ s4) collector))
                 (set_merged_annotation_map_ ∅ s4)))
  end.

(** [collector_->AddEvent(std::move(event))] *)
Definition collector_AddEvent (event : CuptiTracerEvent) (s : State)
  : option State :=
  match collector_ s with
  | None => None
  | Some _ => Some (log (CollectorAddEvent event) s)
  end.

Definition FinalizeApiCallbackBuffers (s : State) : option State :=
  for_each
    (fun d =>
       for_each
         (fun block =>
            for_each (fun e => collector_AddEvent (ewa_event e)) block)
         (AppendOnlyBuffer.GetBlocks (event_annotation_buffer d)))
    (collected_annotation_and_events_ s) s.

(** *** [Disable] *)

Definition cupti_call (c : Call) (r : CUptiResult) (k : M) : M :=
  fun s => RETURN_IF_CUPTI_ERROR r k (log c s).

(** The loop over [cbids_selected] in [DisableApiTracing]. *)
Fixpoint disable_callbacks (cbids : list Z) (k : M) : M :=
  match cbids with
  | [] => k
  | cbid :: rest =>
      cupti_call
        (CuptiEnableCallback false CUPTI_CB_DOMAIN_DRIVER_API cbid)
        (cupti_EnableCallback cupti_interface_ false
           CUPTI_CB_DOMAIN_DRIVER_API cbid)
        (disable_callbacks rest k)
  end.

Definition DisableApiTracing : M :=
  fun s =>
    if negb (api_tracing_enabled_ s) then Some (OkStatus, s) else
    let s1 := set_api_tracing_enabled_ false s in
    match option_ s1 with
    | None => None
    | Some option =>
        let unsubscribe : M :=
          cupti_call CuptiUnsubscribe (cupti_Unsubscribe cupti_interface_)
            (fun s => Some (OkStatus, s)) in
        let nvtx : M :=
          if enable_nvtx_tracking option
          then cupti_call (CuptiEnableDomain false CUPTI_CB_DOMAIN_NVTX)
                 (cupti_EnableDomain cupti_interface_ false
                    CUPTI_CB_DOMAIN_NVTX)
                 unsubscribe
          else unsubscribe in
        match cbids_selected option with
        | [] =>
            cupti_call (CuptiEnableDomain false CUPTI_CB_DOMAIN_DRIVER_API)
              (cupti_EnableDomain cupti_interface_ false
                 CUPTI_CB_DOMAIN_DRIVER_API)
              nvtx s1
        | cbids => disable_callbacks cbids nvtx s1
        end
    end.

Definition ConfigureActivityUnifiedMemoryCounter (enable : bool) (s : State)
  : State :=
  log (CuptiActivityConfigureUnifiedMemoryCounter enable) s.

(** The loop over [activities_selected] in [DisableActivityTracing]. *)
Fixpoint disable_activities (activities : list CUpti_ActivityKind) (k : M)
  : M :=
  match activities with
  | [] => k
  | activity :: rest =>
      fun s =>
        let s1 :=
          match activity with
          | CUPTI_ACTIVITY_KIND_UNIFIED_MEMORY_COUNTER =>
              ConfigureActivityUnifiedMemoryCounter false s
          | _ => s
          end in
        cupti_call (CuptiActivityDisable activity)
          (cupti_ActivityDisable cupti_interface_ activity)
          (disable_activities rest k) s1
  end.

(** [cupti_interface_->ActivityFlushAll(...)]: during the call the driver
    hands its completed buffers to [ProcessCuptiActivityBuffer]. *)
Definition call_ActivityFlushAll (k : M) : M :=
  fun s =>
    match deliver (cupti_ActivityFlushAll_completed cupti_interface_)
                  (log CuptiActivityFlushAll s) with
    | None => None
    | Some s1 =>
        RETURN_IF_CUPTI_ERROR (cupti_ActivityFlushAll cupti_interface_) k s1
    end.

Definition DisableActivityTracing : M :=
  fun s =>
    let finish : M :=
      fun s => Some (OkStatus, set_activity_tracing_enabled_ false s) in
    if activity_tracing_enabled_ s
    then
      match option_ s with
      | None => None
      | Some option =>
          disable_activities (activities_selected option)
            (fun s =>
               match option_ s with
               | None => None
               | Some option =>
                   call_ActivityFlushAll finish
                     (set_option_
                        (Some {| required_callback_api_events :=
                                   required_callback_api_events option;
                                 cbids_selected := cbids_selected option;
                                 activities_selected := [];
                                 cupti_finalize := cupti_finalize option;
                                 sync_devices_before_stop :=
                                   sync_devices_before_stop option;
                                 enable_nvtx_tracking :=
                                   enable_nvtx_tracking option |}) s)
               end) s
      end
    else finish s.

Definition Finalize : M :=
  fun s =>
    match option_ s with
    | None => None
    | Some option =>
        if cupti_finalize option
        then cupti_call CuptiFinalize (cupti_Finalize cupti_interface_)
               (fun s => Some (OkStatus, s)) s
        else Some (OkStatus, s)
    end.

(** [cupti_driver_api_hook_->SyncAndFlush()] *)
Definition call_SyncAndFlush : M :=
  fun s =>
    match cupti_driver_api_hook_ s with
    | None => None
    | Some hook => Some (SyncAndFlush hook, log HookSyncAndFlush s)
    end.

(** [collector_->Flush()] *)
Definition collector_Flush (s : State) : option State :=
  match collector_ s with
  | None => None
  | Some _ => Some (log CollectorFlush s)
  end.

(** [.IgnoreError()] *)
Definition IgnoreError (m : M) (s : State) : option State :=
  match m s with
  | None => None
  | Some (_, s1) => Some s1
  end.

Definition Disable (s : State) : option State :=
  s1 ← IgnoreError DisableApiTracing s;
  s2 ← IgnoreError DisableActivityTracing s1;
  let s3 := log CuptiCleanUp s2 in
  s4 ← IgnoreError Finalize s3;
  s5 ← IgnoreError call_SyncAndFlush s4;
  s6 ← GatherAllCallbackAnnotationsAndEvents s5;
  s7 ← FinalizeApiCallbackBuffers s6;
  s8 ← FinalizeActivityBuffers s7;
  s9 ← collector_Flush s8;
  Some (log (AnnotationStackEnable false)
          (set_cupti_driver_api_hook_ None
             (set_option_ None (set_collector_ None s9)))).

(** *** Properties: activity buffers *)

(** C6: [RequestActivityBuffer] hands out what the pool returns; the size
    written is [kBufferSizeInBytes], that is 32 * 1024, with a buffer
    and 0 with a null buffer, and nothing else. *)
Theorem RequestActivityBuffer_outcomes (s : State) :
  let '(buffer, size, s') := RequestActivityBuffer s in
  buffer = (GetOrCreateBuffer (buffer_pool_ s)).1 /\
  buffer_pool_ s' = (GetOrCreateBuffer (buffer_pool_ s)).2 /\
  ((exists p, buffer = Some p /\ size = kBufferSizeInBytes /\
              size = 32 * 1024) \/
   (buffer = None /\ size = 0)) /\
  (forall p, buffer = Some p -> size = 32768).
Proof.
  unfold RequestActivityBuffer.
  destruct (GetOrCreateBuffer (buffer_pool_ s)) as [[p|] pool']; simpl.
  - split_and!; auto. left. exists p. auto.
  - split_and!; auto. intros p Hp. discriminate.
Qed.

(** The events that converting [records] forwards, in order. *)
Definition forwarded (collector : CuptiTraceCollector)
    (records : list CUpti_Activity) : list CuptiTracerEvent :=
  omap (convert_record collector) records.

Lemma collector_log c s : collector_ (log c s) = collector_ s.
Proof. reflexivity. Qed.

Lemma convert_records_spec records : forall s collector,
  collector_ s = Some collector ->
  convert_records records s =
  Some (set_trace (trace s ++ map CollectorAddEvent
                                  (forwarded collector records)) s).
Proof.
  induction records as [|record rest IH]; intros s collector Hc; simpl.
  - rewrite app_nil_r. destruct s; reflexivity.
  - rewrite Hc. unfold forwarded. simpl.
    destruct (convert_record collector record) as [event|]; simpl.
    + rewrite (IH _ collector) by exact Hc. simpl.
      rewrite <- app_assoc. reflexivity.
    + apply IH. exact Hc.
Qed.

(** The kinds that have a case of their own in [ConvertActivityBuffer]. *)
Definition supported (k : CUpti_ActivityKind) : bool :=
  match k with
  | CUPTI_ACTIVITY_KIND_other _ => false
  | _ => true
  end.

(** An overhead record that [AddCuptiOverheadActivityEvent] drops. *)
Definition unattributed (record : CUpti_Activity) : bool :=
  match record with
  | ActivityOverhead r =>
      match overhead_objectKind r with
      | CUPTI_ACTIVITY_OBJECT_UNKNOWN | CUPTI_ACTIVITY_OBJECT_other _ => true
      | _ => false
      end
  | _ => false
  end.

Lemma convert_record_None collector record :
  convert_record collector record = None <->
  supported (kind record) = false \/ unattributed record = true.
Proof.
  destruct record as [[] r|r|r|r|r|r|r|r|r|k]; simpl;
    try (split; [discriminate | intros [|]; discriminate]);
    try (split; auto; fail).
  - unfold AddMemcpyActivityEvent.
    destruct (memcpy_copyKind r); simpl;
      (split; [discriminate | intros [|]; discriminate]).
  - unfold AddCuptiOverheadActivityEvent.
    destruct (overhead_objectKind r); simpl;
      try (split; [discriminate | intros [|]; discriminate]);
      split; auto.
Qed.

Lemma ConvertActivityBuffer_state buffer size s collector :
  collector_ s = Some collector ->
  exists status,
    ConvertActivityBuffer buffer size s =
    Some (status,
          set_trace
            (trace s ++ map CollectorAddEvent
               (forwarded collector
                  (cupti_ActivityGetNextRecord GetCuptiInterface
                     buffer size).1)) s) /\
    status = match (cupti_ActivityGetNextRecord GetCuptiInterface
                      buffer size).2 with
             | CUPTI_ERROR_MAX_LIMIT_REACHED => OkStatus
             | _ => Error kInternal "Parse cupti activity buffer error."
             end.
Proof.
  intros Hc. unfold ConvertActivityBuffer.
  destruct (cupti_ActivityGetNextRecord GetCuptiInterface buffer size)
    as [records final].
  simpl. rewrite (convert_records_spec records s collector Hc).
  destruct final; eexists; split; reflexivity.
Qed.

(** C7, as the code has it: with a collector in place,
    [ConvertActivityBuffer] hands the collector one event for each record
    of the buffer, in order, except that records of a kind without a case
    and overhead records of unknown or unexpected object kind yield none;
    it changes nothing else, and it returns [OkStatus] exactly when the
    iteration ends with [CUPTI_ERROR_MAX_LIMIT_REACHED] and the Internal
    error for every other final status. *)
Theorem ConvertActivityBuffer_spec (buffer : option Z) (size : Z)
    (s : State) (collector : CuptiTraceCollector) :
  collector_ s = Some collector ->
  let records := (cupti_ActivityGetNextRecord GetCuptiInterface buffer size).1 in
  let final := (cupti_ActivityGetNextRecord GetCuptiInterface buffer size).2 in
  exists status,
    ConvertActivityBuffer buffer size s =
    Some (status,
          set_trace (trace s ++ map CollectorAddEvent
                                    (forwarded collector records)) s) /\
    (forall record, record ∈ records ->
       (convert_record collector record = None <->
        supported (kind record) = false \/ unattributed record = true)) /\
    (status = OkStatus <-> final = CUPTI_ERROR_MAX_LIMIT_REACHED) /\
    (final <> CUPTI_ERROR_MAX_LIMIT_REACHED ->
     status = Error kInternal "Parse cupti activity buffer error.").
Proof.
  intros Hc records final.
  destruct (ConvertActivityBuffer_state buffer size s collector Hc)
    as (status & Hrun & Hstatus).
  exists status. split; [exact Hrun|].
  split; [intros; apply convert_record_None|].
  subst final. rewrite Hstatus.
  destruct (cupti_ActivityGetNextRecord GetCuptiInterface buffer size).2;
    split; try (split; [discriminate | discriminate]);
    try (split; reflexivity); try reflexivity; try congruence.
Qed.

(** The events that the cached buffers yield when converted in order. *)
Definition cached_events (collector : CuptiTraceCollector)
    (cached : list ActivityBufferAndSize) : list CuptiTracerEvent :=
  concat (map (fun b =>
                 forwarded collector
                   (cupti_ActivityGetNextRecord GetCuptiInterface
                      (buffer b) (size b)).1)
              cached).

Lemma FinalizeActivityBuffers_loop_spec collector cached : forall s,
  collector_ s = Some collector ->
  FinalizeActivityBuffers_loop cached s =
  Some (set_trace (trace s ++ map CollectorAddEvent
                                  (cached_events collector cached))
          (match cached with
           | [] => s
           | _ => set_activity_buffers_ [] s
           end)).
Proof.
  induction cached as [|b rest IH]; intros s Hc.
  - simpl. rewrite app_nil_r. destruct s; reflexivity.
  - cbn [FinalizeActivityBuffers_loop].
    destruct (ConvertActivityBuffer_state (buffer b) (size b)
                (set_activity_buffers_ rest s) collector Hc)
      as (status & -> & _).
    rewrite IH by exact Hc.
    unfold cached_events. simpl. rewrite map_app, app_assoc.
    destruct rest; destruct s; reflexivity.
Qed.

(** [FinalizeActivityBuffers] returns, having converted every cached
    buffer in order, and leaves [activity_buffers_] empty. *)
Lemma FinalizeActivityBuffers_spec s collector :
  collector_ s = Some collector ->
  FinalizeActivityBuffers s =
  Some (set_trace (trace s ++ map CollectorAddEvent
                     (cached_events collector (activity_buffers_ s)))
          (set_activity_buffers_ [] s)).
Proof.
  intros Hc. unfold FinalizeActivityBuffers.
  rewrite (FinalizeActivityBuffers_loop_spec collector) by exact Hc.
  destruct s as [? ? bufs]; simpl. destruct bufs; reflexivity.
Qed.

Lemma to_size_t_ceil size :
  0 <= size -> size + 63 < size_t_modulus ->
  let n := to_size_t (size + kMaxCuptiActivityEventSize - 1)
           / kMaxCuptiActivityEventSize in
  n = (size + 63) / 64 /\ size <= 64 * n < size + 64.
Proof.
  intros H0 H1. unfold kMaxCuptiActivityEventSize.
  replace (size + 64 - 1) with (size + 63) by lia.
  rewrite to_size_t_small by lia. simpl. split; [reflexivity|].
  pose proof (Z.div_mod (size + 63) 64 ltac:(lia)).
  pose proof (Z.mod_pos_bound (size + 63) 64 ltac:(lia)). lia.
Qed.

Lemma convert_records_activity_buffers records : forall s s1,
  convert_records records s = Some s1 ->
  activity_buffers_ s1 = activity_buffers_ s.
Proof.
  induction records as [|record rest IH]; intros s s1; simpl.
  - intros [= <-]. reflexivity.
  - destruct (collector_ s) as [collector|].
    + destruct (convert_record collector record); intros Hrun;
        apply IH in Hrun; exact Hrun.
    + destruct (uses_collector record); [discriminate |]. apply IH.
Qed.

Lemma FinalizeActivityBuffers_loop_empties cached : forall s s1,
  activity_buffers_ s = cached ->
  FinalizeActivityBuffers_loop cached s = Some s1 ->
  activity_buffers_ s1 = [].
Proof.
  induction cached as [|b rest IH]; intros s s1 Hcached; simpl.
  - intros [= <-]. exact Hcached.
  - unfold ConvertActivityBuffer.
    destruct (cupti_ActivityGetNextRecord _ _ _) as [records e].
    destruct (convert_records records _) as [s0|] eqn:Hconv; [| discriminate].
    apply convert_records_activity_buffers in Hconv. simpl in Hconv.
    destruct e; intros Hrun; apply (IH s0); assumption.
Qed.

(** C4, as the code has it: a buffer passed to [ProcessActivityBuffer] is
    either returned to the pool, leaving [activity_buffers_] as it was, or
    appended to [activity_buffers_], leaving the pool as it was; the
    cleanup hands only a non-null pointer to the pool.  It is returned to
    the pool when its size is 0, when activity tracing is disabled, and
    when the CUPTI interface reports itself disabled (the call then fails
    with an Internal error): these three returns come before any use of
    [collector_] and hold of every state.  After them [collector_] is
    dereferenced.  With a collector, the buffer is returned to the pool when
    the estimated event count has reached [max_activity_api_events], in
    which case the estimated dropped count grows by the size divided by
    64, rounded up (the size being small enough for the rounding not to
    wrap), and otherwise it is appended.
    [FinalizeActivityBuffers], when it returns, leaves [activity_buffers_]
    empty, and with a collector it returns after converting every cached
    buffer in order. *)
Theorem ProcessActivityBuffer_disposal (context stream_id : Z)
    (buffer_ : option Z) (size : Z) (s : State) :
  0 <= size -> size + 63 < size_t_modulus ->
  let reclaimed :=
    match buffer_ with
    | Some p => ReclaimBuffer p (buffer_pool_ s)
    | None => buffer_pool_ s
    end in
  let cached :=
    activity_buffers_ s ++ [{| buffer := buffer_; size := size |}] in
  let n := (size + 63) / 64 in
  (* which way, and with what status *)
  (if (size =? 0) || negb (activity_tracing_enabled_ s)
   then ProcessActivityBuffer context stream_id buffer_ size s
        = Some (OkStatus, set_buffer_pool_ reclaimed s)
   else if cupti_Disabled cupti_interface_
   then ProcessActivityBuffer context stream_id buffer_ size s
        = Some (Error kInternal "Disabled.", set_buffer_pool_ reclaimed s)
   else
     match collector_ s with
     | None => ProcessActivityBuffer context stream_id buffer_ size s = None
     | Some collector =>
         exists s',
           ProcessActivityBuffer context stream_id buffer_ size s
           = Some (OkStatus, s') /\
           if max_activity_api_events (options_ collector)
              <=? estimated_num_activity_events_ s
           then buffer_pool_ s' = reclaimed /\
                activity_buffers_ s' = activity_buffers_ s /\
                estimated_num_activity_events_ s' =
                  estimated_num_activity_events_ s /\
                estimated_num_dropped_activity_events_ s' =
                  to_size_t (estimated_num_dropped_activity_events_ s + n) /\
                size <= 64 * n < size + 64
           else buffer_pool_ s' = buffer_pool_ s /\
                activity_buffers_ s' = cached /\
                estimated_num_activity_events_ s' =
                  to_size_t (estimated_num_activity_events_ s + n) /\
                estimated_num_dropped_activity_events_ s' =
                  estimated_num_dropped_activity_events_ s
     end) /\
  (* the one way the buffer goes, whenever the call returns *)
  (forall status s',
     ProcessActivityBuffer context stream_id buffer_ size s
     = Some (status, s') ->
     trace s' = trace s /\
     ((buffer_pool_ s' = reclaimed /\
       activity_buffers_ s' = activity_buffers_ s) \/
      (buffer_pool_ s' = buffer_pool_ s /\
       activity_buffers_ s' = cached))) /\
  (* every cached buffer is converted later *)
  (forall s1 s2,
     FinalizeActivityBuffers s1 = Some s2 -> activity_buffers_ s2 = []) /\
  (forall s1 collector, collector_ s1 = Some collector ->
     exists s2, FinalizeActivityBuffers s1 = Some s2 /\
                activity_buffers_ s2 = [] /\
                trace s2 = trace s1 ++
                  map CollectorAddEvent
                      (cached_events collector (activity_buffers_ s1))).
Proof.
  intros H0 H1 reclaimed cached n.
  destruct (to_size_t_ceil size H0 H1) as [Hn Hceil].
  rewrite Hn in Hceil. fold n in Hn, Hceil.
  assert (Hroute :
    if (size =? 0) || negb (activity_tracing_enabled_ s)
    then ProcessActivityBuffer context stream_id buffer_ size s
         = Some (OkStatus, set_buffer_pool_ reclaimed s)
    else if cupti_Disabled cupti_interface_
    then ProcessActivityBuffer context stream_id buffer_ size s
         = Some (Error kInternal "Disabled.", set_buffer_pool_ reclaimed s)
    else
      match collector_ s with
      | None => ProcessActivityBuffer context stream_id buffer_ size s = None
      | Some collector =>
          exists s',
            ProcessActivityBuffer context stream_id buffer_ size s
            = Some (OkStatus, s') /\
            trace s' = trace s /\
            if max_activity_api_events (options_ collector)
               <=? estimated_num_activity_events_ s
            then buffer_pool_ s' = reclaimed /\
                 activity_buffers_ s' = activity_buffers_ s /\
                 estimated_num_activity_events_ s' =
                   estimated_num_activity_events_ s /\
                 estimated_num_dropped_activity_events_ s' =
                   to_size_t (estimated_num_dropped_activity_events_ s + n) /\
                 size <= 64 * n < size + 64
            else buffer_pool_ s' = buffer_pool_ s /\
                 activity_buffers_ s' = cached /\
                 estimated_num_activity_events_ s' =
                   to_size_t (estimated_num_activity_events_ s + n) /\
                 estimated_num_dropped_activity_events_ s' =
                   estimated_num_dropped_activity_events_ s
      end).
  { unfold ProcessActivityBuffer. subst reclaimed cached.
    destruct (size =? 0) eqn:Hsz; cbn [orb].
    { destruct buffer_; [reflexivity |].
      destruct s; reflexivity. }
    destruct (activity_tracing_enabled_ s) eqn:Hen; cbn [negb].
    2:{ destruct buffer_; [reflexivity |]. destruct s; reflexivity. }
    destruct (cupti_Disabled cupti_interface_) eqn:Hdis.
    { destruct buffer_; [reflexivity |]. destruct s; reflexivity. }
    assert (Hc' : collector_ (after_dropped_report context stream_id s)
                  = collector_ s).
    { unfold after_dropped_report.
      destruct (cupti_ActivityGetNumDroppedRecords _ _ _) as [[|e] d];
        reflexivity. }
    rewrite Hc'. destruct (collector_ s) as [collector|]; [| reflexivity].
    rewrite Hn. unfold after_dropped_report.
    destruct (cupti_ActivityGetNumDroppedRecords cupti_interface_
                context stream_id) as [[|e] d]; simpl;
      destruct (_ <=? _) eqn:Hmax; simpl;
      eexists; (split; [reflexivity |]);
      destruct buffer_; simpl; split_and!; auto; lia. }
  split_and!.
  - destruct ((size =? 0) || negb (activity_tracing_enabled_ s));
      [exact Hroute |].
    destruct (cupti_Disabled cupti_interface_); [exact Hroute |].
    destruct (collector_ s) as [collector|]; [| exact Hroute].
    destruct Hroute as (s' & Hrun & _ & Hcase). eauto.
  - intros status s' Hrun.
    destruct ((size =? 0) || negb (activity_tracing_enabled_ s)).
    { rewrite Hroute in Hrun. injection Hrun as _ <-.
      split; [reflexivity |]. left. split; reflexivity. }
    destruct (cupti_Disabled cupti_interface_).
    { rewrite Hroute in Hrun. injection Hrun as _ <-.
      split; [reflexivity |]. left. split; reflexivity. }
    destruct (collector_ s) as [collector|];
      [| rewrite Hroute in Hrun; discriminate].
    destruct Hroute as (s0 & Hrun0 & Htrace & Hcase).
    rewrite Hrun0 in Hrun. injection Hrun as _ <-.
    split; [exact Htrace |].
    destruct (_ <=? _).
    + left. destruct Hcase as (? & ? & _). auto.
    + right. destruct Hcase as (? & ? & _). auto.
  - intros s1 s2. unfold FinalizeActivityBuffers.
    apply FinalizeActivityBuffers_loop_empties. reflexivity.
  - intros s1 collector Hc1. eexists. split.
    + apply FinalizeActivityBuffers_spec. exact Hc1.
    + split; reflexivity.
Qed.

(** *** Properties: callback annotations *)

(** The per-thread objects that exist when gathering starts: those of the
    live threads, in the iteration order of the active set, and then those
    of the threads that have exited. *)
Definition recorded (s : State) : list CallbackAnnotationsAndEvents :=
  map snd (active_set_ s) ++ deactived_list_ s.

(** All recorded callback events, in the order gathering visits them. *)
Definition recorded_events (s : State) : list EventWithAnnotation :=
  concat (map buffered_events (recorded s)).

(** The annotation of the first event with correlation id [id] among those
    that carry an annotation or an NVTX range. *)
Fixpoint first_annotated (id : Z) (events : list EventWithAnnotation)
  : option AnnotationInfo :=
  match events with
  | [] => None
  | e :: rest =>
      if has_annotation e && (ewa_correlation_id e =? id)
      then Some {| info_annotation := ewa_annotation e;
                   info_nvtx_range := ewa_nvtx_range e |}
      else first_annotated id rest
  end.

Lemma buffered_events_move d :
  buffered_events (CallbackAnnotationsAndEvents_move d).1 = buffered_events d.
Proof. reflexivity. Qed.

Lemma CollectAll_events s :
  map buffered_events (CollectAll s).1 = map buffered_events (recorded s).
Proof.
  unfold CollectAll, recorded. simpl.
  rewrite !map_app, !map_map. f_equal.
Qed.

Lemma CollectAll_collector s : collector_ (CollectAll s).2 = collector_ s.
Proof. reflexivity. Qed.

Lemma CollectAll_trace s : trace (CollectAll s).2 = trace s.
Proof. reflexivity. Qed.

Lemma merge_event_lookup m e id :
  merge_event m e !! id =
  match m !! id with
  | Some info => Some info
  | None => first_annotated id [e]
  end.
Proof.
  unfold merge_event, emplace. cbn [first_annotated].
  destruct (has_annotation e); cbn [andb].
  - destruct (m !! ewa_correlation_id e) eqn:Hk.
    + destruct (m !! id) eqn:Hid; [reflexivity|].
      destruct (Z.eqb_spec (ewa_correlation_id e) id); [congruence|].
      reflexivity.
    + destruct (Z.eqb_spec (ewa_correlation_id e) id) as [Heq|Hne].
      * subst id. rewrite lookup_insert_eq, Hk. reflexivity.
      * rewrite lookup_insert_ne by exact Hne.
        destruct (m !! id); reflexivity.
  - destruct (m !! id); reflexivity.
Qed.

Lemma foldl_merge_event_lookup events : forall m id,
  foldl merge_event m events !! id =
  match m !! id with
  | Some info => Some info
  | None => first_annotated id events
  end.
Proof.
  induction events as [|e rest IH]; intros m id; simpl.
  - destruct (m !! id); reflexivity.
  - rewrite IH, merge_event_lookup. simpl.
    destruct (m !! id); [reflexivity|].
    destruct (has_annotation e && (ewa_correlation_id e =? id)); reflexivity.
Qed.

Lemma gather_blocks blocks : forall s,
  let s1 := foldl (fun s block => foldl gather_event s block) s blocks in
  merged_annotation_map_ s1 =
    foldl merge_event (merged_annotation_map_ s) (concat blocks) /\
  collector_ s1 = collector_ s /\ trace s1 = trace s /\
  activity_buffers_ s1 = activity_buffers_ s /\
  collected_annotation_and_events_ s1 = collected_annotation_and_events_ s.
Proof.
  induction blocks as [|block rest IH]; intros s; simpl; [auto|].
  assert (Hblock : forall s,
    let s1 := foldl gather_event s block in
    merged_annotation_map_ s1 =
      foldl merge_event (merged_annotation_map_ s) block /\
    collector_ s1 = collector_ s /\ trace s1 = trace s /\
    activity_buffers_ s1 = activity_buffers_ s /\
    collected_annotation_and_events_ s1 = collected_annotation_and_events_ s).
  { clear. induction block as [|e block IHb]; intros s; simpl; [auto|].
    destruct (IHb (gather_event s e)) as (-> & -> & -> & -> & ->).
    auto. }
  destruct (IH (foldl gather_event s block)) as (-> & -> & -> & -> & ->).
  destruct (Hblock s) as (-> & -> & -> & -> & ->).
  rewrite foldl_app. auto.
Qed.

Lemma gather_threads collected : forall s,
  let s1 := foldl gather_thread s collected in
  merged_annotation_map_ s1 =
    foldl merge_event (merged_annotation_map_ s)
          (concat (map buffered_events collected)) /\
  collector_ s1 = collector_ s /\ trace s1 = trace s /\
  activity_buffers_ s1 = activity_buffers_ s /\
  collected_annotation_and_events_ s1 = collected_annotation_and_events_ s.
Proof.
  induction collected as [|d rest IH]; intros s; simpl; [auto|].
  destruct (IH (gather_thread s d)) as (-> & -> & -> & -> & ->).
  unfold gather_thread. simpl.
  destruct (gather_blocks
              (AppendOnlyBuffer.GetBlocks (event_annotation_buffer d)) s)
    as (-> & -> & -> & -> & ->).
  rewrite foldl_app. auto.
Qed.

(** What [GatherAllCallbackAnnotationsAndEvents] leaves behind. *)
Lemma GatherAllCallbackAnnotationsAndEvents_spec s collector :
  collector_ s = Some collector ->
  exists s' merged,
    GatherAllCallbackAnnotationsAndEvents s = Some s' /\
    merged = foldl merge_event ∅ (recorded_events s) /\
    collector_ s' = Some (SetAnnotationMap merged collector) /\
    trace s' = trace s ++ [CollectorSetAnnotationMap merged] /\
    activity_buffers_ s' = activity_buffers_ s /\
    map buffered_events (collected_annotation_and_events_ s') =
      map buffered_events (recorded s).
Proof.
  intros Hc. unfold GatherAllCallbackAnnotationsAndEvents.
  pose proof (CollectAll_events s) as Hev.
  pose proof (CollectAll_collector s) as Hcc.
  pose proof (CollectAll_trace s) as Htr.
  assert (Hab : activity_buffers_ (CollectAll s).2 = activity_buffers_ s)
    by reflexivity.
  destruct (CollectAll s) as [collected s1]. simpl in Hev, Hcc, Htr, Hab.
  cbn [collected_annotation_and_events_
         set_dropped_callback_event_count_ set_merged_annotation_map_
         set_collected_annotation_and_events_].
  match goal with
  | |- context [foldl gather_thread ?s0 collected] =>
      destruct (gather_threads collected s0) as (Hm & Hc4 & Ht4 & Ha4 & Hk4);
      set (s4 := foldl gather_thread s0 collected) in *
  end.
  simpl in Hm, Hc4, Ht4, Ha4, Hk4.
  rewrite Hc4, Hcc, Hc.
  do 2 eexists. split; [reflexivity|].
  simpl. rewrite Hm, Ht4, Htr, Ha4, Hab, Hk4, Hev.
  unfold recorded_events. auto.
Qed.

Lemma has_annotation_true e :
  has_annotation e = true <->
  ewa_annotation e <> "" \/ ewa_nvtx_range e <> "".
Proof.
  unfold has_annotation.
  rewrite orb_true_iff, !negb_true_iff, !bool_decide_eq_false. reflexivity.
Qed.

Lemma first_annotated_is_Some id events :
  is_Some (first_annotated id events) <->
  exists e, e ∈ events /\ ewa_correlation_id e = id /\
            (ewa_annotation e <> "" \/ ewa_nvtx_range e <> "").
Proof.
  induction events as [|e rest IH]; simpl.
  - split; [intros [x Hx]; discriminate | intros (e & He & _)].
    apply elem_of_nil in He. contradiction.
  - destruct (has_annotation e && (ewa_correlation_id e =? id)) eqn:Hhit.
    + apply andb_true_iff in Hhit as [Ha Hid].
      apply Z.eqb_eq in Hid. apply has_annotation_true in Ha.
      split; [intros _ | eauto].
      exists e. split; [apply list_elem_of_here | auto].
    + rewrite IH. split.
      * intros (e' & He' & Hid & Ha). exists e'.
        split; [apply list_elem_of_further; exact He' | auto].
      * intros (e' & He' & Hid & Ha).
        apply elem_of_cons in He' as [->|He']; [|eauto].
        apply has_annotation_true in Ha. apply Z.eqb_eq in Hid.
        rewrite Ha, Hid in Hhit. discriminate.
Qed.

(** C1, as the code has it: gathering builds a map that has an entry for
    exactly the correlation ids of the recorded per-thread callback events
    whose annotation or NVTX range is non-empty; the entry holds the
    annotation and NVTX range of the first such event in gathering order,
    and the collector receives that map.  A kernel activity event emitted
    afterwards takes its annotation and its NVTX range from the collector's
    lookup of its correlation id (both empty when the id is absent); a
    memcpy or peer-to-peer memcpy event takes only its annotation from the
    lookup; the events of all other activity kinds are emitted without a
    lookup and keep the annotation and NVTX range of a value-initialised
    event. *)
Theorem annotation_correlation (s : State) (collector : CuptiTraceCollector) :
  collector_ s = Some collector ->
  exists s' collector',
    GatherAllCallbackAnnotationsAndEvents s = Some s' /\
    collector_ s' = Some collector' /\
    (forall id, annotation_map_ collector' !! id =
                first_annotated id (recorded_events s)) /\
    (forall id, is_Some (annotation_map_ collector' !! id) <->
       exists e, e ∈ recorded_events s /\ ewa_correlation_id e = id /\
                 (ewa_annotation e <> "" \/ ewa_nvtx_range e <> "")) /\
    (forall kernel, exists event,
       AddKernelActivityEvent collector' kernel = Some event /\
       let info := LookUpAnnotation collector' (device_id event)
                                    (correlation_id event) in
       annotation event = info_annotation info /\
       nvtx_range event = info_nvtx_range info /\
       info = match first_annotated (kernel_correlationId kernel)
                                    (recorded_events s) with
              | Some i => i
              | None => {| info_annotation := ""; info_nvtx_range := "" |}
              end) /\
    (forall record event,
       convert_record collector' record = Some event ->
       match record with
       | ActivityKernel _ _ | ActivityCdpKernel _ =>
           annotation event =
             info_annotation (LookUpAnnotation collector' (device_id event)
                                               (correlation_id event)) /\
           nvtx_range event =
             info_nvtx_range (LookUpAnnotation collector' (device_id event)
                                               (correlation_id event))
       | ActivityMemcpy _ | ActivityMemcpy2 _ =>
           annotation event =
             info_annotation (LookUpAnnotation collector' (device_id event)
                                               (correlation_id event)) /\
           nvtx_range event = nvtx_range event0
       | _ =>
           annotation event = annotation event0 /\
           nvtx_range event = nvtx_range event0
       end).
Proof.
  intros Hc.
  destruct (GatherAllCallbackAnnotationsAndEvents_spec s collector Hc)
    as (s' & merged & Hg & Hm & Hc' & _).
  exists s', (SetAnnotationMap merged collector).
  assert (Hlook : forall id, merged !! id =
                             first_annotated id (recorded_events s)).
  { intros id. rewrite Hm, foldl_merge_event_lookup.
    rewrite lookup_empty. reflexivity. }
  split_and!; auto.
  - intros id. simpl. rewrite Hlook. apply first_annotated_is_Some.
  - intros kernel. eexists. split; [reflexivity|]. simpl.
    split_and!; auto.
    unfold LookUpAnnotation. simpl. rewrite Hlook. reflexivity.
  - intros record event Hev.
    destruct record as [c r|r|r|r|r|r|r|r|r|k]; simpl in Hev;
      try (injection Hev as <-; simpl; auto; fail).
    + unfold AddMemcpyActivityEvent in Hev.
      destruct (memcpy_copyKind r); injection Hev as <-; simpl; auto.
    + unfold AddCuptiOverheadActivityEvent in Hev.
      destruct (overhead_objectKind r); try discriminate;
        injection Hev as <-; simpl; auto.
    + discriminate.
Qed.

(** *** Properties: per-thread buffering *)

(** The object behind [callback_annotations_and_events_] on [thread]. *)
Definition thread_object (thread : Z) (s : State)
  : CallbackAnnotationsAndEvents :=
  (thread_local_object thread s).1.

Lemma thread_local_store thread d s :
  thread_local_object thread (store_thread_local thread d s) =
  (d, store_thread_local thread d s).
Proof.
  unfold thread_local_object, store_thread_local.
  destruct (list_find _ (active_set_ s)) as [[i [t d0]]|] eqn:Hfind.
  - apply list_find_Some in Hfind as (Hi & Ht & Hleast).
    cbn [active_set_ set_active_set_].
    assert (Hf : list_find (fun e : Z * CallbackAnnotationsAndEvents =>
                              e.1 = thread)
                   (<[i := (thread, d)]> (active_set_ s))
                 = Some (i, (thread, d))).
    { apply list_find_insert_Some. right. left.
      split_and!; auto. eapply lookup_lt_Some. exact Hi. }
    rewrite Hf. reflexivity.
  - cbn [active_set_ set_active_set_].
    rewrite list_find_app_r by exact Hfind. simpl.
    rewrite decide_True by reflexivity. reflexivity.
Qed.

Lemma thread_object_store thread d s :
  thread_object thread (store_thread_local thread d s) = d.
Proof. unfold thread_object. rewrite thread_local_store. reflexivity. Qed.

Lemma thread_local_object_fields thread s :
  let s1 := (thread_local_object thread s).2 in
  trace s1 = trace s /\ statics s1 = statics s /\
  thread_object thread s1 = thread_object thread s.
Proof.
  unfold thread_object, thread_local_object.
  destruct (list_find _ (active_set_ s)) as [[i [t d0]]|] eqn:Hfind; simpl.
  - rewrite Hfind. auto.
  - rewrite list_find_app_r by exact Hfind. simpl.
    rewrite decide_True by reflexivity. auto.
Qed.

Lemma store_thread_local_fields thread d s :
  trace (store_thread_local thread d s) = trace s /\
  statics (store_thread_local thread d s) = statics s.
Proof.
  unfold store_thread_local.
  destruct (list_find _ (active_set_ s)) as [[i ?]|]; auto.
Qed.

(** The condition under which [Add] takes the event. *)
Definition below_cap (st : Statics) : bool :=
  (s_max_callback_api_events st =? 0) ||
  (s_callback_api_event_count st <? s_max_callback_api_events st).

(** [Add] on its own: one event more and [true] below the cap, one
    dropped event more and [false] otherwise. *)
Lemma Add_spec device_id correlation_id annotation nvtx_range st d l :
  AppendOnlyBuffer.holds (event_annotation_buffer d) l ->
  Z.of_nat (length l) + 1 < size_t_modulus ->
  let '(appended, st', d') :=
    Add event0 device_id correlation_id annotation nvtx_range st d in
  appended = below_cap st /\
  s_max_callback_api_events st' = s_max_callback_api_events st /\
  s_max_annotation_strings st' = s_max_annotation_strings st /\
  if below_cap st
  then
    (exists e,
       AppendOnlyBuffer.holds (event_annotation_buffer d') (l ++ [e]) /\
       ewa_correlation_id e = correlation_id /\ ewa_event e = event0) /\
    s_callback_api_event_count st' =
      to_size_t (s_callback_api_event_count st + 1) /\
    num_dropped_events d' = num_dropped_events d
  else
    event_annotation_buffer d' = event_annotation_buffer d /\
    st' = st /\
    num_dropped_events d' = to_size_t (num_dropped_events d + 1).
Proof.
  intros Hwf Hlen. unfold Add, below_cap.
  destruct (_ || _); simpl.
  - split_and!; auto. eexists. split.
    + rewrite AppendOnlyBuffer.Emplace_Append.
      apply AppendOnlyBuffer.holds_Append; [exact Hlen | exact Hwf].
    + simpl. auto.
  - split_and!; auto.
Qed.

Lemma thread_local_object_log thread c s :
  thread_local_object thread (log c s) =
  ((thread_local_object thread s).1,
   log c (thread_local_object thread s).2).
Proof.
  unfold thread_local_object. simpl.
  destruct (list_find _ (active_set_ s)) as [[i [t d0]]|]; reflexivity.
Qed.

Lemma store_thread_local_log thread d c s :
  store_thread_local thread d (log c s) =
  log c (store_thread_local thread d s).
Proof.
  unfold store_thread_local. simpl.
  destruct (list_find _ (active_set_ s)) as [[i ?]|]; reflexivity.
Qed.

Lemma thread_local_object_set_statics thread st s :
  thread_local_object thread (set_statics st s) =
  ((thread_local_object thread s).1,
   set_statics st (thread_local_object thread s).2).
Proof.
  unfold thread_local_object. simpl.
  destruct (list_find _ (active_set_ s)) as [[i [t d0]]|]; reflexivity.
Qed.

Lemma store_thread_local_twice thread d1 d2 s :
  store_thread_local thread d2 (store_thread_local thread d1 s) =
  store_thread_local thread d2 s.
Proof.
  unfold store_thread_local at 2 3.
  destruct (list_find _ (active_set_ s)) as [[i [t d0]]|] eqn:Hfind.
  - apply list_find_Some in Hfind as (Hi & Ht & Hleast).
    unfold store_thread_local. cbn [active_set_ set_active_set_].
    assert (Hf : list_find (fun e : Z * CallbackAnnotationsAndEvents =>
                              e.1 = thread)
                   (<[i := (thread, d1)]> (active_set_ s))
                 = Some (i, (thread, d1))).
    { apply list_find_insert_Some. right. left.
      split_and!; auto. eapply lookup_lt_Some. exact Hi. }
    rewrite Hf. rewrite list_insert_insert_eq. destruct s; reflexivity.
  - unfold store_thread_local. cbn [active_set_ set_active_set_].
    rewrite list_find_app_r by exact Hfind. simpl.
    rewrite decide_True by reflexivity. simpl.
    rewrite insert_app_r_alt by lia. rewrite Nat.sub_diag.
    destruct s; reflexivity.
Qed.

(** C2: for a driver-API exit callback that [HandleCallback] handles (API
    tracing on, a hook in place, no internal call, a context whose device
    id is valid), [Add] returns [true] exactly when
    [s_max_callback_api_events] is 0 or the global count is below it.  In
    that case the calling thread's buffer gains exactly one event, the
    global count goes up by one and [OnDriverApiExit] is invoked once;
    otherwise the buffer is unchanged, the thread's [num_dropped_events]
    goes up by one and [OnDriverApiExit] is not invoked. *)
Theorem HandleCallback_driver_api_exit
    (thread : Z) (annotation current_range : string) (cbid : Z)
    (cbdata : CUpti_CallbackData) (s : State) (hook : CuptiDriverApiHook)
    (ctx device_id : Z) (l : list EventWithAnnotation) :
  api_tracing_enabled_ s = true ->
  cupti_driver_api_hook_ s = Some hook ->
  context cbdata = Some ctx ->
  cupti_GetDeviceId cupti_interface_ ctx = (CUPTI_SUCCESS, device_id) ->
  device_id < num_gpus_ s mod 2 ^ 32 ->
  callbackSite cbdata = CUPTI_API_EXIT ->
  AppendOnlyBuffer.holds (event_annotation_buffer (thread_object thread s)) l ->
  Z.of_nat (length l) + 1 < size_t_modulus ->
  let d := thread_object thread s in
  let st := statics s in
  let nvtx :=
    if cbid =? CUPTI_DRIVER_TRACE_CBID_cuLaunchCooperativeKernelMultiDevice
    then "" else current_range in
  exists status s',
    HandleCallback thread 0 annotation current_range
      CUPTI_CB_DOMAIN_DRIVER_API cbid cbdata s = Some (status, s') /\
    (Add event0 device_id (correlationId cbdata) annotation nvtx st d).1.1
      = below_cap st /\
    let d' := thread_object thread s' in
    if below_cap st
    then
      (exists e,
         buffered_events d' = buffered_events d ++ [e] /\
         ewa_correlation_id e = correlationId cbdata /\
         ewa_event e =
           OnDriverApiExit_event hook device_id
             CUPTI_CB_DOMAIN_DRIVER_API cbid cbdata event0) /\
      AppendOnlyBuffer.Size (event_annotation_buffer d') =
        AppendOnlyBuffer.Size (event_annotation_buffer d) + 1 /\
      s_callback_api_event_count (statics s') =
        to_size_t (s_callback_api_event_count st + 1) /\
      num_dropped_events d' = num_dropped_events d /\
      trace s' = trace s ++
        [HookOnDriverApiExit device_id CUPTI_CB_DOMAIN_DRIVER_API cbid] /\
      status = OnDriverApiExit hook device_id
                 CUPTI_CB_DOMAIN_DRIVER_API cbid cbdata
    else
      event_annotation_buffer d' = event_annotation_buffer d /\
      buffered_events d' = buffered_events d /\
      num_dropped_events d' = to_size_t (num_dropped_events d + 1) /\
      statics s' = st /\
      trace s' = trace s /\
      status = OkStatus.
Proof.
  intros Hen Hhook Hctx Hdev Hvalid Hsite Hwf Hlen d st nvtx.
  unfold HandleCallback.
  rewrite Hen, Hhook, Hctx, Hdev, Hsite. cbn [negb Z.eqb RETURN_IF_CUPTI_ERROR].
  destruct (Z.leb_spec (num_gpus_ s mod 2 ^ 32) device_id) as [Hbad|_];
    [lia|].
  fold nvtx.
  pose proof (thread_local_object_fields thread s) as (Htr1 & Hst1 & Hobj1).
  subst d st. unfold thread_object in *.
  destruct (thread_local_object thread s) as [d0 s1] eqn:Hs1.
  cbn [fst snd] in *. rewrite Hst1.
  pose proof (Add_spec device_id (correlationId cbdata) annotation nvtx
                (statics s) d0 l Hwf Hlen) as HAdd.
  destruct (Add event0 device_id (correlationId cbdata) annotation nvtx
                (statics s) d0) as [[appended st'] d'].
  destruct HAdd as (-> & Hmax & Hann & HAdd). cbn [fst].
  destruct (below_cap (statics s)) eqn:Hcap.
  - destruct HAdd as ((e & Hwf' & Hcorr & Hev) & Hcount & Hdrop).
    unfold call_OnDriverApiExit, LastCallbackEvent.
    rewrite thread_local_object_log, thread_local_store. cbn [fst snd].
    rewrite thread_local_object_log, thread_local_store. cbn [fst snd].
    assert (Hlen' : Z.of_nat (length (l ++ [e])) < size_t_modulus).
    { rewrite length_app. simpl. lia. }
    destruct (AppendOnlyBuffer.holds_modify_last
                (event_annotation_buffer d') l e
                (fun e => {| ewa_correlation_id := ewa_correlation_id e;
                             ewa_annotation := ewa_annotation e;
                             ewa_nvtx_range := ewa_nvtx_range e;
                             ewa_event :=
                               OnDriverApiExit_event hook device_id
                                 CUPTI_CB_DOMAIN_DRIVER_API cbid cbdata
                                 (ewa_event e) |})
                Hlen' Hwf') as (p & -> & Hwf'').
    rewrite store_thread_local_log, store_thread_local_twice.
    unfold TF_RETURN_IF_ERROR.
    eexists (OnDriverApiExit hook device_id CUPTI_CB_DOMAIN_DRIVER_API
               cbid cbdata), _.
    split.
    { destruct (OnDriverApiExit hook device_id CUPTI_CB_DOMAIN_DRIVER_API
                  cbid cbdata); reflexivity. }
    split; [reflexivity|].
    rewrite thread_local_object_log, thread_local_store. cbn [fst snd].
    destruct (store_thread_local_fields thread
      {| annotations := annotations d';
         nvtx_ranges := nvtx_ranges d';
         event_annotation_buffer :=
           write_event p
             (OnDriverApiExit_event hook device_id
                CUPTI_CB_DOMAIN_DRIVER_API cbid cbdata)
             (event_annotation_buffer d');
         num_dropped_events := num_dropped_events d' |}
      (set_statics st' s1)) as (Htr & Hst).
    cbn [trace statics log set_trace event_annotation_buffer
           num_dropped_events].
    rewrite Htr, Hst. cbn [trace statics set_statics].
    unfold write_event.
    split_and!; auto.
    + eexists. unfold buffered_events. cbn [event_annotation_buffer].
      change (concat (AppendOnlyBuffer.GetBlocks ?b))
        with (AppendOnlyBuffer.elements b).
      rewrite (AppendOnlyBuffer.holds_elements _ _ Hwf''),
        (AppendOnlyBuffer.holds_elements _ _ Hwf).
      split; [reflexivity|]. simpl. rewrite Hev. auto.
    + destruct Hwf'' as (_ & _ & _ & _ & _ & _ & _ & _ & Hsz'' & _).
      destruct Hwf as (_ & _ & _ & _ & _ & _ & _ & _ & Hsz & _).
      unfold AppendOnlyBuffer.Size. rewrite Hsz'', Hsz, length_app.
      simpl. rewrite !to_size_t_small by lia. lia.
    + rewrite Htr1. reflexivity.
  - destruct HAdd as (Hbuf & -> & Hdrop).
    do 2 eexists. split; [reflexivity|]. split; [reflexivity|].
    rewrite thread_local_store. cbn [fst].
    destruct (store_thread_local_fields thread d'
                (set_statics (statics s) s1)) as (-> & ->).
    simpl. unfold buffered_events. rewrite Hbuf. split_and!; auto.
Qed.

(** *** Properties: the order of [Disable] *)

Definition is_api_tracing_call (c : Call) : Prop :=
  match c with
  | CuptiEnableCallback false _ _ | CuptiEnableDomain false _
  | CuptiUnsubscribe => True
  | _ => False
  end.

Definition is_activity_tracing_call (c : Call) : Prop :=
  match c with
  | CuptiActivityDisable _ | CuptiActivityFlushAll
  | CuptiActivityConfigureUnifiedMemoryCounter false => True
  | _ => False
  end.

Definition is_Flush (c : Call) : bool :=
  match c with CollectorFlush => true | _ => false end.

(** What the two disabling steps leave alone. *)
Definition keeps (s s1 : State) : Prop :=
  collector_ s1 = collector_ s /\
  cupti_driver_api_hook_ s1 = cupti_driver_api_hook_ s /\
  active_set_ s1 = active_set_ s /\
  deactived_list_ s1 = deactived_list_ s /\
  cupti_finalize <$> option_ s1 = cupti_finalize <$> option_ s.

Lemma keeps_refl s : keeps s s.
Proof. unfold keeps. auto. Qed.

Lemma keeps_trans s s1 s2 : keeps s s1 -> keeps s1 s2 -> keeps s s2.
Proof.
  unfold keeps. intros (-> & -> & -> & -> & ->) (-> & -> & -> & -> & ->).
  auto.
Qed.

(** A step that returns, makes only calls that satisfy [P] and keeps the
    members above, whenever a collector and the options are in place. *)
Definition step_ok (P : Call -> Prop) (m : M) : Prop :=
  forall s collector,
    collector_ s = Some collector -> is_Some (option_ s) ->
    exists status s1 calls,
      m s = Some (status, s1) /\ keeps s s1 /\
      trace s1 = trace s ++ calls /\ Forall P calls.

Lemma step_ok_ret P (f : State -> State) status :
  (forall s, keeps s (f s) /\ trace (f s) = trace s) ->
  step_ok P (fun s => Some (status, f s)).
Proof.
  intros Hf s collector _ _. destruct (Hf s) as [Hk Ht].
  exists status, (f s), []. rewrite app_nil_r. auto.
Qed.

Lemma step_ok_cupti_call P c r k :
  P c -> step_ok P k -> step_ok P (cupti_call c r k).
Proof.
  intros Hc Hk s collector Hcol Hopt. unfold cupti_call.
  destruct r as [|e]; simpl.
  - destruct (Hk (log c s) collector Hcol Hopt)
      as (status & s1 & calls & -> & Hkeep & Htr & Hall).
    exists status, s1, (c :: calls). split_and!; auto.
    rewrite Htr. simpl. rewrite <- app_assoc. reflexivity.
  - exists (cupti_error_status e), (log c s), [c].
    split_and!; auto. unfold keeps. auto.
Qed.

Lemma step_ok_disable_callbacks cbids k :
  step_ok is_api_tracing_call k ->
  step_ok is_api_tracing_call (disable_callbacks cbids k).
Proof.
  intros Hk. induction cbids as [|cbid rest IH]; simpl; [exact Hk|].
  apply step_ok_cupti_call; [exact I | exact IH].
Qed.

Lemma DisableApiTracing_ok : step_ok is_api_tracing_call DisableApiTracing.
Proof.
  intros s collector Hcol [option Hopt]. unfold DisableApiTracing.
  destruct (api_tracing_enabled_ s); simpl.
  2:{ exists OkStatus, s, []. rewrite app_nil_r.
      split_and!; auto using keeps_refl. }
  rewrite Hopt.
  assert (Hun : step_ok is_api_tracing_call
            (cupti_call CuptiUnsubscribe (cupti_Unsubscribe cupti_interface_)
               (fun s => Some (OkStatus, s)))).
  { apply step_ok_cupti_call; [exact I|].
    apply (step_ok_ret _ (fun s => s)). auto using keeps_refl. }
  assert (Hnvtx : step_ok is_api_tracing_call
            (if enable_nvtx_tracking option
             then cupti_call (CuptiEnableDomain false CUPTI_CB_DOMAIN_NVTX)
                    (cupti_EnableDomain cupti_interface_ false
                       CUPTI_CB_DOMAIN_NVTX)
                    (cupti_call CuptiUnsubscribe
                       (cupti_Unsubscribe cupti_interface_)
                       (fun s => Some (OkStatus, s)))
             else cupti_call CuptiUnsubscribe
                    (cupti_Unsubscribe cupti_interface_)
                    (fun s => Some (OkStatus, s)))).
  { destruct (enable_nvtx_tracking option); [|exact Hun].
    apply step_ok_cupti_call; [exact I | exact Hun]. }
  set (s1 := set_api_tracing_enabled_ false s).
  assert (Hk1 : keeps s s1) by (unfold keeps; auto).
  assert (Hgo : forall m, step_ok is_api_tracing_call m ->
            exists status s2 calls,
              m s1 = Some (status, s2) /\ keeps s s2 /\
              trace s2 = trace s ++ calls /\
              Forall is_api_tracing_call calls).
  { intros m Hm.
    destruct (Hm s1 collector Hcol (ex_intro _ option Hopt))
      as (status & s2 & calls & Hrun & Hk2 & Htr & Hall).
    exists status, s2, calls. split_and!; eauto using keeps_trans. }
  destruct (cbids_selected option) as [|cbid rest].
  - apply Hgo. apply step_ok_cupti_call; [exact I | exact Hnvtx].
  - apply Hgo.
    exact (step_ok_disable_callbacks (cbid :: rest) _ Hnvtx).
Qed.

Lemma ProcessActivityBuffer_keeps context stream_id buffer size s collector :
  collector_ s = Some collector ->
  exists status s1,
    ProcessActivityBuffer context stream_id buffer size s =
    Some (status, s1) /\
    keeps s s1 /\ trace s1 = trace s /\ option_ s1 = option_ s.
Proof.
  intros Hc. unfold ProcessActivityBuffer.
  assert (Hre : forall s0,
    let s1 := match buffer with
              | Some p => set_buffer_pool_ (ReclaimBuffer p (buffer_pool_ s0)) s0
              | None => s0
              end in
    keeps s0 s1 /\ trace s1 = trace s0 /\ option_ s1 = option_ s0).
  { intros s0. destruct buffer; simpl; unfold keeps; split_and!; auto. }
  destruct (size =? 0).
  { do 2 eexists. split; [reflexivity|]. apply Hre. }
  destruct (negb (activity_tracing_enabled_ s)).
  { do 2 eexists. split; [reflexivity|]. apply Hre. }
  destruct (cupti_Disabled cupti_interface_).
  { do 2 eexists. split; [reflexivity|]. apply Hre. }
  assert (Hd : keeps s (after_dropped_report context stream_id s) /\
               trace (after_dropped_report context stream_id s) = trace s /\
               option_ (after_dropped_report context stream_id s) = option_ s).
  { unfold after_dropped_report.
    destruct (cupti_ActivityGetNumDroppedRecords _ _ _) as [[|e] n];
      unfold keeps; split_and!; auto. }
  destruct Hd as (Hk & Ht & Ho).
  destruct Hk as (Hk1 & Hk2 & Hk3 & Hk4 & Hk5).
  rewrite Hk1, Hc.
  destruct (_ <=? _); do 2 eexists; (split; [reflexivity|]).
  - match goal with
    | |- keeps _ match buffer with Some _ => _ | None => ?s0 end /\ _ =>
        destruct (Hre s0) as (Hr1 & Hr2 & Hr3)
    end.
    split_and!.
    + eapply keeps_trans; [|exact Hr1]. unfold keeps. simpl.
      split_and!; auto.
    + rewrite Hr2. simpl. exact Ht.
    + rewrite Hr3. simpl. exact Ho.
  - simpl. unfold keeps. simpl. split_and!; auto.
Qed.

Lemma deliver_keeps completed : forall s collector,
  collector_ s = Some collector ->
  exists s1, deliver completed s = Some s1 /\
             keeps s s1 /\ trace s1 = trace s /\ option_ s1 = option_ s.
Proof.
  induction completed as [|b rest IH]; intros s collector Hc; simpl.
  - exists s. auto using keeps_refl.
  - destruct (ProcessActivityBuffer_keeps (cb_context b) (cb_stream_id b)
                (cb_buffer b) (cb_size b) s collector Hc)
      as (status & s1 & -> & Hk & Ht & Ho).
    assert (Hc1 : collector_ s1 = Some collector).
    { destruct Hk as (-> & _). exact Hc. }
    destruct (IH s1 collector Hc1) as (s2 & -> & Hk2 & Ht2 & Ho2).
    exists s2. split_and!; auto; try congruence.
    eapply keeps_trans; eauto.
Qed.

Lemma step_ok_disable_activities activities k :
  step_ok is_activity_tracing_call k ->
  step_ok is_activity_tracing_call (disable_activities activities k).
Proof.
  intros Hk. induction activities as [|activity rest IH]; [exact Hk|].
  intros s collector Hcol Hopt. cbn [disable_activities].
  pose proof (step_ok_cupti_call is_activity_tracing_call
                (CuptiActivityDisable activity)
                (cupti_ActivityDisable cupti_interface_ activity)
                (disable_activities rest k) I IH) as Hcall.
  destruct activity;
    try (apply (Hcall s collector Hcol Hopt)).
  unfold ConfigureActivityUnifiedMemoryCounter.
  destruct (Hcall (log (CuptiActivityConfigureUnifiedMemoryCounter false) s)
              collector Hcol Hopt)
    as (status & s1 & calls & -> & Hkeep & Htr & Hall).
  exists status, s1,
    (CuptiActivityConfigureUnifiedMemoryCounter false :: calls).
  split_and!; auto.
  - simpl in Htr. rewrite Htr, <- app_assoc. reflexivity.
  - constructor; [exact I | exact Hall].
Qed.

Lemma step_ok_ActivityFlushAll k :
  step_ok is_activity_tracing_call k ->
  step_ok is_activity_tracing_call (call_ActivityFlushAll k).
Proof.
  intros Hk s collector Hcol Hopt. unfold call_ActivityFlushAll.
  destruct (deliver_keeps (cupti_ActivityFlushAll_completed cupti_interface_)
              (log CuptiActivityFlushAll s) collector Hcol)
    as (s1 & -> & Hkeep & Htr & Ho).
  assert (Hkeep' : keeps s s1).
  { eapply keeps_trans; [|exact Hkeep]. unfold keeps. split_and!; auto. }
  destruct (cupti_ActivityFlushAll cupti_interface_) as [|e]; simpl.
  - assert (Hc1 : collector_ s1 = Some collector).
    { destruct Hkeep as (-> & _). exact Hcol. }
    assert (Ho1 : is_Some (option_ s1)) by (rewrite Ho; exact Hopt).
    destruct (Hk s1 collector Hc1 Ho1)
      as (status & s2 & calls & -> & Hk2 & Ht2 & Hall).
    exists status, s2, (CuptiActivityFlushAll :: calls).
    split_and!; eauto using keeps_trans.
    + rewrite Ht2, Htr. simpl. rewrite <- app_assoc. reflexivity.
    + constructor; [exact I | exact Hall].
  - exists (cupti_error_status e), s1, [CuptiActivityFlushAll].
    split_and!; auto. constructor; [exact I | constructor].
Qed.

Lemma DisableActivityTracing_ok :
  step_ok is_activity_tracing_call DisableActivityTracing.
Proof.
  assert (Hfinish : step_ok is_activity_tracing_call
            (fun s => Some (OkStatus, set_activity_tracing_enabled_ false s))).
  { apply (step_ok_ret _ (set_activity_tracing_enabled_ false)).
    intros s. unfold keeps. split_and!; auto. }
  intros s collector Hcol [option Hopt]. unfold DisableActivityTracing.
  destruct (activity_tracing_enabled_ s).
  2:{ apply (Hfinish s collector Hcol). eauto. }
  rewrite Hopt.
  apply (fun H => step_ok_disable_activities (activities_selected option)
                    _ H s collector Hcol (ex_intro _ option Hopt)).
  clear s Hcol Hopt. intros s collector' Hcol [option' Hopt].
  rewrite Hopt.
  match goal with
  | |- context [call_ActivityFlushAll _ ?s0] =>
      destruct (step_ok_ActivityFlushAll _ Hfinish s0 collector' Hcol)
        as (status & s1 & calls & -> & Hkeep & Htr & Hall);
      [simpl; eauto|]
  end.
  exists status, s1, calls. split_and!; auto.
  eapply keeps_trans; [|exact Hkeep].
  unfold keeps. simpl. rewrite Hopt. split_and!; auto.
Qed.

Lemma Finalize_spec s option :
  option_ s = Some option ->
  exists status,
    Finalize s =
    Some (status,
          set_trace (trace s ++ if cupti_finalize option
                                then [CuptiFinalize] else []) s).
Proof.
  intros Hopt. unfold Finalize. rewrite Hopt.
  destruct (cupti_finalize option).
  - unfold cupti_call.
    destruct (cupti_Finalize cupti_interface_); simpl; eauto.
  - exists OkStatus. rewrite app_nil_r. destruct s; reflexivity.
Qed.

(** A loop whose body only hands events to the collector. *)
Lemma for_each_AddEvent {A : Type} (body : A -> State -> option State)
    (events : A -> list CuptiTracerEvent) (l : list A) :
  (forall x s collector,
     collector_ s = Some collector ->
     body x s =
     Some (set_trace (trace s ++ map CollectorAddEvent (events x)) s)) ->
  forall s collector,
    collector_ s = Some collector ->
    for_each body l s =
    Some (set_trace
            (trace s ++ map CollectorAddEvent (concat (map events l))) s).
Proof.
  intros Hbody. induction l as [|x rest IH]; intros s collector Hc; simpl.
  - rewrite app_nil_r. destruct s; reflexivity.
  - rewrite (Hbody x s collector Hc).
    rewrite (IH _ collector) by exact Hc. simpl.
    rewrite map_app, app_assoc. reflexivity.
Qed.

Lemma concat_map_map {A B C : Type} (f : B -> C) (g : A -> list B)
    (l : list A) :
  concat (map (fun x => map f (g x)) l) = map f (concat (map g l)).
Proof.
  induction l as [|x rest IH]; simpl; [reflexivity|].
  rewrite map_app, IH. reflexivity.
Qed.

Lemma FinalizeApiCallbackBuffers_spec s collector :
  collector_ s = Some collector ->
  FinalizeApiCallbackBuffers s =
  Some (set_trace
          (trace s ++
           map CollectorAddEvent
               (map ewa_event
                    (concat (map buffered_events
                                 (collected_annotation_and_events_ s))))) s).
Proof.
  intros Hc. unfold FinalizeApiCallbackBuffers.
  rewrite (for_each_AddEvent _ (fun d => map ewa_event (buffered_events d))
             _ ) with (collector := collector); [|clear s Hc|exact Hc].
  - rewrite concat_map_map. reflexivity.
  - intros d s collector0 Hc.
    rewrite (for_each_AddEvent _ (map ewa_event) _)
      with (collector := collector0); [|clear s Hc|exact Hc].
    + unfold buffered_events.
      rewrite (concat_map_map ewa_event (fun block => block)), map_id.
      reflexivity.
    + intros block s collector1 Hc.
      rewrite (for_each_AddEvent _ (fun e => [ewa_event e]) _)
        with (collector := collector1); [|clear s Hc|exact Hc].
      * do 3 f_equal. induction block as [|e block IHb]; simpl;
          [reflexivity|]. rewrite IHb. reflexivity.
      * intros e s collector2 Hc. unfold collector_AddEvent.
        rewrite Hc. reflexivity.
Qed.

Lemma not_Flush_api calls :
  Forall is_api_tracing_call calls ->
  Forall (fun c => is_Flush c = false) calls.
Proof.
  intros H. eapply Forall_impl; [exact H|].
  intros [] Hc; simpl in *; auto; contradiction.
Qed.

Lemma not_Flush_activity calls :
  Forall is_activity_tracing_call calls ->
  Forall (fun c => is_Flush c = false) calls.
Proof.
  intros H. eapply Forall_impl; [exact H|].
  intros [] Hc; simpl in *; auto; contradiction.
Qed.

Lemma not_Flush_AddEvent events :
  Forall (fun c => is_Flush c = false) (map CollectorAddEvent events).
Proof. apply Forall_map, Forall_true. reflexivity. Qed.

(** The frame of [Disable]: on an enabled tracer (collector, options and
    hook in place) [Disable] returns, and the calls it makes come in this
    order: the calls of [DisableApiTracing], those of
    [DisableActivityTracing],
    [CleanUp], [Finalize] when the options ask for it, the hook's
    [SyncAndFlush], the annotation map gathered from all per-thread
    buffers, one [AddEvent] per gathered callback event, one [AddEvent] per
    event converted from the cached activity buffers, and then
    [collector_->Flush()], which is called exactly once and after every
    [AddEvent].  Afterwards [collector_] is null, [option_] is empty and no
    activity buffer is cached. *)
Theorem Disable_order (s : State) (collector : CuptiTraceCollector)
    (option : CuptiTracerOptions) (hook : CuptiDriverApiHook) :
  collector_ s = Some collector ->
  option_ s = Some option ->
  cupti_driver_api_hook_ s = Some hook ->
  exists s1 s2 s' api_calls activity_calls,
    IgnoreError DisableApiTracing s = Some s1 /\
    trace s1 = trace s ++ api_calls /\
    Forall is_api_tracing_call api_calls /\
    IgnoreError DisableActivityTracing s1 = Some s2 /\
    trace s2 = trace s1 ++ activity_calls /\
    Forall is_activity_tracing_call activity_calls /\
    Disable s = Some s' /\
    let merged := foldl merge_event ∅ (recorded_events s) in
    let collector' := SetAnnotationMap merged collector in
    let callback_events := map ewa_event (recorded_events s) in
    let activity_events := cached_events collector' (activity_buffers_ s2) in
    let before_flush :=
      api_calls ++ activity_calls ++ [CuptiCleanUp] ++
      (if cupti_finalize option then [CuptiFinalize] else []) ++
      [HookSyncAndFlush] ++ [CollectorSetAnnotationMap merged] ++
      map CollectorAddEvent callback_events ++
      map CollectorAddEvent activity_events in
    trace s' = trace s ++ before_flush ++
               [CollectorFlush; AnnotationStackEnable false] /\
    Forall (fun c => is_Flush c = false) before_flush /\
    collector_ s' = None /\ option_ s' = None /\
    cupti_driver_api_hook_ s' = None /\ activity_buffers_ s' = [].
Proof.
  intros Hcol Hopt Hhook.
  destruct (DisableApiTracing_ok s collector Hcol (ex_intro _ option Hopt))
    as (st1 & s1 & api_calls & Hrun1 & Hk1 & Htr1 & Hall1).
  destruct Hk1 as (Hc1 & Hh1 & Ha1 & Hd1 & Ho1).
  rewrite Hcol in Hc1. rewrite Hhook in Hh1. rewrite Hopt in Ho1.
  assert (Hopt1 : is_Some (option_ s1)).
  { destruct (option_ s1); [eauto | discriminate]. }
  destruct (DisableActivityTracing_ok s1 collector Hc1 Hopt1)
    as (st2 & s2 & activity_calls & Hrun2 & Hk2 & Htr2 & Hall2).
  destruct Hk2 as (Hc2 & Hh2 & Ha2 & Hd2 & Ho2).
  rewrite Hc1 in Hc2. rewrite Hh1 in Hh2. rewrite Ho1 in Ho2.
  destruct (option_ s2) as [option2|] eqn:Hopt2; [|discriminate].
  simpl in Ho2. injection Ho2 as Hfin.
  destruct (Finalize_spec (log CuptiCleanUp s2) option2 Hopt2)
    as (st4 & Hrun4).
  set (s4 := set_trace
               (trace (log CuptiCleanUp s2) ++
                (if cupti_finalize option2 then [CuptiFinalize] else []))
               (log CuptiCleanUp s2)) in *.
  set (s5 := log HookSyncAndFlush s4).
  assert (Hc5 : collector_ s5 = Some collector) by exact Hc2.
  destruct (GatherAllCallbackAnnotationsAndEvents_spec s5 collector Hc5)
    as (s6 & merged & Hrun6 & Hmerged & Hc6 & Htr6 & Hab6 & Hev6).
  assert (Hrec : recorded_events s5 = recorded_events s).
  { unfold recorded_events, recorded. simpl. rewrite Ha2, Hd2, Ha1, Hd1.
    reflexivity. }
  assert (Hrec' : recorded s5 = recorded s).
  { unfold recorded. simpl. rewrite Ha2, Hd2, Ha1, Hd1. reflexivity. }
  rewrite Hrec in Hmerged. rewrite Hrec' in Hev6.
  pose proof (FinalizeApiCallbackBuffers_spec s6 _ Hc6) as Hrun7.
  rewrite Hev6 in Hrun7. fold (recorded_events s) in Hrun7.
  match type of Hrun7 with _ = Some ?x => set (s7 := x) in * end.
  assert (Hc7 : collector_ s7 = Some (SetAnnotationMap merged collector))
    by exact Hc6.
  pose proof (FinalizeActivityBuffers_spec s7 _ Hc7) as Hrun8.
  match type of Hrun8 with _ = Some ?x => set (s8 := x) in * end.
  exists s1, s2.
  eexists. exists api_calls, activity_calls.
  split; [unfold IgnoreError; rewrite Hrun1; reflexivity|].
  split; [exact Htr1|]. split; [exact Hall1|].
  split; [unfold IgnoreError; rewrite Hrun2; reflexivity|].
  split; [exact Htr2|]. split; [exact Hall2|].
  split.
  { unfold Disable, IgnoreError. rewrite Hrun1. simpl.
    rewrite Hrun2. simpl. rewrite Hrun4. simpl.
    unfold call_SyncAndFlush.
    assert (Hh4 : cupti_driver_api_hook_ s4 = Some hook) by exact Hh2.
    rewrite Hh4. simpl. fold s5. rewrite Hrun6. simpl.
    rewrite Hrun7. simpl. rewrite Hrun8. simpl.
    unfold collector_Flush.
    assert (Hc8 : collector_ s8 = Some (SetAnnotationMap merged collector))
      by exact Hc6.
    rewrite Hc8. reflexivity. }
  cbv zeta. rewrite <- Hmerged.
  split_and!; try reflexivity.
  - simpl. rewrite Htr6. simpl. rewrite Htr2, Htr1, Hfin.
    rewrite Hab6. cbn [activity_buffers_ set_trace log s5 s4].
    repeat (rewrite <- app_assoc; cbn [app]). reflexivity.
  - rewrite !Forall_app.
    split_and!;
      auto using not_Flush_api, not_Flush_activity, not_Flush_AddEvent;
      try destruct (cupti_finalize option); repeat constructor.
Qed.

End Tracer.

(** *** A concrete setting *)

Module Sample.

(** Sample values for the enumerators of the vendor headers. *)
Definition constants : VendorConstants :=
  {| CUPTI_DRIVER_TRACE_CBID_cuLaunchCooperativeKernelMultiDevice := 480;
     CUPTI_CBID_NVTX_nvtxDomainRangePushEx := 6;
     CUPTI_CBID_NVTX_nvtxDomainRangePop := 7;
     counter_kind_value := fun _ => 1;
     GetMemoryKindName := fun _ => "device" |}.

(** A pool that hands out the buffers it got back and cannot allocate. *)
Definition buffer_pool : BufferPool :=
  {| pool := list Z;
     GetOrCreateBuffer :=
       fun free => match free with
                   | [] => (None, [])
                   | p :: rest => (Some p, rest)
                   end;
     ReclaimBuffer := fun p free => free ++ [p] |}.

Definition unknown_overhead : CUpti_Activity :=
  ActivityOverhead
    {| overhead_overheadKind := CUPTI_ACTIVITY_OVERHEAD_DRIVER_COMPILER;
       overhead_objectKind := CUPTI_ACTIVITY_OBJECT_UNKNOWN;
       overhead_start := 10;
       overhead_end := 20;
       overhead_threadId := 0;
       overhead_deviceId := 0;
       overhead_streamId := 0 |}.

Definition memset_record : CUpti_Activity :=
  ActivityMemset
    {| memset_memoryKind := 3;
       memset_start := 30;
       memset_end := 40;
       memset_deviceId := 0;
       memset_correlationId := 5;
       memset_contextId := 1;
       memset_streamId := 2 |}.

Definition kernel_record : CUpti_Activity :=
  ActivityKernel true
    {| kernel_name := "gemm";
       kernel_start := 50;
       kernel_end := 60;
       kernel_deviceId := 0;
       kernel_contextId := 1;
       kernel_streamId := 2;
       kernel_correlationId := 5 |}.

(** A driver whose calls succeed.  Buffer 1 holds an overhead record of
    unknown object kind, buffer 2 a memset and a kernel record; during a
    flush the driver completes buffer 2. *)
Definition cupti (disabled : bool) : CuptiInterface :=
  {| cupti_EnableCallback := fun _ _ _ => CUPTI_SUCCESS;
     cupti_EnableDomain := fun _ _ => CUPTI_SUCCESS;
     cupti_Unsubscribe := CUPTI_SUCCESS;
     cupti_ActivityDisable := fun _ => CUPTI_SUCCESS;
     cupti_ActivityFlushAll := CUPTI_SUCCESS;
     cupti_ActivityFlushAll_completed :=
       [{| cb_context := 1; cb_stream_id := 2;
           cb_buffer := Some 2; cb_size := 128 |}];
     cupti_ActivityConfigureUnifiedMemoryCounter := fun _ => CUPTI_SUCCESS;
     cupti_Finalize := CUPTI_SUCCESS;
     cupti_GetDeviceId := fun _ => (CUPTI_SUCCESS, 0);
     cupti_ActivityGetNumDroppedRecords := fun _ _ => (CUPTI_SUCCESS, 0);
     cupti_Disabled := disabled;
     cupti_GetResultString := fun _ => "error";
     cupti_ActivityGetNextRecord :=
       fun buffer _ =>
         match buffer with
         | Some 1 => ([unknown_overhead], CUPTI_ERROR_MAX_LIMIT_REACHED)
         | Some 2 => ([memset_record; kernel_record],
                      CUPTI_ERROR_MAX_LIMIT_REACHED)
         | _ => ([], CUPTI_ERROR_other 1)
         end |}.

Definition hook : CuptiDriverApiHook :=
  {| OnDriverApiEnter := fun _ _ _ _ => OkStatus;
     OnDriverApiExit := fun _ _ _ _ => OkStatus;
     OnDriverApiExit_event := fun _ _ _ _ e => e;
     SyncAndFlush := OkStatus |}.

Definition event0 : CuptiTracerEvent :=
  {| type := Unsupported; source := Invalid; name := "";
     annotation := ""; nvtx_range := "";
     start_time_ns := 0; end_time_ns := 0; device_id := 0;
     correlation_id := 0; thread_id := 0; context_id := 0;
     stream_id := 0 |}.

Definition options : CuptiTracerOptions :=
  {| required_callback_api_events := true;
     cbids_selected := [];
     activities_selected := [CUPTI_ACTIVITY_KIND_MEMSET];
     cupti_finalize := false;
     sync_devices_before_stop := false;
     enable_nvtx_tracking := false |}.

Definition collector (map : AnnotationMap) : CuptiTraceCollector :=
  {| options_ := {| max_callback_api_events := 2;
                    max_activity_api_events := 1000;
                    max_annotation_strings := 1024;
                    num_gpus := 1 |};
     annotation_map_ := map |}.

(** An enabled tracer on one GPU on which the threads in [threads] have
    recorded callback events. *)
Definition state (count : Z)
    (threads : list (Z * CallbackAnnotationsAndEvents))
  : @State buffer_pool :=
  {| collected_annotation_and_events_ := [];
     merged_annotation_map_ := ∅;
     activity_buffers_ := [];
     estimated_num_dropped_activity_events_ := 0;
     estimated_num_activity_events_ := 0;
     cupti_dropped_activity_event_count_ := 0;
     dropped_callback_event_count_ := 0;
     num_gpus_ := 1;
     option_ := Some options;
     collector_ := Some (collector ∅);
     api_tracing_enabled_ := true;
     activity_tracing_enabled_ := true;
     cupti_driver_api_hook_ := Some hook;
     buffer_pool_ := ([] : @pool buffer_pool);
     statics := {| s_callback_api_event_count := count;
                   s_max_annotation_strings := 1024;
                   s_max_callback_api_events := 2 |};
     active_set_ := threads;
     deactived_list_ := [];
     trace := [] |}.

Definition exit_callback : CUpti_CallbackData :=
  {| callbackSite := CUPTI_API_EXIT;
     context := Some 1;
     contextUid := 1;
     correlationId := 5;
     functionName := "cuLaunchKernel";
     nvtx_message := "" |}.

(** A thread's object after one callback with an annotation and an NVTX
    range on correlation id 5. *)
Definition annotated_thread : CallbackAnnotationsAndEvents :=
  (Add event0 0 5 "train_step" "range"
       {| s_callback_api_event_count := 0;
          s_max_annotation_strings := 1024;
          s_max_callback_api_events := 2 |}
       CallbackAnnotationsAndEvents_new).2.

End Sample.

(** *** The theorems at the concrete setting *)

#[local] Existing Instance Sample.constants.
#[local] Existing Instance Sample.buffer_pool.

(** With an empty pool that cannot allocate, the request yields no buffer and
    size 0. *)
Lemma RequestActivityBuffer_outcomes_witness :
  (RequestActivityBuffer (Sample.state 0 [])).1.1 = None /\
  (RequestActivityBuffer (Sample.state 0 [])).1.2 = 0.
Proof.
  pose proof (RequestActivityBuffer_outcomes (Sample.state 0 [])) as H.
  destruct (RequestActivityBuffer (Sample.state 0 [])) as [[b sz] s'].
  destruct H as (Hb & _ & [(p & Hp & _)|[Hnone Hsz]] & _).
  - rewrite Hp in Hb. discriminate Hb.
  - split; [exact Hnone | exact Hsz].
Defined.

Lemma ConvertActivityBuffer_spec_witness :
  collector_ (Sample.state 0 []) = Some (Sample.collector ∅) /\
  exists status s',
    ConvertActivityBuffer (Sample.cupti false) Sample.event0 (Some 2) 128
      (Sample.state 0 []) = Some (status, s') /\
    length (trace s') = 2%nat.
Proof.
  split; [reflexivity|].
  destruct (@ConvertActivityBuffer_spec Sample.constants Sample.buffer_pool
              (Sample.cupti false) Sample.event0 (Some 2) 128
              (Sample.state 0 []) (Sample.collector ∅) eq_refl)
    as (status & Hrun & _).
  exists status. eexists. split; [exact Hrun | reflexivity].
Defined.

(** A record of a kind that has a case, the overhead kind, is not always
    forwarded: an overhead record of unknown object kind yields no event. *)
Lemma unknown_overhead_not_forwarded :
  supported (kind Sample.unknown_overhead) = true /\
  cupti_ActivityGetNextRecord (Sample.cupti false) (Some 1) 64 =
    ([Sample.unknown_overhead], CUPTI_ERROR_MAX_LIMIT_REACHED) /\
  ConvertActivityBuffer (Sample.cupti false) Sample.event0 (Some 1) 64
    (Sample.state 0 []) = Some (OkStatus, Sample.state 0 []) /\
  ~ (exists event s',
       ConvertActivityBuffer (Sample.cupti false) Sample.event0 (Some 1) 64
         (Sample.state 0 []) = Some (OkStatus, s') /\
       trace s' = trace (Sample.state 0 []) ++ [CollectorAddEvent event]).
Proof.
  split; [reflexivity|]. split; [reflexivity|]. split; [reflexivity|].
  intros (event & s' & Hrun & Htrace).
  vm_compute in Hrun. injection Hrun as <-. discriminate Htrace.
Qed.

(** The tracer after a [Disable]: no collector, activity tracing off.  A
    buffer that the driver completes then goes back to the pool. *)
Lemma ProcessActivityBuffer_disposal_witness :
  0 <= 100 /\ 100 + 63 < size_t_modulus /\
  ProcessActivityBuffer (Sample.cupti false) 1 2 (Some 9) 100
    (set_collector_ None
       (set_activity_tracing_enabled_ false (Sample.state 0 [])))
  = Some (OkStatus,
          set_buffer_pool_ [9]
            (set_collector_ None
               (set_activity_tracing_enabled_ false (Sample.state 0 [])))).
Proof.
  split; [lia |]. split; [reflexivity |].
  exact (proj1 (@ProcessActivityBuffer_disposal Sample.constants
                  Sample.buffer_pool (Sample.cupti false)
                  (Sample.cupti false) Sample.event0 1 2 (Some 9) 100
                  (set_collector_ None
                     (set_activity_tracing_enabled_ false
                        (Sample.state 0 [])))
                  ltac:(lia) eq_refl)).
Defined.

(** Where [ProcessActivityBuffer] departs from a plain reclaim-or-cache
    rule.  A buffer of non-zero size that arrives while activity tracing is
    enabled and the event limit is not reached is still returned to the
    pool, and not cached, when the CUPTI interface reports itself disabled.
    Without a collector, a buffer that passes the first three tests makes
    the call dereference a null [collector_].  A null buffer is not handed
    to the pool.  And for a size within 63 of [2^64] the rounding wraps: the
    buffer is dropped and the estimate of dropped events does not grow. *)
Lemma disabled_interface_reclaims :
  ((64 =? 0) = false /\
   activity_tracing_enabled_ (Sample.state 0 []) = true /\
   (max_activity_api_events (options_ (Sample.collector ∅)) <=?
    estimated_num_activity_events_ (Sample.state 0 [])) = false /\
   exists s',
     ProcessActivityBuffer (Sample.cupti true) 1 2 (Some 9) 64
       (Sample.state 0 []) = Some (Error kInternal "Disabled.", s') /\
     activity_buffers_ s' = [] /\
     buffer_pool_ s' = ReclaimBuffer 9 (buffer_pool_ (Sample.state 0 [])) /\
     buffer_pool_ s' <> buffer_pool_ (Sample.state 0 [])) /\
  (activity_tracing_enabled_ (set_collector_ None (Sample.state 0 []))
     = true /\
   ProcessActivityBuffer (Sample.cupti false) 1 2 (Some 9) 64
     (set_collector_ None (Sample.state 0 [])) = None) /\
  (exists s',
     ProcessActivityBuffer (Sample.cupti false) 1 2 None 0
       (Sample.state 0 []) = Some (OkStatus, s') /\
     buffer_pool_ s' = buffer_pool_ (Sample.state 0 []) /\
     activity_buffers_ s' = activity_buffers_ (Sample.state 0 [])) /\
  (exists s',
     ProcessActivityBuffer (Sample.cupti false) 1 2 (Some 9)
       (size_t_modulus - 1)
       (set_estimated_num_activity_events_ 1000 (Sample.state 0 []))
     = Some (OkStatus, s') /\
     buffer_pool_ s' = ReclaimBuffer 9 (buffer_pool_ (Sample.state 0 [])) /\
     estimated_num_dropped_activity_events_ s' =
       estimated_num_dropped_activity_events_ (Sample.state 0 [])).
Proof.
  split_and!; try reflexivity.
  - eexists. split_and!; try reflexivity. discriminate.
  - eexists. split_and!; reflexivity.
  - eexists. split_and!; vm_compute; reflexivity.
Qed.

Lemma annotation_correlation_witness :
  collector_ (Sample.state 1 [(11, Sample.annotated_thread)])
    = Some (Sample.collector ∅) /\
  exists s' collector',
    GatherAllCallbackAnnotationsAndEvents
      (Sample.state 1 [(11, Sample.annotated_thread)]) = Some s' /\
    collector_ s' = Some collector' /\
    annotation_map_ collector' !! 5 =
      Some {| info_annotation := "train_step"; info_nvtx_range := "range" |}.
Proof.
  split; [reflexivity|].
  destruct (@annotation_correlation Sample.constants Sample.buffer_pool
              Sample.event0 (Sample.state 1 [(11, Sample.annotated_thread)])
              (Sample.collector ∅) eq_refl)
    as (s' & collector' & Hrun & Hc & Hmap & _).
  exists s', collector'. split; [exact Hrun|]. split; [exact Hc|].
  rewrite Hmap. reflexivity.
Defined.

(** An activity event that does not take its annotation from the map: the
    map holds an entry for correlation id 5, and the memset event with that
    correlation id is emitted with an empty annotation and NVTX range. *)
Lemma memset_event_not_annotated :
  exists s' collector' event,
    GatherAllCallbackAnnotationsAndEvents
      (Sample.state 1 [(11, Sample.annotated_thread)]) = Some s' /\
    collector_ s' = Some collector' /\
    LookUpAnnotation collector' 0 5 =
      {| info_annotation := "train_step"; info_nvtx_range := "range" |} /\
    convert_record Sample.event0 collector' Sample.memset_record
      = Some event /\
    device_id event = 0 /\ correlation_id event = 5 /\
    annotation event = "" /\ nvtx_range event = "" /\
    annotation event <>
      info_annotation (LookUpAnnotation collector' (device_id event)
                                        (correlation_id event)).
Proof.
  do 3 eexists.
  split; [vm_compute; reflexivity|].
  split; [reflexivity|].
  split; [vm_compute; reflexivity|].
  split; [reflexivity|].
  split; [reflexivity|]. split; [reflexivity|].
  split; [reflexivity|]. split; [reflexivity|].
  vm_compute. discriminate.
Qed.

Lemma HandleCallback_driver_api_exit_witness :
  api_tracing_enabled_ (Sample.state 0 []) = true /\
  cupti_driver_api_hook_ (Sample.state 0 []) = Some Sample.hook /\
  context Sample.exit_callback = Some 1 /\
  cupti_GetDeviceId (Sample.cupti false) 1 = (CUPTI_SUCCESS, 0) /\
  0 < num_gpus_ (Sample.state 0 []) mod 2 ^ 32 /\
  callbackSite Sample.exit_callback = CUPTI_API_EXIT /\
  exists status s',
    HandleCallback (Sample.cupti false) Sample.event0 11 0
      "train_step" "range" CUPTI_CB_DOMAIN_DRIVER_API 100
      Sample.exit_callback (Sample.state 0 []) = Some (status, s') /\
    trace s' = [HookOnDriverApiExit 0 CUPTI_CB_DOMAIN_DRIVER_API 100] /\
    s_callback_api_event_count (statics s') = 1.
Proof.
  split; [reflexivity|]. split; [reflexivity|]. split; [reflexivity|].
  split; [reflexivity|]. split; [reflexivity|]. split; [reflexivity|].
  destruct (@HandleCallback_driver_api_exit Sample.constants
              Sample.buffer_pool (Sample.cupti false) Sample.event0
              11 "train_step" "range" 100 Sample.exit_callback
              (Sample.state 0 []) Sample.hook 1 0 []
              eq_refl eq_refl eq_refl eq_refl eq_refl eq_refl
              (AppendOnlyBuffer.holds_new AppendOnlyBuffer.kBlockSize)
              eq_refl)
    as (status & s' & Hrun & _ & Hcase).
  exists status, s'. split; [exact Hrun|].
  simpl in Hcase. destruct Hcase as (_ & _ & Hcount & _ & Htrace & _).
  split; [exact Htrace | exact Hcount].
Defined.

(** At the cap the callback is dropped and the hook is not called. *)
Example HandleCallback_at_cap :
  exists s',
    HandleCallback (Sample.cupti false) Sample.event0 11 0
      "train_step" "range" CUPTI_CB_DOMAIN_DRIVER_API 100
      Sample.exit_callback (Sample.state 2 []) = Some (OkStatus, s') /\
    trace s' = [] /\
    num_dropped_events (thread_object 11 s') = 1 /\
    buffered_events (thread_object 11 s') = [].
Proof. eexists. split; [reflexivity|]. split_and!; reflexivity. Qed.


(** The calls of [Disable] in the concrete setting, one thread having
    recorded an annotated callback for correlation id 5: the kernel event
    of the flushed buffer carries the annotation, the memset event does
    not. *)
Example Disable_trace :
  option_map trace
    (Disable (Sample.cupti false) (Sample.cupti false) Sample.event0
       (Sample.state 1 [(11, Sample.annotated_thread)])) =
  Some
    [CuptiEnableDomain false CUPTI_CB_DOMAIN_DRIVER_API;
     CuptiUnsubscribe;
     CuptiActivityDisable CUPTI_ACTIVITY_KIND_MEMSET;
     CuptiActivityFlushAll;
     CuptiCleanUp;
     HookSyncAndFlush;
     CollectorSetAnnotationMap
       {[ 5 := {| info_annotation := "train_step";
                  info_nvtx_range := "range" |} ]};
     CollectorAddEvent Sample.event0;
     CollectorAddEvent
       {| type := Memset; source := Activity; name := "Memset 3";
          annotation := ""; nvtx_range := "";
          start_time_ns := 30; end_time_ns := 40; device_id := 0;
          correlation_id := 5; thread_id := 0; context_id := 1;
          stream_id := 2 |};
     CollectorAddEvent
       {| type := Kernel; source := Activity; name := "gemm";
          annotation := "train_step"; nvtx_range := "range";
          start_time_ns := 50; end_time_ns := 60; device_id := 0;
          correlation_id := 5; thread_id := 0; context_id := 1;
          stream_id := 2 |};
     CollectorFlush;
     AnnotationStackEnable false].
Proof. vm_compute. reflexivity. Qed.

End Cupti.

(** ** The IndexFlatMap dataset iterator (index_flat_map_dataset_op.cc) *)

Module IndexFlatMap.

(** The [DataType] enumerators that [GetValue] names; the others are
    [DT_other]. *)
Inductive DataType : Type :=
| DT_UINT64
| DT_UINT32
| DT_INT64
| DT_INT32
| DT_other (n : Z).

(** The dtypes that [GetValue] reads. *)
Definition is_index_dtype (d : DataType) : bool :=
  match d with
  | DT_UINT64 | DT_UINT32 | DT_INT64 | DT_INT32 => true
  | DT_other _ => false
  end.

(** Conversion of a [size_t] to [int64_t]. *)
Definition to_int64 (z : Z) : Z := (z + 2 ^ 63) mod 2 ^ 64 - 2 ^ 63.

Section Iterator.
(** [Tensor] (tensor.h is not among the sources): its dtype, the element
    that [scalar<T>()()] reads for each of the four element types, and its
    debug string.  The accessors are taken as they are declared; what they
    require of the tensor's shape is outside this model. *)
Variable Tensor : Type.
Variable dtype : Tensor -> DataType.
Variable scalar_uint64 scalar_uint32 scalar_int64 scalar_int32 : Tensor -> Z.
Variable DebugString : Tensor -> string.

(** [instantiated_index_map_func_->Run(ctx, {flattened_index_tensor},
    &unflattened_index)]: the status and the tensors written, for the
    [int64] scalar passed in. *)
Variable Run : Z -> Status * list Tensor.

(** The iterator's members, and the objects handed to save and restore. *)
Variable IteratorState : Type.
Variable SerializationContext IteratorStateWriter : Type.
Variable IteratorContext IteratorStateReader : Type.

Fixpoint StrJoin (strs : list string) (sep : string) : string :=
  match strs with
  | [] => ""
  | [x] => x
  | x :: rest => x +:+ sep +:+ StrJoin rest sep
  end.

Definition ToDebugString (tensors : list Tensor) : string :=
  "{" +:+ StrJoin (map DebugString tensors) ", " +:+ "}".

Definition GetValue (tensor : Tensor) : StatusOr Z :=
  match dtype tensor with
  | DT_UINT64 => Value (to_size_t (scalar_uint64 tensor))
  | DT_UINT32 => Value (to_size_t (scalar_uint32 tensor))
  | DT_INT64 => Value (to_size_t (scalar_int64 tensor))
  | DT_INT32 => Value (to_size_t (scalar_int32 tensor))
  | DT_other _ =>
      Failed kInvalidArgument
        ("The `index_map_fn` for `index_flat_map` is expected to return two "
         +:+ "int32/int64 values representing the element index and an offset "
         +:+ "within the element. Got: " +:+ DebugString tensor)
  end.

Definition GetUnflattenedIndex (flattened_index : Z) : StatusOr (Z * Z) :=
  let '(status, unflattened_index) := Run (to_int64 flattened_index) in
  match status with
  | Error code message => Failed code message
  | OkStatus =>
      match unflattened_index with
      | [t0; t1] =>
          match GetValue t0 with
          | Failed code message => Failed code message
          | Value element_index =>
              match GetValue t1 with
              | Failed code message => Failed code message
              | Value offset => Value (element_index, offset)
              end
          end
      | _ =>
          Failed kInvalidArgument
            ("The `index_map_fn` for `index_flat_map` is expected to return "
             +:+ "two int values representing the element index and an offset "
             +:+ "within the element. Got: "
             +:+ ToDebugString unflattened_index)
      end
  end.

Definition kUnimplementedMessage : string :=
  "TODO(b/325112575): Support save/load for index_flat_map.".

(** [SaveInternal] and [RestoreInternal]: the status, and the iterator and
    the writer or reader afterwards. *)
Definition SaveInternal (it : IteratorState) (ctx : SerializationContext)
    (writer : IteratorStateWriter)
  : Status * IteratorState * IteratorStateWriter :=
  (Error kUnimplemented kUnimplementedMessage, it, writer).

Definition RestoreInternal (it : IteratorState) (ctx : IteratorContext)
    (reader : IteratorStateReader)
  : Status * IteratorState * IteratorStateReader :=
  (Error kUnimplemented kUnimplementedMessage, it, reader).

(** The [size_t] that [GetValue] reads from a tensor of an index dtype. *)
Definition index_value (tensor : Tensor) : Z :=
  match dtype tensor with
  | DT_UINT64 => to_size_t (scalar_uint64 tensor)
  | DT_UINT32 => to_size_t (scalar_uint32 tensor)
  | DT_INT64 => to_size_t (scalar_int64 tensor)
  | DT_INT32 => to_size_t (scalar_int32 tensor)
  | DT_other _ => 0
  end.

Lemma GetValue_index tensor :
  is_index_dtype (dtype tensor) = true ->
  GetValue tensor = Value (index_value tensor).
Proof.
  unfold GetValue, index_value. destruct (dtype tensor); simpl;
    intros H; try reflexivity; discriminate.
Qed.

Lemma GetValue_other tensor :
  is_index_dtype (dtype tensor) = false ->
  exists message, GetValue tensor = Failed kInvalidArgument message.
Proof.
  unfold GetValue. destruct (dtype tensor); simpl; intros H;
    try discriminate. eauto.
Qed.

(** C8: when [index_map_fn] runs and returns a number of tensors other
    than two, or a tensor whose dtype is none of [DT_UINT64], [DT_UINT32],
    [DT_INT64], [DT_INT32], [GetUnflattenedIndex] returns an
    InvalidArgument error; when it returns exactly two tensors of those
    dtypes, [GetUnflattenedIndex] returns the pair of the values read from
    the first and from the second, each converted to [size_t]. *)
Theorem GetUnflattenedIndex_spec (flattened_index : Z)
    (tensors : list Tensor) :
  Run (to_int64 flattened_index) = (OkStatus, tensors) ->
  (length tensors <> 2%nat \/
   (exists t, t ∈ tensors /\ is_index_dtype (dtype t) = false) ->
   exists message,
     GetUnflattenedIndex flattened_index = Failed kInvalidArgument message) /\
  (forall t0 t1,
     tensors = [t0; t1] ->
     is_index_dtype (dtype t0) = true ->
     is_index_dtype (dtype t1) = true ->
     GetUnflattenedIndex flattened_index =
     Value (index_value t0, index_value t1)).
Proof.
  intros Hrun. unfold GetUnflattenedIndex. rewrite Hrun. split.
  - intros Hbad.
    destruct tensors as [|t0 [|t1 [|t2 rest]]]; eauto.
    destruct Hbad as [Hlen | (t & Hin & Hdt)]; [simpl in Hlen; lia|].
    destruct (is_index_dtype (dtype t0)) eqn:H0.
    + rewrite (GetValue_index t0 H0).
      destruct (is_index_dtype (dtype t1)) eqn:H1.
      * apply elem_of_cons in Hin as [->|Hin]; [congruence|].
        apply elem_of_cons in Hin as [->|Hin]; [congruence|].
        apply elem_of_nil in Hin. contradiction.
      * destruct (GetValue_other t1 H1) as [message ->]. eauto.
    + destruct (GetValue_other t0 H0) as [message ->]. eauto.
  - intros t0 t1 -> H0 H1.
    rewrite (GetValue_index t0 H0), (GetValue_index t1 H1). reflexivity.
Qed.

(** C10: [SaveInternal] and [RestoreInternal] return an Unimplemented
    error for every input and leave the iterator, the writer and the reader
    as they were. *)
Theorem checkpointing_unimplemented :
  (forall it ctx writer,
     SaveInternal it ctx writer =
     (Error kUnimplemented
        "TODO(b/325112575): Support save/load for index_flat_map.",
      it, writer)) /\
  (forall it ctx reader,
     RestoreInternal it ctx reader =
     (Error kUnimplemented
        "TODO(b/325112575): Support save/load for index_flat_map.",
      it, reader)).
Proof. split; reflexivity. Qed.

End Iterator.

Lemma checkpointing_unimplemented_witness :
  SaveInternal nat unit unit 3%nat tt tt =
  (Error kUnimplemented
     "TODO(b/325112575): Support save/load for index_flat_map.", 3%nat, tt) /\
  RestoreInternal nat unit unit 3%nat tt tt =
  (Error kUnimplemented
     "TODO(b/325112575): Support save/load for index_flat_map.", 3%nat, tt).
Proof.
  split.
  - exact (proj1 (checkpointing_unimplemented nat unit unit unit unit)
             3%nat tt tt).
  - exact (proj2 (checkpointing_unimplemented nat unit unit unit unit)
             3%nat tt tt).
Defined.

(** Tensors as a dtype and the stored integer. *)
Definition sample_run (index : Z) : Status * list (DataType * Z) :=
  (OkStatus, [(DT_INT64, index / 4); (DT_INT32, -1)]).

Lemma GetUnflattenedIndex_spec_witness :
  sample_run (to_int64 10) = (OkStatus, [(DT_INT64, 2); (DT_INT32, -1)]) /\
  GetUnflattenedIndex (DataType * Z) fst snd snd snd snd (fun _ => "")
    sample_run 10 = Value (2, 18446744073709551615).
Proof.
  assert (H : sample_run (to_int64 10)
              = (OkStatus, [(DT_INT64, 2); (DT_INT32, -1)])) by reflexivity.
  split; [exact H|].
  destruct (GetUnflattenedIndex_spec (DataType * Z) fst snd snd snd snd
              (fun _ => "") sample_run 10 _ H) as [_ Hpair].
  exact (Hpair (DT_INT64, 2) (DT_INT32, -1) eq_refl eq_refl eq_refl).
Defined.

End IndexFlatMap.

(** ** The MHLO exporter: the [ExportXlaOp] overloads from
       [CollectiveBroadcastOp] to [RealDynamicSliceOp] (mlir_hlo_to_hlo.cc) *)

Module MhloExport.

Inductive LogicalResult : Type := success | failure.

(** *** MLIR and XLA data, as far as these overloads read it *)

Inductive ElementType : Type :=
| i1 | i32 | i64 | f32 | element_other (n : Z).

(** A [RankedTensorType].  A dynamic dimension ([ShapedType::kDynamic]) is
    [None].  [bounds] is what [hlo::encodingToBounds(getEncoding())]
    returns: empty without a bounds encoding, else one entry per dimension,
    [None] for a dimension without bound. *)
Record RankedTensorType : Type := {
  shape : list (option Z);
  elementType : ElementType;
  bounds : list (option Z);
}.

Inductive MlirType : Type :=
| Ranked (t : RankedTensorType)
| OtherType (n : Z).

(** An [mlir::Value]: its identity, and the type it carries. *)
Record Value : Type := {
  value_id : Z;
  value_type : MlirType;
}.

Record ChannelHandleAttr : Type := {
  attr_handle : Z;
  attr_type : Z;
}.

(** [xla::ChannelHandle] *)
Record ChannelHandle : Type := {
  handle : Z;
  channel_type : Z;
}.

(** The operands, attributes and results of an operation whose overload
    reads none of them. *)
Record GenericOperation : Type := {
  operands : list Value;
  attributes : list (string * Z);
  results : list Value;
}.

Section Overloads.
(** [mlir::DenseIntElementsAttr], and [xla::ConvertReplicaGroups] on it
    (attribute_exporter.h is not among the sources); [None] is a failed
    [StatusOr], on which [.value()] aborts. *)
Variable DenseIntElementsAttr : Type.
Variable ReplicaGroup : Type.
Variable ConvertReplicaGroups :
  DenseIntElementsAttr -> option (list ReplicaGroup).

(** The operation classes that have an overload in this part of the file,
    each with the operands, attributes and result its accessors give. *)
Inductive Operation : Type :=
| CollectiveBroadcastOp (operand : Value)
    (replica_groups : DenseIntElementsAttr)
    (channel_handle : option ChannelHandleAttr) (result : Value)
| CompositeOp (g : GenericOperation)
| ComputeReshapeShapeOp (g : GenericOperation)
| CstrReshapableOp (g : GenericOperation)
| DynamicBroadcastInDimOp (g : GenericOperation)
| DynamicConvOp (g : GenericOperation)
| DynamicGatherOp (g : GenericOperation)
| DynamicIotaOp (g : GenericOperation)
| DynamicPadOp (g : GenericOperation)
| DynamicReshapeOp (operand output_shape : Value) (result : Value)
| RealDynamicSliceOp (g : GenericOperation).

(** An [xla::XlaOp]: the instruction that the builder call adds. *)
#[warnings="-register-all"]
Inductive XlaOp : Type :=
| Instruction (handle : Z)
| CollectiveBroadcast (operand : XlaOp) (replica_groups : list ReplicaGroup)
    (channel_handle : option ChannelHandle)
| Slice (operand : XlaOp) (start_indices limit_indices strides : list Z)
| Reshape (operand : XlaOp) (new_sizes : list Z)
| DynamicReshape (operand : XlaOp) (dim_sizes : list XlaOp)
    (new_size_bounds : list Z) (dims_are_dynamic : list bool).

(** [OpLoweringContext]: the value map [*ctx.values], keyed by the
    identity of the value, and the diagnostics emitted so far. *)
Record OpLoweringContext : Type := {
  values : gmap Z XlaOp;
  diagnostics : list string;
}.

(** [op->emitOpError(message)], which converts to [failure()]. *)
Definition emitOpError (message : string) (ctx : OpLoweringContext)
  : LogicalResult * OpLoweringContext :=
  (failure,
   {| values := values ctx; diagnostics := diagnostics ctx ++ [message] |}).

(** [value_map[result] = xla_op] *)
Definition assign (result : Value) (xla_op : XlaOp)
    (ctx : OpLoweringContext) : OpLoweringContext :=
  {| values := <[value_id result := xla_op]> (values ctx);
     diagnostics := diagnostics ctx |}.

(** [GetXlaOp(val, val_map, &result, op)] followed by the caller's
    [return failure()] when it fails. *)
Definition GetXlaOp (val : Value) (ctx : OpLoweringContext)
    (k : XlaOp -> option (LogicalResult * OpLoweringContext))
  : option (LogicalResult * OpLoweringContext) :=
  match values ctx !! value_id val with
  | Some xla_op => k xla_op
  | None =>
      Some (emitOpError
              "requires all operands to be defined in the parent region for export"
              ctx)
  end.

Definition Convert_channel_handle (attr : option ChannelHandleAttr)
  : option ChannelHandle :=
  match attr with
  | None => None
  | Some a => Some {| handle := attr_handle a; channel_type := attr_type a |}
  end.

(** The overloads.  [None] is an abort. *)
Definition ExportXlaOp_CollectiveBroadcastOp (operand : Value)
    (replica_groups : DenseIntElementsAttr)
    (channel_handle : option ChannelHandleAttr) (result : Value)
    (ctx : OpLoweringContext) : option (LogicalResult * OpLoweringContext) :=
  GetXlaOp operand ctx (fun xla_operand =>
    match ConvertReplicaGroups replica_groups with
    | None => None
    | Some groups =>
        Some (success,
              assign result
                (CollectiveBroadcast xla_operand groups
                   (Convert_channel_handle channel_handle)) ctx)
    end).

(** The overloads whose body is [return failure();]. *)
Definition ExportXlaOp_unsupported (g : GenericOperation)
    (ctx : OpLoweringContext) : option (LogicalResult * OpLoweringContext) :=
  Some (failure, ctx).

(** The loop of the [DynamicReshapeOp] overload from dimension [i] on:
    the three vectors it fills, [inl] with the message when it emits an
    error, [None] when [resultBounds[i]] is out of range. *)
Fixpoint dynamic_reshape_dims (outputShape : XlaOp) (i : Z)
    (dims : list (option Z)) (resultBounds : list (option Z))
  : option (string + list XlaOp * list Z * list bool) :=
  match dims with
  | [] => Some (inr ([], [], []))
  | dimSize :: rest =>
      match resultBounds !! Z.to_nat i with
      | None => None
      | Some dimBound =>
          let runtimeSizeX1 := Slice outputShape [i] [i + 1] [1] in
          let size := Reshape runtimeSizeX1 [] in
          match dimSize, dimBound with
          | None, None => Some (inl "unbounded dynamism is not supported")
          | _, _ =>
              let bound := match dimSize with
                           | Some d => d
                           | None => default 0 dimBound
                           end in
              match dynamic_reshape_dims outputShape (i + 1) rest
                      resultBounds with
              | None => None
              | Some (inl message) => Some (inl message)
              | Some (inr (dimSizes, newSizeBounds, dimsAreDynamic)) =>
                  Some (inr (size :: dimSizes,
                             bound :: newSizeBounds,
                             negb (bool_decide (is_Some dimSize))
                               :: dimsAreDynamic))
              end
          end
      end
  end.

Definition isInteger32 (t : ElementType) : bool :=
  match t with i32 => true | _ => false end.

Definition ExportXlaOp_DynamicReshapeOp (operand output_shape result : Value)
    (ctx : OpLoweringContext) : option (LogicalResult * OpLoweringContext) :=
  match value_type result with
  | OtherType _ => Some (emitOpError "expected ranked result" ctx)
  | Ranked resultType =>
      match bounds resultType with
      | [] => Some (emitOpError "expected bounded result" ctx)
      | resultBounds =>
          let shape_ok :=
            match value_type output_shape with
            | Ranked shapeType => isInteger32 (elementType shapeType)
            | OtherType _ => false
            end in
          if negb shape_ok
          then Some (emitOpError "expected output shape to be tensor<Nxi32>"
                                 ctx)
          else
            GetXlaOp operand ctx (fun xla_operand =>
            GetXlaOp output_shape ctx (fun outputShape =>
              match dynamic_reshape_dims outputShape 0 (shape resultType)
                      resultBounds with
              | None => None
              | Some (inl message) => Some (emitOpError message ctx)
              | Some (inr (dimSizes, newSizeBounds, dimsAreDynamic)) =>
                  Some (success,
                        assign result
                          (DynamicReshape xla_operand dimSizes newSizeBounds
                             dimsAreDynamic) ctx)
              end))
      end
  end.

(** The choice of the overload by the class of the operation. *)
Definition ExportXlaOp (op : Operation) (ctx : OpLoweringContext)
  : option (LogicalResult * OpLoweringContext) :=
  match op with
  | CollectiveBroadcastOp operand replica_groups channel_handle result =>
      ExportXlaOp_CollectiveBroadcastOp operand replica_groups
        channel_handle result ctx
  | CompositeOp g => ExportXlaOp_unsupported g ctx
  | ComputeReshapeShapeOp g => ExportXlaOp_unsupported g ctx
  | CstrReshapableOp g => ExportXlaOp_unsupported g ctx
  | DynamicBroadcastInDimOp g => ExportXlaOp_unsupported g ctx
  | DynamicConvOp g => ExportXlaOp_unsupported g ctx
  | DynamicGatherOp g => ExportXlaOp_unsupported g ctx
  | DynamicIotaOp g => ExportXlaOp_unsupported g ctx
  | DynamicPadOp g => ExportXlaOp_unsupported g ctx
  | DynamicReshapeOp operand output_shape result =>
      ExportXlaOp_DynamicReshapeOp operand output_shape result ctx
  | RealDynamicSliceOp g => ExportXlaOp_unsupported g ctx
  end.

(** *** What an export depends on *)

(** The class of an operation with its attributes and the types the
    overload reads: the result type and the type of [output_shape]. *)
Inductive Signature : Type :=
| SigCollectiveBroadcast (replica_groups : DenseIntElementsAttr)
    (channel_handle : option ChannelHandleAttr)
| SigDynamicReshape (result_type output_shape_type : MlirType)
| SigUnsupported (class : nat).

Definition signature (op : Operation) : Signature :=
  match op with
  | CollectiveBroadcastOp _ replica_groups channel_handle _ =>
      SigCollectiveBroadcast replica_groups channel_handle
  | DynamicReshapeOp _ output_shape result =>
      SigDynamicReshape (value_type result) (value_type output_shape)
  | CompositeOp _ => SigUnsupported 0
  | ComputeReshapeShapeOp _ => SigUnsupported 1
  | CstrReshapableOp _ => SigUnsupported 2
  | DynamicBroadcastInDimOp _ => SigUnsupported 3
  | DynamicConvOp _ => SigUnsupported 4
  | DynamicGatherOp _ => SigUnsupported 5
  | DynamicIotaOp _ => SigUnsupported 6
  | DynamicPadOp _ => SigUnsupported 7
  | RealDynamicSliceOp _ => SigUnsupported 8
  end.

(** The class of an operation with its attributes alone. *)
Definition class_and_attributes (op : Operation)
  : nat * option (DenseIntElementsAttr * option ChannelHandleAttr)
    * list (string * Z) :=
  match op with
  | CollectiveBroadcastOp _ replica_groups channel_handle _ =>
      (9%nat, Some (replica_groups, channel_handle), [])
  | DynamicReshapeOp _ _ _ => (10%nat, None, [])
  | CompositeOp g => (0%nat, None, attributes g)
  | ComputeReshapeShapeOp g => (1%nat, None, attributes g)
  | CstrReshapableOp g => (2%nat, None, attributes g)
  | DynamicBroadcastInDimOp g => (3%nat, None, attributes g)
  | DynamicConvOp g => (4%nat, None, attributes g)
  | DynamicGatherOp g => (5%nat, None, attributes g)
  | DynamicIotaOp g => (6%nat, None, attributes g)
  | DynamicPadOp g => (7%nat, None, attributes g)
  | RealDynamicSliceOp g => (8%nat, None, attributes g)
  end.

Definition op_operands (op : Operation) : list Value :=
  match op with
  | CollectiveBroadcastOp operand _ _ _ => [operand]
  | DynamicReshapeOp operand output_shape _ => [operand; output_shape]
  | CompositeOp g | ComputeReshapeShapeOp g | CstrReshapableOp g
  | DynamicBroadcastInDimOp g | DynamicConvOp g | DynamicGatherOp g
  | DynamicIotaOp g | DynamicPadOp g | RealDynamicSliceOp g => operands g
  end.

Definition op_result (op : Operation) : option Value :=
  match op with
  | CollectiveBroadcastOp _ _ _ result => Some result
  | DynamicReshapeOp _ _ result => Some result
  | CompositeOp g | ComputeReshapeShapeOp g | CstrReshapableOp g
  | DynamicBroadcastInDimOp g | DynamicConvOp g | DynamicGatherOp g
  | DynamicIotaOp g | DynamicPadOp g | RealDynamicSliceOp g =>
      head (results g)
  end.

(** The already-lowered values of the operands; [None] for an operand
    that has not been lowered. *)
Definition lowered (ctx : OpLoweringContext) (op : Operation)
  : list (option XlaOp) :=
  map (fun v => values ctx !! value_id v) (op_operands op).

(** What an export produces: the result, the diagnostics it adds, and on
    success the HLO stored for the result of the operation. *)
Definition outcome (ctx : OpLoweringContext) (op : Operation)
    (r : option (LogicalResult * OpLoweringContext))
  : option (LogicalResult * list string * option XlaOp) :=
  match r with
  | None => None
  | Some (status, ctx') =>
      Some (status,
            drop (length (diagnostics ctx)) (diagnostics ctx'),
            match status, op_result op with
            | success, Some result => values ctx' !! value_id result
            | _, _ => None
            end)
  end.

Lemma outcome_emitOpError ctx op message :
  outcome ctx op (Some (emitOpError message ctx)) =
  Some (failure, [message], None).
Proof.
  unfold outcome, emitOpError. simpl.
  rewrite drop_app_length. reflexivity.
Qed.

Lemma outcome_assign ctx op result xla_op :
  op_result op = Some result ->
  outcome ctx op (Some (success, assign result xla_op ctx)) =
  Some (success, [], Some xla_op).
Proof.
  intros Hres. unfold outcome, assign. simpl.
  rewrite Hres, drop_all, lookup_insert_eq. reflexivity.
Qed.

(** The overloads from [CollectiveBroadcastOp] to [RealDynamicSliceOp]:
    the nine without an implementation fail for every operation and
    context and change nothing; and what the two others store in the value
    map (with success or failure and the diagnostic) is determined by the
    class and attributes of the operation, the types of its result and of
    its [output_shape] operand, and the already-lowered values of its
    operands.  The other overloads of the file, the generated dispatch and
    the builder that the [xla::] calls write to are outside this model. *)
Lemma export_by_case :
  (forall g ctx,
     ExportXlaOp (CompositeOp g) ctx = Some (failure, ctx) /\
     ExportXlaOp (ComputeReshapeShapeOp g) ctx = Some (failure, ctx) /\
     ExportXlaOp (CstrReshapableOp g) ctx = Some (failure, ctx) /\
     ExportXlaOp (DynamicBroadcastInDimOp g) ctx = Some (failure, ctx) /\
     ExportXlaOp (DynamicConvOp g) ctx = Some (failure, ctx) /\
     ExportXlaOp (DynamicGatherOp g) ctx = Some (failure, ctx) /\
     ExportXlaOp (DynamicIotaOp g) ctx = Some (failure, ctx) /\
     ExportXlaOp (DynamicPadOp g) ctx = Some (failure, ctx) /\
     ExportXlaOp (RealDynamicSliceOp g) ctx = Some (failure, ctx)) /\
  (forall op1 op2 ctx1 ctx2,
     signature op1 = signature op2 ->
     lowered ctx1 op1 = lowered ctx2 op2 ->
     outcome ctx1 op1 (ExportXlaOp op1 ctx1) =
     outcome ctx2 op2 (ExportXlaOp op2 ctx2)) /\
  (forall op ctx status ctx',
     ExportXlaOp op ctx = Some (status, ctx') ->
     In None (lowered ctx op) ->
     match op with
     | CollectiveBroadcastOp _ _ _ _ | DynamicReshapeOp _ _ _ =>
         status = failure /\ values ctx' = values ctx
     | _ => True
     end).
Proof.
  split; [intros; split_and!; reflexivity|]. split.
  - intros op1 op2 ctx1 ctx2 Hsig Hlow.
    destruct op1, op2; simpl in Hsig; try discriminate;
      try (simpl; unfold ExportXlaOp_unsupported, outcome; simpl;
           rewrite !drop_all; reflexivity).
    + injection Hsig as -> ->. unfold lowered in Hlow. simpl in Hlow.
      injection Hlow as Hop. simpl.
      unfold ExportXlaOp_CollectiveBroadcastOp, GetXlaOp.
      rewrite Hop.
      destruct (values ctx2 !! value_id operand0) as [x|];
        [|rewrite !outcome_emitOpError; reflexivity].
      destruct (ConvertReplicaGroups replica_groups0); [|reflexivity].
      rewrite !outcome_assign by reflexivity. reflexivity.
    + injection Hsig as Hres Hshape. unfold lowered in Hlow. simpl in Hlow.
      injection Hlow as Hop Hout. simpl.
      unfold ExportXlaOp_DynamicReshapeOp, GetXlaOp.
      rewrite Hres, Hshape, Hop, Hout.
      destruct (value_type result0) as [resultType|];
        [|rewrite !outcome_emitOpError; reflexivity].
      destruct (bounds resultType) as [|b0 resultBounds];
        [rewrite !outcome_emitOpError; reflexivity|].
      destruct (negb _);
        [rewrite !outcome_emitOpError; reflexivity|].
      destruct (values ctx2 !! value_id operand0) as [x|];
        [|rewrite !outcome_emitOpError; reflexivity].
      destruct (values ctx2 !! value_id output_shape0) as [y|];
        [|rewrite !outcome_emitOpError; reflexivity].
      destruct (dynamic_reshape_dims y 0 (shape resultType)
                  (b0 :: resultBounds))
        as [[message|[[dimSizes newSizeBounds] dimsAreDynamic]]|];
        [rewrite !outcome_emitOpError; reflexivity | | reflexivity].
      rewrite !outcome_assign by reflexivity. reflexivity.
  - intros op ctx status ctx' Hrun Hnone.
    destruct op; try exact I; simpl in Hrun, Hnone.
    + unfold ExportXlaOp_CollectiveBroadcastOp, GetXlaOp in Hrun.
      destruct Hnone as [Hnone|[]]. rewrite Hnone in Hrun.
      injection Hrun as <- <-. auto.
    + unfold ExportXlaOp_DynamicReshapeOp, GetXlaOp in Hrun.
      destruct (value_type result) as [resultType|];
        [|injection Hrun as <- <-; auto].
      destruct (bounds resultType) as [|b0 resultBounds];
        [injection Hrun as <- <-; auto|].
      destruct (negb _); [injection Hrun as <- <-; auto|].
      destruct Hnone as [Hnone|[Hnone|[]]].
      * rewrite Hnone in Hrun. injection Hrun as <- <-. auto.
      * rewrite Hnone in Hrun.
        destruct (values ctx !! value_id operand);
          injection Hrun as <- <-; auto.
Qed.

End Overloads.

Arguments Instruction {ReplicaGroup}.
Arguments CollectiveBroadcast {ReplicaGroup}.
Arguments Slice {ReplicaGroup}.
Arguments Reshape {ReplicaGroup}.
Arguments DynamicReshape {ReplicaGroup}.
Arguments values {ReplicaGroup}.
Arguments diagnostics {ReplicaGroup}.
Arguments DynamicReshapeOp {DenseIntElementsAttr}.
Arguments ExportXlaOp {DenseIntElementsAttr ReplicaGroup}.
Arguments lowered {DenseIntElementsAttr ReplicaGroup}.
Arguments outcome {DenseIntElementsAttr ReplicaGroup}.
Arguments class_and_attributes {DenseIntElementsAttr}.
Arguments signature {DenseIntElementsAttr}.

(** *** A concrete module fragment *)

Module Sample.

(** Replica groups as lists of device ids, on which the conversion
    succeeds. *)
Definition ConvertReplicaGroups (groups : list (list Z))
  : option (list (list Z)) := Some groups.

Definition operand : Value :=
  {| value_id := 1;
     value_type := Ranked {| shape := [Some 2; Some 8];
                             elementType := f32; bounds := [] |} |}.

Definition output_shape : Value :=
  {| value_id := 2;
     value_type := Ranked {| shape := [Some 2];
                             elementType := i32; bounds := [] |} |}.

(** A result of type [tensor<?x4xf32>] with bound 8 on the first
    dimension, and a result that is not a ranked tensor. *)
Definition bounded_result : Value :=
  {| value_id := 3;
     value_type := Ranked {| shape := [None; Some 4];
                             elementType := f32;
                             bounds := [Some 8; None] |} |}.

Definition unranked_result : Value :=
  {| value_id := 3; value_type := OtherType 0 |}.

Definition ctx : OpLoweringContext (list Z) :=
  {| values := {[ 1 := Instruction 10; 2 := Instruction 11 ]};
     diagnostics := [] |}.

Definition reshape_bounded : Operation (list (list Z)) :=
  DynamicReshapeOp operand output_shape bounded_result.

Definition reshape_unranked : Operation (list (list Z)) :=
  DynamicReshapeOp operand output_shape unranked_result.

End Sample.

(** Two [DynamicReshapeOp]s with the same attributes (none) and the same
    lowered operands: the export of one succeeds, the export of the other
    fails, for the type of the result alone. *)
Lemma result_type_decides_export :
  class_and_attributes Sample.reshape_bounded =
  class_and_attributes Sample.reshape_unranked /\
  lowered Sample.ctx Sample.reshape_bounded =
  lowered Sample.ctx Sample.reshape_unranked /\
  (exists ctx',
     ExportXlaOp Sample.ConvertReplicaGroups Sample.reshape_bounded Sample.ctx
       = Some (success, ctx') /\
     values ctx' !! 3 =
       Some (DynamicReshape (Instruction 10)
               [Reshape (Slice (Instruction 11) [0] [1] [1]) [];
                Reshape (Slice (Instruction 11) [1] [2] [1]) []]
               [8; 4] [true; false])) /\
  (exists ctx',
     ExportXlaOp Sample.ConvertReplicaGroups Sample.reshape_unranked Sample.ctx
       = Some (failure, ctx') /\
     diagnostics ctx' = ["expected ranked result"] /\
     values ctx' = values Sample.ctx) /\
  outcome Sample.ctx Sample.reshape_bounded
    (ExportXlaOp Sample.ConvertReplicaGroups Sample.reshape_bounded Sample.ctx)
  <> outcome Sample.ctx Sample.reshape_unranked
       (ExportXlaOp Sample.ConvertReplicaGroups Sample.reshape_unranked
          Sample.ctx).
Proof.
  split; [reflexivity|]. split; [reflexivity|]. split; [|split].
  - eexists. split; [reflexivity|]. vm_compute. reflexivity.
  - eexists. split; [reflexivity|]. split; reflexivity.
  - vm_compute. discriminate.
Qed.

(** The theorem at the concrete fragment: the same operation in two
    contexts that agree on its operands is exported alike. *)
Lemma export_by_case_witness :
  signature Sample.reshape_bounded = signature Sample.reshape_bounded /\
  lowered Sample.ctx Sample.reshape_bounded =
  lowered {| values := <[ 7 := Instruction 12 ]> (values Sample.ctx);
             diagnostics := ["earlier"] |} Sample.reshape_bounded /\
  outcome Sample.ctx Sample.reshape_bounded
    (ExportXlaOp Sample.ConvertReplicaGroups Sample.reshape_bounded Sample.ctx)
  = outcome {| values := <[ 7 := Instruction 12 ]> (values Sample.ctx);
               diagnostics := ["earlier"] |} Sample.reshape_bounded
      (ExportXlaOp Sample.ConvertReplicaGroups Sample.reshape_bounded
         {| values := <[ 7 := Instruction 12 ]> (values Sample.ctx);
            diagnostics := ["earlier"] |}).
Proof.
  assert (Hlow : lowered Sample.ctx Sample.reshape_bounded =
                 lowered {| values := <[ 7 := Instruction 12 ]>
                                        (values Sample.ctx);
                            diagnostics := ["earlier"] |}
                         Sample.reshape_bounded)
    by (vm_compute; reflexivity).
  split; [reflexivity|]. split; [exact Hlow|].
  exact (proj1 (proj2 (export_by_case _ _ Sample.ConvertReplicaGroups))
           Sample.reshape_bounded Sample.reshape_bounded Sample.ctx
           {| values := <[ 7 := Instruction 12 ]> (values Sample.ctx);
              diagnostics := ["earlier"] |}
           eq_refl Hlow).
Defined.

End MhloExport.

(** ** [AppendOnlyBuffer]: moving a buffer, and the stability of its
       elements (cupti_tracer.cc) *)

Module AppendOnlyBufferFacts.
Import AppendOnlyBuffer.

Section WithElement.
Context {T : Type}.

(** Appending to one block keeps what the blocks held. *)
Lemma lookup_alter_snoc (blocks : list (list T)) (i : nat) (v : T)
    (p : pointer) (x : T) :
  (blocks !! p.1) ≫= (fun blk => blk !! p.2) = Some x ->
  (alter (fun blk => blk ++ [v]) i blocks !! p.1) ≫= (fun blk => blk !! p.2)
  = Some x.
Proof.
  intros H. destruct (decide (i = p.1)) as [->|Hne].
  - rewrite list_lookup_alter_eq.
    destruct (blocks !! p.1) as [blk|]; simpl in *; [|discriminate].
    apply lookup_app_l_Some. exact H.
  - rewrite list_lookup_alter_ne by exact Hne. exact H.
Qed.

Lemma deref_bind (b : t T) (p : pointer) :
  deref b p = (block_list_ b !! p.1) ≫= (fun blk => blk !! p.2).
Proof. unfold deref. destruct (block_list_ b !! p.1); reflexivity. Qed.

Lemma deref_Append (v : T) (b : t T) (p : pointer) (x : T) :
  deref b p = Some x -> deref (Append v b) p = Some x.
Proof.
  rewrite !deref_bind. intros H. unfold Append.
  destruct (block_size_ b <=? last_block_size b); simpl.
  - apply lookup_alter_snoc.
    destruct (block_list_ b !! p.1) as [blk|] eqn:E; [|discriminate].
    rewrite (lookup_app_l_Some _ _ _ _ E). exact H.
  - apply lookup_alter_snoc. exact H.
Qed.

(** X1: the move assignment [operator=(AppendOnlyBuffer &&)] hands the
    elements of a well-formed buffer over unchanged and in order, and leaves
    the buffer moved from well-formed and empty, with the block size it
    had: [Size()] is 0 and [LastElement()] is null there. *)
Theorem move_assign_transfers (another : t T) (l : list T) :
  holds another l ->
  holds (move_assign another).1 l /\
  elements (move_assign another).1 = l /\
  holds (move_assign another).2 [] /\
  Size (move_assign another).2 = 0 /\
  LastElement (move_assign another).2 = None /\
  block_size_ (move_assign another).2 = block_size_ another.
Proof.
  intros Hb.
  assert (Hthis : holds (move_assign another).1 l).
  { destruct Hb as (full & lastb & Hbl & Hlast & Hfull & Hle & Hne & Hcat
                    & Hsz & Hbs).
    exists full, lastb. simpl. rewrite Hbl, length_app. simpl.
    split_and!; auto. lia. }
  split_and!; auto.
  - apply holds_elements. exact Hthis.
  - simpl. eapply holds_Clear. exact Hb.
Qed.

(** The position of an element, its block and its place in the block, does
    not change with further [Append] and [Emplace] calls. *)
Lemma positions_stay (b : t T) (ops : list (op T)) (p : pointer)
    (x : T) :
  Forall (fun o => o <> OpClear) ops ->
  deref b p = Some x ->
  deref (run b ops) p = Some x.
Proof.
  intros Hops. revert b.
  induction Hops as [|o ops Ho _ IH]; intros b Hp; [exact Hp|].
  simpl. apply IH. destruct o; simpl.
  - apply deref_Append. exact Hp.
  - rewrite Emplace_Append. apply deref_Append. exact Hp.
  - contradiction.
Qed.

End WithElement.

Lemma move_assign_transfers_witness :
  holds (run (new 0) sample_ops) [9%nat; 10%nat] /\
  elements (move_assign (run (new 0) sample_ops)).1 = [9%nat; 10%nat] /\
  Size (move_assign (run (new 0) sample_ops)).2 = 0.
Proof.
  assert (H : holds (run (new 0) sample_ops) [9%nat; 10%nat]).
  { exists [], [9%nat; 10%nat]. vm_compute. split_and!; auto.
    all: try discriminate. }
  split; [exact H|].
  destruct (move_assign_transfers (run (new 0) sample_ops) _ H)
    as (_ & He & _ & Hs & _).
  split; [exact He | exact Hs].
Defined.

End AppendOnlyBufferFacts.

(** ** [AppendOnlyBuffer<T>] with the arrays of its blocks: when a [T*]
       into the buffer stays valid (cupti_tracer.cc) *)

Module AppendOnlyBufferStorage.
Import AppendOnlyBuffer.

Section WithElement.
Context {T : Type}.

(** What the standard leaves to the implementation of [std::vector]: the
    capacity after [reserve(n)] on a vector of smaller capacity, and after a
    [push_back] on a full vector of capacity [c]. *)
Variable reserved : Z -> Z.
Variable grown : Z -> Z.

(** A [std::vector<T>]: the array that holds the elements, named by the
    number of the allocation that made it (none before the first one), the
    elements and the capacity of the array. *)
Record Vector : Type := {
  storage : option nat;
  data : list T;
  capacity : Z;
}.

(** [std::vector<T>()] *)
Definition Vector_new : Vector :=
  {| storage := None; data := []; capacity := 0 |}.

(** The elements move to a new array of capacity [c] and the old array is
    freed; [allocations] counts the allocations made so far. *)
Definition reallocate (c : Z) (v : Vector) (allocations : nat)
  : Vector * nat :=
  ({| storage := Some allocations; data := data v; capacity := c |},
   S allocations).

(** [v.reserve(n)] *)
Definition reserve (n : Z) (v : Vector) (allocations : nat) : Vector * nat :=
  if capacity v <? n then reallocate (reserved n) v allocations
  else (v, allocations).

(** [v.push_back(value)], [v.emplace_back(params...)] *)
Definition push_back (value : T) (v : Vector) (allocations : nat)
  : Vector * nat :=
  let '(v1, allocations1) :=
    if Z.of_nat (length (data v)) <? capacity v then (v, allocations)
    else reallocate (grown (capacity v)) v allocations in
  ({| storage := storage v1;
      data := data v1 ++ [value];
      capacity := capacity v1 |},
   allocations1).

(** The buffer with the arrays of its blocks. *)
Record buffer : Type := {
  block_size_ : Z;
  size_ : Z;
  block_list_ : list Vector;
  last_block_ : nat;
  allocations : nat;
}.

(** [last_block_ = &(block_list_.emplace_back());
     last_block_->reserve(block_size_);] *)
Definition emplace_back_block (b : buffer) : buffer :=
  let '(blk, allocations1) :=
    reserve (block_size_ b) Vector_new (allocations b) in
  {| block_size_ := block_size_ b;
     size_ := size_ b;
     block_list_ := block_list_ b ++ [blk];
     last_block_ := length (block_list_ b);
     allocations := allocations1 |}.

Definition Clear (b : buffer) : buffer :=
  emplace_back_block
    {| block_size_ := block_size_ b;
       size_ := 0;
       block_list_ := [];
       last_block_ := 0%nat;
       allocations := allocations b |}.

Definition new (block_size : Z) : buffer :=
  Clear {| block_size_ := Z.max 1024 block_size;
           size_ := 0;
           block_list_ := [];
           last_block_ := 0%nat;
           allocations := 0%nat |}.

(** [last_block_->size()] *)
Definition last_block_size (b : buffer) : Z :=
  match block_list_ b !! last_block_ b with
  | Some blk => Z.of_nat (length (data blk))
  | None => 0
  end.

Definition Append (value : T) (b : buffer) : buffer :=
  let b1 := if block_size_ b <=? last_block_size b
            then emplace_back_block b else b in
  let '(blocks, allocations1) :=
    match block_list_ b1 !! last_block_ b1 with
    | Some blk =>
        let '(blk1, allocations1) := push_back value blk (allocations b1) in
        (<[last_block_ b1 := blk1]> (block_list_ b1), allocations1)
    | None =>
        (* not reached from the constructor: [last_block_] addresses a
           node of the list *)
        (block_list_ b1, allocations b1)
    end in
  {| block_size_ := block_size_ b1;
     size_ := to_size_t (size_ b1 + 1);
     block_list_ := blocks;
     last_block_ := last_block_ b1;
     allocations := allocations1 |}.

Definition Emplace (built : T) (b : buffer) : buffer := Append built b.

Definition step (b : buffer) (o : op T) : buffer :=
  match o with
  | OpAppend v => Append v b
  | OpEmplace v => Emplace v b
  | OpClear => Clear b
  end.

Definition run (b : buffer) (ops : list (op T)) : buffer :=
  foldl step b ops.

(** A [T*]: an array and a position in it. *)
Definition address : Type := nat * nat.

(** The block whose elements are in the array [a], if the array has not been
    freed. *)
Fixpoint block_at (a : nat) (blocks : list Vector) : option Vector :=
  match blocks with
  | [] => None
  | blk :: rest =>
      if decide (storage blk = Some a) then Some blk else block_at a rest
  end.

(** [*p]; there is nothing to read in an array that has been freed. *)
Definition read (b : buffer) (p : address) : option T :=
  match block_at p.1 (block_list_ b) with
  | Some blk => data blk !! p.2
  | None => None
  end.

(** The buffer without the arrays. *)
Definition contents (b : buffer) : AppendOnlyBuffer.t T :=
  {| AppendOnlyBuffer.block_size_ := block_size_ b;
     AppendOnlyBuffer.size_ := size_ b;
     AppendOnlyBuffer.block_list_ := map data (block_list_ b);
     AppendOnlyBuffer.last_block_ := last_block_ b |}.

(** [last_block_] addresses a block with room for [block_size_] elements. *)
Definition roomy (b : buffer) : Prop :=
  exists blk,
    block_list_ b !! last_block_ b = Some blk /\
    block_size_ b <= capacity blk /\
    0 < block_size_ b.

Hypothesis reserve_suffices : forall n, n <= reserved n.

Lemma roomy_emplace_back_block b :
  0 < block_size_ b -> roomy (emplace_back_block b).
Proof.
  intros Hpos. unfold emplace_back_block, reserve, reallocate. simpl.
  destruct (Z.ltb_spec 0 (block_size_ b)) as [_|?]; [| lia].
  eexists. simpl. split; [apply list_lookup_middle; reflexivity |].
  simpl. split; [apply reserve_suffices | exact Hpos].
Qed.

Lemma roomy_new block_size : roomy (new block_size).
Proof. apply roomy_emplace_back_block. simpl. lia. Qed.

Lemma roomy_Clear b : roomy b -> roomy (Clear b).
Proof.
  intros (blk & _ & _ & Hpos). apply roomy_emplace_back_block. exact Hpos.
Qed.

(** A [push_back] on a vector that is not full keeps the array. *)
Lemma push_back_in_place value v n :
  Z.of_nat (length (data v)) < capacity v ->
  push_back value v n =
  ({| storage := storage v; data := data v ++ [value];
      capacity := capacity v |}, n).
Proof.
  intros Hroom. unfold push_back.
  destruct (Z.ltb_spec (Z.of_nat (length (data v))) (capacity v)); [| lia].
  reflexivity.
Qed.

(** A [push_back] on a full vector moves the elements to another array. *)
Lemma push_back_moves value v n a :
  storage v = Some a -> (a < n)%nat ->
  capacity v <= Z.of_nat (length (data v)) ->
  storage (push_back value v n).1 <> Some a.
Proof.
  intros Ha Hlt Hfull. unfold push_back.
  destruct (Z.ltb_spec (Z.of_nat (length (data v))) (capacity v)); [lia |].
  simpl. intros [= Heq]. lia.
Qed.

Lemma block_at_app a blocks more blk :
  block_at a blocks = Some blk -> block_at a (blocks ++ more) = Some blk.
Proof.
  induction blocks as [|b rest IH]; simpl; [discriminate |].
  destruct (decide (storage b = Some a)); auto.
Qed.

Lemma block_at_insert a blocks : forall i old blk1 blk,
  blocks !! i = Some old -> storage blk1 = storage old ->
  block_at a blocks = Some blk ->
  exists blk',
    block_at a (<[i := blk1]> blocks) = Some blk' /\
    (blk' = blk \/ (blk = old /\ blk' = blk1)).
Proof.
  induction blocks as [|b rest IH]; intros i old blk1 blk Hold Hst Hat;
    [discriminate |].
  destruct i as [|i]; simpl in *.
  - injection Hold as ->. rewrite Hst.
    destruct (decide (storage old = Some a)).
    + injection Hat as <-. exists blk1. split; [reflexivity |].
      right. split; reflexivity.
    + exists blk. split; [exact Hat | left; reflexivity].
  - destruct (decide (storage b = Some a)).
    + exists blk. split; [exact Hat | left; reflexivity].
    + apply (IH i old blk1 blk Hold Hst Hat).
Qed.

(** On a buffer whose last block has room, [Append] adds the element to the
    array of the last block or to the array of a new block. *)
Lemma Append_in_place value b :
  roomy b ->
  exists blocks i blk,
    (blocks = block_list_ b \/ exists more, blocks = block_list_ b ++ [more]) /\
    blocks !! i = Some blk /\
    block_size_ b <= capacity blk /\
    block_list_ (Append value b) =
      <[i := {| storage := storage blk; data := data blk ++ [value];
                capacity := capacity blk |}]> blocks /\
    last_block_ (Append value b) = i /\
    block_size_ (Append value b) = block_size_ b.
Proof.
  intros (last & Hlast & Hcap & Hpos). unfold Append.
  destruct (Z.leb_spec (block_size_ b) (last_block_size b)) as [Hfull|Hroom].
  - unfold emplace_back_block, reserve, reallocate. cbn [capacity Vector_new].
    destruct (Z.ltb_spec 0 (block_size_ b)) as [_|?]; [| lia].
    cbn [block_list_ last_block_ allocations block_size_ size_].
    rewrite list_lookup_middle by reflexivity.
    rewrite push_back_in_place by (simpl; pose proof (reserve_suffices (block_size_ b)); lia).
    set (blk0 := {| storage := Some (allocations b); data := [];
                    capacity := reserved (block_size_ b) |}).
    exists (block_list_ b ++ [blk0]), (length (block_list_ b)), blk0.
    split_and!.
    + right. exists blk0. reflexivity.
    + apply list_lookup_middle. reflexivity.
    + cbn [capacity blk0]. apply reserve_suffices.
    + reflexivity.
    + reflexivity.
    + reflexivity.
  - unfold last_block_size in Hroom. rewrite Hlast in *.
    rewrite push_back_in_place by lia.
    exists (block_list_ b), (last_block_ b), last. split_and!; auto.
Qed.

Lemma Append_roomy value b : roomy b -> roomy (Append value b).
Proof.
  intros Hroomy.
  assert (Hpos : 0 < block_size_ b)
    by (destruct Hroomy as (? & _ & _ & H); exact H).
  destruct (Append_in_place value b Hroomy)
    as (blocks & i & blk & _ & Hi & Hcap & Hlist & Hlast & Hsize).
  eexists. rewrite Hlist, Hlast, Hsize.
  split; [apply list_lookup_insert_eq; eapply lookup_lt_Some; exact Hi |].
  simpl. split; [exact Hcap | exact Hpos].
Qed.

Lemma Append_read value b p x :
  roomy b -> read b p = Some x -> read (Append value b) p = Some x.
Proof.
  intros Hroomy Hread.
  destruct (Append_in_place value b Hroomy)
    as (blocks & i & blk & Hblocks & Hi & _ & Hlist & _ & _).
  unfold read in *. rewrite Hlist.
  destruct (block_at p.1 (block_list_ b)) as [found|] eqn:Hat;
    [| discriminate].
  assert (Hat0 : block_at p.1 blocks = Some found).
  { destruct Hblocks as [->|[more ->]]; [exact Hat |].
    apply block_at_app. exact Hat. }
  destruct (block_at_insert p.1 blocks i blk
              {| storage := storage blk; data := data blk ++ [value];
                 capacity := capacity blk |} found Hi eq_refl Hat0)
    as (blk' & Hat' & [->| [-> ->]]); rewrite Hat'.
  - exact Hread.
  - simpl. apply lookup_app_l_Some. exact Hread.
Qed.

Lemma roomy_run ops : forall b, roomy b -> roomy (run b ops).
Proof.
  induction ops as [|o ops IH]; intros b Hb; [exact Hb |].
  simpl. apply IH. destruct o; simpl.
  - apply Append_roomy. exact Hb.
  - apply Append_roomy. exact Hb.
  - apply roomy_Clear. exact Hb.
Qed.

Lemma read_run ops : forall b p x,
  Forall (fun o => o <> OpClear) ops ->
  roomy b -> read b p = Some x -> read (run b ops) p = Some x.
Proof.
  induction ops as [|o ops IH]; intros b p x Hops Hb Hread; [exact Hread |].
  apply Forall_cons in Hops as [Ho Hops].
  simpl. destruct o; simpl; [| | contradiction].
  - apply IH; [exact Hops | apply Append_roomy; exact Hb |].
    apply Append_read; assumption.
  - apply IH; [exact Hops | apply Append_roomy; exact Hb |].
    apply Append_read; assumption.
Qed.

(** Without the arrays the buffer is the one of [AppendOnlyBuffer]. *)
Lemma contents_emplace_back_block b :
  contents (emplace_back_block b)
  = AppendOnlyBuffer.emplace_back_block (contents b).
Proof.
  unfold emplace_back_block, reserve, reallocate, contents,
    AppendOnlyBuffer.emplace_back_block.
  destruct (_ <? _); simpl; rewrite map_app, length_map; reflexivity.
Qed.

Lemma contents_Clear b : contents (Clear b) = AppendOnlyBuffer.Clear (contents b).
Proof.
  unfold Clear. rewrite contents_emplace_back_block. reflexivity.
Qed.

Lemma contents_new block_size :
  contents (new block_size) = AppendOnlyBuffer.new block_size.
Proof. unfold new. rewrite contents_Clear. reflexivity. Qed.

Lemma contents_last_block_size b :
  AppendOnlyBuffer.last_block_size (contents b) = last_block_size b.
Proof.
  unfold AppendOnlyBuffer.last_block_size, last_block_size, contents. simpl.
  rewrite list_lookup_fmap. destruct (block_list_ b !! last_block_ b); simpl;
    [rewrite ?length_map |]; reflexivity.
Qed.

Lemma data_push_back value v n :
  data (push_back value v n).1 = data v ++ [value].
Proof. unfold push_back. destruct (_ <? _); reflexivity. Qed.

Lemma contents_Append value b :
  contents (Append value b) = AppendOnlyBuffer.Append value (contents b).
Proof.
  unfold Append, AppendOnlyBuffer.Append.
  rewrite contents_last_block_size.
  change (AppendOnlyBuffer.block_size_ (contents b)) with (block_size_ b).
  set (b1 := if block_size_ b <=? last_block_size b
             then emplace_back_block b else b).
  assert (Hb1 : (if block_size_ b <=? last_block_size b
                 then AppendOnlyBuffer.emplace_back_block (contents b)
                 else contents b) = contents b1).
  { subst b1. destruct (_ <=? _); [| reflexivity].
    symmetry. apply contents_emplace_back_block. }
  rewrite Hb1. unfold contents at 1. cbn [AppendOnlyBuffer.block_size_
    AppendOnlyBuffer.size_ AppendOnlyBuffer.block_list_
    AppendOnlyBuffer.last_block_ contents].
  destruct (block_list_ b1 !! last_block_ b1) as [blk|] eqn:Hlast.
  - pose proof (data_push_back value blk (allocations b1)) as Hdata.
    destruct (push_back value blk (allocations b1)) as [blk1 n1].
    simpl in Hdata. cbn [block_size_ size_ block_list_ last_block_].
    f_equal. rewrite list_fmap_insert, Hdata.
    apply list_eq. intros i.
    destruct (decide (i = last_block_ b1)) as [->|Hne].
    + rewrite list_lookup_alter_eq, list_lookup_fmap, Hlast. simpl.
      apply list_lookup_insert_eq. rewrite length_map.
      eapply lookup_lt_Some. exact Hlast.
    + rewrite list_lookup_alter_ne by congruence.
      rewrite list_lookup_insert_ne by congruence. reflexivity.
  - cbn [block_size_ size_ block_list_ last_block_]. f_equal.
    apply list_eq. intros i.
    destruct (decide (i = last_block_ b1)) as [->|Hne].
    + rewrite list_lookup_alter_eq, list_lookup_fmap, Hlast. reflexivity.
    + rewrite list_lookup_alter_ne by congruence. reflexivity.
Qed.

Lemma contents_run ops : forall b,
  contents (run b ops) = AppendOnlyBuffer.run (contents b) ops.
Proof.
  induction ops as [|o ops IH]; intros b; [reflexivity |].
  simpl. rewrite IH. f_equal. destruct o; simpl.
  - apply contents_Append.
  - apply contents_Append.
  - apply contents_Clear.
Qed.

(** X2: the buffer is append-only.  Every block reserves room for
    [block_size_] elements before its first element and takes no more than
    [block_size_], so the array of a block is never reallocated: in a
    buffer built by the constructor and any calls of [Append], [Emplace] and
    [Clear], what a [T*] into the buffer points to is still there, unchanged,
    after any further calls of [Append] and [Emplace].  The elements
    themselves are those of the buffer without its arrays.  It is the
    reserve that gives this: a [push_back] on a vector that is full moves
    the elements to another array, and a pointer into the old one
    dangles. *)
Theorem pointers_stay_valid (block_size : Z) (before after : list (op T))
    (p : address) (x : T) :
  Forall (fun o => o <> OpClear) after ->
  read (run (new block_size) before) p = Some x ->
  read (run (new block_size) (before ++ after)) p = Some x /\
  contents (run (new block_size) (before ++ after))
    = AppendOnlyBuffer.run (AppendOnlyBuffer.new block_size)
        (before ++ after) /\
  (forall (value : T) (v : Vector) (n a : nat),
     storage v = Some a -> (a < n)%nat ->
     capacity v <= Z.of_nat (length (data v)) ->
     storage (push_back value v n).1 <> Some a /\
     read {| block_size_ := block_size; size_ := 0;
             block_list_ := [(push_back value v n).1];
             last_block_ := 0%nat; allocations := (push_back value v n).2 |}
          (a, 0%nat) = None).
Proof.
  intros Hafter Hread. split_and!.
  - unfold run. rewrite foldl_app. fold (run (new block_size) before).
    apply read_run; [exact Hafter | | exact Hread].
    apply roomy_run, roomy_new.
  - rewrite contents_run, contents_new. reflexivity.
  - intros value v n a Ha Hlt Hfull.
    pose proof (push_back_moves value v n a Ha Hlt Hfull) as Hmoved.
    split; [exact Hmoved |].
    unfold read. cbn [block_at block_list_ fst].
    destruct (decide _); [contradiction | reflexivity].
Qed.

End WithElement.

(** A vector that reserves exactly what is asked for and doubles when
    full. *)
Definition sample_reserved (n : Z) : Z := n.
Definition sample_grown (c : Z) : Z := Z.max 1 (2 * c).

(** The element appended first is still where it was after two more. *)
Lemma pointers_stay_valid_witness :
  read (run sample_reserved sample_grown (new sample_reserved 0)
          [OpAppend 7%nat; OpEmplace 8%nat; OpAppend 9%nat])
       (0%nat, 0%nat) = Some 7%nat.
Proof.
  apply (proj1 (pointers_stay_valid sample_reserved sample_grown
                  (fun n => Z.le_refl n) 0
                  [OpAppend 7%nat] [OpEmplace 8%nat; OpAppend 9%nat]
                  (0%nat, 0%nat) 7%nat
                  ltac:(repeat constructor; discriminate) eq_refl)).
Defined.

End AppendOnlyBufferStorage.

(** ** The CUPTI tracer: further properties of the event conversion and of
       the per-thread callback buffers (cupti_tracer.cc) *)

Module TracerFacts.
Import Cupti.

(** The arguments of one call of [CallbackAnnotationsAndEvents::Add], and
    the thread whose object receives it. *)
Record AddCall : Type := {
  add_thread : Z;
  add_device_id : Z;
  add_correlation_id : Z;
  add_annotation : string;
  add_nvtx_range : string;
}.

Section Tracer.
Context {constants : VendorConstants}.
Context {buffer_pool : BufferPool}.
Variable cupti_interface_ : CuptiInterface.
Variable GetCuptiInterface : CuptiInterface.
Variable event0 : CuptiTracerEvent.

(** The [start] member of a record of one of the four kinds whose end time
    the conversion corrects. *)
Definition corrected_start (record : CUpti_Activity) : option Z :=
  match record with
  | ActivityUnifiedMemoryCounter r => Some (um_start r)
  | ActivityMemory r => Some (memory_start r)
  | ActivityMemset r => Some (memset_start r)
  | ActivitySynchronization r => Some (sync_start r)
  | _ => None
  end.

(** The per-thread objects, by thread; a thread that has not touched its
    [thread_local] yet has none, and gets a fresh one when it does. *)
Definition object_of (thread : Z)
    (objects : gmap Z CallbackAnnotationsAndEvents)
  : CallbackAnnotationsAndEvents :=
  default CallbackAnnotationsAndEvents_new (objects !! thread).

(** A sequence of [Add] calls, each on the object of its thread: the results
    in order, the static members and the objects afterwards. *)
Fixpoint add_all (calls : list AddCall) (st : Statics)
    (objects : gmap Z CallbackAnnotationsAndEvents)
  : list bool * Statics * gmap Z CallbackAnnotationsAndEvents :=
  match calls with
  | [] => ([], st, objects)
  | c :: rest =>
      let '(appended, st1, d1) :=
        Add event0 (add_device_id c) (add_correlation_id c)
            (add_annotation c) (add_nvtx_range c) st
            (object_of (add_thread c) objects) in
      let '(results, st2, objects2) :=
        add_all rest st1 (<[add_thread c := d1]> objects) in
      (appended :: results, st2, objects2)
  end.

(** The strings of a buffered event are views into the two string sets of
    its object. *)
Definition views_ok (d : CallbackAnnotationsAndEvents) : Prop :=
  Forall (fun e =>
            (ewa_annotation e = "" \/ ewa_annotation e ∈ annotations d) /\
            (ewa_nvtx_range e = "" \/ ewa_nvtx_range e ∈ nvtx_ranges d))
         (buffered_events d).

(** The annotation set respects the cap [limit], where 0 is no cap. *)
Definition capped (limit : Z) (d : CallbackAnnotationsAndEvents) : Prop :=
  0 < limit -> Z.of_nat (base.size (annotations d)) <= limit.

(** *** Event conversion *)

(** X3: an event converted from a unified-memory, memory, memset or
    synchronization record starts at the record's start and ends strictly
    later, whatever end time the record carries (a start of [2^64 - 1],
    whose successor wraps, apart). *)
Theorem corrected_events_have_duration (collector : CuptiTraceCollector)
    (record : CUpti_Activity) (start : Z) (event : CuptiTracerEvent) :
  corrected_start record = Some start ->
  0 <= start < size_t_modulus - 1 ->
  convert_record event0 collector record = Some event ->
  start_time_ns event = start /\ start_time_ns event < end_time_ns event.
Proof.
  intros Hstart Hrange Hconv.
  assert (Hnext : to_size_t (start + 1) = start + 1)
    by (apply to_size_t_small; lia).
  destruct record; simpl in Hstart; try discriminate;
    injection Hstart as Hstart; simpl in Hconv;
    injection Hconv as <-; simpl; unfold end_after_start;
    rewrite Hstart, ?Hnext; (split; [reflexivity|]); try lia.
  destruct (um_counterKind r); try lia;
    destruct (Z.leb_spec (um_end r) start); lia.
Qed.

(** *** The per-thread annotation strings *)

Lemma Forall_concat_alter_snoc {A : Type} (P : A -> Prop)
    (blocks : list (list A)) (i : nat) (e : A) :
  Forall P (concat blocks) -> P e ->
  Forall P (concat (alter (fun blk => blk ++ [e]) i blocks)).
Proof.
  rewrite !Forall_concat. intros Hall He.
  apply Forall_alter; [exact Hall|].
  intros blk _ Hblk. apply Forall_app. split; [exact Hblk|].
  constructor; [exact He | constructor].
Qed.

Lemma Forall_buffered_Emplace (P : EventWithAnnotation -> Prop)
    (e : EventWithAnnotation)
    (b : AppendOnlyBuffer.t EventWithAnnotation) :
  Forall P (concat (AppendOnlyBuffer.GetBlocks b)) -> P e ->
  Forall P (concat (AppendOnlyBuffer.GetBlocks (AppendOnlyBuffer.Emplace e b))).
Proof.
  intros Hall He. unfold AppendOnlyBuffer.Emplace, AppendOnlyBuffer.GetBlocks.
  destruct (_ <=? _); simpl; apply Forall_concat_alter_snoc; auto.
  rewrite concat_app. simpl. rewrite app_nil_r. exact Hall.
Qed.

Lemma size_insert_le (x : string) (X : gset string) :
  (base.size ({[ x ]} ∪ X) <= S (base.size X))%nat.
Proof.
  rewrite size_union_alt, size_singleton.
  assert (Hsub : X ∖ {[ x ]} ⊆ X) by apply subseteq_difference_l, reflexivity.
  apply subseteq_size in Hsub. lia.
Qed.

(** One [Add] keeps the string views valid and the annotation set within
    the cap. *)
Lemma Add_keeps_strings device_id correlation_id annotation nvtx_range st d :
  views_ok d -> capped (s_max_annotation_strings st) d ->
  let '(_, st', d') :=
    Add event0 device_id correlation_id annotation nvtx_range st d in
  s_max_annotation_strings st' = s_max_annotation_strings st /\
  views_ok d' /\ capped (s_max_annotation_strings st) d'.
Proof.
  intros Hviews Hcap. unfold Add.
  destruct (_ || _); [|split_and!; [reflexivity | exact Hviews | exact Hcap]].
  split; [reflexivity|].
  set (too_many := (0 <? s_max_annotation_strings st) &&
                   (s_max_annotation_strings st <=?
                    Z.of_nat (base.size (annotations d)))).
  split.
  - unfold views_ok, buffered_events. cbn [event_annotation_buffer
      annotations nvtx_ranges].
    apply Forall_buffered_Emplace.
    + eapply Forall_impl; [exact Hviews|].
      intros e [[Ha|Ha] [Hn|Hn]]; split;
        try (left; assumption); right;
        destruct (negb _); set_solver.
    + cbn [ewa_annotation ewa_nvtx_range]. split.
      * destruct (negb (too_many || bool_decide (annotation = "")));
          [right; set_solver | left; reflexivity].
      * destruct (negb (too_many || bool_decide (nvtx_range = "")));
          [right; set_solver | left; reflexivity].
  - unfold capped. cbn [annotations]. intros Hpos.
    destruct (negb (too_many || bool_decide (annotation = ""))) eqn:Hkeep;
      [|exact (Hcap Hpos)].
    apply negb_true_iff, orb_false_iff in Hkeep as [Hmany _].
    unfold too_many in Hmany. apply andb_false_iff in Hmany as [Hm|Hm].
    + apply Z.ltb_ge in Hm. lia.
    + apply Z.leb_gt in Hm.
      pose proof (size_insert_le annotation (annotations d)). lia.
Qed.

Lemma views_ok_new : views_ok CallbackAnnotationsAndEvents_new.
Proof. unfold views_ok, buffered_events. simpl. constructor. Qed.

Lemma capped_new limit : capped limit CallbackAnnotationsAndEvents_new.
Proof.
  unfold capped, CallbackAnnotationsAndEvents_new. cbn [annotations].
  rewrite size_empty. lia.
Qed.

Lemma add_all_keeps_strings calls : forall st objects,
  (forall thread d, objects !! thread = Some d ->
                    views_ok d /\ capped (s_max_annotation_strings st) d) ->
  forall thread d,
    (add_all calls st objects).2 !! thread = Some d ->
    views_ok d /\ capped (s_max_annotation_strings st) d.
Proof.
  induction calls as [|c rest IH]; intros st objects Hinv thread d;
    [apply Hinv|].
  cbn [add_all].
  assert (Hobj : views_ok (object_of (add_thread c) objects) /\
                 capped (s_max_annotation_strings st)
                        (object_of (add_thread c) objects)).
  { unfold object_of. destruct (objects !! add_thread c) eqn:E; simpl.
    - apply (Hinv _ _ E).
    - split; [apply views_ok_new | apply capped_new]. }
  destruct Hobj as [Hv Hc].
  pose proof (Add_keeps_strings (add_device_id c) (add_correlation_id c)
                (add_annotation c) (add_nvtx_range c) st _ Hv Hc) as Hadd.
  destruct (Add _ _ _ _ _ _ _) as [[appended st1] d1].
  destruct Hadd as (Hmax & Hv1 & Hc1).
  specialize (IH st1 (<[add_thread c := d1]> objects)).
  destruct (add_all rest st1 _) as [[results st2] objects2]. simpl in *.
  rewrite Hmax in IH. apply IH.
  intros thread' d' Hlook.
  destruct (decide (thread' = add_thread c)) as [->|Hne].
  - rewrite lookup_insert_eq in Hlook. injection Hlook as <-. auto.
  - rewrite lookup_insert_ne in Hlook by congruence. apply (Hinv _ _ Hlook).
Qed.

(** X4: after any sequence of [Add] calls on fresh per-thread objects,
    every object holds at most [s_max_annotation_strings] annotation strings
    (when that cap is not 0), and the annotation and the NVTX range of every
    buffered event are empty or members of the object's string sets, so the
    string views stored with the events stay valid. *)
Theorem annotation_strings_capped (calls : list AddCall) (st : Statics)
    (thread : Z) (d : CallbackAnnotationsAndEvents) :
  (add_all calls st ∅).2 !! thread = Some d ->
  (0 < s_max_annotation_strings st ->
   Z.of_nat (base.size (annotations d)) <= s_max_annotation_strings st) /\
  Forall (fun e =>
            (ewa_annotation e = "" \/ ewa_annotation e ∈ annotations d) /\
            (ewa_nvtx_range e = "" \/ ewa_nvtx_range e ∈ nvtx_ranges d))
         (buffered_events d).
Proof.
  intros Hlook.
  destruct (add_all_keeps_strings calls st ∅) with (thread := thread) (d := d)
    as [Hv Hc]; [|exact Hlook|split; [exact Hc | exact Hv]].
  intros thread' d' Habs. rewrite lookup_empty in Habs. discriminate.
Qed.

(** *** The cap on callback events *)

Lemma add_all_at_cap calls : forall st objects,
  0 < s_max_callback_api_events st ->
  s_max_callback_api_events st <= s_callback_api_event_count st ->
  (add_all calls st objects).1.1 = replicate (length calls) false /\
  (add_all calls st objects).1.2 = st.
Proof.
  induction calls as [|c rest IH]; intros st objects Hpos Hfull;
    [split; reflexivity|].
  cbn [add_all]. unfold Add.
  destruct (Z.eqb_spec (s_max_callback_api_events st) 0) as [Hz|_]; [lia|].
  destruct (Z.ltb_spec (s_callback_api_event_count st)
                       (s_max_callback_api_events st)) as [Hlt|_]; [lia|].
  cbn [orb].
  match goal with
  | |- context [add_all rest st ?objs] =>
      destruct (IH st objs Hpos Hfull) as [Hres Hst];
      destruct (add_all rest st objs) as [[results st2] objects2]
  end.
  simpl in *. subst. split; reflexivity.
Qed.

(** Calls that run one after another: of a sequence of [Add] calls, on
    whichever threads, each completed before the next starts, exactly the
    first [max - count] return true, where [count] is the number of events
    counted before; every later call returns false, and the counter ends at
    [count] plus the number of calls that returned true, within the cap. *)
Lemma serial_adds_capped (calls : list AddCall) (st : Statics)
    (objects : gmap Z CallbackAnnotationsAndEvents) :
  0 < s_max_callback_api_events st < size_t_modulus ->
  0 <= s_callback_api_event_count st <= s_max_callback_api_events st ->
  let room := s_max_callback_api_events st - s_callback_api_event_count st in
  let kept := Z.to_nat (Z.min (Z.of_nat (length calls)) room) in
  (add_all calls st objects).1.1 =
    replicate kept true ++ replicate (length calls - kept) false /\
  s_callback_api_event_count (add_all calls st objects).1.2 =
    s_callback_api_event_count st + Z.of_nat kept /\
  s_callback_api_event_count (add_all calls st objects).1.2 <=
    s_max_callback_api_events st.
Proof.
  revert st objects.
  induction calls as [|c rest IH]; intros st objects Hmax Hcount room kept.
  { subst kept room. simpl. rewrite Z.min_l by lia. simpl.
    split_and!; [reflexivity | lia | lia]. }
  destruct (Z.ltb_spec (s_callback_api_event_count st)
                       (s_max_callback_api_events st)) as [Hlt|Hge].
  - (* below the cap: this call is counted *)
    cbn [add_all]. unfold Add.
    destruct (Z.ltb_spec (s_callback_api_event_count st)
                         (s_max_callback_api_events st)) as [_|?]; [|lia].
    rewrite orb_true_r.
    match goal with
    | |- context [add_all rest ?st1 ?objs] =>
        specialize (IH st1 objs); set (r := add_all rest st1 objs) in *
    end.
    cbn [s_max_callback_api_events s_callback_api_event_count] in IH.
    rewrite to_size_t_small in IH by lia.
    destruct IH as (Hres & Hcnt & Hle); [lia | lia |].
    destruct r as [[results st2] objects2]. simpl in Hres, Hcnt, Hle.
    subst kept room. cbn [fst snd length].
    assert (Hk : Z.to_nat (Z.min (Z.of_nat (S (length rest)))
                   (s_max_callback_api_events st -
                    s_callback_api_event_count st)) =
                 S (Z.to_nat (Z.min (Z.of_nat (length rest))
                      (s_max_callback_api_events st -
                       (s_callback_api_event_count st + 1))))) by lia.
    rewrite Hk. cbn [replicate app Nat.sub].
    split_and!; [rewrite Hres; reflexivity | lia | lia].
  - (* at the cap: this call and all later ones are dropped *)
    destruct (add_all_at_cap (c :: rest) st objects) as [Hres Hst];
      [lia | lia |].
    rewrite Hres, Hst. subst kept room.
    rewrite Z.min_r by lia.
    replace (Z.to_nat (s_max_callback_api_events st -
                       s_callback_api_event_count st)) with 0%nat by lia.
    simpl. split_and!; [reflexivity | lia | lia].
Qed.

(** *** Gathering the per-thread objects *)

Lemma buffered_events_moved_from d :
  buffered_events (CallbackAnnotationsAndEvents_move d).2 = [].
Proof. reflexivity. Qed.

Lemma recorded_moved_from (active : list (Z * CallbackAnnotationsAndEvents)) :
  concat (map buffered_events
            (map snd
               (zip_with (fun e m => (e.1, m.2)) active
                  (map (fun e => CallbackAnnotationsAndEvents_move e.2)
                       active)))) = [] /\
  map fst (zip_with (fun e m => (e.1, m.2)) active
             (map (fun e => CallbackAnnotationsAndEvents_move e.2) active))
  = map fst active.
Proof.
  induction active as [|e rest [IH1 IH2]]; [split; reflexivity|].
  simpl. rewrite IH1, IH2. split; reflexivity.
Qed.

(** X6: [CollectAll] moves every recorded event out: the objects it returns
    hold exactly the events recorded so far, those of the live threads
    first and then those of the threads that have exited; afterwards the
    live threads are still registered, their objects and the list of
    deactivated objects hold no event, and the counters of dropped events
    of the live threads are back to 0. *)
Theorem CollectAll_drains (s : State) :
  concat (map buffered_events (CollectAll s).1) = recorded_events s /\
  recorded_events (CollectAll s).2 = [] /\
  map fst (active_set_ (CollectAll s).2) = map fst (active_set_ s) /\
  deactived_list_ (CollectAll s).2 = [] /\
  Forall (fun e => num_dropped_events e.2 = 0) (active_set_ (CollectAll s).2).
Proof.
  split_and!.
  - unfold recorded_events. rewrite CollectAll_events. reflexivity.
  - unfold recorded_events, recorded, CollectAll. simpl.
    rewrite app_nil_r. apply recorded_moved_from.
  - unfold CollectAll. simpl. apply recorded_moved_from.
  - reflexivity.
  - unfold CollectAll. simpl.
    induction (active_set_ s) as [|e rest IH]; simpl; constructor; auto.
Qed.

(** X7: no event is lost when a thread exits: after [Deactivate] for a
    thread, the objects that gathering will visit are those it would have
    visited before, in another order, so [CollectAll] returns the same
    events. *)
Theorem Deactivate_keeps_events (thread : Z) (s : State) :
  recorded (Deactivate thread s) ≡ₚ recorded s /\
  concat (map buffered_events (CollectAll (Deactivate thread s)).1)
  ≡ₚ concat (map buffered_events (CollectAll s).1).
Proof.
  assert (Hrec : recorded (Deactivate thread s) ≡ₚ recorded s).
  { unfold recorded, Deactivate.
    destruct (list_find _ _) as [[i [t d]]|] eqn:Hfind; [|reflexivity].
    apply list_find_Some in Hfind as (Hi & _ & _). simpl.
    rewrite (delete_Permutation (active_set_ s) i (t, d) Hi) at 2.
    simpl. rewrite app_assoc.
    rewrite (Permutation_app_comm _ [d]). reflexivity. }
  split; [exact Hrec|].
  rewrite !CollectAll_events. rewrite Hrec. reflexivity.
Qed.

(** *** The number of cached activity buffers *)

(** What is left of the budget of activity events. *)
Definition room (limit : Z) (s : State) : Z :=
  Z.max 0 (limit - estimated_num_activity_events_ s).



(** *** The tracer after [Disable] *)

(** X9: once [Disable] has returned, a callback of whatever domain, site and
    id is ignored: [HandleCallback] returns OK and leaves the tracer, the
    per-thread buffers and the static counters as they are; the hook and
    the collector are reset. *)
Theorem callbacks_ignored_after_Disable (s s' : State)
    (thread internalCuCall : Z) (annotation current_range : string)
    (domain : CUpti_CallbackDomain) (cbid : Z) (cbdata : CUpti_CallbackData) :
  Disable cupti_interface_ GetCuptiInterface event0 s = Some s' ->
  cupti_driver_api_hook_ s' = None /\
  collector_ s' = None /\
  HandleCallback cupti_interface_ event0 thread internalCuCall annotation
    current_range domain cbid cbdata s' = Some (OkStatus, s').
Proof.
  unfold Disable. intros Hrun.
  repeat match type of Hrun with
  | (match ?x with Some _ => _ | None => _ end) = Some _ =>
      destruct x; [|discriminate]
  | mbind _ ?x = Some _ => destruct x; simpl in Hrun; [|discriminate]
  end.
  injection Hrun as <-.
  split; [reflexivity|]. split; [reflexivity|].
  unfold HandleCallback. simpl. destruct (negb _); reflexivity.
Qed.

End Tracer.

(** *** The theorems at the concrete setting of [Cupti.Sample] *)

Definition sample_statics (limit strings : Z) : Statics :=
  {| s_callback_api_event_count := 0;
     s_max_annotation_strings := strings;
     s_max_callback_api_events := limit |}.

(** Three callbacks, two on thread 11 and one on thread 12. *)
Definition sample_calls : list AddCall :=
  [{| add_thread := 11; add_device_id := 0; add_correlation_id := 5;
      add_annotation := "train_step"; add_nvtx_range := "range" |};
   {| add_thread := 12; add_device_id := 0; add_correlation_id := 6;
      add_annotation := "eval_step"; add_nvtx_range := "" |};
   {| add_thread := 11; add_device_id := 0; add_correlation_id := 7;
      add_annotation := "input"; add_nvtx_range := "range" |}].

Lemma corrected_events_have_duration_witness :
  exists event,
    convert_record (constants := Sample.constants) Sample.event0
      (Sample.collector ∅) Sample.memset_record = Some event /\
    start_time_ns event = 30 /\ start_time_ns event < end_time_ns event.
Proof.
  eexists. split; [reflexivity|].
  apply (corrected_events_have_duration (constants := Sample.constants)
           Sample.event0 (Sample.collector ∅) Sample.memset_record 30).
  - reflexivity.
  - unfold size_t_modulus. lia.
  - reflexivity.
Defined.

(** With a cap of one annotation string, thread 11 keeps one string after
    two annotated callbacks. *)
Lemma annotation_strings_capped_witness :
  exists d,
    (add_all Sample.event0 sample_calls (sample_statics 0 1) ∅).2 !! 11
      = Some d /\
    Z.of_nat (base.size (annotations d)) <= 1.
Proof.
  assert (H : exists d,
            (add_all Sample.event0 sample_calls (sample_statics 0 1) ∅).2
              !! 11 = Some d)
    by (eexists; vm_compute; reflexivity).
  destruct H as [d H]. exists d. split; [exact H|].
  apply (annotation_strings_capped Sample.event0 sample_calls
           (sample_statics 0 1) 11 d H).
  reflexivity.
Defined.

#[local] Existing Instance Sample.constants.
#[local] Existing Instance Sample.buffer_pool.



Lemma callbacks_ignored_after_Disable_witness :
  exists s',
    Disable (Sample.cupti false) (Sample.cupti false) Sample.event0
      (Sample.state 1 [(11, Sample.annotated_thread)]) = Some s' /\
    HandleCallback (Sample.cupti false) Sample.event0 11 0 "train_step"
      "range" CUPTI_CB_DOMAIN_DRIVER_API 100 Sample.exit_callback s'
    = Some (OkStatus, s').
Proof.
  assert (H : exists s',
            Disable (Sample.cupti false) (Sample.cupti false) Sample.event0
              (Sample.state 1 [(11, Sample.annotated_thread)]) = Some s')
    by (eexists; vm_compute; reflexivity).
  destruct H as [s' H]. exists s'. split; [exact H|].
  apply (callbacks_ignored_after_Disable (Sample.cupti false)
           (Sample.cupti false) Sample.event0 _ s' 11 0 "train_step" "range"
           CUPTI_CB_DOMAIN_DRIVER_API 100 Sample.exit_callback H).
Defined.

End TracerFacts.

(** ** The cap on callback events when [Add] runs on several threads
       (cupti_tracer.cc) *)

Module ConcurrentAdd.
Import Cupti.
Import TracerFacts.

(** [Add] reads and writes the shared counter in two separate atomic
    accesses, the comparison of lines 1184-1185 and the increment of line
    1186, and takes no lock: between the two, other threads may run. *)

(** What is shared between the threads, and the calls that are between
    their test and their increment, by thread. *)
Record Shared : Type := {
  shared_statics : Statics;
  shared_objects : gmap Z CallbackAnnotationsAndEvents;
  inside : gmap Z AddCall;
}.

(** One atomic step of one thread: the test, which for a call that is
    dropped is followed by the rest of [Add] on the thread's own object, or
    the increment, followed by the rest of [Add] on the thread's own
    object. *)
Inductive Step : Type :=
| Test (c : AddCall)
| Increment (thread : Z).

Definition thread_of (x : Step) : Z :=
  match x with
  | Test c => add_thread c
  | Increment thread => thread
  end.

Section Steps.
Variable event0 : CuptiTracerEvent.

(** The condition of the [if]. *)
Definition Add_test (st : Statics) : bool :=
  (s_max_callback_api_events st =? 0) ||
  (s_callback_api_event_count st <? s_max_callback_api_events st).

(** [s_callback_api_event_count++] *)
Definition Add_increment (st : Statics) : Statics :=
  {| s_callback_api_event_count :=
       to_size_t (s_callback_api_event_count st + 1);
     s_max_annotation_strings := s_max_annotation_strings st;
     s_max_callback_api_events := s_max_callback_api_events st |}.

(** The rest of the branch taken when the test passed. *)
Definition Add_emplace (correlation_id : Z) (annotation nvtx_range : string)
    (st : Statics) (d : CallbackAnnotationsAndEvents)
  : CallbackAnnotationsAndEvents :=
  let too_many_annotations :=
    (0 <? s_max_annotation_strings st) &&
    (s_max_annotation_strings st <=? Z.of_nat (base.size (annotations d))) in
  let keep_annotation :=
    negb (too_many_annotations || bool_decide (annotation = "")) in
  let keep_nvtx_range :=
    negb (too_many_annotations || bool_decide (nvtx_range = "")) in
  {| annotations :=
       if keep_annotation then {[ annotation ]} ∪ annotations d
       else annotations d;
     nvtx_ranges :=
       if keep_nvtx_range then {[ nvtx_range ]} ∪ nvtx_ranges d
       else nvtx_ranges d;
     event_annotation_buffer :=
       AppendOnlyBuffer.Emplace
         {| ewa_correlation_id := correlation_id;
            ewa_annotation := if keep_annotation then annotation else "";
            ewa_nvtx_range := if keep_nvtx_range then nvtx_range else "";
            ewa_event := event0 |}
         (event_annotation_buffer d);
     num_dropped_events := num_dropped_events d |}.

(** The branch taken when the test failed. *)
Definition Add_drop (d : CallbackAnnotationsAndEvents)
  : CallbackAnnotationsAndEvents :=
  {| annotations := annotations d;
     nvtx_ranges := nvtx_ranges d;
     event_annotation_buffer := event_annotation_buffer d;
     num_dropped_events := to_size_t (num_dropped_events d + 1) |}.

(** [Add] is the test followed at once by the branch it selects. *)
Lemma Add_in_steps device_id correlation_id annotation nvtx_range st d :
  Add event0 device_id correlation_id annotation nvtx_range st d =
  if Add_test st
  then (true, Add_increment st,
        Add_emplace correlation_id annotation nvtx_range st d)
  else (false, st, Add_drop d).
Proof. reflexivity. Qed.

(** One step: the state afterwards and, when the step ends a call, the
    thread and what its [Add] returns.  [None] when the thread cannot make
    the step: a thread runs one call at a time. *)
Definition step (x : Step) (σ : Shared)
  : option (Shared * option (Z * bool)) :=
  match x with
  | Test c =>
      match inside σ !! add_thread c with
      | Some _ => None
      | None =>
          if Add_test (shared_statics σ)
          then Some ({| shared_statics := shared_statics σ;
                        shared_objects := shared_objects σ;
                        inside := <[add_thread c := c]> (inside σ) |},
                     None)
          else Some ({| shared_statics := shared_statics σ;
                        shared_objects :=
                          <[add_thread c :=
                              Add_drop (object_of (add_thread c)
                                          (shared_objects σ))]>
                            (shared_objects σ);
                        inside := inside σ |},
                     Some (add_thread c, false))
      end
  | Increment thread =>
      match inside σ !! thread with
      | None => None
      | Some c =>
          Some ({| shared_statics := Add_increment (shared_statics σ);
                   shared_objects :=
                     <[thread :=
                         Add_emplace (add_correlation_id c)
                           (add_annotation c) (add_nvtx_range c)
                           (shared_statics σ)
                           (object_of thread (shared_objects σ))]>
                       (shared_objects σ);
                   inside := delete thread (inside σ) |},
                Some (thread, true))
      end
  end.

(** A schedule: the steps of all threads in the order they take effect. *)
Fixpoint interleave (steps : list Step) (σ : Shared)
  : option (Shared * list (Z * bool)) :=
  match steps with
  | [] => Some (σ, [])
  | x :: rest =>
      match step x σ with
      | None => None
      | Some (σ1, returned) =>
          match interleave rest σ1 with
          | None => None
          | Some (σ2, returns) =>
              Some (σ2, match returned with
                        | Some r => r :: returns
                        | None => returns
                        end)
          end
      end
  end.

Definition threads_of (steps : list Step) : gset Z :=
  list_to_set (map thread_of steps).

Definition count (σ : Shared) : Z :=
  s_callback_api_event_count (shared_statics σ).

Definition cap (σ : Shared) : Z :=
  s_max_callback_api_events (shared_statics σ).

(** The calls that returned true. *)
Definition added (returns : list (Z * bool)) : Z :=
  Z.of_nat (length (List.filter snd returns)).

(** The largest number of threads that a schedule has between test and
    increment at the same time. *)
Fixpoint overlap (steps : list Step) (σ : Shared) : nat :=
  match steps with
  | [] => base.size (inside σ)
  | x :: rest =>
      match step x σ with
      | None => base.size (inside σ)
      | Some (σ1, _) => Nat.max (base.size (inside σ)) (overlap rest σ1)
      end
  end.

(** One call whose increment follows its test at once. *)
Definition call (c : AddCall) (σ : Shared)
  : option (Shared * option (Z * bool)) :=
  match step (Test c) σ with
  | Some (σ1, None) => step (Increment (add_thread c)) σ1
  | r => r
  end.

(** Run without another thread in between, the two steps are [Add] on the
    object of the thread. *)
Lemma call_is_Add (c : AddCall) (σ : Shared) :
  inside σ !! add_thread c = None ->
  let '(appended, st, d) :=
    Add event0 (add_device_id c) (add_correlation_id c) (add_annotation c)
      (add_nvtx_range c) (shared_statics σ)
      (object_of (add_thread c) (shared_objects σ)) in
  call c σ =
  Some ({| shared_statics := st;
           shared_objects := <[add_thread c := d]> (shared_objects σ);
           inside := inside σ |},
        Some (add_thread c, appended)).
Proof.
  intros Hout. rewrite Add_in_steps. unfold call. cbn [step]. rewrite Hout.
  destruct (Add_test (shared_statics σ)); [| reflexivity].
  cbn [step inside shared_statics shared_objects].
  rewrite lookup_insert_eq. rewrite delete_insert_id by exact Hout.
  reflexivity.
Qed.

(** What a schedule keeps, where at most [k] threads are between test and
    increment at a time: counting the increments still to come, the counter
    exceeds the cap by less than [k]. *)
Definition bounded (k limit : Z) (σ : Shared) : Prop :=
  cap σ = limit /\ 0 <= count σ /\
  ((count σ <= limit /\ inside σ = ∅) \/
   count σ + Z.of_nat (base.size (inside σ)) <= limit - 1 + k).

Lemma step_bounded (k limit : Z) x σ σ1 returned :
  0 < limit -> limit + k < size_t_modulus ->
  Z.of_nat (base.size (inside σ1)) <= k ->
  bounded k limit σ ->
  step x σ = Some (σ1, returned) ->
  bounded k limit σ1 /\
  count σ1 = count σ + match returned with
                       | Some (_, true) => 1
                       | _ => 0
                       end.
Proof.
  intros Hpos Hwrap Hk (Hcap & Hcount & Hinv) Hstep.
  destruct x as [c|thread]; cbn [step] in Hstep.
  - destruct (inside σ !! add_thread c) eqn:Hlook; [discriminate |].
    destruct (Add_test (shared_statics σ)) eqn:Htest;
      injection Hstep as <- <-.
    + split; [| unfold count; simpl; lia].
      unfold bounded, cap, count in *. cbn [shared_statics inside] in *.
      split_and!; auto.
      right. unfold Add_test in Htest. rewrite Hcap in Htest.
      apply orb_true_iff in Htest as [Hz|Hlt].
      * apply Z.eqb_eq in Hz. lia.
      * apply Z.ltb_lt in Hlt. lia.
    + split; [| unfold count; simpl; lia].
      unfold bounded, cap, count in *. cbn [shared_statics inside].
      split_and!; auto.
  - destruct (inside σ !! thread) as [c|] eqn:Hlook; [| discriminate].
    injection Hstep as <- <-.
    assert (Hsize : base.size (inside σ)
                    = Datatypes.S (base.size (delete thread (inside σ)))).
    { rewrite <- (insert_delete_id (inside σ) thread c Hlook) at 1.
      rewrite map_size_insert_None by apply lookup_delete_eq. reflexivity. }
    assert (Hbound : count σ + Z.of_nat (base.size (inside σ))
                     <= limit - 1 + k).
    { destruct Hinv as [[_ Hempty]|Hinv]; [| exact Hinv].
      rewrite Hempty in Hlook. rewrite lookup_empty in Hlook. discriminate. }
    assert (Hnext : to_size_t (count σ + 1) = count σ + 1).
    { apply to_size_t_small. lia. }
    unfold bounded, cap, count in *.
    cbn [shared_statics inside Add_increment s_callback_api_event_count
           s_max_callback_api_events] in *.
    rewrite Hnext. split; [| lia].
    split_and!; auto; [lia |]. right. lia.
Qed.

Lemma overlap_start steps σ : (base.size (inside σ) <= overlap steps σ)%nat.
Proof.
  destruct steps as [|x rest]; cbn [overlap]; [lia |].
  destruct (step x σ) as [[σ1 returned]|]; lia.
Qed.

Lemma interleave_bounded (k limit : Z) steps : forall σ σ' returns,
  0 < limit -> limit + k < size_t_modulus ->
  Z.of_nat (overlap steps σ) <= k ->
  bounded k limit σ ->
  interleave steps σ = Some (σ', returns) ->
  bounded k limit σ' /\ count σ' = count σ + added returns.
Proof.
  induction steps as [|x rest IH]; intros σ σ' returns Hpos Hwrap Hk Hinv.
  - simpl. intros [= <- <-]. split; [exact Hinv |]. unfold added. simpl. lia.
  - cbn [interleave]. cbn [overlap] in Hk.
    destruct (step x σ) as [[σ1 returned]|] eqn:Hstep; [| discriminate].
    destruct (interleave rest σ1) as [[σ2 returns2]|] eqn:Hrest;
      [| discriminate].
    intros [= <- <-].
    pose proof (overlap_start rest σ1) as Hstart.
    destruct (step_bounded k limit x σ σ1 returned Hpos Hwrap
                ltac:(lia) Hinv Hstep) as [Hinv1 Hcount1].
    destruct (IH σ1 σ2 returns2 Hpos Hwrap ltac:(lia) Hinv1 Hrest)
      as [Hinv2 Hcount2].
    split; [exact Hinv2 |]. rewrite Hcount2, Hcount1.
    unfold added. destruct returned as [[t [|]]|]; simpl; lia.
Qed.

Lemma step_inside x σ σ1 returned :
  step x σ = Some (σ1, returned) ->
  dom (inside σ1) ⊆ dom (inside σ) ∪ {[ thread_of x ]}.
Proof.
  destruct x as [c|thread]; cbn [step thread_of].
  - destruct (inside σ !! add_thread c); [discriminate |].
    destruct (Add_test (shared_statics σ)); intros [= <- <-];
      cbn [inside]; [rewrite dom_insert_L |]; set_solver.
  - destruct (inside σ !! thread); [| discriminate].
    intros [= <- <-]. cbn [inside]. rewrite dom_delete_L. set_solver.
Qed.

(** No more threads overlap than take part. *)
Lemma overlap_threads steps : forall σ,
  (overlap steps σ <= base.size (dom (inside σ) ∪ threads_of steps))%nat.
Proof.
  induction steps as [|x rest IH]; intros σ.
  - cbn [overlap]. rewrite <- size_dom. apply subseteq_size. set_solver.
  - assert (Hhere : (base.size (inside σ) <=
                     base.size (dom (inside σ) ∪ threads_of (x :: rest)))%nat).
    { rewrite <- size_dom. apply subseteq_size. set_solver. }
    cbn [overlap].
    destruct (step x σ) as [[σ1 returned]|] eqn:Hstep; [| exact Hhere].
    apply Nat.max_lub; [exact Hhere |].
    etrans; [apply IH |]. apply subseteq_size.
    pose proof (step_inside x σ σ1 returned Hstep) as Hsub.
    unfold threads_of in *. cbn [map]. set_solver.
Qed.

Lemma interleave_app a : forall b σ,
  interleave (a ++ b) σ =
  match interleave a σ with
  | None => None
  | Some (σ1, r1) =>
      match interleave b σ1 with
      | None => None
      | Some (σ2, r2) => Some (σ2, r1 ++ r2)
      end
  end.
Proof.
  induction a as [|x rest IH]; intros b σ.
  - simpl. destruct (interleave b σ) as [[σ2 r2]|]; reflexivity.
  - cbn [app interleave].
    destruct (step x σ) as [[σ1 returned]|]; [| reflexivity].
    rewrite IH.
    destruct (interleave rest σ1) as [[σ2 r2]|]; [| reflexivity].
    destruct (interleave b σ2) as [[σ3 r3]|]; [| reflexivity].
    destruct returned; reflexivity.
Qed.

(** While the counter is below the cap, every thread that tests it
    passes. *)
Lemma tests_pass calls : forall σ,
  NoDup (map add_thread calls) ->
  (forall c, c ∈ calls -> inside σ !! add_thread c = None) ->
  Add_test (shared_statics σ) = true ->
  exists σ1,
    interleave (map Test calls) σ = Some (σ1, []) /\
    shared_statics σ1 = shared_statics σ /\
    dom (inside σ1) = dom (inside σ) ∪ list_to_set (map add_thread calls).
Proof.
  induction calls as [|c rest IH]; intros σ Hnodup Hout Htest.
  - exists σ. split_and!; [reflexivity | reflexivity |]. simpl. set_solver.
  - cbn [map] in Hnodup. apply NoDup_cons in Hnodup as [Hnew Hnodup].
    cbn [map interleave step].
    rewrite (Hout c) by (left). rewrite Htest.
    match goal with
    | |- context [interleave (map Test rest) ?σ1] =>
        destruct (IH σ1 Hnodup) as (σ2 & Hrun & Hst & Hdom)
    end.
    + intros c' Hin. cbn [inside].
      rewrite lookup_insert_ne.
      * apply Hout. right. exact Hin.
      * intros Heq. apply Hnew. rewrite Heq.
        apply list_elem_of_fmap. exists c'. split; [reflexivity | exact Hin].
    + exact Htest.
    + rewrite Hrun. exists σ2. split_and!; [reflexivity | exact Hst |].
      rewrite Hdom. cbn [inside]. rewrite dom_insert_L. simpl. set_solver.
Qed.

(** Every thread that passed the test increments the counter. *)
Lemma increments_run threads : forall σ,
  NoDup threads ->
  (forall thread, thread ∈ threads -> thread ∈ dom (inside σ)) ->
  0 <= count σ -> count σ + Z.of_nat (length threads) < size_t_modulus ->
  exists σ',
    interleave (map Increment threads) σ
      = Some (σ', map (fun thread => (thread, true)) threads) /\
    count σ' = count σ + Z.of_nat (length threads).
Proof.
  induction threads as [|thread rest IH]; intros σ Hnodup Hin Hcount Hwrap.
  - exists σ. split; [reflexivity | simpl; lia].
  - apply NoDup_cons in Hnodup as [Hnew Hnodup].
    cbn [map interleave step].
    destruct (inside σ !! thread) as [c|] eqn:Hlook.
    2: { specialize (Hin thread ltac:(left)).
         apply elem_of_dom in Hin as [c Hc]. congruence. }
    cbn [length] in Hwrap.
    match goal with
    | |- context [interleave (map Increment rest) ?σ1] =>
        destruct (IH σ1 Hnodup) as (σ2 & Hrun & Hcount2)
    end.
    + intros thread' Hin'. cbn [inside]. rewrite dom_delete_L.
      apply elem_of_difference. split; [apply Hin; right; exact Hin' |].
      intros Heq. apply elem_of_singleton in Heq. subst. contradiction.
    + unfold count. cbn [shared_statics Add_increment
                           s_callback_api_event_count].
      apply to_size_t_range.
    + unfold count in *. cbn [shared_statics Add_increment
                                s_callback_api_event_count].
      rewrite to_size_t_small by lia. lia.
    + rewrite Hrun. eexists. split; [reflexivity |].
      rewrite Hcount2. unfold count in *.
      cbn [shared_statics Add_increment s_callback_api_event_count length].
      rewrite to_size_t_small by lia. lia.
Qed.

(** X5: [Add] tests the shared counter and increments it in two separate
    accesses, so the cap [s_max_callback_api_events] (when not 0) bounds the
    counter only up to the threads that are between the two.  In every
    schedule of the tests and increments of [Add] calls, started at or below
    the cap with no call under way, the counter ends at its start plus the
    number of calls that returned true, and exceeds the cap by less than the
    largest number of calls that were between test and increment at the same
    time, which is at most the number of threads; calls that run one after
    another keep the counter within the cap.  The bound is reached: from one
    below the cap, any number of threads that all test before any of them
    increments all return true. *)
Theorem callback_events_cap_overshoot :
  (forall (steps : list Step) (σ σ' : Shared) (returns : list (Z * bool)),
     0 < cap σ -> 0 <= count σ <= cap σ -> inside σ = ∅ ->
     cap σ + Z.of_nat (overlap steps σ) < size_t_modulus ->
     interleave steps σ = Some (σ', returns) ->
     count σ' = count σ + added returns /\
     count σ' <= cap σ + Z.max 0 (Z.of_nat (overlap steps σ) - 1) /\
     (overlap steps σ <= base.size (threads_of steps))%nat) /\
  (forall (calls : list AddCall) (σ : Shared),
     NoDup (map add_thread calls) -> inside σ = ∅ ->
     0 < cap σ -> count σ = cap σ - 1 ->
     cap σ + Z.of_nat (length calls) < size_t_modulus ->
     exists σ',
       interleave (map Test calls ++ map Increment (map add_thread calls)) σ
         = Some (σ', map (fun c => (add_thread c, true)) calls) /\
       count σ' = cap σ - 1 + Z.of_nat (length calls)).
Proof.
  split.
  - intros steps σ σ' returns Hpos Hcount Hidle Hwrap Hrun.
    set (k := Z.of_nat (overlap steps σ)) in *.
    assert (Hstart : bounded k (cap σ) σ).
    { split_and!; [reflexivity | lia |]. left. split; [lia | exact Hidle]. }
    destruct (interleave_bounded k (cap σ) steps σ σ' returns Hpos
                ltac:(lia) ltac:(lia) Hstart Hrun)
      as [(Hcap & Hcount' & Hinv) Hadded].
    split; [exact Hadded |]. split.
    + destruct Hinv as [[Hle _]|Hle]; lia.
    + pose proof (overlap_threads steps σ) as Hthreads.
      rewrite Hidle, dom_empty_L, (left_id_L ∅ (∪)) in Hthreads.
      exact Hthreads.
  - intros calls σ Hnodup Hidle Hpos Hcount Hwrap.
    destruct (tests_pass calls σ Hnodup) as (σ1 & Hrun1 & Hst & Hdom).
    { intros c _. rewrite Hidle. apply lookup_empty. }
    { unfold Add_test. unfold cap, count in *.
      apply orb_true_iff. right. apply Z.ltb_lt. lia. }
    destruct (increments_run (map add_thread calls) σ1 Hnodup)
      as (σ2 & Hrun2 & Hcount2).
    { intros thread Hin. rewrite Hdom. set_solver. }
    { unfold count in *. rewrite Hst. unfold cap in *. lia. }
    { unfold count, cap in *. rewrite Hst, length_map. lia. }
    exists σ2. rewrite interleave_app, Hrun1, Hrun2. split.
    + simpl. rewrite map_map. reflexivity.
    + rewrite Hcount2, length_map. unfold count in *. rewrite Hst. lia.
Qed.

End Steps.

(** Counted events 1 below a cap of 2. *)
Definition sample_shared : Shared :=
  {| shared_statics := {| s_callback_api_event_count := 1;
                          s_max_annotation_strings := 1024;
                          s_max_callback_api_events := 2 |};
     shared_objects := ∅;
     inside := ∅ |}.

Definition sample_call (thread : Z) : AddCall :=
  {| add_thread := thread; add_device_id := 0; add_correlation_id := thread;
     add_annotation := "train_step"; add_nvtx_range := "" |}.

(** Threads 11 and 12 both test the counter before either increments it. *)
Definition sample_schedule : list Step :=
  [Test (sample_call 11); Test (sample_call 12); Increment 11; Increment 12].

(** Both calls return true and the counter ends at 3, above the cap of 2 by
    less than the two threads that overlapped. *)
Lemma callback_events_cap_overshoot_witness :
  exists σ',
    interleave Sample.event0 sample_schedule sample_shared
      = Some (σ', [(11, true); (12, true)]) /\
    count σ' = 3 /\
    count σ' <= 2 + Z.max 0 (2 - 1).
Proof.
  assert (H : exists σ',
            interleave Sample.event0 sample_schedule sample_shared
              = Some (σ', [(11, true); (12, true)]))
    by (eexists; vm_compute; reflexivity).
  destruct H as [σ' H]. exists σ'. split; [exact H |].
  destruct (proj1 (callback_events_cap_overshoot Sample.event0)
              sample_schedule sample_shared σ' _
              ltac:(vm_compute; reflexivity)
              ltac:(vm_compute; split; discriminate)
              eq_refl
              ltac:(vm_compute; reflexivity)
              H) as (Hcount & Hle & _).
  split; [exact Hcount | exact Hle].
Defined.

End ConcurrentAdd.

(** ** The MHLO exporter: helpers of the lowering (mlir_hlo_to_hlo.cc) *)

Module MhloHelpers.
Import MhloExport.

(** *** [IsBoundedOrStatic] *)

(** A [RankedTensorType] as [IsBoundedOrStatic] reads it: the dimension
    sizes, a dynamic one ([ShapedType::kDynamic]) being [None], and the
    bounds of its encoding when that is a [TypeExtensionsAttr], again with
    [None] for [kDynamic]. *)
Record BoundedTensorType : Type := {
  dim_sizes : list (option Z);
  encoding_bounds : option (list (option Z));
}.

(** An [mlir::Type]: a ranked tensor type, or a type that
    [dyn_cast_or_null<RankedTensorType>] maps to null. *)
Inductive Type_ : Type :=
| RankedTensor (t : BoundedTensorType)
| NotRankedTensor.

Definition hasStaticShape (t : BoundedTensorType) : bool :=
  forallb (fun d => bool_decide (is_Some d)) (dim_sizes t).

(** The loop over the dimensions from [dim] on; [None] when
    [getBounds()[dim]] is read out of range. *)
Fixpoint bounded_from (dim : nat) (dims : list (option Z))
    (bounds : list (option Z)) : option bool :=
  match dims with
  | [] => Some true
  | Some _ :: rest => bounded_from (S dim) rest bounds
  | None :: rest =>
      match bounds !! dim with
      | None => None
      | Some None => Some false
      | Some (Some _) => bounded_from (S dim) rest bounds
      end
  end.

Definition IsBoundedOrStatic (ty : Type_) : option bool :=
  match ty with
  | NotRankedTensor => Some false
  | RankedTensor ranked_ty =>
      if hasStaticShape ranked_ty then Some true else
      match encoding_bounds ranked_ty with
      | None | Some [] => Some false
      | Some bounds => bounded_from 0 (dim_sizes ranked_ty) bounds
      end
  end.

(** *** Shardings *)

(** [xla::OpSharding::Type]; [REPLICATED] is the value of a fresh proto. *)
Inductive OpShardingType : Type :=
| REPLICATED | MAXIMAL | TUPLE | OTHER | MANUAL | UNKNOWN.

Section Shardings.
(** The fields of an [xla::OpSharding] other than [type] and
    [tuple_shardings] (xla_data.proto is not among the sources), and their
    values in a fresh proto. *)
Variable Tiling : Type.
Variable no_tiling : Tiling.

#[warnings="-register-all"]
Inductive OpSharding : Type :=
| Sharding (type : OpShardingType) (tuple_shardings : list OpSharding)
    (tiling : Tiling).

Definition sharding_type (s : OpSharding) : OpShardingType :=
  match s with Sharding type _ _ => type end.

Definition sharding_tuple_shardings (s : OpSharding) : list OpSharding :=
  match s with Sharding _ tuple_shardings _ => tuple_shardings end.

Definition SomeOptionalShardingsAreSet (shardings : list (option OpSharding))
  : bool :=
  existsb (fun sharding => bool_decide (is_Some sharding)) shardings.

(** [fallback_sharding]: a fresh proto with its type set to
    [REPLICATED]. *)
Definition fallback_sharding : OpSharding := Sharding REPLICATED [] no_tiling.

Definition CreateTupleSharding (tuple_shardings : list (option OpSharding))
  : option OpSharding :=
  if bool_decide (tuple_shardings = []) ||
     negb (SomeOptionalShardingsAreSet tuple_shardings)
  then None
  else
    Some (Sharding TUPLE
            (map (fun tuple_sharding =>
                    match tuple_sharding with
                    | Some s => s
                    | None => fallback_sharding
                    end) tuple_shardings)
            no_tiling).

Definition GetResultShardings (op_sharding : option OpSharding)
  : list (option OpSharding) :=
  match op_sharding with
  | None => []
  | Some s =>
      match sharding_type s with
      | TUPLE => map Some (sharding_tuple_shardings s)
      | _ => [Some s]
      end
  end.

End Shardings.

(** *** Frontend attributes *)

(** An [mlir::Attribute], as far as the helpers below tell attributes
    apart. *)
#[warnings="-register-all"]
Inductive Attribute : Type :=
| UnitAttr
| IntegerAttr (value : Z)
| StringAttr (value : string)
| ArrayAttr (elements : list Attribute)
| DictionaryAttr (entries : list (string * Attribute))
| OtherAttr (n : Z).

(** [xla::FrontendAttributes]: its [map] field. *)
Abbreviation FrontendAttributes := (gmap string string).

(** [map->insert({key, value})] on a protobuf map: no effect when the key
    is present. *)
Definition map_insert (key value : string) (m : FrontendAttributes)
  : FrontendAttributes :=
  match m !! key with
  | Some _ => m
  | None => <[key := value]> m
  end.

Definition ConstructFrontendAttributesFromAttribute
    (frontend_attributes_dict : list (string * Attribute))
    (frontend_attributes : FrontendAttributes) : FrontendAttributes :=
  foldl (fun m attr =>
           match attr.2 with
           | StringAttr value_str => map_insert attr.1 value_str m
           | _ => m
           end)
        frontend_attributes frontend_attributes_dict.

Definition kFrontendAttributesAttr : string := "mhlo.frontend_attributes".

(** [op->getAttrOfType<DictionaryAttr>(name)] on the attribute dictionary
    of an operation. *)
Definition getDictionaryAttr (attrs : list (string * Attribute))
    (name : string) : option (list (string * Attribute)) :=
  match list_find (fun a => a.1 = name) attrs with
  | Some (_, (_, DictionaryAttr entries)) => Some entries
  | _ => None
  end.

Definition CreateXlaFrontendAttributesFromOp
    (op_attrs : list (string * Attribute)) : FrontendAttributes :=
  match getDictionaryAttr op_attrs kFrontendAttributesAttr with
  | None => ∅
  | Some frontend_attributes_dict =>
      ConstructFrontendAttributesFromAttribute frontend_attributes_dict ∅
  end.

(** *** Properties *)

Lemma hasStaticShape_Forall (t : BoundedTensorType) :
  hasStaticShape t = true <-> Forall is_Some (dim_sizes t).
Proof.
  unfold hasStaticShape. induction (dim_sizes t) as [|d rest IH]; simpl.
  - split; [constructor | reflexivity].
  - rewrite andb_true_iff, IH, bool_decide_eq_true, Forall_cons. reflexivity.
Qed.

Lemma bounded_from_true (dims bounds : list (option Z)) : forall dim,
  bounded_from dim dims bounds = Some true <->
  forall i, dims !! i = Some None ->
            exists b, bounds !! (dim + i)%nat = Some (Some b).
Proof.
  induction dims as [|d rest IH]; intros dim; simpl.
  - split; [intros _ i Hi; discriminate | reflexivity].
  - assert (Hrest :
      (forall i, rest !! i = Some None ->
                 exists b, bounds !! (S dim + i)%nat = Some (Some b)) <->
      (forall i, (d :: rest) !! S i = Some None ->
                 exists b, bounds !! (dim + S i)%nat = Some (Some b))).
    { split; intros H i Hi; specialize (H i Hi);
        replace (dim + S i)%nat with (S dim + i)%nat in * by lia; exact H. }
    destruct d as [n|].
    + rewrite IH, Hrest. split.
      * intros H [|i] Hi; [discriminate | apply H; exact Hi].
      * intros H i Hi. apply H. exact Hi.
    + destruct (bounds !! dim) as [[b|]|] eqn:Hb.
      * rewrite IH, Hrest. split.
        -- intros H [|i] Hi; [|apply H; exact Hi].
           rewrite Nat.add_0_r, Hb. eauto.
        -- intros H i Hi. apply H. exact Hi.
      * split; [discriminate|]. intros H.
        destruct (H 0%nat eq_refl) as [b Hb'].
        rewrite Nat.add_0_r, Hb in Hb'. discriminate.
      * split; [discriminate|]. intros H.
        destruct (H 0%nat eq_refl) as [b Hb'].
        rewrite Nat.add_0_r, Hb in Hb'. discriminate.
Qed.

(** X10: [IsBoundedOrStatic] answers true exactly for a ranked tensor type
    that either has no dynamic dimension, or has an encoding with a
    non-empty list of bounds that gives a bound to every dynamic
    dimension; a type that is not a ranked tensor is never bounded or
    static. *)
Theorem IsBoundedOrStatic_true_iff (ty : Type_) :
  IsBoundedOrStatic ty = Some true <->
  exists t, ty = RankedTensor t /\
    (Forall is_Some (dim_sizes t) \/
     exists bounds,
       encoding_bounds t = Some bounds /\ bounds <> [] /\
       forall dim, dim_sizes t !! dim = Some None ->
                   exists b, bounds !! dim = Some (Some b)).
Proof.
  destruct ty as [t|]; simpl.
  2:{ split; [discriminate | intros (t & Habs & _); discriminate]. }
  destruct (hasStaticShape t) eqn:Hstatic.
  - apply hasStaticShape_Forall in Hstatic. split; [|reflexivity].
    intros _. exists t. auto.
  - assert (Hdyn : ~ Forall is_Some (dim_sizes t)).
    { rewrite <- hasStaticShape_Forall, Hstatic. discriminate. }
    destruct (encoding_bounds t) as [[|b0 bounds]|] eqn:Henc.
    + split; [discriminate|].
      intros (t' & [= <-] & [Hs|(bounds & Hb & Hne & _)]); [contradiction|].
      rewrite Henc in Hb. injection Hb as <-. contradiction.
    + rewrite bounded_from_true. split.
      * intros H. exists t. split; [reflexivity|]. right.
        exists (b0 :: bounds). split_and!; [exact Henc | discriminate | exact H].
      * intros (t' & [= <-] & [Hs|(bounds' & Hb' & _ & H)]);
          [contradiction|].
        rewrite Henc in Hb'. injection Hb' as <-. exact H.
    + split; [discriminate|].
      intros (t' & [= <-] & [Hs|(bounds & Hb & _)]);
        [contradiction | rewrite Henc in Hb; discriminate].
Qed.

Section ShardingFacts.
Variable Tiling : Type.
Variable no_tiling : Tiling.

Lemma SomeOptionalShardingsAreSet_false
    (shardings : list (option (OpSharding Tiling))) :
  SomeOptionalShardingsAreSet Tiling shardings = false <->
  Forall (fun s => s = None) shardings.
Proof.
  unfold SomeOptionalShardingsAreSet.
  induction shardings as [|s rest IH]; simpl.
  - split; [constructor | reflexivity].
  - rewrite orb_false_iff, IH, bool_decide_eq_false, Forall_cons.
    rewrite <- eq_None_not_Some. reflexivity.
Qed.

(** X11: [CreateTupleSharding] yields no sharding exactly when no sharding
    of the list is set (an empty list included).  Otherwise it yields a
    sharding of type [TUPLE], and [GetResultShardings] flattens that
    sharding back into a list of the same length whose entry at each index
    is the sharding that was set there, or a [REPLICATED] sharding where
    none was set. *)
Theorem tuple_sharding_round_trip
    (shardings : list (option (OpSharding Tiling))) :
  (CreateTupleSharding Tiling no_tiling shardings = None <->
   Forall (fun s => s = None) shardings) /\
  (forall tuple,
     CreateTupleSharding Tiling no_tiling shardings = Some tuple ->
     sharding_type Tiling tuple = TUPLE /\
     length (GetResultShardings Tiling (Some tuple)) = length shardings /\
     forall i,
       GetResultShardings Tiling (Some tuple) !! i =
       (fun s => Some (default (fallback_sharding Tiling no_tiling) s))
         <$> shardings !! i).
Proof.
  unfold CreateTupleSharding.
  destruct (SomeOptionalShardingsAreSet Tiling shardings) eqn:Hset.
  - assert (Hne : shardings <> []) by (intros ->; discriminate).
    rewrite bool_decide_eq_false_2 by exact Hne. simpl. split.
    + split; [discriminate|]. intros Hall.
      apply SomeOptionalShardingsAreSet_false in Hall. congruence.
    + intros tuple [= <-]. simpl. split; [reflexivity|].
      rewrite !length_map. split; [reflexivity|].
      intros i. rewrite !list_lookup_fmap.
      destruct (shardings !! i) as [[s|]|]; reflexivity.
  - rewrite orb_true_r. split; [|discriminate].
    split; [|reflexivity]. intros _.
    apply SomeOptionalShardingsAreSet_false. exact Hset.
Qed.

End ShardingFacts.

(** The value of the first string attribute named [name]. *)
Fixpoint first_string (name : string) (dict : list (string * Attribute))
  : option string :=
  match dict with
  | [] => None
  | (n, StringAttr value) :: rest =>
      if bool_decide (n = name) then Some value else first_string name rest
  | _ :: rest => first_string name rest
  end.

Lemma map_insert_lookup key value m name :
  map_insert key value m !! name =
  match m !! name with
  | Some v => Some v
  | None => if bool_decide (key = name) then Some value else None
  end.
Proof.
  unfold map_insert. destruct (m !! key) eqn:Hkey.
  - destruct (m !! name) eqn:Hname; [reflexivity|].
    rewrite bool_decide_eq_false_2; [reflexivity | congruence].
  - destruct (decide (key = name)) as [->|Hne].
    + rewrite lookup_insert_eq, Hkey, bool_decide_eq_true_2 by reflexivity.
      reflexivity.
    + rewrite lookup_insert_ne by exact Hne.
      rewrite bool_decide_eq_false_2 by exact Hne.
      destruct (m !! name); reflexivity.
Qed.

Lemma Construct_lookup dict : forall m name,
  ConstructFrontendAttributesFromAttribute dict m !! name =
  match m !! name with
  | Some v => Some v
  | None => first_string name dict
  end.
Proof.
  unfold ConstructFrontendAttributesFromAttribute.
  induction dict as [|[n a] rest IH]; intros m name; simpl.
  - destruct (m !! name); reflexivity.
  - rewrite IH. destruct a; simpl; try reflexivity.
    rewrite map_insert_lookup.
    destruct (m !! name); [reflexivity|].
    destruct (bool_decide (n = name)); reflexivity.
Qed.

Lemma first_string_elem_of name value dict :
  NoDup (map fst dict) ->
  first_string name dict = Some value <-> (name, StringAttr value) ∈ dict.
Proof.
  induction dict as [|[n a] rest IH]; simpl; intros Hnd.
  - split; [discriminate | intros H; apply elem_of_nil in H; contradiction].
  - apply NoDup_cons in Hnd as [Hn Hnd]. specialize (IH Hnd).
    rewrite elem_of_cons.
    assert (Hrest : n = name -> ~ (name, StringAttr value) ∈ rest).
    { intros -> Hin. apply Hn.
      apply (list_elem_of_fmap_2 fst _ _ Hin). }
    destruct a; try (rewrite IH; split; [auto | intros [[=]|H]; auto]).
    + (* a string attribute *)
      destruct (bool_decide_reflect (n = name)) as [->|Hne].
      * split; [intros [= ->]; auto|].
        intros [[= ->]|Hin]; [reflexivity | destruct (Hrest eq_refl Hin)].
      * rewrite IH. split; [auto|]. intros [[= -> _]|H]; [congruence | auto].
Qed.

(** X12: the frontend attributes built from a dictionary attribute (whose
    entries have distinct names) hold a key with a value exactly when the
    dictionary has an entry of that name whose value is that string
    attribute; entries whose value is not a string attribute are left
    out. *)
Theorem frontend_attributes_are_string_entries
    (dict : list (string * Attribute)) (name value : string) :
  NoDup (map fst dict) ->
  ConstructFrontendAttributesFromAttribute dict ∅ !! name = Some value <->
  (name, StringAttr value) ∈ dict.
Proof.
  intros Hnd. rewrite Construct_lookup, lookup_empty.
  apply first_string_elem_of. exact Hnd.
Qed.

Lemma frontend_attributes_are_string_entries_witness :
  ConstructFrontendAttributesFromAttribute
    [("_xla_compute_type", StringAttr "dense"); ("priority", IntegerAttr 3)]
    ∅ !! "_xla_compute_type" = Some "dense".
Proof.
  apply (frontend_attributes_are_string_entries
           [("_xla_compute_type", StringAttr "dense");
            ("priority", IntegerAttr 3)] "_xla_compute_type" "dense").
  - apply (bool_decide_unpack _). vm_compute. exact I.
  - constructor.
Defined.

(** *** Lowered operands: [GetTuple] and [GetXlaOps] *)

Section Operands.
Variable ReplicaGroup : Type.
(** A default-constructed [xla::XlaOp], which [results.emplace_back()]
    appends (xla_builder.h is not among the sources). *)
Variable XlaOp_default : XlaOp ReplicaGroup.

(** [GetTuple(op, values, ctx, results)]: the result, the context with the
    diagnostics emitted, and [results] afterwards. *)
Fixpoint GetTuple (values_ : list Value) (ctx : OpLoweringContext ReplicaGroup)
    (results_ : list (XlaOp ReplicaGroup))
  : LogicalResult * OpLoweringContext ReplicaGroup * list (XlaOp ReplicaGroup) :=
  match values_ with
  | [] => (success, ctx, results_)
  | value :: rest =>
      match values ctx !! value_id value with
      | Some xla_op => GetTuple rest ctx (results_ ++ [xla_op])
      | None =>
          (failure,
           (emitOpError ReplicaGroup
              "requires all operands to be defined in the parent region for export"
              ctx).2,
           results_ ++ [XlaOp_default])
      end
  end.

(** [GetXlaOps] has the body of [GetTuple], on an [ArrayRef] of values. *)
Definition GetXlaOps (values_ : list Value)
    (ctx : OpLoweringContext ReplicaGroup)
    (results_ : list (XlaOp ReplicaGroup))
  : LogicalResult * OpLoweringContext ReplicaGroup * list (XlaOp ReplicaGroup) :=
  GetTuple values_ ctx results_.

(** X13: [GetTuple] and [GetXlaOps] succeed exactly when every value has
    been lowered, and then append the lowered operations in the order of
    the values and emit no diagnostic.  Otherwise they stop at the first
    value that has not been lowered: they emit one diagnostic and leave in
    [results] the operations of the values before it followed by one
    default-constructed operation. *)
Theorem operands_all_or_first_missing (values_ : list Value)
    (ctx : OpLoweringContext ReplicaGroup)
    (results_ : list (XlaOp ReplicaGroup)) :
  GetXlaOps values_ ctx results_ = GetTuple values_ ctx results_ /\
  ((GetTuple values_ ctx results_).1.1 = success <->
   Forall (fun v => is_Some (values ctx !! value_id v)) values_) /\
  (forall ops,
     Forall2 (fun v op => values ctx !! value_id v = Some op) values_ ops ->
     GetTuple values_ ctx results_ = (success, ctx, results_ ++ ops)) /\
  (forall before v after ops,
     values_ = before ++ v :: after ->
     Forall2 (fun v op => values ctx !! value_id v = Some op) before ops ->
     values ctx !! value_id v = None ->
     GetTuple values_ ctx results_ =
     (failure,
      {| values := values ctx;
         diagnostics := diagnostics ctx ++
           ["requires all operands to be defined in the parent region for export"] |},
      results_ ++ ops ++ [XlaOp_default])).
Proof.
  split; [reflexivity|]. split_and!.
  - revert results_. induction values_ as [|v rest IH]; intros results_; simpl.
    + split; [constructor | reflexivity].
    + destruct (values ctx !! value_id v) as [op|] eqn:Hv.
      * rewrite IH, Forall_cons, Hv. split; [eauto | tauto].
      * simpl. split; [discriminate|].
        intros H. apply Forall_cons in H as [[op Hop] _].
        rewrite Hv in Hop. discriminate.
  - intros ops Hall. revert results_.
    induction Hall as [|v op rest ops Hv _ IH]; intros results_; simpl.
    + rewrite app_nil_r. reflexivity.
    + rewrite Hv, IH, <- app_assoc. reflexivity.
  - intros before v after ops -> Hall Hv. revert results_.
    induction Hall as [|v0 op rest ops Hv0 _ IH]; intros results_; simpl.
    + rewrite Hv. reflexivity.
    + rewrite Hv0, IH, <- app_assoc. reflexivity.
Qed.

(** *** The export of [DynamicReshapeOp] *)

Lemma dynamic_reshape_dims_spec (outputShape : XlaOp ReplicaGroup)
    (resultBounds : list (option Z)) (dims : list (option Z)) :
  forall i dimSizes newSizeBounds dimsAreDynamic,
    0 <= i ->
    dynamic_reshape_dims ReplicaGroup outputShape i dims resultBounds =
      Some (inr (dimSizes, newSizeBounds, dimsAreDynamic)) ->
    length dimSizes = length dims /\
    length newSizeBounds = length dims /\
    length dimsAreDynamic = length dims /\
    forall k dimSize,
      dims !! k = Some dimSize ->
      dimSizes !! k =
        Some (Reshape (Slice outputShape [i + Z.of_nat k]
                             [i + Z.of_nat k + 1] [1]) []) /\
      dimsAreDynamic !! k = Some (bool_decide (dimSize = None)) /\
      exists dimBound,
        resultBounds !! (Z.to_nat i + k)%nat = Some dimBound /\
        match dimSize with
        | Some size => newSizeBounds !! k = Some size
        | None => exists bound, dimBound = Some bound /\
                                newSizeBounds !! k = Some bound
        end.
Proof.
  induction dims as [|d rest IH]; intros i sizes nb dyn Hi Hrun; simpl in Hrun.
  - injection Hrun as <- <- <-. split_and!; try reflexivity.
    intros k dimSize Hk. discriminate.
  - destruct (resultBounds !! Z.to_nat i) as [dimBound|] eqn:Hb;
      [|discriminate].
    assert (Hgo : exists sizes' nb' dyn',
              dynamic_reshape_dims ReplicaGroup outputShape (i + 1) rest
                resultBounds = Some (inr (sizes', nb', dyn')) /\
              sizes = Reshape (Slice outputShape [i] [i + 1] [1]) [] :: sizes' /\
              nb = match d with Some n => n | None => default 0 dimBound end
                   :: nb' /\
              dyn = negb (bool_decide (is_Some d)) :: dyn' /\
              (d = None -> is_Some dimBound)).
    { destruct d as [n|], dimBound as [b|]; try discriminate;
        destruct (dynamic_reshape_dims _ _ (i + 1) rest _)
          as [[m|[[sizes' nb'] dyn']]|]; try discriminate;
        injection Hrun as <- <- <-; do 3 eexists;
        (split; [reflexivity|]); split_and!; try reflexivity;
        intros; eauto; discriminate. }
    destruct Hgo as (sizes' & nb' & dyn' & Hrest & -> & -> & -> & Hdyn).
    destruct (IH (i + 1) sizes' nb' dyn' ltac:(lia) Hrest)
      as (Hl1 & Hl2 & Hl3 & Hk).
    simpl. rewrite Hl1, Hl2, Hl3. split_and!; try reflexivity.
    intros [|k] dimSize Hlook; simpl in Hlook.
    + injection Hlook as <-. simpl. rewrite Z.add_0_r, Nat.add_0_r.
      split; [reflexivity|]. split.
      * destruct d; reflexivity.
      * exists dimBound. split; [exact Hb|].
        destruct d as [n|]; [reflexivity|].
        destruct (Hdyn eq_refl) as [b ->]. exists b. auto.
    + destruct (Hk k dimSize Hlook) as (Hs & Hd & dimBound' & Hb' & Hn).
      cbn [lookup list_lookup].
      replace (i + Z.of_nat (S k)) with (i + 1 + Z.of_nat k) by lia.
      split; [exact Hs|]. split; [exact Hd|].
      exists dimBound'.
      replace (Z.to_nat i + S k)%nat with (Z.to_nat (i + 1) + k)%nat by lia.
      split; [exact Hb' | exact Hn].
Qed.

(** X14: when the export of a [DynamicReshapeOp] succeeds, the result type
    is a ranked tensor type, both operands have been lowered, and the
    result is mapped to one [DynamicReshape] of the lowered operand that
    has, for each dimension [k] of the result type, the size read at run
    time from element [k] of the lowered [output_shape], the static size
    of the dimension or else its bound, which then exists, and a flag
    telling whether the dimension is dynamic; nothing else of the context
    changes. *)
Theorem DynamicReshape_export (operand output_shape result : Value)
    (ctx ctx' : OpLoweringContext ReplicaGroup) :
  ExportXlaOp_DynamicReshapeOp ReplicaGroup operand output_shape result ctx
    = Some (success, ctx') ->
  exists resultType xla_operand outputShape dimSizes newSizeBounds
         dimsAreDynamic,
    value_type result = Ranked resultType /\
    values ctx !! value_id operand = Some xla_operand /\
    values ctx !! value_id output_shape = Some outputShape /\
    ctx' = assign ReplicaGroup result
             (DynamicReshape xla_operand dimSizes newSizeBounds dimsAreDynamic)
             ctx /\
    length dimSizes = length (shape resultType) /\
    length newSizeBounds = length (shape resultType) /\
    length dimsAreDynamic = length (shape resultType) /\
    forall k dimSize,
      shape resultType !! k = Some dimSize ->
      dimSizes !! k =
        Some (Reshape (Slice outputShape [Z.of_nat k] [Z.of_nat k + 1] [1])
                      []) /\
      dimsAreDynamic !! k = Some (bool_decide (dimSize = None)) /\
      exists dimBound,
        bounds resultType !! k = Some dimBound /\
        match dimSize with
        | Some size => newSizeBounds !! k = Some size
        | None => exists bound, dimBound = Some bound /\
                                newSizeBounds !! k = Some bound
        end.
Proof.
  unfold ExportXlaOp_DynamicReshapeOp. intros Hrun.
  destruct (value_type result) as [resultType|]; [|discriminate].
  destruct (bounds resultType) as [|b0 resultBounds] eqn:Hbounds;
    [discriminate|].
  destruct (negb _); [discriminate|].
  unfold GetXlaOp in Hrun.
  destruct (values ctx !! value_id operand) as [xla_operand|];
    [|discriminate].
  destruct (values ctx !! value_id output_shape) as [outputShape|];
    [|discriminate].
  destruct (dynamic_reshape_dims _ _ _ _ _)
    as [[m|[[dimSizes newSizeBounds] dimsAreDynamic]]|] eqn:Hdims;
    try discriminate.
  injection Hrun as <-.
  destruct (dynamic_reshape_dims_spec outputShape _ _ 0 _ _ _ (Z.le_refl 0)
              Hdims) as (Hl1 & Hl2 & Hl3 & Hk).
  exists resultType, xla_operand, outputShape, dimSizes, newSizeBounds,
    dimsAreDynamic.
  split_and!; auto.
  intros k dimSize Hlook. rewrite Hbounds.
  destruct (Hk k dimSize Hlook) as (Hs & Hd & dimBound & Hb & Hn).
  rewrite !Z.add_0_l in Hs. simpl in Hb. eauto.
Qed.

End Operands.

Lemma DynamicReshape_export_witness :
  exists ctx',
    ExportXlaOp_DynamicReshapeOp (list Z) Sample.operand Sample.output_shape
      Sample.bounded_result Sample.ctx = Some (success, ctx') /\
    exists xla_operand dimSizes newSizeBounds dimsAreDynamic,
      ctx' = assign (list Z) Sample.bounded_result
               (DynamicReshape xla_operand dimSizes newSizeBounds
                  dimsAreDynamic) Sample.ctx /\
      length newSizeBounds = 2%nat.
Proof.
  assert (H : exists ctx',
            ExportXlaOp_DynamicReshapeOp (list Z) Sample.operand
              Sample.output_shape Sample.bounded_result Sample.ctx
            = Some (success, ctx'))
    by (eexists; vm_compute; reflexivity).
  destruct H as [ctx' H]. exists ctx'. split; [exact H|].
  destruct (DynamicReshape_export (list Z) _ _ _ _ _ H)
    as (resultType & xla_operand & outputShape & dimSizes & newSizeBounds
        & dimsAreDynamic & Hty & _ & _ & Hctx & _ & Hlen & _).
  exists xla_operand, dimSizes, newSizeBounds, dimsAreDynamic.
  split; [exact Hctx|].
  rewrite Hlen. simpl in Hty. injection Hty as <-. reflexivity.
Defined.

End MhloHelpers.

(** ** The MHLO exporter: [ConvertLayout] (mlir_hlo_to_hlo.cc) *)

Module MhloLayouts.
Import MhloExport.
Import MhloHelpers.

(** [xla::PrimitiveType], as far as [ConvertLayout] tells the enumerators
    apart. *)
Inductive PrimitiveType : Type :=
| TUPLE
| TOKEN
| primitive_other (n : Z).

Section Layouts.
(** [xla::LayoutProto], and [xla::LayoutUtil::MakeLayout(array).ToProto()]
    (layout_util.h is not among the sources). *)
Variable LayoutProto : Type.
Variable MakeLayout : list Z -> LayoutProto.

(** [xla::ShapeProto]: the four fields that [ConvertLayout] reads or
    writes; a proto without layout has [None]. *)
#[warnings="-register-all"]
Inductive ShapeProto : Type :=
| Shape (element_type : PrimitiveType) (dimensions : list Z)
    (tuple_shapes : list ShapeProto) (layout : option LayoutProto).

Definition element_type (shape : ShapeProto) : PrimitiveType :=
  match shape with Shape element_type _ _ _ => element_type end.

(** The loop that fills [array]: [None] at the first attribute that is not
    an [IntegerAttr]. *)
Fixpoint integer_attrs (layout : list Attribute) : option (list Z) :=
  match layout with
  | [] => Some []
  | IntegerAttr value :: rest =>
      match integer_attrs rest with
      | Some array => Some (value :: array)
      | None => None
      end
  | _ :: rest => None
  end.

(** The number of leading entries of a tuple shape that [layout] covers:
    all but a trailing token. *)
Definition subshapes_data_size (subshapes : list ShapeProto) : nat :=
  match last subshapes with
  | Some (Shape TOKEN _ _ _) => length subshapes - 1
  | _ => length subshapes
  end.

(** [ConvertLayout(op, layout, shape)]: the result, the diagnostics
    emitted on [op], and [*shape] afterwards. *)
Fixpoint ConvertLayout (layout : list Attribute) (shape : ShapeProto)
  : LogicalResult * list string * ShapeProto :=
  match shape with
  | Shape TUPLE dimensions subshapes shape_layout =>
      if negb (length layout =? subshapes_data_size subshapes)%nat
      then
        (failure,
         ["Expected layout of size " +:+ pretty (Z.of_nat (length layout))
          +:+ ", but found " +:+ pretty (Z.of_nat (length subshapes))],
         shape)
      else
        let '(result, emitted, subshapes') :=
          (fix loop (subshapes : list ShapeProto) (children : list Attribute)
             {struct subshapes}
             : LogicalResult * list string * list ShapeProto :=
             match subshapes, children with
             | subshape :: subshapes', child :: children' =>
                 match child with
                 | UnitAttr =>
                     let '(result, emitted, rest) :=
                       loop subshapes' children' in
                     (result, emitted, subshape :: rest)
                 | ArrayAttr c =>
                     match ConvertLayout c subshape with
                     | (failure, emitted, subshape') =>
                         (failure, emitted, subshape' :: subshapes')
                     | (success, emitted, subshape') =>
                         let '(result, emitted', rest) :=
                           loop subshapes' children' in
                         (result, emitted ++ emitted', subshape' :: rest)
                     end
                 | _ =>
                     (failure,
                      ["Type Error: Expected layout array attribute"],
                      subshape :: subshapes')
                 end
             | _, _ => (success, [], subshapes)
             end) subshapes layout in
        (result, emitted, Shape TUPLE dimensions subshapes' shape_layout)
  | Shape ty dimensions subshapes shape_layout =>
      match dimensions with
      | [] => (success, [], shape)
      | _ =>
          if negb (length layout =? length dimensions)%nat
          then (failure, [], shape)
          else
            match integer_attrs layout with
            | None =>
                (failure, ["Type Error: Expected layout integer attribute"],
                 shape)
            | Some array =>
                (success, [],
                 Shape ty dimensions subshapes (Some (MakeLayout array)))
            end
      end
  end.

(** A shape without its layouts. *)
Fixpoint without_layouts (shape : ShapeProto) : ShapeProto :=
  match shape with
  | Shape ty dimensions subshapes _ =>
      Shape ty dimensions (map without_layouts subshapes) None
  end.

(** Induction on shapes, with the hypothesis for every subshape. *)
Definition ShapeProto_all_ind (P : ShapeProto -> Prop)
    (step : forall ty dimensions subshapes shape_layout,
        Forall P subshapes -> P (Shape ty dimensions subshapes shape_layout))
  : forall shape, P shape :=
  fix go (shape : ShapeProto) : P shape :=
    match shape with
    | Shape ty dimensions subshapes shape_layout =>
        step ty dimensions subshapes shape_layout
          ((fix all (l : list ShapeProto) : Forall P l :=
              match l with
              | [] => @List.Forall_nil _ P
              | s :: rest => @List.Forall_cons _ P s rest (go s) (all rest)
              end) subshapes)
    end.

(** The loop over the entries of a tuple shape, with the conversion of one
    entry as a parameter. *)
Definition tuple_loop
    (convert : list Attribute -> ShapeProto
               -> LogicalResult * list string * ShapeProto)
  : list ShapeProto -> list Attribute
    -> LogicalResult * list string * list ShapeProto :=
  fix loop (subshapes : list ShapeProto) (children : list Attribute)
    {struct subshapes} :=
    match subshapes, children with
    | subshape :: subshapes', child :: children' =>
        match child with
        | UnitAttr =>
            let '(result, emitted, rest) := loop subshapes' children' in
            (result, emitted, subshape :: rest)
        | ArrayAttr c =>
            match convert c subshape with
            | (failure, emitted, subshape') =>
                (failure, emitted, subshape' :: subshapes')
            | (success, emitted, subshape') =>
                let '(result, emitted', rest) := loop subshapes' children' in
                (result, emitted ++ emitted', subshape' :: rest)
            end
        | _ =>
            (failure, ["Type Error: Expected layout array attribute"],
             subshape :: subshapes')
        end
    | _, _ => (success, [], subshapes)
    end.

Lemma ConvertLayout_tuple layout dimensions subshapes shape_layout :
  ConvertLayout layout (Shape TUPLE dimensions subshapes shape_layout) =
  if negb (length layout =? subshapes_data_size subshapes)%nat
  then
    (failure,
     ["Expected layout of size " +:+ pretty (Z.of_nat (length layout))
      +:+ ", but found " +:+ pretty (Z.of_nat (length subshapes))],
     Shape TUPLE dimensions subshapes shape_layout)
  else
    let '(result, emitted, subshapes') :=
      tuple_loop ConvertLayout subshapes layout in
    (result, emitted, Shape TUPLE dimensions subshapes' shape_layout).
Proof. reflexivity. Qed.

Lemma tuple_loop_keeps_structure subshapes :
  Forall (fun shape => forall layout,
            without_layouts (ConvertLayout layout shape).2
            = without_layouts shape) subshapes ->
  forall children,
    map without_layouts (tuple_loop ConvertLayout subshapes children).2
    = map without_layouts subshapes.
Proof.
  induction 1 as [|subshape rest Hsub _ IH]; intros children; [reflexivity|].
  destruct children as [|child children']; [reflexivity|].
  cbn [tuple_loop]. fold (tuple_loop ConvertLayout).
  specialize (IH children').
  destruct child; try reflexivity.
  - destruct (tuple_loop ConvertLayout rest children') as [[r e] rest'].
    simpl in *. rewrite IH. reflexivity.
  - specialize (Hsub elements).
    destruct (ConvertLayout elements subshape) as [[[|] e] subshape'];
      simpl in *.
    + destruct (tuple_loop ConvertLayout rest children') as [[r e'] rest'].
      simpl in *. rewrite Hsub, IH. reflexivity.
    + rewrite Hsub. reflexivity.
Qed.

(** X15: [ConvertLayout] changes nothing of a shape but layouts: whether it
    succeeds or fails, the element types, the dimensions and the tuple
    structure of the shape it leaves are those of the shape it was given. *)
Theorem ConvertLayout_keeps_structure (shape : ShapeProto)
    (layout : list Attribute) :
  without_layouts (ConvertLayout layout shape).2 = without_layouts shape.
Proof.
  revert layout.
  induction shape as [ty dimensions subshapes shape_layout IH]
    using ShapeProto_all_ind.
  intros layout. destruct ty.
  - rewrite ConvertLayout_tuple.
    destruct (negb _); [reflexivity|].
    pose proof (tuple_loop_keeps_structure subshapes IH layout) as Hloop.
    destruct (tuple_loop ConvertLayout subshapes layout) as [[r e] subs'].
    simpl in *. rewrite Hloop. reflexivity.
  - simpl. destruct dimensions; [reflexivity|].
    destruct (negb _); [reflexivity|].
    destruct (integer_attrs layout); reflexivity.
  - simpl. destruct dimensions; [reflexivity|].
    destruct (negb _); [reflexivity|].
    destruct (integer_attrs layout); reflexivity.
Qed.

Lemma integer_attrs_Some layout array :
  integer_attrs layout = Some array <-> layout = map IntegerAttr array.
Proof.
  revert array. induction layout as [|a rest IH]; intros array; simpl.
  - split; [intros [= <-]; reflexivity|].
    destruct array; [reflexivity | discriminate].
  - destruct a; try (split; [discriminate|];
                     destruct array; discriminate).
    destruct (integer_attrs rest) as [array'|] eqn:Hrest.
    + split.
      * intros [= <-]. simpl. f_equal. apply IH. reflexivity.
      * destruct array as [|v array]; [discriminate|].
        intros [= -> Hr]. apply IH in Hr. injection Hr as ->. reflexivity.
    + split; [discriminate|].
      destruct array as [|v array]; [discriminate|].
      intros [= -> Hr]. apply IH in Hr. discriminate.
Qed.

(** X16: on a shape that is not a tuple, [ConvertLayout] accepts any
    layout attribute when the shape has rank 0, and leaves the shape as it
    is; when the rank is positive it succeeds exactly when the layout
    attribute lists as many integer attributes as the shape has
    dimensions, and then sets the layout made from those integers,
    emitting nothing; a layout attribute of another length makes it fail
    without a diagnostic and without a change to the shape. *)
Theorem ConvertLayout_array (ty : PrimitiveType) (dimensions : list Z)
    (subshapes : list ShapeProto) (shape_layout : option LayoutProto)
    (layout : list Attribute) :
  ty <> TUPLE ->
  let shape := Shape ty dimensions subshapes shape_layout in
  (dimensions = [] -> ConvertLayout layout shape = (success, [], shape)) /\
  (dimensions <> [] ->
   ((ConvertLayout layout shape).1.1 = success <->
    exists array, layout = map IntegerAttr array /\
                  length array = length dimensions) /\
   (forall array,
      layout = map IntegerAttr array -> length array = length dimensions ->
      ConvertLayout layout shape =
      (success, [],
       Shape ty dimensions subshapes (Some (MakeLayout array)))) /\
   (length layout <> length dimensions ->
    ConvertLayout layout shape = (failure, [], shape))).
Proof.
  intros Hty shape.
  assert (Hrun : ConvertLayout layout shape =
    match dimensions with
    | [] => (success, [], shape)
    | _ =>
        if negb (length layout =? length dimensions)%nat
        then (failure, [], shape)
        else
          match integer_attrs layout with
          | None =>
              (failure, ["Type Error: Expected layout integer attribute"],
               shape)
          | Some array =>
              (success, [],
               Shape ty dimensions subshapes (Some (MakeLayout array)))
          end
    end).
  { destruct ty; [contradiction | reflexivity | reflexivity]. }
  rewrite Hrun. clear Hrun. split; [intros ->; reflexivity|].
  intros Hrank. destruct dimensions as [|d dims]; [contradiction|].
  destruct (Nat.eqb_spec (length layout) (length (d :: dims))) as [Hlen|Hlen];
    cbn [negb].
  - split_and!.
    + destruct (integer_attrs layout) as [array|] eqn:Hints; simpl.
      * apply integer_attrs_Some in Hints. split; [|reflexivity].
        intros _. exists array. split; [exact Hints|].
        rewrite Hints, length_map in Hlen. exact Hlen.
      * split; [discriminate|]. intros (array & Hl & _).
        apply integer_attrs_Some in Hl. congruence.
    + intros array Hl _. apply integer_attrs_Some in Hl. rewrite Hl.
      reflexivity.
    + intros Habs. contradiction.
  - split_and!.
    + simpl. split; [discriminate|]. intros (array & -> & Ha).
      rewrite length_map in Hlen. contradiction.
    + intros array -> Ha. rewrite length_map in Hlen. contradiction.
    + reflexivity.
Qed.

End Layouts.

(** A layout as its minor-to-major list, and an [f32[2,3]] shape. *)
Lemma ConvertLayout_array_witness :
  ConvertLayout (list Z) (fun array => array) [IntegerAttr 0; IntegerAttr 1]
    (Shape (list Z) (primitive_other 11) [2; 3] [] None)
  = (success, [], Shape (list Z) (primitive_other 11) [2; 3] [] (Some [0; 1])).
Proof.
  destruct (ConvertLayout_array (list Z) (fun array => array)
              (primitive_other 11) [2; 3] [] None
              [IntegerAttr 0; IntegerAttr 1]) as [_ Hpos]; [discriminate|].
  destruct Hpos as (_ & Hset & _); [discriminate|].
  exact (Hset [0; 1] eq_refl eq_refl).
Defined.

End MhloLayouts.

(** ** The IndexFlatMap iterator: [GetNextInternal] and its index mapper
       (index_flat_map_dataset_op.cc) *)

Module IndexFlatMapIterator.
Import IndexFlatMap.

Section Iterator.
(** [Tensor] and the index-map function, as in [IndexFlatMap]. *)
Variable Tensor : Type.
Variable dtype : Tensor -> DataType.
Variable scalar_uint64 scalar_uint32 scalar_int64 scalar_int32 : Tensor -> Z.
Variable DebugString : Tensor -> string.
Variable Run : Z -> Status * list Tensor.

(** [Tensor::dims()], and [MaybeCopySubSlice] of the tensor utilities
    (neither header is among the sources). *)
Variable dims : Tensor -> Z.
Variable MaybeCopySubSlice : Tensor -> Z -> Tensor.

(** [instantiated_map_func_->Run(ctx, {input_tensors}, &mapped_tensors)]:
    the status and the tensors written. *)
Variable Run_map_func : list Tensor -> Status * list Tensor.

(** [ctx->index_mapper()]: the index mapper of the calling context, when
    it has one. *)
Variable index_mapper : option (Z -> Z).

(** The input iterator's [GetNext], which is handed the context with the
    flat-map index mapper: it returns a status, the tensors and
    [*end_of_sequence], or first calls the index mapper on an element
    position and goes on with the index it gets back. *)
Inductive InputGetNext : Type :=
| Returns (status : Status) (input_tensors : list Tensor)
    (end_of_sequence : bool)
| CallsIndexMapper (element_position : Z) (next : Z -> InputGetNext).

Abbreviation GetUnflattenedIndex :=
  (IndexFlatMap.GetUnflattenedIndex Tensor dtype scalar_uint64 scalar_uint32
     scalar_int64 scalar_int32 DebugString Run).

(** The closure that [GetFlatMapIndexMapper] returns, called on
    [element_position]: the index it returns and the value it stores in
    [offset]; [None] when it dereferences a failed [StatusOr]. *)
Definition GetFlatMapIndexMapper (element_position : Z) : option (Z * Z) :=
  let shuffled_index :=
    match index_mapper with
    | Some mapper => mapper element_position
    | None => element_position
    end in
  match GetUnflattenedIndex shuffled_index with
  | Value (element_index, offset) => Some (element_index, offset)
  | Failed _ _ => None
  end.

(** The run of the input's [GetNext] against the index mapper: what it
    returns, and [offset] afterwards. *)
Fixpoint run_input (input : InputGetNext) (offset : Z)
  : option (Status * list Tensor * bool * Z) :=
  match input with
  | Returns status input_tensors end_of_sequence =>
      Some (status, input_tensors, end_of_sequence, offset)
  | CallsIndexMapper element_position next =>
      match GetFlatMapIndexMapper element_position with
      | None => None
      | Some (element_index, offset') => run_input (next element_index) offset'
      end
  end.

(** [GetNextInternal(ctx, out_tensors, end_of_sequence)]: the status,
    [*out_tensors] and [*end_of_sequence] afterwards, and whether the
    checkpoint of the inner context has been merged into [ctx]. *)
Definition GetNextInternal (input : InputGetNext) (out_tensors : list Tensor)
  : option (Status * list Tensor * bool * bool) :=
  match run_input input 0 with
  | None => None
  | Some (status, input_tensors, end_of_sequence, offset) =>
      if negb (ok status)
      then Some (status, out_tensors, end_of_sequence, false)
      else if end_of_sequence
      then Some (OkStatus, out_tensors, true, true)
      else
        let '(status, mapped_tensors) := Run_map_func input_tensors in
        if negb (ok status)
        then Some (status, out_tensors, false, true)
        else
          Some (OkStatus,
                out_tensors ++
                map (fun tensor =>
                       if dims tensor =? 0 then tensor
                       else MaybeCopySubSlice tensor offset)
                    mapped_tensors,
                false, true)
  end.

(** The element positions on which the input calls the index mapper, in
    order. *)
Fixpoint positions_asked (input : InputGetNext) : list Z :=
  match input with
  | Returns _ _ _ => []
  | CallsIndexMapper element_position next =>
      element_position ::
      match GetFlatMapIndexMapper element_position with
      | Some (element_index, _) => positions_asked (next element_index)
      | None => []
      end
  end.

(** The offset within its element of the last position asked, and 0 when
    none is asked. *)
Definition last_offset (input : InputGetNext) : Z :=
  match last (positions_asked input) with
  | Some element_position =>
      match GetFlatMapIndexMapper element_position with
      | Some (_, offset) => offset
      | None => 0
      end
  | None => 0
  end.

Lemma run_input_offset (input : InputGetNext) : forall offset result,
  run_input input offset = Some result ->
  result.2 =
  match last (positions_asked input) with
  | Some element_position =>
      match GetFlatMapIndexMapper element_position with
      | Some (_, offset') => offset'
      | None => 0
      end
  | None => offset
  end.
Proof.
  induction input as [status input_tensors end_of_sequence
                     |element_position next IH];
    intros offset result Hrun; simpl in Hrun.
  - injection Hrun as <-. reflexivity.
  - cbn [positions_asked].
    destruct (GetFlatMapIndexMapper element_position)
      as [[element_index offset']|] eqn:Hmap; [|discriminate].
    rewrite (IH element_index offset' result Hrun).
    generalize (positions_asked (next element_index)). intros [|p rest].
    + simpl. rewrite Hmap. reflexivity.
    + rewrite last_cons_cons. destruct (last (p :: rest)) eqn:Hlast;
        [reflexivity|]. apply last_None in Hlast. discriminate.
Qed.

(** X17: [GetNextInternal] only ever appends to [out_tensors].  When the
    input iterator fails, it returns that status with [out_tensors] as it
    was and without merging the checkpoint; at the end of the input, and when
    the map function fails, [out_tensors] is as it was too.  Otherwise it
    appends one tensor for each tensor the map function returns, in order:
    the tensor itself when it is a scalar, and else its sub-slice at the
    offset that the index-map function gave for the last element position
    the input asked for (0 when it asked for none). *)
Theorem GetNextInternal_appends (input : InputGetNext)
    (out_tensors out_tensors' : list Tensor) (status : Status)
    (end_of_sequence merged : bool) :
  GetNextInternal input out_tensors
    = Some (status, out_tensors', end_of_sequence, merged) ->
  exists input_status input_tensors input_end offset,
    run_input input 0 = Some (input_status, input_tensors, input_end, offset) /\
    offset = last_offset input /\
    if negb (ok input_status)
    then status = input_status /\ out_tensors' = out_tensors /\
         merged = false
    else if input_end
    then status = OkStatus /\ out_tensors' = out_tensors /\
         end_of_sequence = true /\ merged = true
    else
      merged = true /\ end_of_sequence = false /\
      status = (Run_map_func input_tensors).1 /\
      if ok status
      then
        out_tensors' =
        out_tensors ++
        map (fun tensor => if dims tensor =? 0 then tensor
                           else MaybeCopySubSlice tensor (last_offset input))
            (Run_map_func input_tensors).2
      else out_tensors' = out_tensors.
Proof.
  unfold GetNextInternal. intros Hrun.
  destruct (run_input input 0)
    as [[[[input_status input_tensors] input_end] offset]|] eqn:Hin;
    [|discriminate].
  pose proof (run_input_offset input 0 _ Hin) as Hoff. simpl in Hoff.
  assert (Hlast : offset = last_offset input).
  { rewrite Hoff. unfold last_offset.
    destruct (last (positions_asked input)); reflexivity. }
  exists input_status, input_tensors, input_end, offset.
  split; [reflexivity|]. split; [exact Hlast|].
  destruct (negb (ok input_status)).
  { injection Hrun as <- <- <- <-. auto. }
  destruct input_end.
  { injection Hrun as <- <- <- <-. auto. }
  destruct (Run_map_func input_tensors) as [map_status mapped_tensors].
  destruct map_status as [|code message]; simpl in Hrun |- *;
    injection Hrun as <- <- <- <-; simpl; rewrite <- ?Hlast; auto.
Qed.

End Iterator.

(** Tensors as a dtype and the stored integer, or a vector of numbers whose
    sub-slice at an offset is the vector of its element there.  The input
    asks for position 10 and yields one vector; the map function doubles
    it; the index-map function answers element 2, offset 2, for 10. *)
Definition sample_tensor : Type := DataType * list Z.

Definition sample_input : InputGetNext sample_tensor :=
  CallsIndexMapper sample_tensor 10
    (fun element_index =>
       Returns sample_tensor OkStatus
         [(DT_INT32, [element_index; 5; 6; 7])] false).

Definition sample_index_map (index : Z) : Status * list sample_tensor :=
  (OkStatus, [(DT_INT64, [index / 4]); (DT_INT64, [index mod 4])]).

Definition sample_slice (tensor : sample_tensor) (offset : Z) : sample_tensor :=
  (tensor.1, [default 0 (tensor.2 !! Z.to_nat offset)]).

(** The accessor of the stored integer, for the four element types. *)
Definition sample_scalar (tensor : sample_tensor) : Z :=
  default 0 (head tensor.2).

Lemma GetNextInternal_appends_witness :
  GetNextInternal sample_tensor fst sample_scalar sample_scalar sample_scalar
    sample_scalar (fun _ => "") sample_index_map (fun _ => 1) sample_slice
    (fun ts => (OkStatus, ts)) None sample_input []
  = Some (OkStatus, [(DT_INT32, [6])], false, true) /\
  exists input_status input_tensors input_end offset,
    run_input sample_tensor fst sample_scalar sample_scalar sample_scalar
      sample_scalar (fun _ => "") sample_index_map None sample_input 0
    = Some (input_status, input_tensors, input_end, offset) /\
    offset =
    last_offset sample_tensor fst sample_scalar sample_scalar sample_scalar
      sample_scalar (fun _ => "") sample_index_map None sample_input.
Proof.
  assert (H : GetNextInternal sample_tensor fst sample_scalar sample_scalar
                sample_scalar sample_scalar (fun _ => "") sample_index_map
                (fun _ => 1) sample_slice (fun ts => (OkStatus, ts)) None
                sample_input []
              = Some (OkStatus, [(DT_INT32, [6])], false, true))
    by (vm_compute; reflexivity).
  split; [exact H|].
  destruct (GetNextInternal_appends sample_tensor fst sample_scalar
              sample_scalar sample_scalar sample_scalar (fun _ => "")
              sample_index_map (fun _ => 1) sample_slice
              (fun ts => (OkStatus, ts)) None sample_input [] _ _ _ _ H)
    as (input_status & input_tensors & input_end & offset & Hrun & Hoff & _).
  exists input_status, input_tensors, input_end, offset.
  split; [exact Hrun | exact Hoff].
Defined.

End IndexFlatMapIterator.

(** ** The CUPTI tracer: the driver-API hook and the callback events it
       records (cupti_tracer.cc) *)

Module DriverApiHook.
Import Cupti.

(** The enumerators of [CUpti_driver_api_trace_cbid] that the tracer names
    (cupti_driver_cbid.h is not among the sources); every other callback id
    is [CBID_other].  [cuLaunchKernelEx] is there from CUDA 11.8 on. *)
Inductive CUpti_driver_api_trace_cbid : Type :=
| CUPTI_DRIVER_TRACE_CBID_cuLaunchKernel
| CUPTI_DRIVER_TRACE_CBID_cuLaunchKernelEx
| CUPTI_DRIVER_TRACE_CBID_cuLaunchCooperativeKernel
| CUPTI_DRIVER_TRACE_CBID_cuLaunchCooperativeKernelMultiDevice
| CUPTI_DRIVER_TRACE_CBID_cuMemcpy
| CUPTI_DRIVER_TRACE_CBID_cuMemcpyAsync
| CUPTI_DRIVER_TRACE_CBID_cuMemcpyHtoD_v2
| CUPTI_DRIVER_TRACE_CBID_cuMemcpyHtoDAsync_v2
| CUPTI_DRIVER_TRACE_CBID_cuMemcpyDtoH_v2
| CUPTI_DRIVER_TRACE_CBID_cuMemcpyDtoHAsync_v2
| CUPTI_DRIVER_TRACE_CBID_cuMemcpyDtoD_v2
| CUPTI_DRIVER_TRACE_CBID_cuMemcpyDtoDAsync_v2
| CUPTI_DRIVER_TRACE_CBID_cuMemcpyAtoH_v2
| CUPTI_DRIVER_TRACE_CBID_cuMemcpyAtoHAsync_v2
| CUPTI_DRIVER_TRACE_CBID_cuMemcpyAtoD_v2
| CUPTI_DRIVER_TRACE_CBID_cuMemcpyDtoA_v2
| CUPTI_DRIVER_TRACE_CBID_cuMemcpyAtoA_v2
| CUPTI_DRIVER_TRACE_CBID_cuMemcpy2D_v2
| CUPTI_DRIVER_TRACE_CBID_cuMemcpy2DUnaligned_v2
| CUPTI_DRIVER_TRACE_CBID_cuMemcpy2DAsync_v2
| CUPTI_DRIVER_TRACE_CBID_cuMemcpy3D_v2
| CUPTI_DRIVER_TRACE_CBID_cuMemcpy3DAsync_v2
| CUPTI_DRIVER_TRACE_CBID_cuMemcpyHtoA_v2
| CUPTI_DRIVER_TRACE_CBID_cuMemcpyHtoAAsync_v2
| CUPTI_DRIVER_TRACE_CBID_cuMemcpyPeer
| CUPTI_DRIVER_TRACE_CBID_cuMemcpyPeerAsync
| CUPTI_DRIVER_TRACE_CBID_cuMemAlloc_v2
| CUPTI_DRIVER_TRACE_CBID_cuMemAllocPitch_v2
| CUPTI_DRIVER_TRACE_CBID_cuMemAllocManaged
| CUPTI_DRIVER_TRACE_CBID_cuMemAllocHost_v2
| CUPTI_DRIVER_TRACE_CBID_cuMemHostAlloc
| CUPTI_DRIVER_TRACE_CBID_cuMemFree_v2
| CUPTI_DRIVER_TRACE_CBID_cuMemFreeHost
| CUPTI_DRIVER_TRACE_CBID_cuMemHostRegister_v2
| CUPTI_DRIVER_TRACE_CBID_cuMemHostUnregister
| CUPTI_DRIVER_TRACE_CBID_cuMemsetD8_v2
| CUPTI_DRIVER_TRACE_CBID_cuMemsetD16_v2
| CUPTI_DRIVER_TRACE_CBID_cuMemsetD32_v2
| CUPTI_DRIVER_TRACE_CBID_cuMemsetD2D8_v2
| CUPTI_DRIVER_TRACE_CBID_cuMemsetD2D16_v2
| CUPTI_DRIVER_TRACE_CBID_cuMemsetD2D32_v2
| CUPTI_DRIVER_TRACE_CBID_cuMemsetD8Async
| CUPTI_DRIVER_TRACE_CBID_cuMemsetD16Async
| CUPTI_DRIVER_TRACE_CBID_cuMemsetD32Async
| CUPTI_DRIVER_TRACE_CBID_cuMemsetD2D8Async
| CUPTI_DRIVER_TRACE_CBID_cuMemsetD2D16Async
| CUPTI_DRIVER_TRACE_CBID_cuMemsetD2D32Async
| CUPTI_DRIVER_TRACE_CBID_cuCtxDestroy_v2
| CUPTI_DRIVER_TRACE_CBID_cuCtxDestroy
| CBID_other (n : Z).

Inductive CUmemorytype : Type :=
| CU_MEMORYTYPE_HOST
| CU_MEMORYTYPE_DEVICE
| CU_MEMORYTYPE_ARRAY
| CU_MEMORYTYPE_UNIFIED
| CU_MEMORYTYPE_other (n : Z).

(** [CUDA_MEMCPY2D] and [CUDA_MEMCPY3D]: the members the tracer reads; a
    2D copy has no [Depth]. *)
Record CudaMemcpy : Type := {
  srcMemoryType : CUmemorytype;
  dstMemoryType : CUmemorytype;
  WidthInBytes : Z;
  Height : Z;
  Depth : Z;
}.

(** [cbdata->functionParams]: what the members that the decoders read
    yield, each read through the params struct of the callback id at
    hand. *)
Record FunctionParams : Type := {
  ByteCount : Z;        (* cuMemcpy..._params, cuMemcpyPeer..._params *)
  pCopy : CudaMemcpy;   (* cuMemcpy2D..._params, cuMemcpy3D..._params *)
  N : Z;                (* cuMemsetD8/16/32..._params *)
  dstPitch : Z;         (* cuMemsetD2D..._params *)
  params_Height : Z;    (* cuMemsetD2D..._params *)
  srcContext : Z;       (* cuMemcpyPeer..._params *)
  dstContext : Z;       (* cuMemcpyPeer..._params *)
}.

(** The members of [CUpti_CallbackData] that the hook reads besides those
    of [Cupti.CUpti_CallbackData]: the symbol name (null for a call that
    launches no kernel), the parameters, and the 64 bits that
    [correlationData] points to. *)
Record DriverCallbackData : Type := {
  data : CUpti_CallbackData;
  symbolName : option string;
  functionParams : FunctionParams;
  correlationData : Z;
}.

(** *** The decoders *)

Definition Bytes2D (p : CudaMemcpy) : Z :=
  to_size_t (Height p * WidthInBytes p).

Definition Bytes3D (p : CudaMemcpy) : Z :=
  to_size_t (to_size_t (Depth p * Height p) * WidthInBytes p).

Definition MemcpyKind (p : CudaMemcpy) : CuptiTracerEventType :=
  match srcMemoryType p, dstMemoryType p with
  | CU_MEMORYTYPE_HOST, CU_MEMORYTYPE_DEVICE => MemcpyH2D
  | CU_MEMORYTYPE_DEVICE, CU_MEMORYTYPE_HOST => MemcpyD2H
  | CU_MEMORYTYPE_DEVICE, CU_MEMORYTYPE_DEVICE => MemcpyD2D
  | _, _ => Unsupported
  end.

(** [DecodeDriverMemcpy]: the tuple of bytes, type and async. *)
Definition DecodeDriverMemcpy (cbid : CUpti_driver_api_trace_cbid)
    (params : FunctionParams) : Z * CuptiTracerEventType * bool :=
  match cbid with
  | CUPTI_DRIVER_TRACE_CBID_cuMemcpyHtoD_v2 =>
      (ByteCount params, MemcpyH2D, false)
  | CUPTI_DRIVER_TRACE_CBID_cuMemcpyHtoDAsync_v2 =>
      (ByteCount params, MemcpyH2D, true)
  | CUPTI_DRIVER_TRACE_CBID_cuMemcpyDtoH_v2 =>
      (ByteCount params, MemcpyD2H, false)
  | CUPTI_DRIVER_TRACE_CBID_cuMemcpyDtoHAsync_v2 =>
      (ByteCount params, MemcpyD2H, true)
  | CUPTI_DRIVER_TRACE_CBID_cuMemcpyDtoD_v2 =>
      (ByteCount params, MemcpyD2D, false)
  | CUPTI_DRIVER_TRACE_CBID_cuMemcpyDtoDAsync_v2 =>
      (ByteCount params, MemcpyD2D, true)
  | CUPTI_DRIVER_TRACE_CBID_cuMemcpy =>
      (ByteCount params, MemcpyOther, false)
  | CUPTI_DRIVER_TRACE_CBID_cuMemcpyAsync =>
      (ByteCount params, MemcpyOther, true)
  | CUPTI_DRIVER_TRACE_CBID_cuMemcpy2D_v2 =>
      (Bytes2D (pCopy params), MemcpyKind (pCopy params), false)
  | CUPTI_DRIVER_TRACE_CBID_cuMemcpy2DAsync_v2 =>
      (Bytes2D (pCopy params), MemcpyKind (pCopy params), true)
  | CUPTI_DRIVER_TRACE_CBID_cuMemcpy3D_v2 =>
      (Bytes3D (pCopy params), MemcpyKind (pCopy params), true)
  | CUPTI_DRIVER_TRACE_CBID_cuMemcpy3DAsync_v2 =>
      (Bytes3D (pCopy params), MemcpyKind (pCopy params), true)
  | CUPTI_DRIVER_TRACE_CBID_cuMemcpyPeer =>
      (ByteCount params, MemcpyP2P, false)
  | CUPTI_DRIVER_TRACE_CBID_cuMemcpyPeerAsync =>
      (ByteCount params, MemcpyP2P, true)
  | _ => (0, Unsupported, false)
  end.

(** [DecodeDriverMemset]: the tuple of bytes, type and async. *)
Definition DecodeDriverMemset (cbid : CUpti_driver_api_trace_cbid)
    (params : FunctionParams) : Z * CuptiTracerEventType * bool :=
  match cbid with
  | CUPTI_DRIVER_TRACE_CBID_cuMemsetD8_v2
  | CUPTI_DRIVER_TRACE_CBID_cuMemsetD16_v2
  | CUPTI_DRIVER_TRACE_CBID_cuMemsetD32_v2 => (N params, Memset, false)
  | CUPTI_DRIVER_TRACE_CBID_cuMemsetD2D8_v2
  | CUPTI_DRIVER_TRACE_CBID_cuMemsetD2D16_v2
  | CUPTI_DRIVER_TRACE_CBID_cuMemsetD2D32_v2 =>
      (to_size_t (dstPitch params * params_Height params), Memset, false)
  | CUPTI_DRIVER_TRACE_CBID_cuMemsetD8Async
  | CUPTI_DRIVER_TRACE_CBID_cuMemsetD16Async
  | CUPTI_DRIVER_TRACE_CBID_cuMemsetD32Async => (N params, Memset, true)
  | CUPTI_DRIVER_TRACE_CBID_cuMemsetD2D8Async
  | CUPTI_DRIVER_TRACE_CBID_cuMemsetD2D16Async
  | CUPTI_DRIVER_TRACE_CBID_cuMemsetD2D32Async =>
      (to_size_t (dstPitch params * params_Height params), Memset, true)
  | _ => (0, Unsupported, false)
  end.

(** *** The events written at API exit

    Each [Add...EventUponApiExit] takes what [tracer->LastCallbackEvent()]
    points to ([None] for the null pointer) and gives what is there
    afterwards.  The assignments go to the common members of the event; the
    type-specific union is not part of [CuptiTracerEvent] here. *)

Section Hook.
Variable cupti_interface_ : CuptiInterface.
(** The value-initialised [CuptiTracerEvent event{}]. *)
Variable event0 : CuptiTracerEvent.
(** What [Env::Default()->GetCurrentThreadId()] returns on the calling
    thread. *)
Variable GetCurrentThreadId : Z.

(** [AddKernelEventUponApiExit] *)
Definition AddKernelEventUponApiExit (device_id : Z)
    (cbdata : DriverCallbackData) (start_time end_time : Z)
    (event_ptr : option CuptiTracerEvent) : option CuptiTracerEvent :=
  match event_ptr with
  | None => None
  | Some event =>
      Some {| type := Kernel;
           source := DriverCallback;
           name := match symbolName cbdata with
                   | Some symbol => symbol
                   | None => functionName (data cbdata)
                   end;
           annotation := annotation event;
           nvtx_range := nvtx_range event;
           start_time_ns := start_time;
           end_time_ns := end_time;
           device_id := device_id;
           correlation_id := correlationId (data cbdata);
           thread_id := GetCurrentThreadId;
           context_id := contextUid (data cbdata);
           stream_id := stream_id event |}
  end.

(** [PopulateMemcpyCallbackEvent]; [num_bytes], [dst_device] and [async]
    go to [memcpy_info]. *)
Definition PopulateMemcpyCallbackEvent (type : CuptiTracerEventType)
    (cbdata : DriverCallbackData) (num_bytes src_device dst_device : Z)
    (async : bool) (start_time end_time : Z) : CuptiTracerEvent :=
  {| type := type;
           source := DriverCallback;
           name := name event0;
           annotation := annotation event0;
           nvtx_range := nvtx_range event0;
           start_time_ns := start_time;
           end_time_ns := end_time;
           device_id := src_device;
           correlation_id := correlationId (data cbdata);
           thread_id := GetCurrentThreadId;
           context_id := contextUid (data cbdata);
           stream_id := stream_id event0 |}.

(** [AddNormalMemcpyEventUponApiExit] *)
Definition AddNormalMemcpyEventUponApiExit (device_id : Z)
    (cbid : CUpti_driver_api_trace_cbid)
    (cbdata : DriverCallbackData) (start_time end_time : Z)
    (event_ptr : option CuptiTracerEvent) : option CuptiTracerEvent :=
  match event_ptr with
  | None => None
  | Some _ =>
      let '(num_bytes, type, async) :=
        DecodeDriverMemcpy cbid (functionParams cbdata) in
      Some (PopulateMemcpyCallbackEvent type cbdata num_bytes device_id
              device_id async start_time end_time)
  end.

(** [AddCuMemsetEventUponApiExit]; [event.name] is not assigned. *)
Definition AddCuMemsetEventUponApiExit (device_id : Z)
    (cbid : CUpti_driver_api_trace_cbid)
    (cbdata : DriverCallbackData) (start_time end_time : Z)
    (event_ptr : option CuptiTracerEvent) : option CuptiTracerEvent :=
  match event_ptr with
  | None => None
  | Some event =>
      let '(num_bytes, type, async) :=
        DecodeDriverMemset cbid (functionParams cbdata) in
      Some {| type := type;
           source := DriverCallback;
           name := name event;
           annotation := annotation event;
           nvtx_range := nvtx_range event;
           start_time_ns := start_time;
           end_time_ns := end_time;
           device_id := device_id;
           correlation_id := correlationId (data cbdata);
           thread_id := GetCurrentThreadId;
           context_id := contextUid (data cbdata);
           stream_id := stream_id event |}
  end.

(** [cupti_interface->GetDeviceId(ctx, &device)] with its result ignored:
    the value of [device], which was initialised to [-1], after the call. *)
Definition device_after_GetDeviceId (ctx : Z) : Z :=
  (cupti_GetDeviceId cupti_interface_ ctx).2.

(** [AddP2PMemcpyEventUponApiExit] *)
Definition AddP2PMemcpyEventUponApiExit (device_id : Z)
    (cbid : CUpti_driver_api_trace_cbid)
    (cbdata : DriverCallbackData) (start_time end_time : Z)
    (event_ptr : option CuptiTracerEvent) : option CuptiTracerEvent :=
  match event_ptr with
  | None => None
  | Some _ =>
      let '(num_bytes, type, async) :=
        DecodeDriverMemcpy cbid (functionParams cbdata) in
      let src_device :=
        device_after_GetDeviceId (srcContext (functionParams cbdata)) in
      let dst_device :=
        device_after_GetDeviceId (dstContext (functionParams cbdata)) in
      Some (PopulateMemcpyCallbackEvent type cbdata num_bytes src_device
              dst_device async start_time end_time)
  end.

(** [AddCuMemAllocEventUponApiExit] *)
Definition AddCuMemAllocEventUponApiExit (device_id : Z)
    (cbid : CUpti_driver_api_trace_cbid)
    (cbdata : DriverCallbackData) (start_time end_time : Z)
    (event_ptr : option CuptiTracerEvent) : option CuptiTracerEvent :=
  match event_ptr with
  | None => None
  | Some event =>
      Some {| type := MemoryAlloc;
           source := DriverCallback;
           name := functionName (data cbdata);
           annotation := annotation event;
           nvtx_range := nvtx_range event;
           start_time_ns := start_time;
           end_time_ns := end_time;
           device_id := device_id;
           correlation_id := correlationId (data cbdata);
           thread_id := GetCurrentThreadId;
           context_id := contextUid (data cbdata);
           stream_id := stream_id event |}
  end.

(** [AddCuMemAllocPitchEventUponApiExit] *)
Definition AddCuMemAllocPitchEventUponApiExit (device_id : Z)
    (cbid : CUpti_driver_api_trace_cbid)
    (cbdata : DriverCallbackData) (start_time end_time : Z)
    (event_ptr : option CuptiTracerEvent) : option CuptiTracerEvent :=
  match event_ptr with
  | None => None
  | Some event =>
      Some {| type := MemoryAlloc;
           source := DriverCallback;
           name := functionName (data cbdata);
           annotation := annotation event;
           nvtx_range := nvtx_range event;
           start_time_ns := start_time;
           end_time_ns := end_time;
           device_id := device_id;
           correlation_id := correlationId (data cbdata);
           thread_id := GetCurrentThreadId;
           context_id := contextUid (data cbdata);
           stream_id := stream_id event |}
  end.

(** [AddCuMemAllocManagedEventUponApiExit] *)
Definition AddCuMemAllocManagedEventUponApiExit (device_id : Z)
    (cbid : CUpti_driver_api_trace_cbid)
    (cbdata : DriverCallbackData) (start_time end_time : Z)
    (event_ptr : option CuptiTracerEvent) : option CuptiTracerEvent :=
  match event_ptr with
  | None => None
  | Some event =>
      Some {| type := MemoryAlloc;
           source := DriverCallback;
           name := functionName (data cbdata);
           annotation := annotation event;
           nvtx_range := nvtx_range event;
           start_time_ns := start_time;
           end_time_ns := end_time;
           device_id := device_id;
           correlation_id := correlationId (data cbdata);
           thread_id := GetCurrentThreadId;
           context_id := contextUid (data cbdata);
           stream_id := stream_id event |}
  end.

(** [AddCuMemAllocHostEventUponApiExit] *)
Definition AddCuMemAllocHostEventUponApiExit (device_id : Z)
    (cbid : CUpti_driver_api_trace_cbid)
    (cbdata : DriverCallbackData) (start_time end_time : Z)
    (event_ptr : option CuptiTracerEvent) : option CuptiTracerEvent :=
  match event_ptr with
  | None => None
  | Some event =>
      Some {| type := MemoryAlloc;
           source := DriverCallback;
           name := functionName (data cbdata);
           annotation := annotation event;
           nvtx_range := nvtx_range event;
           start_time_ns := start_time;
           end_time_ns := end_time;
           device_id := device_id;
           correlation_id := correlationId (data cbdata);
           thread_id := GetCurrentThreadId;
           context_id := contextUid (data cbdata);
           stream_id := stream_id event |}
  end.

(** [AddCuMemHostAllocEventUponApiExit] *)
Definition AddCuMemHostAllocEventUponApiExit (device_id : Z)
    (cbid : CUpti_driver_api_trace_cbid)
    (cbdata : DriverCallbackData) (start_time end_time : Z)
    (event_ptr : option CuptiTracerEvent) : option CuptiTracerEvent :=
  match event_ptr with
  | None => None
  | Some event =>
      Some {| type := MemoryAlloc;
           source := DriverCallback;
           name := functionName (data cbdata);
           annotation := annotation event;
           nvtx_range := nvtx_range event;
           start_time_ns := start_time;
           end_time_ns := end_time;
           device_id := device_id;
           correlation_id := correlationId (data cbdata);
           thread_id := GetCurrentThreadId;
           context_id := contextUid (data cbdata);
           stream_id := stream_id event |}
  end.

(** [AddCuMemFreeEventUponApiExit] *)
Definition AddCuMemFreeEventUponApiExit (device_id : Z)
    (cbid : CUpti_driver_api_trace_cbid)
    (cbdata : DriverCallbackData) (start_time end_time : Z)
    (event_ptr : option CuptiTracerEvent) : option CuptiTracerEvent :=
  match event_ptr with
  | None => None
  | Some event =>
      Some {| type := MemoryFree;
           source := DriverCallback;
           name := functionName (data cbdata);
           annotation := annotation event;
           nvtx_range := nvtx_range event;
           start_time_ns := start_time;
           end_time_ns := end_time;
           device_id := device_id;
           correlation_id := correlationId (data cbdata);
           thread_id := GetCurrentThreadId;
           context_id := contextUid (data cbdata);
           stream_id := stream_id event |}
  end.

(** [AddCuMemFreeHostEventUponApiExit] *)
Definition AddCuMemFreeHostEventUponApiExit (device_id : Z)
    (cbid : CUpti_driver_api_trace_cbid)
    (cbdata : DriverCallbackData) (start_time end_time : Z)
    (event_ptr : option CuptiTracerEvent) : option CuptiTracerEvent :=
  match event_ptr with
  | None => None
  | Some event =>
      Some {| type := MemoryFree;
           source := DriverCallback;
           name := functionName (data cbdata);
           annotation := annotation event;
           nvtx_range := nvtx_range event;
           start_time_ns := start_time;
           end_time_ns := end_time;
           device_id := device_id;
           correlation_id := correlationId (data cbdata);
           thread_id := GetCurrentThreadId;
           context_id := contextUid (data cbdata);
           stream_id := stream_id event |}
  end.

(** [AddCuMemHostRegisterEventUponApiExit] *)
Definition AddCuMemHostRegisterEventUponApiExit (device_id : Z)
    (cbid : CUpti_driver_api_trace_cbid)
    (cbdata : DriverCallbackData) (start_time end_time : Z)
    (event_ptr : option CuptiTracerEvent) : option CuptiTracerEvent :=
  match event_ptr with
  | None => None
  | Some event =>
      Some {| type := HostRegister;
           source := DriverCallback;
           name := functionName (data cbdata);
           annotation := annotation event;
           nvtx_range := nvtx_range event;
           start_time_ns := start_time;
           end_time_ns := end_time;
           device_id := device_id;
           correlation_id := correlationId (data cbdata);
           thread_id := GetCurrentThreadId;
           context_id := contextUid (data cbdata);
           stream_id := stream_id event |}
  end.

(** [AddCuMemHostUnregisterEventUponApiExit] *)
Definition AddCuMemHostUnregisterEventUponApiExit (device_id : Z)
    (cbid : CUpti_driver_api_trace_cbid)
    (cbdata : DriverCallbackData) (start_time end_time : Z)
    (event_ptr : option CuptiTracerEvent) : option CuptiTracerEvent :=
  match event_ptr with
  | None => None
  | Some event =>
      Some {| type := HostUnregister;
           source := DriverCallback;
           name := functionName (data cbdata);
           annotation := annotation event;
           nvtx_range := nvtx_range event;
           start_time_ns := start_time;
           end_time_ns := end_time;
           device_id := device_id;
           correlation_id := correlationId (data cbdata);
           thread_id := GetCurrentThreadId;
           context_id := contextUid (data cbdata);
           stream_id := stream_id event |}
  end.

(** [AddGenericEventUponApiExit] *)
Definition AddGenericEventUponApiExit (device_id : Z)
    (cbid : CUpti_driver_api_trace_cbid)
    (cbdata : DriverCallbackData) (start_time end_time : Z)
    (event_ptr : option CuptiTracerEvent) : option CuptiTracerEvent :=
  match event_ptr with
  | None => None
  | Some event =>
      Some {| type := Generic;
           source := DriverCallback;
           name := functionName (data cbdata);
           annotation := annotation event;
           nvtx_range := nvtx_range event;
           start_time_ns := start_time;
           end_time_ns := end_time;
           device_id := device_id;
           correlation_id := correlationId (data cbdata);
           thread_id := GetCurrentThreadId;
           context_id := contextUid (data cbdata);
           stream_id := stream_id event |}
  end.

(** [CuptiDriverApiHook::AddDriverApiCallbackEvent]: the status, and what
    the last callback event of the calling thread holds afterwards. *)
Definition AddDriverApiCallbackEvent (device_id start_tsc end_tsc : Z)
    (domain : CUpti_CallbackDomain) (cbid : CUpti_driver_api_trace_cbid)
    (cbdata : DriverCallbackData) (event_ptr : option CuptiTracerEvent)
  : Status * option CuptiTracerEvent :=
  (OkStatus,
   match cbid with
   | CUPTI_DRIVER_TRACE_CBID_cuLaunchKernel
   | CUPTI_DRIVER_TRACE_CBID_cuLaunchKernelEx
   | CUPTI_DRIVER_TRACE_CBID_cuLaunchCooperativeKernel
   | CUPTI_DRIVER_TRACE_CBID_cuLaunchCooperativeKernelMultiDevice =>
       AddKernelEventUponApiExit device_id cbdata start_tsc end_tsc event_ptr
   | CUPTI_DRIVER_TRACE_CBID_cuMemcpy
   | CUPTI_DRIVER_TRACE_CBID_cuMemcpyAsync
   | CUPTI_DRIVER_TRACE_CBID_cuMemcpyHtoD_v2
   | CUPTI_DRIVER_TRACE_CBID_cuMemcpyHtoDAsync_v2
   | CUPTI_DRIVER_TRACE_CBID_cuMemcpyDtoH_v2
   | CUPTI_DRIVER_TRACE_CBID_cuMemcpyDtoHAsync_v2
   | CUPTI_DRIVER_TRACE_CBID_cuMemcpyDtoD_v2
   | CUPTI_DRIVER_TRACE_CBID_cuMemcpyDtoDAsync_v2
   | CUPTI_DRIVER_TRACE_CBID_cuMemcpyAtoH_v2
   | CUPTI_DRIVER_TRACE_CBID_cuMemcpyAtoHAsync_v2
   | CUPTI_DRIVER_TRACE_CBID_cuMemcpyAtoD_v2
   | CUPTI_DRIVER_TRACE_CBID_cuMemcpyDtoA_v2
   | CUPTI_DRIVER_TRACE_CBID_cuMemcpyAtoA_v2
   | CUPTI_DRIVER_TRACE_CBID_cuMemcpy2D_v2
   | CUPTI_DRIVER_TRACE_CBID_cuMemcpy2DUnaligned_v2
   | CUPTI_DRIVER_TRACE_CBID_cuMemcpy2DAsync_v2
   | CUPTI_DRIVER_TRACE_CBID_cuMemcpy3D_v2
   | CUPTI_DRIVER_TRACE_CBID_cuMemcpy3DAsync_v2
   | CUPTI_DRIVER_TRACE_CBID_cuMemcpyHtoA_v2
   | CUPTI_DRIVER_TRACE_CBID_cuMemcpyHtoAAsync_v2 =>
       AddNormalMemcpyEventUponApiExit device_id cbid cbdata start_tsc end_tsc
         event_ptr
   | CUPTI_DRIVER_TRACE_CBID_cuMemcpyPeer
   | CUPTI_DRIVER_TRACE_CBID_cuMemcpyPeerAsync =>
       AddP2PMemcpyEventUponApiExit device_id cbid cbdata start_tsc end_tsc
         event_ptr
   | CUPTI_DRIVER_TRACE_CBID_cuMemAlloc_v2 =>
       AddCuMemAllocEventUponApiExit device_id cbid cbdata start_tsc end_tsc
         event_ptr
   | CUPTI_DRIVER_TRACE_CBID_cuMemAllocPitch_v2 =>
       AddCuMemAllocPitchEventUponApiExit device_id cbid cbdata start_tsc
         end_tsc event_ptr
   | CUPTI_DRIVER_TRACE_CBID_cuMemAllocManaged =>
       AddCuMemAllocManagedEventUponApiExit device_id cbid cbdata start_tsc
         end_tsc event_ptr
   | CUPTI_DRIVER_TRACE_CBID_cuMemAllocHost_v2 =>
       AddCuMemAllocHostEventUponApiExit device_id cbid cbdata start_tsc
         end_tsc event_ptr
   | CUPTI_DRIVER_TRACE_CBID_cuMemHostAlloc =>
       AddCuMemHostAllocEventUponApiExit device_id cbid cbdata start_tsc
         end_tsc event_ptr
   | CUPTI_DRIVER_TRACE_CBID_cuMemFree_v2 =>
       AddCuMemFreeEventUponApiExit device_id cbid cbdata start_tsc end_tsc
         event_ptr
   | CUPTI_DRIVER_TRACE_CBID_cuMemFreeHost =>
       AddCuMemFreeHostEventUponApiExit device_id cbid cbdata start_tsc
         end_tsc event_ptr
   | CUPTI_DRIVER_TRACE_CBID_cuMemHostRegister_v2 =>
       AddCuMemHostRegisterEventUponApiExit device_id cbid cbdata start_tsc
         end_tsc event_ptr
   | CUPTI_DRIVER_TRACE_CBID_cuMemHostUnregister =>
       AddCuMemHostUnregisterEventUponApiExit device_id cbid cbdata start_tsc
         end_tsc event_ptr
   | CUPTI_DRIVER_TRACE_CBID_cuMemsetD8_v2
   | CUPTI_DRIVER_TRACE_CBID_cuMemsetD16_v2
   | CUPTI_DRIVER_TRACE_CBID_cuMemsetD32_v2
   | CUPTI_DRIVER_TRACE_CBID_cuMemsetD2D8_v2
   | CUPTI_DRIVER_TRACE_CBID_cuMemsetD2D16_v2
   | CUPTI_DRIVER_TRACE_CBID_cuMemsetD2D32_v2
   | CUPTI_DRIVER_TRACE_CBID_cuMemsetD8Async
   | CUPTI_DRIVER_TRACE_CBID_cuMemsetD16Async
   | CUPTI_DRIVER_TRACE_CBID_cuMemsetD32Async
   | CUPTI_DRIVER_TRACE_CBID_cuMemsetD2D8Async
   | CUPTI_DRIVER_TRACE_CBID_cuMemsetD2D16Async
   | CUPTI_DRIVER_TRACE_CBID_cuMemsetD2D32Async =>
       AddCuMemsetEventUponApiExit device_id cbid cbdata start_tsc end_tsc
         event_ptr
   | _ =>
       AddGenericEventUponApiExit device_id cbid cbdata start_tsc end_tsc
         event_ptr
   end).

(** *** [class CuptiDriverApiHookWithActivityApi] *)

(** [CuptiTracer::GetTimestamp()]; [cupti_interface] is what
    [GetCuptiInterface()] returns, reduced to the answer of its
    [GetTimestamp(&tsc)], or [None] for the null pointer. *)
Definition GetTimestamp (cupti_interface : option (CUptiResult * Z)) : Z :=
  match cupti_interface with
  | Some (CUPTI_SUCCESS, tsc) => tsc
  | _ => 0
  end.

(** The members [option_] and [contexts_]. *)
Record CuptiDriverApiHookWithActivityApi : Type := {
  option_ : CuptiTracerOptions;
  contexts_ : gset Z;
}.

Definition TrackContext (cbid : CUpti_driver_api_trace_cbid) (ctx : option Z)
    (hook : CuptiDriverApiHookWithActivityApi)
  : CuptiDriverApiHookWithActivityApi :=
  if negb (sync_devices_before_stop (option_ hook)) then hook else
  match ctx with
  | None => hook
  | Some ctx =>
      match cbid with
      | CUPTI_DRIVER_TRACE_CBID_cuCtxDestroy_v2
      | CUPTI_DRIVER_TRACE_CBID_cuCtxDestroy =>
          {| option_ := option_ hook;
             contexts_ := contexts_ hook ∖ {[ ctx ]} |}
      | _ =>
          {| option_ := option_ hook;
             contexts_ := {[ ctx ]} ∪ contexts_ hook |}
      end
  end.

(** [OnDriverApiEnter]: the status, and [cbdata] after the write to
    [*cbdata->correlationData]. *)
Definition OnDriverApiEnter (cupti_interface : option (CUptiResult * Z))
    (hook : CuptiDriverApiHookWithActivityApi) (device_id : Z)
    (domain : CUpti_CallbackDomain) (cbid : CUpti_driver_api_trace_cbid)
    (cbdata : DriverCallbackData) : Status * DriverCallbackData :=
  (OkStatus,
   {| data := data cbdata;
      symbolName := symbolName cbdata;
      functionParams := functionParams cbdata;
      correlationData :=
        if required_callback_api_events (option_ hook)
        then GetTimestamp cupti_interface else 0 |}).

(** [OnDriverApiExit]: the status, the hook afterwards, and what the last
    callback event of the calling thread holds afterwards. *)
Definition OnDriverApiExit (cupti_interface : option (CUptiResult * Z))
    (hook : CuptiDriverApiHookWithActivityApi) (device_id : Z)
    (domain : CUpti_CallbackDomain) (cbid : CUpti_driver_api_trace_cbid)
    (cbdata : DriverCallbackData) (event_ptr : option CuptiTracerEvent)
  : Status * CuptiDriverApiHookWithActivityApi * option CuptiTracerEvent :=
  if negb (required_callback_api_events (option_ hook))
  then (OkStatus, hook, event_ptr)
  else
    let end_tsc := GetTimestamp cupti_interface in
    let start_tsc := correlationData cbdata in
    let hook1 := TrackContext cbid (context (data cbdata)) hook in
    let '(status, event) :=
      AddDriverApiCallbackEvent device_id start_tsc end_tsc domain cbid cbdata
        event_ptr in
    (status, hook1, event).

(** [SyncAndFlush]: the status, and the contexts that are pushed,
    synchronised and popped. *)
Definition SyncAndFlush (hook : CuptiDriverApiHookWithActivityApi)
  : Status * gset Z :=
  (OkStatus,
   if sync_devices_before_stop (option_ hook) then contexts_ hook else ∅).

End Hook.

(** *** Properties of the callback events *)

(** The copies through CUDA arrays and the unaligned 2D copy, and the 2D and
    3D copies whose kind depends on the memory types of [pCopy]. *)
Definition array_copies : list CUpti_driver_api_trace_cbid :=
  [CUPTI_DRIVER_TRACE_CBID_cuMemcpyAtoH_v2;
   CUPTI_DRIVER_TRACE_CBID_cuMemcpyAtoHAsync_v2;
   CUPTI_DRIVER_TRACE_CBID_cuMemcpyAtoD_v2;
   CUPTI_DRIVER_TRACE_CBID_cuMemcpyDtoA_v2;
   CUPTI_DRIVER_TRACE_CBID_cuMemcpyAtoA_v2;
   CUPTI_DRIVER_TRACE_CBID_cuMemcpy2DUnaligned_v2;
   CUPTI_DRIVER_TRACE_CBID_cuMemcpyHtoA_v2;
   CUPTI_DRIVER_TRACE_CBID_cuMemcpyHtoAAsync_v2].

Definition strided_copies : list CUpti_driver_api_trace_cbid :=
  [CUPTI_DRIVER_TRACE_CBID_cuMemcpy2D_v2;
   CUPTI_DRIVER_TRACE_CBID_cuMemcpy2DAsync_v2;
   CUPTI_DRIVER_TRACE_CBID_cuMemcpy3D_v2;
   CUPTI_DRIVER_TRACE_CBID_cuMemcpy3DAsync_v2].

Definition kernel_launches : list CUpti_driver_api_trace_cbid :=
  [CUPTI_DRIVER_TRACE_CBID_cuLaunchKernel;
   CUPTI_DRIVER_TRACE_CBID_cuLaunchKernelEx;
   CUPTI_DRIVER_TRACE_CBID_cuLaunchCooperativeKernel;
   CUPTI_DRIVER_TRACE_CBID_cuLaunchCooperativeKernelMultiDevice].

(** The callback ids that [AddDriverApiCallbackEvent] handles as memory
    copies, peer copies included, and those it handles as memory sets. *)
Definition memory_copies : list CUpti_driver_api_trace_cbid :=
  [CUPTI_DRIVER_TRACE_CBID_cuMemcpy;
   CUPTI_DRIVER_TRACE_CBID_cuMemcpyAsync;
   CUPTI_DRIVER_TRACE_CBID_cuMemcpyHtoD_v2;
   CUPTI_DRIVER_TRACE_CBID_cuMemcpyHtoDAsync_v2;
   CUPTI_DRIVER_TRACE_CBID_cuMemcpyDtoH_v2;
   CUPTI_DRIVER_TRACE_CBID_cuMemcpyDtoHAsync_v2;
   CUPTI_DRIVER_TRACE_CBID_cuMemcpyDtoD_v2;
   CUPTI_DRIVER_TRACE_CBID_cuMemcpyDtoDAsync_v2;
   CUPTI_DRIVER_TRACE_CBID_cuMemcpyAtoH_v2;
   CUPTI_DRIVER_TRACE_CBID_cuMemcpyAtoHAsync_v2;
   CUPTI_DRIVER_TRACE_CBID_cuMemcpyAtoD_v2;
   CUPTI_DRIVER_TRACE_CBID_cuMemcpyDtoA_v2;
   CUPTI_DRIVER_TRACE_CBID_cuMemcpyAtoA_v2;
   CUPTI_DRIVER_TRACE_CBID_cuMemcpy2D_v2;
   CUPTI_DRIVER_TRACE_CBID_cuMemcpy2DUnaligned_v2;
   CUPTI_DRIVER_TRACE_CBID_cuMemcpy2DAsync_v2;
   CUPTI_DRIVER_TRACE_CBID_cuMemcpy3D_v2;
   CUPTI_DRIVER_TRACE_CBID_cuMemcpy3DAsync_v2;
   CUPTI_DRIVER_TRACE_CBID_cuMemcpyHtoA_v2;
   CUPTI_DRIVER_TRACE_CBID_cuMemcpyHtoAAsync_v2;
   CUPTI_DRIVER_TRACE_CBID_cuMemcpyPeer;
   CUPTI_DRIVER_TRACE_CBID_cuMemcpyPeerAsync].

Definition memory_sets : list CUpti_driver_api_trace_cbid :=
  [CUPTI_DRIVER_TRACE_CBID_cuMemsetD8_v2;
   CUPTI_DRIVER_TRACE_CBID_cuMemsetD16_v2;
   CUPTI_DRIVER_TRACE_CBID_cuMemsetD32_v2;
   CUPTI_DRIVER_TRACE_CBID_cuMemsetD2D8_v2;
   CUPTI_DRIVER_TRACE_CBID_cuMemsetD2D16_v2;
   CUPTI_DRIVER_TRACE_CBID_cuMemsetD2D32_v2;
   CUPTI_DRIVER_TRACE_CBID_cuMemsetD8Async;
   CUPTI_DRIVER_TRACE_CBID_cuMemsetD16Async;
   CUPTI_DRIVER_TRACE_CBID_cuMemsetD32Async;
   CUPTI_DRIVER_TRACE_CBID_cuMemsetD2D8Async;
   CUPTI_DRIVER_TRACE_CBID_cuMemsetD2D16Async;
   CUPTI_DRIVER_TRACE_CBID_cuMemsetD2D32Async].

Definition is_destroy (cbid : CUpti_driver_api_trace_cbid) : bool :=
  match cbid with
  | CUPTI_DRIVER_TRACE_CBID_cuCtxDestroy_v2
  | CUPTI_DRIVER_TRACE_CBID_cuCtxDestroy => true
  | _ => false
  end.

(** One [OnDriverApiExit] call: its arguments and what the driver answers
    to the [GetTimestamp] in it. *)
Record ExitCall : Type := {
  exit_interface : option (CUptiResult * Z);
  exit_device_id : Z;
  exit_domain : CUpti_CallbackDomain;
  exit_cbid : CUpti_driver_api_trace_cbid;
  exit_cbdata : DriverCallbackData;
  exit_event_ptr : option CuptiTracerEvent;
}.

Section HookFacts.
Variable cupti_interface_ : CuptiInterface.
Variable event0 : CuptiTracerEvent.
Variable GetCurrentThreadId : Z.

Local Abbreviation AddDriverApiCallbackEvent :=
  (AddDriverApiCallbackEvent cupti_interface_ event0 GetCurrentThreadId).
Local Abbreviation OnDriverApiExit :=
  (OnDriverApiExit cupti_interface_ event0 GetCurrentThreadId).

(** The hook after a sequence of exit callbacks, oldest first. *)
Fixpoint exits (calls : list ExitCall)
    (hook : CuptiDriverApiHookWithActivityApi)
  : CuptiDriverApiHookWithActivityApi :=
  match calls with
  | [] => hook
  | c :: rest =>
      exits rest
        (OnDriverApiExit (exit_interface c) hook (exit_device_id c)
           (exit_domain c) (exit_cbid c) (exit_cbdata c)
           (exit_event_ptr c)).1.2
  end.

(** The callback id of the latest call in [calls] made in context [ctx]. *)
Fixpoint last_seen (ctx : Z) (calls : list ExitCall)
  : option CUpti_driver_api_trace_cbid :=
  match calls with
  | [] => None
  | c :: rest =>
      match last_seen ctx rest with
      | Some cbid => Some cbid
      | None =>
          if decide (context (data (exit_cbdata c)) = Some ctx)
          then Some (exit_cbid c) else None
      end
  end.

Ltac by_cbid cbid :=
  destruct cbid; cbn -[MemcpyKind];
  eexists; (split; [reflexivity |]); cbn -[MemcpyKind].

(** X18 (cupti_tracer.cc, DecodeDriverMemcpy and AddDriverApiCallbackEvent):
    an exit callback always writes an event when there is one to write to,
    and the type written is [Unsupported] exactly for the copies through
    CUDA arrays and the unaligned 2D copy, which are handled as memory
    copies but which the decoder does not know, and for a 2D or 3D copy
    that is not from host to device, from device to host or from device to
    device; a memory set and every other call get a supported type. *)
Theorem unsupported_callback_events (device_id start_tsc end_tsc : Z)
    (domain : CUpti_CallbackDomain) (cbid : CUpti_driver_api_trace_cbid)
    (cbdata : DriverCallbackData) (event : CuptiTracerEvent) :
  exists event',
    AddDriverApiCallbackEvent device_id start_tsc end_tsc domain cbid cbdata
      (Some event) = (OkStatus, Some event') /\
    (type event' = Unsupported <->
     In cbid array_copies \/
     (In cbid strided_copies /\
      MemcpyKind (pCopy (functionParams cbdata)) = Unsupported)).
Proof.
  by_cbid cbid; intuition (try discriminate; try congruence).
Qed.

(** X19 (cupti_tracer.cc, the Add...EventUponApiExit functions): whatever
    the driver call, the event written at its exit has the source
    DriverCallback, the two timestamps it was given, the calling thread,
    and the context and correlation ids of the callback data.  Its device
    is the one of the callback, except for a peer copy, where it is the
    device that the driver reports for the source context. *)
Theorem callback_event_common_fields (device_id start_tsc end_tsc : Z)
    (domain : CUpti_CallbackDomain) (cbid : CUpti_driver_api_trace_cbid)
    (cbdata : DriverCallbackData) (event : CuptiTracerEvent) :
  exists event',
    AddDriverApiCallbackEvent device_id start_tsc end_tsc domain cbid cbdata
      (Some event) = (OkStatus, Some event') /\
    source event' = DriverCallback /\
    start_time_ns event' = start_tsc /\
    end_time_ns event' = end_tsc /\
    thread_id event' = GetCurrentThreadId /\
    context_id event' = contextUid (data cbdata) /\
    correlation_id event' = correlationId (data cbdata) /\
    Cupti.device_id event' =
      match cbid with
      | CUPTI_DRIVER_TRACE_CBID_cuMemcpyPeer
      | CUPTI_DRIVER_TRACE_CBID_cuMemcpyPeerAsync =>
          (cupti_GetDeviceId cupti_interface_
             (srcContext (functionParams cbdata))).2
      | _ => device_id
      end.
Proof.
  by_cbid cbid; split_and!; reflexivity.
Qed.

(** X20 (cupti_tracer.cc, the Add...EventUponApiExit functions and
    AddDriverApiCallbackEvent): the name of the event written at exit, for
    every callback id.  A kernel launch is typed [Kernel] and named after
    the kernel symbol, or after the driver function when the symbol is
    null.  Every memory copy, whatever type is written for it, replaces
    the whole event by a fresh one, so its name, annotation, NVTX range
    and stream are those of a value-initialised event.  A memory set leaves
    the name as it was.  Every other call is named after the driver
    function.  Apart from the memory copies, the annotation, NVTX range
    and stream of the event are kept. *)
Theorem callback_event_name (device_id start_tsc end_tsc : Z)
    (domain : CUpti_CallbackDomain) (cbid : CUpti_driver_api_trace_cbid)
    (cbdata : DriverCallbackData) (event : CuptiTracerEvent) :
  exists event',
    AddDriverApiCallbackEvent device_id start_tsc end_tsc domain cbid cbdata
      (Some event) = (OkStatus, Some event') /\
    let kept :=
      annotation event' = annotation event /\
      nvtx_range event' = nvtx_range event /\
      stream_id event' = stream_id event in
    (In cbid kernel_launches ->
     type event' = Kernel /\
     name event' = default (functionName (data cbdata)) (symbolName cbdata) /\
     kept) /\
    (In cbid memory_copies ->
     name event' = name event0 /\
     annotation event' = annotation event0 /\
     nvtx_range event' = nvtx_range event0 /\
     stream_id event' = stream_id event0) /\
    (In cbid memory_sets -> name event' = name event /\ kept) /\
    (~ In cbid (kernel_launches ++ memory_copies ++ memory_sets) ->
     name event' = functionName (data cbdata) /\ kept).
Proof.
  by_cbid cbid; split_and!; intros Hin;
    first
      [ split_and!; reflexivity
      | exfalso; cbn in Hin;
        first
          [ solve [intuition discriminate]
          | apply Hin; repeat (first [left; reflexivity | right]) ] ].
Qed.

Lemma AddDriverApiCallbackEvent_writes (device_id start_tsc end_tsc : Z)
    (domain : CUpti_CallbackDomain) (cbid : CUpti_driver_api_trace_cbid)
    (cbdata : DriverCallbackData) (event : CuptiTracerEvent) :
  exists event',
    AddDriverApiCallbackEvent device_id start_tsc end_tsc domain cbid cbdata
      (Some event) = (OkStatus, Some event') /\
    start_time_ns event' = start_tsc /\
    end_time_ns event' = end_tsc.
Proof.
  by_cbid cbid; split; reflexivity.
Qed.

(** X21 (cupti_tracer.cc, OnDriverApiEnter, OnDriverApiExit and
    GetTimestamp): with callback events required, the event written at the
    exit of a driver call starts at the timestamp taken at its entry, which
    travels in the correlation data, and ends at the timestamp taken at its
    exit; a timestamp is 0 when there is no interface or the driver fails.
    With callback events not required, entry stores 0 and exit touches
    neither the event nor the tracked contexts. *)
Theorem exit_event_spans_the_call
    (at_entry at_exit : option (CUptiResult * Z))
    (hook : CuptiDriverApiHookWithActivityApi) (device_id : Z)
    (domain : CUpti_CallbackDomain) (cbid : CUpti_driver_api_trace_cbid)
    (cbdata : DriverCallbackData) (event : CuptiTracerEvent) :
  let timestamp answer :=
    match answer with Some (CUPTI_SUCCESS, tsc) => tsc | _ => 0 end in
  let entered :=
    DriverApiHook.OnDriverApiEnter at_entry hook device_id domain cbid
      cbdata in
  let exited :=
    OnDriverApiExit at_exit hook device_id domain cbid entered.2
      (Some event) in
  entered.1 = OkStatus /\
  data entered.2 = data cbdata /\
  symbolName entered.2 = symbolName cbdata /\
  functionParams entered.2 = functionParams cbdata /\
  if required_callback_api_events (option_ hook)
  then
    exists event',
      exited = (OkStatus, TrackContext cbid (context (data cbdata)) hook,
                Some event') /\
      start_time_ns event' = timestamp at_entry /\
      end_time_ns event' = timestamp at_exit
  else
    correlationData entered.2 = 0 /\
    exited = (OkStatus, hook, Some event).
Proof.
  intros timestamp entered exited. subst entered exited.
  unfold DriverApiHook.OnDriverApiEnter, DriverApiHook.OnDriverApiExit.
  cbn [fst snd data symbolName functionParams correlationData].
  split_and!; try reflexivity.
  destruct (required_callback_api_events (option_ hook)); cbn [negb].
  - match goal with
    | |- context [DriverApiHook.AddDriverApiCallbackEvent _ _ _ ?d ?s ?e ?dom
                    ?c ?cb (Some event)] =>
        destruct (AddDriverApiCallbackEvent_writes d s e dom c cb event)
          as (event' & -> & Hstart & Hend)
    end.
    exists event'. split_and!; [reflexivity | |].
    + rewrite Hstart. reflexivity.
    + rewrite Hend. reflexivity.
  - split; reflexivity.
Qed.

Lemma OnDriverApiExit_hook (c : ExitCall)
    (hook : CuptiDriverApiHookWithActivityApi) :
  required_callback_api_events (option_ hook) = true ->
  (OnDriverApiExit (exit_interface c) hook (exit_device_id c) (exit_domain c)
     (exit_cbid c) (exit_cbdata c) (exit_event_ptr c)).1.2
  = TrackContext (exit_cbid c) (context (data (exit_cbdata c))) hook.
Proof.
  intros Hrequired. unfold DriverApiHook.OnDriverApiExit.
  rewrite Hrequired. reflexivity.
Qed.

Lemma TrackContext_option_ (cbid : CUpti_driver_api_trace_cbid)
    (ctx : option Z) (hook : CuptiDriverApiHookWithActivityApi) :
  option_ (TrackContext cbid ctx hook) = option_ hook.
Proof.
  unfold TrackContext.
  destruct (sync_devices_before_stop (option_ hook)); [| reflexivity].
  destruct ctx; [| reflexivity]. destruct cbid; reflexivity.
Qed.

Lemma TrackContext_contexts_ (cbid : CUpti_driver_api_trace_cbid)
    (ctx : option Z) (hook : CuptiDriverApiHookWithActivityApi) (c : Z) :
  sync_devices_before_stop (option_ hook) = true ->
  c ∈ contexts_ (TrackContext cbid ctx hook) <->
  if decide (ctx = Some c) then is_destroy cbid = false
  else c ∈ contexts_ hook.
Proof.
  intros Hsync. unfold TrackContext. rewrite Hsync. cbn [negb].
  destruct ctx as [ctx|].
  - destruct (decide (Some ctx = Some c)) as [[= ->]|Hne].
    + destruct cbid; cbn [contexts_ is_destroy];
        rewrite ?elem_of_union, ?elem_of_difference, ?elem_of_singleton;
        intuition (try discriminate; try congruence).
    + assert (c <> ctx) by congruence.
      destruct cbid; cbn [contexts_];
        rewrite ?elem_of_union, ?elem_of_difference, ?elem_of_singleton;
        intuition (try discriminate; try congruence).
  - destruct (decide (None = Some c)) as [[=]|_]. reflexivity.
Qed.

(** X22 (cupti_tracer.cc, TrackContext, OnDriverApiExit and SyncAndFlush):
    with callback events required and synchronisation before stop
    selected, [SyncAndFlush] after a sequence of exit callbacks
    synchronises a context exactly when the latest callback made in it was
    not a context destruction, or, for a context with no callback in the
    sequence, when it was tracked before. *)
Theorem SyncAndFlush_live_contexts (calls : list ExitCall)
    (hook : CuptiDriverApiHookWithActivityApi) (ctx : Z) :
  required_callback_api_events (option_ hook) = true ->
  sync_devices_before_stop (option_ hook) = true ->
  SyncAndFlush (exits calls hook)
  = (OkStatus, contexts_ (exits calls hook)) /\
  (ctx ∈ (SyncAndFlush (exits calls hook)).2 <->
   match last_seen ctx calls with
   | Some cbid => is_destroy cbid = false
   | None => ctx ∈ contexts_ hook
   end).
Proof.
  intros Hrequired Hsync.
  assert (Hoption : option_ (exits calls hook) = option_ hook).
  { clear Hsync. revert hook Hrequired.
    induction calls as [|c rest IH]; intros hook Hrequired; [reflexivity |].
    cbn [exits]. rewrite OnDriverApiExit_hook by exact Hrequired.
    rewrite IH by (rewrite TrackContext_option_; exact Hrequired).
    apply TrackContext_option_. }
  unfold SyncAndFlush. rewrite Hoption, Hsync. split; [reflexivity |].
  cbn [snd]. clear Hoption. revert hook Hrequired Hsync.
  induction calls as [|c rest IH]; intros hook Hrequired Hsync;
    [reflexivity |].
  cbn [exits last_seen]. rewrite OnDriverApiExit_hook by exact Hrequired.
  rewrite IH by (rewrite TrackContext_option_; assumption).
  destruct (last_seen ctx rest) as [cbid|]; [reflexivity |].
  rewrite TrackContext_contexts_ by exact Hsync.
  destruct (decide (context (data (exit_cbdata c)) = Some ctx));
    reflexivity.
Qed.

(** X23 (cupti_tracer.cc, TrackContext and SyncAndFlush): when
    synchronisation before stop is not selected, no context is ever
    tracked or synchronised, whatever callbacks arrive. *)
Theorem no_sync_without_option (calls : list ExitCall)
    (hook : CuptiDriverApiHookWithActivityApi) :
  sync_devices_before_stop (option_ hook) = false ->
  exits calls hook = hook /\
  SyncAndFlush (exits calls hook) = (OkStatus, ∅).
Proof.
  intros Hsync.
  assert (Hsame : exits calls hook = hook).
  { induction calls as [|c rest IH]; [reflexivity |].
    cbn [exits].
    replace ((OnDriverApiExit (exit_interface c) hook (exit_device_id c)
                (exit_domain c) (exit_cbid c) (exit_cbdata c)
                (exit_event_ptr c)).1.2) with hook; [exact IH |].
    unfold DriverApiHook.OnDriverApiExit.
    destruct (required_callback_api_events (option_ hook)); [| reflexivity].
    cbn [negb fst snd]. unfold TrackContext. rewrite Hsync. reflexivity. }
  rewrite Hsame. split; [reflexivity |].
  unfold SyncAndFlush. rewrite Hsync. reflexivity.
Qed.

End HookFacts.

(** A hook that tracks contexts or not, and three exit callbacks: a kernel
    launch in context 7, the destruction of context 7, and a copy in
    context 8. *)
Definition sample_hook (sync : bool) : CuptiDriverApiHookWithActivityApi :=
  {| option_ :=
       {| required_callback_api_events := true;
          cbids_selected := [];
          activities_selected := [];
          cupti_finalize := false;
          sync_devices_before_stop := sync;
          enable_nvtx_tracking := false |};
     contexts_ := ∅ |}.

Definition sample_exit (cbid : CUpti_driver_api_trace_cbid) (ctx : Z)
  : ExitCall :=
  {| exit_interface := Some (CUPTI_SUCCESS, 2000);
     exit_device_id := 0;
     exit_domain := CUPTI_CB_DOMAIN_DRIVER_API;
     exit_cbid := cbid;
     exit_cbdata :=
       {| data :=
            {| callbackSite := CUPTI_API_EXIT;
               context := Some ctx;
               contextUid := 1;
               correlationId := 42;
               functionName := "cuLaunchKernel";
               nvtx_message := "" |};
          symbolName := None;
          functionParams :=
            {| ByteCount := 16;
               pCopy := {| srcMemoryType := CU_MEMORYTYPE_HOST;
                           dstMemoryType := CU_MEMORYTYPE_DEVICE;
                           WidthInBytes := 4; Height := 4; Depth := 1 |};
               N := 0; dstPitch := 0; params_Height := 0;
               srcContext := 0; dstContext := 0 |};
          correlationData := 1000 |};
     exit_event_ptr := Some Sample.event0 |}.

Definition sample_exits : list ExitCall :=
  [sample_exit CUPTI_DRIVER_TRACE_CBID_cuLaunchKernel 7;
   sample_exit CUPTI_DRIVER_TRACE_CBID_cuCtxDestroy_v2 7;
   sample_exit CUPTI_DRIVER_TRACE_CBID_cuMemcpyHtoD_v2 8].

Lemma SyncAndFlush_live_contexts_witness :
  8 ∈ (SyncAndFlush
         (exits (Sample.cupti false) Sample.event0 11 sample_exits
            (sample_hook true))).2.
Proof.
  apply (proj2 (proj2 (SyncAndFlush_live_contexts (Sample.cupti false)
                         Sample.event0 11 sample_exits (sample_hook true) 8
                         eq_refl eq_refl))).
  reflexivity.
Defined.

Lemma no_sync_without_option_witness :
  exits (Sample.cupti false) Sample.event0 11 sample_exits (sample_hook false)
  = sample_hook false /\
  SyncAndFlush
    (exits (Sample.cupti false) Sample.event0 11 sample_exits
       (sample_hook false)) = (OkStatus, ∅).
Proof.
  apply (no_sync_without_option (Sample.cupti false) Sample.event0 11
           sample_exits (sample_hook false)).
  reflexivity.
Defined.

End DriverApiHook.

(** ** The CUPTI tracer: enabling, availability and the error report
       (cupti_tracer.cc) *)

Module TracerLifecycle.
Import Cupti.

(** [CuptiTracer::NumGpus()]: [cuInit] says whether [cuInit(0)] returned
    [CUDA_SUCCESS], [cuDeviceGetCount] is the count that the call of that
    name wrote, or [None] when it failed. *)
Definition NumGpus (cuInit : bool) (cuDeviceGetCount : option Z) : Z :=
  if negb cuInit then 0 else
  match cuDeviceGetCount with
  | None => 0
  | Some gpu_count => gpu_count
  end.

(** [ErrorWithHostname]; [Hostname] is what [tsl::port::Hostname()]
    returns. *)
Definition ErrorWithHostname (Hostname : string) (error_message : string)
  : string :=
  Hostname +:+ ": " +:+ error_message.

(** [CuptiTracer::ErrorIfAny()], from what [NumGpus()], [NeedRootAccess()]
    of the singleton and [GetTimestamp()] return. *)
Definition ErrorIfAny (Hostname : string) (NumGpus : Z)
    (NeedRootAccess : bool) (GetTimestamp : Z) : string :=
  if NumGpus =? 0
  then ErrorWithHostname Hostname "No GPU detected."
  else if NeedRootAccess
  then ErrorWithHostname Hostname
         "Insufficient privilege to run libcupti (you need root permission)."
  else if GetTimestamp =? 0
  then ErrorWithHostname Hostname
         "Failed to load libcupti (is it installed and accessible?)"
  else "".

Section Tracer.
Context {constants : VendorConstants}.
Context {buffer_pool : BufferPool}.
Variable cupti_interface_ : CuptiInterface.
Variable GetCuptiInterface : CuptiInterface.
Variable event0 : CuptiTracerEvent.
(** What [cupti_interface_] answers to the three calls that only enabling
    makes.  These calls are not among [Call] and leave no entry in the
    trace. *)
Variable cupti_Subscribe : CUptiResult.
Variable cupti_ActivityRegisterCallbacks : CUptiResult.
Variable cupti_ActivityEnable : CUpti_ActivityKind -> CUptiResult.
(** [new CuptiDriverApiHookWithActivityApi(option, cupti_interface_, this)] *)
Variable CuptiDriverApiHookWithActivityApi_new :
  CuptiTracerOptions -> CuptiDriverApiHook.

Local Abbreviation State := (@State buffer_pool).
Local Abbreviation M := (State -> option (Status * State)).
Local Abbreviation RETURN_IF_CUPTI_ERROR :=
  (RETURN_IF_CUPTI_ERROR cupti_interface_).
Local Abbreviation cupti_call := (cupti_call cupti_interface_).

(** [IsAvailable()]; [NumGpus] is what the static function returns. *)
Definition IsAvailable (NumGpus : Z) (s : State) : bool :=
  negb (NumGpus =? 0) && negb (activity_tracing_enabled_ s)
  && negb (api_tracing_enabled_ s).

(** [ClearAllAnnotatedEvents] *)
Definition ClearAllAnnotatedEvents (s : State) : State :=
  let s1 := set_collected_annotation_and_events_ [] s in
  let s2 := set_merged_annotation_map_ ∅ s1 in
  let '(_, s3) := CollectAll s2 in
  set_dropped_callback_event_count_ 0 s3.

(** [PrepareOptionSettings] *)
Definition PrepareOptionSettings (s : State) : option State :=
  match collector_ s with
  | None => None
  | Some collector =>
      Some (set_statics
              {| s_callback_api_event_count := 0;
                 s_max_annotation_strings :=
                   max_annotation_strings (options_ collector);
                 s_max_callback_api_events :=
                   max_callback_api_events (options_ collector) |} s)
  end.

(** The loop over [cbids_selected] in [EnableApiTracing]. *)
Fixpoint enable_callbacks (cbids : list Z) (k : M) : M :=
  match cbids with
  | [] => k
  | cbid :: rest =>
      cupti_call
        (CuptiEnableCallback true CUPTI_CB_DOMAIN_DRIVER_API cbid)
        (cupti_EnableCallback cupti_interface_ true
           CUPTI_CB_DOMAIN_DRIVER_API cbid)
        (enable_callbacks rest k)
  end.

Definition EnableApiTracing : M :=
  fun s =>
    if api_tracing_enabled_ s then Some (OkStatus, s) else
    let s1 := ClearAllAnnotatedEvents s in
    match PrepareOptionSettings s1 with
    | None => None
    | Some s2 =>
        RETURN_IF_CUPTI_ERROR cupti_Subscribe
          (fun s =>
             let s3 := set_api_tracing_enabled_ true s in
             match option_ s3 with
             | None => None
             | Some option =>
                 let nvtx : M :=
                   if enable_nvtx_tracking option
                   then cupti_call
                          (CuptiEnableDomain true CUPTI_CB_DOMAIN_NVTX)
                          (cupti_EnableDomain cupti_interface_ true
                             CUPTI_CB_DOMAIN_NVTX)
                          (fun s => Some (OkStatus, s))
                   else fun s => Some (OkStatus, s) in
                 match cbids_selected option with
                 | [] =>
                     cupti_call
                       (CuptiEnableDomain true CUPTI_CB_DOMAIN_DRIVER_API)
                       (cupti_EnableDomain cupti_interface_ true
                          CUPTI_CB_DOMAIN_DRIVER_API)
                       nvtx s3
                 | cbids => enable_callbacks cbids nvtx s3
                 end
             end) s2
    end.

(** The loop over [activities_selected] in [EnableActivityTracing]. *)
Fixpoint enable_activities (activities : list CUpti_ActivityKind) (k : M)
  : M :=
  match activities with
  | [] => k
  | activity :: rest =>
      fun s =>
        let s1 :=
          match activity with
          | CUPTI_ACTIVITY_KIND_UNIFIED_MEMORY_COUNTER =>
              ConfigureActivityUnifiedMemoryCounter true s
          | _ => s
          end in
        RETURN_IF_CUPTI_ERROR (cupti_ActivityEnable activity)
          (enable_activities rest k) s1
  end.

Definition EnableActivityTracing : M :=
  fun s =>
    let finish : M :=
      fun s => Some (OkStatus, set_activity_tracing_enabled_ true s) in
    match option_ s with
    | None => None
    | Some option =>
        match activities_selected option with
        | [] => finish s
        | activities =>
            RETURN_IF_CUPTI_ERROR cupti_ActivityRegisterCallbacks
              (enable_activities activities finish) s
        end
    end.

(** [status.code() == tsl::error::PERMISSION_DENIED] *)
Definition is_permission_denied (status : Status) : bool :=
  match status with
  | Error kPermissionDenied _ => true
  | _ => false
  end.

(** [Enable(option, collector)]: the [need_root_access_] member, which is
    not part of [State], and the state afterwards; a null [collector] is
    [None]. *)
Definition Enable (option : CuptiTracerOptions)
    (collector : Datatypes.option CuptiTraceCollector)
    (need_root_access_ : bool) (s : State)
  : Datatypes.option (bool * State) :=
  let s1 := set_option_ (Some option) s in
  let s2 := set_collector_ collector s1 in
  let s3 :=
    set_cupti_driver_api_hook_
      (Some (CuptiDriverApiHookWithActivityApi_new option)) s2 in
  match EnableApiTracing s3 with
  | None => None
  | Some (status, s4) =>
      let need_root_access_ :=
        need_root_access_ || is_permission_denied status in
      if negb (ok status) then Some (need_root_access_, s4) else
      match IgnoreError EnableActivityTracing s4 with
      | None => None
      | Some s5 =>
          Some (need_root_access_, log (AnnotationStackEnable true) s5)
      end
  end.

End Tracer.

Section Facts.
Context {constants : VendorConstants}.
Context {buffer_pool : BufferPool}.
Variable cupti_interface_ : CuptiInterface.
Variable GetCuptiInterface : CuptiInterface.
Variable event0 : CuptiTracerEvent.
Variable cupti_Subscribe : CUptiResult.
Variable cupti_ActivityRegisterCallbacks : CUptiResult.
Variable cupti_ActivityEnable : CUpti_ActivityKind -> CUptiResult.
Variable CuptiDriverApiHookWithActivityApi_new :
  CuptiTracerOptions -> CuptiDriverApiHook.

Local Abbreviation State := (@State buffer_pool).
Local Abbreviation M := (State -> option (Status * State)).

(** The two flags that [IsAvailable] reads. *)
Definition flags (s : State) : bool * bool :=
  (api_tracing_enabled_ s, activity_tracing_enabled_ s).

Definition is_success (r : CUptiResult) : bool :=
  match r with CUPTI_SUCCESS => true | CUPTI_ERROR _ => false end.

(** A step that changes neither flag nor the options. *)
Definition quiet (m : M) : Prop :=
  forall s status s1,
    m s = Some (status, s1) -> flags s1 = flags s /\ option_ s1 = option_ s.

Lemma quiet_ret : quiet (fun s => Some (OkStatus, s)).
Proof. intros s status s1 [= _ <-]. auto. Qed.

Lemma quiet_cupti_call c r k :
  quiet k -> quiet (cupti_call cupti_interface_ c r k).
Proof.
  intros Hk s status s1. unfold cupti_call.
  destruct r as [|e]; simpl.
  - intros Hrun. apply Hk in Hrun. exact Hrun.
  - intros [= _ <-]. auto.
Qed.

Lemma quiet_disable_callbacks cbids k :
  quiet k -> quiet (disable_callbacks cupti_interface_ cbids k).
Proof.
  intros Hk. induction cbids as [|cbid rest IH]; simpl; [exact Hk |].
  apply quiet_cupti_call. exact IH.
Qed.

Lemma DisableApiTracing_flags s status s1 :
  DisableApiTracing cupti_interface_ s = Some (status, s1) ->
  api_tracing_enabled_ s1 = false /\
  activity_tracing_enabled_ s1 = activity_tracing_enabled_ s /\
  option_ s1 = option_ s.
Proof.
  unfold DisableApiTracing.
  destruct (api_tracing_enabled_ s) eqn:Hapi; simpl.
  2:{ intros [= _ <-]. auto. }
  destruct (option_ s) as [option|] eqn:Hopt; [| discriminate].
  assert (Hun : quiet
            (cupti_call cupti_interface_ CuptiUnsubscribe
               (cupti_Unsubscribe cupti_interface_)
               (fun s => Some (OkStatus, s))))
    by (apply quiet_cupti_call, quiet_ret).
  assert (Hnvtx : quiet
            (if enable_nvtx_tracking option
             then cupti_call cupti_interface_
                    (CuptiEnableDomain false CUPTI_CB_DOMAIN_NVTX)
                    (cupti_EnableDomain cupti_interface_ false
                       CUPTI_CB_DOMAIN_NVTX)
                    (cupti_call cupti_interface_ CuptiUnsubscribe
                       (cupti_Unsubscribe cupti_interface_)
                       (fun s => Some (OkStatus, s)))
             else cupti_call cupti_interface_ CuptiUnsubscribe
                    (cupti_Unsubscribe cupti_interface_)
                    (fun s => Some (OkStatus, s)))).
  { destruct (enable_nvtx_tracking option); [| exact Hun].
    apply quiet_cupti_call. exact Hun. }
  intros Hrun.
  assert (Hq : flags s1 = flags (set_api_tracing_enabled_ false s) /\
               option_ s1 = option_ (set_api_tracing_enabled_ false s)).
  { destruct (cbids_selected option) as [|cbid rest] eqn:Hcbids.
    - eapply quiet_cupti_call; [exact Hnvtx | exact Hrun].
    - exact (quiet_disable_callbacks (cbid :: rest) _ Hnvtx _ _ _ Hrun). }
  destruct Hq as [[= Ha Hb] Ho]. simpl in Ha, Hb, Ho.
  split_and!; congruence.
Qed.

Lemma ProcessActivityBuffer_flags context stream_id buffer size s status s1 :
  ProcessActivityBuffer cupti_interface_ context stream_id buffer size s
  = Some (status, s1) ->
  flags s1 = flags s /\ option_ s1 = option_ s.
Proof.
  unfold ProcessActivityBuffer, after_dropped_report.
  destruct (size =? 0).
  { intros [= _ <-]. destruct buffer; auto. }
  destruct (negb (activity_tracing_enabled_ s)).
  { intros [= _ <-]. destruct buffer; auto. }
  destruct (cupti_Disabled cupti_interface_).
  { intros [= _ <-]. destruct buffer; auto. }
  destruct (cupti_ActivityGetNumDroppedRecords _ _ _) as [[|e] n]; simpl;
    destruct (collector_ s); try discriminate;
    destruct (_ <=? _); intros [= _ <-]; destruct buffer; auto.
Qed.

Lemma deliver_flags completed : forall s s1,
  deliver cupti_interface_ completed s = Some s1 ->
  flags s1 = flags s /\ option_ s1 = option_ s.
Proof.
  induction completed as [|b rest IH]; intros s s1; simpl.
  - intros [= <-]. auto.
  - destruct (ProcessActivityBuffer _ _ _ _ _ s) as [[status s0]|] eqn:Hp;
      [| discriminate].
    apply ProcessActivityBuffer_flags in Hp as [Hf Ho].
    intros Hrun. apply IH in Hrun as [Hf1 Ho1]. split; congruence.
Qed.

(** Whether every call that [DisableActivityTracing] makes for the options
    succeeds. *)
Definition activities_disabled (option : CuptiTracerOptions) : bool :=
  forallb (fun activity =>
             is_success (cupti_ActivityDisable cupti_interface_ activity))
          (activities_selected option)
  && is_success (cupti_ActivityFlushAll cupti_interface_).

Lemma disable_activities_run activities k : forall s status s1,
  disable_activities cupti_interface_ activities k s = Some (status, s1) ->
  (forallb (fun activity =>
              is_success (cupti_ActivityDisable cupti_interface_ activity))
           activities = true /\
   exists s0, flags s0 = flags s /\ option_ s0 = option_ s /\
              k s0 = Some (status, s1)) \/
  (forallb (fun activity =>
              is_success (cupti_ActivityDisable cupti_interface_ activity))
           activities = false /\
   flags s1 = flags s /\ option_ s1 = option_ s).
Proof.
  induction activities as [|activity rest IH]; intros s status s1.
  - simpl. intros Hrun. left. split; [reflexivity |]. exists s. auto.
  - cbn [disable_activities forallb]. unfold cupti_call.
    set (s0 := match activity with
               | CUPTI_ACTIVITY_KIND_UNIFIED_MEMORY_COUNTER =>
                   ConfigureActivityUnifiedMemoryCounter false s
               | _ => s
               end).
    assert (Hs0 : flags s0 = flags s /\ option_ s0 = option_ s)
      by (subst s0; destruct activity; auto).
    destruct Hs0 as [Hf0 Ho0].
    destruct (cupti_ActivityDisable cupti_interface_ activity) as [|e];
      simpl.
    + intros Hrun.
      apply IH in Hrun as [(Hall & s2 & Hf & Ho & Hk)|(Hall & Hf & Ho)].
      * left. split; [exact Hall |]. exists s2.
        split_and!; [| | exact Hk]; etrans; eassumption.
      * right. split_and!; [exact Hall | |]; etrans; eassumption.
    + intros [= _ <-]. right. split_and!; [reflexivity | |]; assumption.
Qed.

Lemma DisableActivityTracing_flags s option status s1 :
  option_ s = Some option ->
  DisableActivityTracing cupti_interface_ s
  = Some (status, s1) ->
  api_tracing_enabled_ s1 = api_tracing_enabled_ s /\
  activity_tracing_enabled_ s1 =
    activity_tracing_enabled_ s && negb (activities_disabled option) /\
  is_Some (option_ s1).
Proof.
  intros Hopt. unfold DisableActivityTracing.
  destruct (activity_tracing_enabled_ s) eqn:Hact.
  2:{ intros [= _ <-]. simpl. rewrite Hopt. eauto. }
  rewrite Hopt. intros Hrun.
  apply disable_activities_run in Hrun
    as [(Hall & s0 & [= Ha Hb] & Ho & Hk)|(Hall & [= Ha Hb] & Ho)].
  - rewrite Ho, Hopt in Hk. unfold call_ActivityFlushAll in Hk.
    destruct (deliver _ _ _) as [s2|] eqn:Hdeliver; [| discriminate].
    apply deliver_flags in Hdeliver as [[= Ha2 Hb2] Ho2].
    simpl in Ha2, Hb2, Ho2.
    unfold activities_disabled. rewrite Hall. simpl.
    destruct (cupti_ActivityFlushAll cupti_interface_) as [|e]; simpl in Hk.
    + injection Hk as _ <-. simpl. rewrite Ho2.
      split_and!; [congruence | reflexivity | eauto].
    + injection Hk as _ <-. rewrite Ho2. simpl.
      split_and!; [congruence | congruence | eauto].
  - unfold activities_disabled. rewrite Hall. simpl.
    rewrite Ho, Hopt. split_and!; [congruence | congruence | eauto].
Qed.


Lemma Finalize_flags s status s1 :
  Finalize cupti_interface_ s = Some (status, s1) -> flags s1 = flags s.
Proof.
  unfold Finalize. destruct (option_ s) as [option|]; [| discriminate].
  destruct (cupti_finalize option).
  - intros Hrun. eapply quiet_cupti_call; [apply quiet_ret | exact Hrun].
  - intros [= _ <-]. reflexivity.
Qed.

Lemma foldl_flags {A : Type} (f : State -> A -> State) (l : list A) :
  (forall s x, flags (f s x) = flags s /\ collector_ (f s x) = collector_ s) ->
  forall s, flags (foldl f s l) = flags s /\
            collector_ (foldl f s l) = collector_ s.
Proof.
  intros Hf. induction l as [|x rest IH]; intros s; simpl; [auto |].
  destruct (IH (f s x)) as [-> ->]. apply Hf.
Qed.

Lemma for_each_flags {A : Type} (body : A -> State -> option State)
    (l : list A) :
  (forall x s s1, body x s = Some s1 -> flags s1 = flags s) ->
  forall s s1, for_each body l s = Some s1 -> flags s1 = flags s.
Proof.
  intros Hbody. induction l as [|x rest IH]; intros s s1; simpl.
  - intros [= <-]. reflexivity.
  - destruct (body x s) as [s0|] eqn:Hx; [| discriminate].
    intros Hrun. apply IH in Hrun. apply Hbody in Hx. congruence.
Qed.

Lemma GatherAllCallbackAnnotationsAndEvents_flags s s1 :
  GatherAllCallbackAnnotationsAndEvents s = Some s1 -> flags s1 = flags s.
Proof.
  unfold GatherAllCallbackAnnotationsAndEvents, CollectAll.
  cbn zeta.
  match goal with
  | |- context [foldl gather_thread ?s0 ?l] =>
      destruct (foldl_flags gather_thread l
                  (fun s d =>
                     conj (proj1 (foldl_flags
                                    (fun s block => foldl gather_event s block)
                                    _ (fun s block =>
                                         foldl_flags gather_event block
                                           (fun s e => conj eq_refl eq_refl) s)
                                    s))
                          (proj2 (foldl_flags
                                    (fun s block => foldl gather_event s block)
                                    _ (fun s block =>
                                         foldl_flags gather_event block
                                           (fun s e => conj eq_refl eq_refl) s)
                                    s))) s0) as [Hf Hc]
  end.
  match type of Hf with
  | flags ?s4 = _ => destruct (collector_ s4); [| discriminate]
  end.
  intros [= <-]. exact Hf.
Qed.

Lemma FinalizeApiCallbackBuffers_flags s s1 :
  FinalizeApiCallbackBuffers s = Some s1 -> flags s1 = flags s.
Proof.
  unfold FinalizeApiCallbackBuffers. apply for_each_flags.
  intros d. apply for_each_flags. intros block. apply for_each_flags.
  intros e s2 s3. unfold collector_AddEvent.
  destruct (collector_ s2); [| discriminate]. intros [= <-]. reflexivity.
Qed.

Lemma convert_records_flags records : forall s s1,
  convert_records event0 records s = Some s1 -> flags s1 = flags s.
Proof.
  induction records as [|record rest IH]; intros s s1; simpl.
  - intros [= <-]. reflexivity.
  - destruct (collector_ s) as [collector|].
    + destruct (convert_record event0 collector record); intros Hrun;
        apply IH in Hrun; exact Hrun.
    + destruct (uses_collector record); [discriminate |]. apply IH.
Qed.

Lemma FinalizeActivityBuffers_flags s s1 :
  FinalizeActivityBuffers GetCuptiInterface event0 s = Some s1 ->
  flags s1 = flags s.
Proof.
  unfold FinalizeActivityBuffers. generalize (activity_buffers_ s).
  intros cached. revert s s1.
  induction cached as [|b rest IH]; intros s s1; simpl.
  - intros [= <-]. reflexivity.
  - unfold ConvertActivityBuffer.
    destruct (cupti_ActivityGetNextRecord _ _ _) as [records e].
    destruct (convert_records event0 records _) as [s0|] eqn:Hconv; [| discriminate].
    apply convert_records_flags in Hconv.
    destruct e; intros Hrun; apply IH in Hrun; rewrite Hrun, Hconv;
      reflexivity.
Qed.


Lemma IgnoreError_Some (m : M) s s1 :
  IgnoreError m s = Some s1 -> exists status, m s = Some (status, s1).
Proof.
  unfold IgnoreError. destruct (m s) as [[status s0]|]; [| discriminate].
  intros [= <-]. eauto.
Qed.

Lemma Disable_flags (s s' : State) (option : CuptiTracerOptions) :
  option_ s = Some option ->
  Disable cupti_interface_ GetCuptiInterface event0 s = Some s' ->
  api_tracing_enabled_ s' = false /\
  activity_tracing_enabled_ s' =
    activity_tracing_enabled_ s && negb (activities_disabled option).
Proof.
  intros Hopt. unfold Disable. intros Hrun.
  destruct (IgnoreError (DisableApiTracing cupti_interface_) s)
    as [s1|] eqn:H1; [| discriminate].
  cbn [mbind option_bind] in Hrun.
  destruct (IgnoreError (DisableActivityTracing cupti_interface_) s1)
    as [s2|] eqn:H2; [| discriminate].
  cbn [mbind option_bind] in Hrun.
  destruct (IgnoreError (Finalize cupti_interface_) (log CuptiCleanUp s2))
    as [s4|] eqn:H4; [| discriminate].
  cbn [mbind option_bind] in Hrun.
  destruct (IgnoreError call_SyncAndFlush s4) as [s5|] eqn:H5;
    [| discriminate].
  cbn [mbind option_bind] in Hrun.
  destruct (GatherAllCallbackAnnotationsAndEvents s5) as [s6|] eqn:H6;
    [| discriminate].
  cbn [mbind option_bind] in Hrun.
  destruct (FinalizeApiCallbackBuffers s6) as [s7|] eqn:H7; [| discriminate].
  cbn [mbind option_bind] in Hrun.
  destruct (FinalizeActivityBuffers GetCuptiInterface event0 s7)
    as [s8|] eqn:H8; [| discriminate].
  cbn [mbind option_bind] in Hrun.
  destruct (collector_Flush s8) as [s9|] eqn:H9; [| discriminate].
  cbn [mbind option_bind] in Hrun.
  injection Hrun as <-.
  apply IgnoreError_Some in H1 as [st1 H1].
  apply DisableApiTracing_flags in H1 as (Ha1 & Hb1 & Ho1).
  apply IgnoreError_Some in H2 as [st2 H2].
  apply (DisableActivityTracing_flags s1 option) in H2 as (Ha2 & Hb2 & _);
    [| congruence].
  apply IgnoreError_Some in H4 as [st4 H4].
  apply Finalize_flags in H4 as [= Ha4 Hb4].
  apply IgnoreError_Some in H5 as [st5 H5].
  assert (H5' : flags s5 = flags s4).
  { unfold call_SyncAndFlush in H5.
    destruct (cupti_driver_api_hook_ s4); [| discriminate].
    injection H5 as _ <-. reflexivity. }
  injection H5' as Ha5 Hb5.
  apply GatherAllCallbackAnnotationsAndEvents_flags in H6 as [= Ha6 Hb6].
  apply FinalizeApiCallbackBuffers_flags in H7 as [= Ha7 Hb7].
  apply FinalizeActivityBuffers_flags in H8 as [= Ha8 Hb8].
  assert (H9' : flags s9 = flags s8).
  { unfold collector_Flush in H9.
    destruct (collector_ s8); [| discriminate].
    injection H9 as <-. reflexivity. }
  injection H9' as Ha9 Hb9.
  simpl in Ha4, Hb4.
  assert (Hapi : api_tracing_enabled_ s9 = false) by congruence.
  assert (Hact : activity_tracing_enabled_ s9 =
                 activity_tracing_enabled_ s
                 && negb (activities_disabled option)) by congruence.
  split.
  - exact Hapi.
  - exact Hact.
Qed.

(** X24 (cupti_tracer.cc, Disable, DisableApiTracing,
    DisableActivityTracing and IsAvailable): after [Disable], API tracing
    is off.  Activity tracing is off only if it was off before or every
    [ActivityDisable] call and the forced flush succeeded; when one of
    them fails its flag stays set, and [IsAvailable] keeps answering false
    although the session has been torn down. *)
Theorem Disable_availability (NumGpus : Z) (s s' : State)
    (option : CuptiTracerOptions) :
  option_ s = Some option ->
  Disable cupti_interface_ GetCuptiInterface event0 s = Some s' ->
  api_tracing_enabled_ s' = false /\
  activity_tracing_enabled_ s' =
    activity_tracing_enabled_ s && negb (activities_disabled option) /\
  IsAvailable NumGpus s' =
    negb (NumGpus =? 0) &&
    (negb (activity_tracing_enabled_ s) || activities_disabled option).
Proof.
  intros Hopt. unfold Disable. intros Hrun.
  destruct (IgnoreError (DisableApiTracing cupti_interface_) s)
    as [s1|] eqn:H1; [| discriminate].
  cbn [mbind option_bind] in Hrun.
  destruct (IgnoreError (DisableActivityTracing cupti_interface_) s1)
    as [s2|] eqn:H2; [| discriminate].
  cbn [mbind option_bind] in Hrun.
  destruct (IgnoreError (Finalize cupti_interface_) (log CuptiCleanUp s2))
    as [s4|] eqn:H4; [| discriminate].
  cbn [mbind option_bind] in Hrun.
  destruct (IgnoreError call_SyncAndFlush s4) as [s5|] eqn:H5;
    [| discriminate].
  cbn [mbind option_bind] in Hrun.
  destruct (GatherAllCallbackAnnotationsAndEvents s5) as [s6|] eqn:H6;
    [| discriminate].
  cbn [mbind option_bind] in Hrun.
  destruct (FinalizeApiCallbackBuffers s6) as [s7|] eqn:H7; [| discriminate].
  cbn [mbind option_bind] in Hrun.
  destruct (FinalizeActivityBuffers GetCuptiInterface event0 s7)
    as [s8|] eqn:H8; [| discriminate].
  cbn [mbind option_bind] in Hrun.
  destruct (collector_Flush s8) as [s9|] eqn:H9; [| discriminate].
  cbn [mbind option_bind] in Hrun.
  injection Hrun as <-.
  apply IgnoreError_Some in H1 as [st1 H1].
  apply DisableApiTracing_flags in H1 as (Ha1 & Hb1 & Ho1).
  apply IgnoreError_Some in H2 as [st2 H2].
  apply (DisableActivityTracing_flags s1 option) in H2 as (Ha2 & Hb2 & _);
    [| congruence].
  apply IgnoreError_Some in H4 as [st4 H4].
  apply Finalize_flags in H4 as [= Ha4 Hb4].
  apply IgnoreError_Some in H5 as [st5 H5].
  assert (H5' : flags s5 = flags s4).
  { unfold call_SyncAndFlush in H5.
    destruct (cupti_driver_api_hook_ s4); [| discriminate].
    injection H5 as _ <-. reflexivity. }
  injection H5' as Ha5 Hb5.
  apply GatherAllCallbackAnnotationsAndEvents_flags in H6 as [= Ha6 Hb6].
  apply FinalizeApiCallbackBuffers_flags in H7 as [= Ha7 Hb7].
  apply FinalizeActivityBuffers_flags in H8 as [= Ha8 Hb8].
  assert (H9' : flags s9 = flags s8).
  { unfold collector_Flush in H9.
    destruct (collector_ s8); [| discriminate].
    injection H9 as <-. reflexivity. }
  injection H9' as Ha9 Hb9.
  simpl in Ha4, Hb4.
  assert (Hapi : api_tracing_enabled_ s9 = false) by congruence.
  assert (Hact : activity_tracing_enabled_ s9 =
                 activity_tracing_enabled_ s
                 && negb (activities_disabled option)) by congruence.
  unfold IsAvailable. cbn [api_tracing_enabled_ activity_tracing_enabled_
    log set_trace set_cupti_driver_api_hook_ set_option_ set_collector_].
  rewrite Hapi, Hact. split_and!; [reflexivity | reflexivity |].
  destruct (NumGpus =? 0), (activity_tracing_enabled_ s),
    (activities_disabled option); reflexivity.
Qed.


(** *** Enabling *)

(** A run of calls each under [RETURN_IF_CUPTI_ERROR]. *)
Fixpoint cupti_calls (calls : list (Call * CUptiResult)) (k : M) : M :=
  match calls with
  | [] => k
  | (c, r) :: rest => cupti_call cupti_interface_ c r (cupti_calls rest k)
  end.

Fixpoint first_error (results : list CUptiResult) : option CUptiError :=
  match results with
  | [] => None
  | CUPTI_SUCCESS :: rest => first_error rest
  | CUPTI_ERROR e :: _ => Some e
  end.

(** The calls made up to and including the first that fails. *)
Fixpoint attempted (calls : list (Call * CUptiResult)) : list Call :=
  match calls with
  | [] => []
  | (c, CUPTI_SUCCESS) :: rest => c :: attempted rest
  | (c, CUPTI_ERROR _) :: _ => [c]
  end.

(** The calls that [EnableApiTracing] makes after [Subscribe], with the
    answers of the driver. *)
Definition api_calls (option : CuptiTracerOptions)
  : list (Call * CUptiResult) :=
  match cbids_selected option with
  | [] =>
      [(CuptiEnableDomain true CUPTI_CB_DOMAIN_DRIVER_API,
        cupti_EnableDomain cupti_interface_ true CUPTI_CB_DOMAIN_DRIVER_API)]
  | cbids =>
      map (fun cbid =>
             (CuptiEnableCallback true CUPTI_CB_DOMAIN_DRIVER_API cbid,
              cupti_EnableCallback cupti_interface_ true
                CUPTI_CB_DOMAIN_DRIVER_API cbid)) cbids
  end ++
  if enable_nvtx_tracking option
  then [(CuptiEnableDomain true CUPTI_CB_DOMAIN_NVTX,
         cupti_EnableDomain cupti_interface_ true CUPTI_CB_DOMAIN_NVTX)]
  else [].

(** The status of [EnableApiTracing] when API tracing is not enabled yet:
    that of the first failing call, if any. *)
Definition api_tracing_status (option : CuptiTracerOptions) : Status :=
  match first_error (cupti_Subscribe :: map snd (api_calls option)) with
  | None => OkStatus
  | Some e => cupti_error_status cupti_interface_ e
  end.

(** Whether [EnableActivityTracing] gets to set its flag. *)
Definition activities_enabled (option : CuptiTracerOptions) : bool :=
  match activities_selected option with
  | [] => true
  | activities =>
      bool_decide
        (first_error (cupti_ActivityRegisterCallbacks
                      :: map cupti_ActivityEnable activities) = None)
  end.

Lemma set_trace_set_trace t1 t2 (s : State) :
  set_trace t2 (set_trace t1 s) = set_trace t2 s.
Proof. reflexivity. Qed.

Lemma set_trace_same (s : State) : set_trace (trace s) s = s.
Proof. destruct s; reflexivity. Qed.

Lemma cupti_calls_run calls k : forall s,
  cupti_calls calls k s =
  match first_error (map snd calls) with
  | None => k (set_trace (trace s ++ map fst calls) s)
  | Some e =>
      Some (cupti_error_status cupti_interface_ e,
            set_trace (trace s ++ attempted calls) s)
  end.
Proof.
  induction calls as [|[c r] rest IH]; intros s.
  - simpl. rewrite app_nil_r, set_trace_same. reflexivity.
  - cbn [cupti_calls map snd fst first_error attempted]. unfold cupti_call.
    destruct r as [|e]; cbn [Cupti.RETURN_IF_CUPTI_ERROR].
    + rewrite IH. unfold log. cbn [trace set_trace].
      rewrite <- !app_assoc. cbn [app].
      destruct (first_error (map snd rest)); reflexivity.
    + reflexivity.
Qed.

Lemma cupti_calls_app l1 l2 k s :
  cupti_calls (l1 ++ l2) k s = cupti_calls l1 (cupti_calls l2 k) s.
Proof.
  revert s. induction l1 as [|[c r] rest IH]; intros s; [reflexivity |].
  cbn [app cupti_calls]. unfold cupti_call.
  destruct r; simpl; [apply IH | reflexivity].
Qed.

Lemma enable_callbacks_calls cbids k s :
  enable_callbacks cupti_interface_ cbids k s =
  cupti_calls
    (map (fun cbid =>
            (CuptiEnableCallback true CUPTI_CB_DOMAIN_DRIVER_API cbid,
             cupti_EnableCallback cupti_interface_ true
               CUPTI_CB_DOMAIN_DRIVER_API cbid)) cbids) k s.
Proof.
  revert s. induction cbids as [|cbid rest IH]; intros s; [reflexivity |].
  cbn [enable_callbacks map cupti_calls]. unfold cupti_call.
  destruct (cupti_EnableCallback _ _ _ _); simpl; [apply IH | reflexivity].
Qed.


Lemma attempted_all calls :
  first_error (map snd calls) = None -> attempted calls = map fst calls.
Proof.
  induction calls as [|[c [|e]] rest IH]; simpl; [reflexivity | | discriminate].
  intros H. rewrite IH by exact H. reflexivity.
Qed.

(** What enabling leaves alone once the per-thread data are cleared and
    the static members set. *)
Definition session (s : State) :=
  (collected_annotation_and_events_ s, merged_annotation_map_ s,
   dropped_callback_event_count_ s, statics s, active_set_ s,
   deactived_list_ s, option_ s, collector_ s, cupti_driver_api_hook_ s).

(** The state that [EnableApiTracing] reaches before it subscribes. *)
Definition prepared (collector : CuptiTraceCollector) (s : State) : State :=
  set_statics
    {| s_callback_api_event_count := 0;
       s_max_annotation_strings :=
         max_annotation_strings (options_ collector);
       s_max_callback_api_events :=
         max_callback_api_events (options_ collector) |}
    (ClearAllAnnotatedEvents s).

Lemma EnableApiTracing_run option collector s :
  api_tracing_enabled_ s = false ->
  option_ s = Some option ->
  collector_ s = Some collector ->
  EnableApiTracing cupti_interface_ cupti_Subscribe s =
  Some (api_tracing_status option,
        match cupti_Subscribe with
        | CUPTI_ERROR _ => prepared collector s
        | CUPTI_SUCCESS =>
            set_trace (trace s ++ attempted (api_calls option))
              (set_api_tracing_enabled_ true (prepared collector s))
        end).
Proof.
  intros Hapi Hopt Hcol. unfold EnableApiTracing. rewrite Hapi.
  unfold PrepareOptionSettings.
  assert (Hc : collector_ (ClearAllAnnotatedEvents s) = Some collector)
    by exact Hcol.
  rewrite Hc. fold (prepared collector s).
  unfold api_tracing_status. cbn [first_error].
  destruct cupti_Subscribe as [|e]; cbn [Cupti.RETURN_IF_CUPTI_ERROR];
    [| reflexivity].
  assert (Ho : option_ (set_api_tracing_enabled_ true (prepared collector s))
               = Some option) by exact Hopt.
  rewrite Ho.
  assert (Hcalls :
    forall s0,
      match cbids_selected option with
      | [] =>
          cupti_call cupti_interface_
            (CuptiEnableDomain true CUPTI_CB_DOMAIN_DRIVER_API)
            (cupti_EnableDomain cupti_interface_ true
               CUPTI_CB_DOMAIN_DRIVER_API)
            (if enable_nvtx_tracking option
             then cupti_call cupti_interface_
                    (CuptiEnableDomain true CUPTI_CB_DOMAIN_NVTX)
                    (cupti_EnableDomain cupti_interface_ true
                       CUPTI_CB_DOMAIN_NVTX)
                    (fun s => Some (OkStatus, s))
             else fun s => Some (OkStatus, s)) s0
      | cbid :: rest =>
          enable_callbacks cupti_interface_ (cbid :: rest)
            (if enable_nvtx_tracking option
             then cupti_call cupti_interface_
                    (CuptiEnableDomain true CUPTI_CB_DOMAIN_NVTX)
                    (cupti_EnableDomain cupti_interface_ true
                       CUPTI_CB_DOMAIN_NVTX)
                    (fun s => Some (OkStatus, s))
             else fun s => Some (OkStatus, s)) s0
      end = cupti_calls (api_calls option) (fun s => Some (OkStatus, s)) s0).
  { intros s0. unfold api_calls. rewrite cupti_calls_app.
    destruct (cbids_selected option) as [|cbid rest].
    - destruct (enable_nvtx_tracking option); reflexivity.
    - rewrite enable_callbacks_calls.
      destruct (enable_nvtx_tracking option); reflexivity. }
  etrans; [apply Hcalls |]. rewrite cupti_calls_run.
  destruct (first_error (map snd (api_calls option))) as [e|] eqn:Hfirst.
  - reflexivity.
  - rewrite (attempted_all _ Hfirst). reflexivity.
Qed.

Definition is_configure (c : Call) : Prop :=
  c = CuptiActivityConfigureUnifiedMemoryCounter true.

Lemma enable_activities_run activities k : forall s status s1,
  enable_activities cupti_interface_ cupti_ActivityEnable activities k s
  = Some (status, s1) ->
  exists s0 calls,
    flags s0 = flags s /\ session s0 = session s /\
    trace s0 = trace s ++ calls /\ Forall is_configure calls /\
    if bool_decide (first_error (map cupti_ActivityEnable activities) = None)
    then k s0 = Some (status, s1)
    else s1 = s0.
Proof.
  induction activities as [|activity rest IH]; intros s status s1.
  - simpl. intros Hrun. exists s, []. rewrite app_nil_r.
    split_and!; auto.
  - cbn [enable_activities map first_error].
    set (s0 := match activity with
               | CUPTI_ACTIVITY_KIND_UNIFIED_MEMORY_COUNTER =>
                   ConfigureActivityUnifiedMemoryCounter true s
               | _ => s
               end).
    assert (Hs0 : exists calls,
              flags s0 = flags s /\ session s0 = session s /\
              trace s0 = trace s ++ calls /\ Forall is_configure calls).
    { subst s0. destruct activity;
        try (exists []; rewrite app_nil_r; split_and!; auto; fail).
      exists [CuptiActivityConfigureUnifiedMemoryCounter true].
      split_and!; auto. constructor; [reflexivity | constructor]. }
    destruct Hs0 as (calls0 & Hf0 & Hse0 & Ht0 & Hall0).
    destruct (cupti_ActivityEnable activity) as [|e];
      cbn [Cupti.RETURN_IF_CUPTI_ERROR].
    + intros Hrun.
      apply IH in Hrun as (s2 & calls & Hf & Hse & Ht & Hall & Hk).
      exists s2, (calls0 ++ calls). split_and!.
      * congruence.
      * congruence.
      * rewrite Ht, Ht0, app_assoc. reflexivity.
      * apply Forall_app. auto.
      * exact Hk.
    + intros [= _ <-]. exists s0, calls0. split_and!; auto.
      rewrite bool_decide_eq_false_2 by discriminate. reflexivity.
Qed.

Lemma EnableActivityTracing_run option s :
  option_ s = Some option ->
  exists status s1 calls,
    EnableActivityTracing cupti_interface_ cupti_ActivityRegisterCallbacks
      cupti_ActivityEnable s = Some (status, s1) /\
    api_tracing_enabled_ s1 = api_tracing_enabled_ s /\
    activity_tracing_enabled_ s1 =
      activity_tracing_enabled_ s || activities_enabled option /\
    session s1 = session s /\
    trace s1 = trace s ++ calls /\ Forall is_configure calls.
Proof.
  intros Hopt. unfold EnableActivityTracing, activities_enabled.
  rewrite Hopt.
  destruct (activities_selected option) as [|activity rest].
  { exists OkStatus, (set_activity_tracing_enabled_ true s), [].
    rewrite app_nil_r, orb_true_r. split_and!; auto. }
  cbn [first_error].
  destruct cupti_ActivityRegisterCallbacks as [|e];
    cbn [Cupti.RETURN_IF_CUPTI_ERROR].
  2:{ exists (cupti_error_status cupti_interface_ e), s, [].
      rewrite app_nil_r, bool_decide_eq_false_2 by discriminate.
      rewrite orb_false_r. split_and!; auto. }
  destruct (enable_activities cupti_interface_ cupti_ActivityEnable
              (activity :: rest)
              (fun s => Some (OkStatus, set_activity_tracing_enabled_ true s))
              s) as [[status s1]|] eqn:Hrun.
  - pose proof Hrun as Hrun'.
    apply enable_activities_run in Hrun'
      as (s0 & calls & [= Ha Hb] & Hse & Ht & Hall & Hk).
    exists status, s1, calls. split; [reflexivity |].
    destruct (bool_decide _).
    + injection Hk as _ <-. rewrite orb_true_r.
      split_and!; auto.
    + subst s1. rewrite orb_false_r. split_and!; auto.
  - exfalso. revert Hrun. generalize (activity :: rest). intros activities.
    generalize s.
    induction activities as [|a l IH]; intros s0; [discriminate |].
    cbn [enable_activities].
    destruct (cupti_ActivityEnable a); cbn [Cupti.RETURN_IF_CUPTI_ERROR];
      [apply IH | discriminate].
Qed.


Local Abbreviation Enable :=
  (Enable cupti_interface_ cupti_Subscribe cupti_ActivityRegisterCallbacks
     cupti_ActivityEnable CuptiDriverApiHookWithActivityApi_new).

(** The state in which [Enable] calls [EnableApiTracing]. *)
Definition installed (option : CuptiTracerOptions)
    (collector : CuptiTraceCollector) (s : State) : State :=
  set_cupti_driver_api_hook_
    (Some (CuptiDriverApiHookWithActivityApi_new option))
    (set_collector_ (Some collector) (set_option_ (Some option) s)).

Definition is_enabling_call (c : Call) : Prop :=
  match c with
  | CuptiEnableCallback true _ _ | CuptiEnableDomain true _ => True
  | _ => False
  end.

Lemma attempted_api_calls option :
  Forall is_enabling_call (attempted (api_calls option)).
Proof.
  assert (Hall : Forall (fun c => is_enabling_call c.1) (api_calls option)).
  { unfold api_calls. apply Forall_app. split.
    - destruct (cbids_selected option) as [|cbid rest].
      + constructor; [exact I | constructor].
      + apply Forall_forall. intros c Hc.
        apply list_elem_of_fmap in Hc as (x & -> & _). exact I.
    - destruct (enable_nvtx_tracking option); repeat constructor. }
  induction Hall as [|[c r] rest Hc Hrest IH]; [constructor |].
  destruct r; simpl; repeat constructor; auto.
Qed.

Lemma prepared_facts (collector : CuptiTraceCollector) (s : State) :
  api_tracing_enabled_ (prepared collector s) = api_tracing_enabled_ s /\
  activity_tracing_enabled_ (prepared collector s)
  = activity_tracing_enabled_ s /\
  trace (prepared collector s) = trace s /\
  option_ (prepared collector s) = option_ s.
Proof. split_and!; reflexivity. Qed.

Lemma installed_facts (option : CuptiTracerOptions)
    (collector : CuptiTraceCollector) (s : State) :
  api_tracing_enabled_ (installed option collector s)
  = api_tracing_enabled_ s /\
  activity_tracing_enabled_ (installed option collector s)
  = activity_tracing_enabled_ s /\
  trace (installed option collector s) = trace s /\
  option_ (installed option collector s) = Some option /\
  collector_ (installed option collector s) = Some collector.
Proof. split_and!; reflexivity. Qed.

Lemma subscribed_facts (calls : list Call) (p : State) :
  api_tracing_enabled_
    (set_trace (trace p ++ calls) (set_api_tracing_enabled_ true p)) = true /\
  activity_tracing_enabled_
    (set_trace (trace p ++ calls) (set_api_tracing_enabled_ true p))
  = activity_tracing_enabled_ p /\
  trace (set_trace (trace p ++ calls) (set_api_tracing_enabled_ true p))
  = trace p ++ calls /\
  option_ (set_trace (trace p ++ calls) (set_api_tracing_enabled_ true p))
  = option_ p /\
  session (set_trace (trace p ++ calls) (set_api_tracing_enabled_ true p))
  = session p.
Proof. split_and!; reflexivity. Qed.

Lemma Enable_run (option : CuptiTracerOptions)
    (collector : CuptiTraceCollector) (need_root_access_ : bool) (s : State) :
  api_tracing_enabled_ s = false ->
  exists s' calls,
    Enable option (Some collector) need_root_access_ s
    = Some (need_root_access_
            || is_permission_denied (api_tracing_status option), s') /\
    session s' = session (prepared collector (installed option collector s)) /\
    api_tracing_enabled_ s' = is_success cupti_Subscribe /\
    activity_tracing_enabled_ s' =
      activity_tracing_enabled_ s
      || ok (api_tracing_status option) && activities_enabled option /\
    trace s' = trace s ++ calls /\
    if ok (api_tracing_status option)
    then last calls = Some (AnnotationStackEnable true)
    else Forall is_enabling_call calls.
Proof.
  intros Hapi. unfold TracerLifecycle.Enable.
  fold (installed option collector s).
  destruct (installed_facts option collector s)
    as (Hi_api & Hi_act & Hi_trace & Hi_option & Hi_collector).
  rewrite (EnableApiTracing_run option collector _
             (eq_trans Hi_api Hapi) Hi_option Hi_collector).
  destruct (prepared_facts collector (installed option collector s))
    as (Hp_api & Hp_act & Hp_trace & Hp_option).
  destruct (subscribed_facts (attempted (api_calls option))
              (prepared collector (installed option collector s)))
    as (Hs_api & Hs_act & Hs_trace & Hs_option & Hs_session).
  rewrite Hp_trace in Hs_api, Hs_act, Hs_trace, Hs_option, Hs_session.
  revert Hs_api Hs_act Hs_trace Hs_option Hs_session.
  generalize
    (set_trace
       (trace (installed option collector s) ++ attempted (api_calls option))
       (set_api_tracing_enabled_ true
          (prepared collector (installed option collector s)))).
  revert Hp_api Hp_act Hp_trace Hp_option.
  generalize (prepared collector (installed option collector s)).
  intros p Hp_api Hp_act Hp_trace Hp_option s0 Hs_api Hs_act Hs_trace
    Hs_option Hs_session.
  unfold api_tracing_status. cbn [first_error].
  destruct cupti_Subscribe as [|e].
  2:{ exists p, [].
      assert (Hnot : ok (cupti_error_status cupti_interface_ e) = false)
        by (destruct e; reflexivity).
      rewrite Hnot. cbn [negb andb is_success].
      rewrite app_nil_r, orb_false_r.
      split_and!; [reflexivity | reflexivity | congruence | congruence
                  | congruence | constructor]. }
  destruct (first_error (map snd (api_calls option))) as [e|] eqn:Hfirst.
  - assert (Hnot : ok (cupti_error_status cupti_interface_ e) = false)
      by (destruct e; reflexivity).
    rewrite Hnot. cbn [negb andb is_success]. rewrite orb_false_r.
    exists s0, (attempted (api_calls option)).
    split_and!; [reflexivity | exact Hs_session | exact Hs_api | congruence
                | congruence | apply attempted_api_calls].
  - cbn [ok negb andb is_success]. unfold IgnoreError.
    destruct (EnableActivityTracing_run option s0)
      as (status & s1 & calls & Hrun & Ha & Hb & Hse & Ht & Hall);
      [congruence |].
    rewrite Hrun.
    exists (log (AnnotationStackEnable true) s1),
      (attempted (api_calls option) ++ calls ++ [AnnotationStackEnable true]).
    split_and!.
    + reflexivity.
    + etrans; [| exact Hs_session]. exact Hse.
    + etrans; [| exact Hs_api]. exact Ha.
    + etrans; [exact Hb |]. rewrite Hs_act, Hp_act, Hi_act. reflexivity.
    + etrans; [apply (f_equal (fun t => t ++ [AnnotationStackEnable true]) Ht) |].
      rewrite Hs_trace, Hi_trace, <- !app_assoc. reflexivity.
    + rewrite !app_assoc. apply last_snoc.
Qed.


(** *** The protocol of [Disable] *)

(** The calls that [DisableApiTracing] makes on an enabled tracer, with the
    answers of the driver; each is under [RETURN_IF_CUPTI_ERROR]. *)
Definition api_disabling_calls (option : CuptiTracerOptions)
  : list (Call * CUptiResult) :=
  match cbids_selected option with
  | [] =>
      [(CuptiEnableDomain false CUPTI_CB_DOMAIN_DRIVER_API,
        cupti_EnableDomain cupti_interface_ false CUPTI_CB_DOMAIN_DRIVER_API)]
  | cbids =>
      map (fun cbid =>
             (CuptiEnableCallback false CUPTI_CB_DOMAIN_DRIVER_API cbid,
              cupti_EnableCallback cupti_interface_ false
                CUPTI_CB_DOMAIN_DRIVER_API cbid)) cbids
  end ++
  (if enable_nvtx_tracking option
   then [(CuptiEnableDomain false CUPTI_CB_DOMAIN_NVTX,
          cupti_EnableDomain cupti_interface_ false CUPTI_CB_DOMAIN_NVTX)]
   else []) ++
  [(CuptiUnsubscribe, cupti_Unsubscribe cupti_interface_)].

(** The calls that [DisableActivityTracing] makes when activity tracing is
    enabled: for each selected activity the configuration of the unified
    memory counter, if it is that activity, and [ActivityDisable], up to
    the first [ActivityDisable] that fails; [ActivityFlushAll] follows only
    when none failed. *)
Fixpoint activity_disabling_calls (activities : list CUpti_ActivityKind)
  : list Call :=
  match activities with
  | [] => [CuptiActivityFlushAll]
  | activity :: rest =>
      match activity with
      | CUPTI_ACTIVITY_KIND_UNIFIED_MEMORY_COUNTER =>
          [CuptiActivityConfigureUnifiedMemoryCounter false]
      | _ => []
      end ++
      CuptiActivityDisable activity ::
      match cupti_ActivityDisable cupti_interface_ activity with
      | CUPTI_SUCCESS => activity_disabling_calls rest
      | CUPTI_ERROR _ => []
      end
  end.

Lemma disable_callbacks_calls cbids k s :
  disable_callbacks cupti_interface_ cbids k s =
  cupti_calls
    (map (fun cbid =>
            (CuptiEnableCallback false CUPTI_CB_DOMAIN_DRIVER_API cbid,
             cupti_EnableCallback cupti_interface_ false
               CUPTI_CB_DOMAIN_DRIVER_API cbid)) cbids) k s.
Proof.
  revert s. induction cbids as [|cbid rest IH]; intros s; [reflexivity |].
  cbn [disable_callbacks map cupti_calls]. unfold cupti_call.
  destruct (cupti_EnableCallback _ _ _ _); simpl; [apply IH | reflexivity].
Qed.

Lemma DisableApiTracing_trace option s status s1 :
  option_ s = Some option ->
  DisableApiTracing cupti_interface_ s = Some (status, s1) ->
  trace s1 =
  trace s ++ if api_tracing_enabled_ s
             then attempted (api_disabling_calls option) else [].
Proof.
  intros Hopt. unfold DisableApiTracing.
  destruct (api_tracing_enabled_ s); cbn [negb].
  2:{ intros [= _ <-]. rewrite app_nil_r. reflexivity. }
  assert (Ho : option_ (set_api_tracing_enabled_ false s) = Some option)
    by exact Hopt.
  rewrite Ho.
  assert (Hcalls :
    forall s0,
      match cbids_selected option with
      | [] =>
          cupti_call cupti_interface_
            (CuptiEnableDomain false CUPTI_CB_DOMAIN_DRIVER_API)
            (cupti_EnableDomain cupti_interface_ false
               CUPTI_CB_DOMAIN_DRIVER_API)
            (if enable_nvtx_tracking option
             then cupti_call cupti_interface_
                    (CuptiEnableDomain false CUPTI_CB_DOMAIN_NVTX)
                    (cupti_EnableDomain cupti_interface_ false
                       CUPTI_CB_DOMAIN_NVTX)
                    (cupti_call cupti_interface_ CuptiUnsubscribe
                       (cupti_Unsubscribe cupti_interface_)
                       (fun s => Some (OkStatus, s)))
             else cupti_call cupti_interface_ CuptiUnsubscribe
                    (cupti_Unsubscribe cupti_interface_)
                    (fun s => Some (OkStatus, s))) s0
      | cbid :: rest =>
          disable_callbacks cupti_interface_ (cbid :: rest)
            (if enable_nvtx_tracking option
             then cupti_call cupti_interface_
                    (CuptiEnableDomain false CUPTI_CB_DOMAIN_NVTX)
                    (cupti_EnableDomain cupti_interface_ false
                       CUPTI_CB_DOMAIN_NVTX)
                    (cupti_call cupti_interface_ CuptiUnsubscribe
                       (cupti_Unsubscribe cupti_interface_)
                       (fun s => Some (OkStatus, s)))
             else cupti_call cupti_interface_ CuptiUnsubscribe
                    (cupti_Unsubscribe cupti_interface_)
                    (fun s => Some (OkStatus, s))) s0
      end = cupti_calls (api_disabling_calls option)
              (fun s => Some (OkStatus, s)) s0).
  { intros s0. unfold api_disabling_calls. rewrite !cupti_calls_app.
    destruct (cbids_selected option) as [|cbid rest].
    - destruct (enable_nvtx_tracking option); reflexivity.
    - rewrite disable_callbacks_calls.
      destruct (enable_nvtx_tracking option); reflexivity. }
  intros Hrun.
  assert (Hrun' :
    cupti_calls (api_disabling_calls option) (fun s => Some (OkStatus, s))
      (set_api_tracing_enabled_ false s) = Some (status, s1)).
  { rewrite <- Hcalls. exact Hrun. }
  rewrite cupti_calls_run in Hrun'.
  destruct (first_error (map snd (api_disabling_calls option)))
    as [e|] eqn:Hfirst; injection Hrun' as _ <-.
  - reflexivity.
  - rewrite (attempted_all _ Hfirst). reflexivity.
Qed.

Lemma ProcessActivityBuffer_trace context stream_id buffer size s status s1 :
  ProcessActivityBuffer cupti_interface_ context stream_id buffer size s
  = Some (status, s1) ->
  trace s1 = trace s.
Proof.
  unfold ProcessActivityBuffer, after_dropped_report.
  destruct (size =? 0).
  { intros [= _ <-]. destruct buffer; auto. }
  destruct (negb (activity_tracing_enabled_ s)).
  { intros [= _ <-]. destruct buffer; auto. }
  destruct (cupti_Disabled cupti_interface_).
  { intros [= _ <-]. destruct buffer; auto. }
  destruct (cupti_ActivityGetNumDroppedRecords _ _ _) as [[|e] n]; simpl;
    destruct (collector_ s); try discriminate;
    destruct (_ <=? _); intros [= _ <-]; destruct buffer; auto.
Qed.

Lemma deliver_trace completed : forall s s1,
  deliver cupti_interface_ completed s = Some s1 -> trace s1 = trace s.
Proof.
  induction completed as [|b rest IH]; intros s s1; simpl.
  - intros [= <-]. reflexivity.
  - destruct (ProcessActivityBuffer _ _ _ _ _ s) as [[status s0]|] eqn:Hp;
      [| discriminate].
    apply ProcessActivityBuffer_trace in Hp.
    intros Hrun. apply IH in Hrun. congruence.
Qed.

Lemma disable_activities_trace activities (k : M) :
  (forall s0 status s1,
     k s0 = Some (status, s1) ->
     trace s1 = trace s0 ++ [CuptiActivityFlushAll]) ->
  forall s status s1,
    disable_activities cupti_interface_ activities k s = Some (status, s1) ->
    trace s1 = trace s ++ activity_disabling_calls activities.
Proof.
  intros Hk. induction activities as [|activity rest IH];
    intros s status s1.
  - simpl. apply Hk.
  - cbn [disable_activities activity_disabling_calls]. unfold cupti_call.
    set (s0 := match activity with
               | CUPTI_ACTIVITY_KIND_UNIFIED_MEMORY_COUNTER =>
                   ConfigureActivityUnifiedMemoryCounter false s
               | _ => s
               end).
    assert (Hs0 : trace s0 =
                  trace s ++
                  match activity with
                  | CUPTI_ACTIVITY_KIND_UNIFIED_MEMORY_COUNTER =>
                      [CuptiActivityConfigureUnifiedMemoryCounter false]
                  | _ => []
                  end).
    { subst s0. destruct activity; try (rewrite app_nil_r; reflexivity).
      reflexivity. }
    destruct (cupti_ActivityDisable cupti_interface_ activity) as [|e];
      cbn [Cupti.RETURN_IF_CUPTI_ERROR].
    + intros Hrun. apply IH in Hrun. rewrite Hrun.
      cbn [log trace set_trace]. rewrite Hs0, <- !app_assoc. reflexivity.
    + intros [= _ <-]. cbn [log trace set_trace].
      rewrite Hs0, <- !app_assoc. reflexivity.
Qed.

Lemma DisableActivityTracing_trace option s status s1 :
  option_ s = Some option ->
  DisableActivityTracing cupti_interface_ s = Some (status, s1) ->
  trace s1 =
  trace s ++ if activity_tracing_enabled_ s
             then activity_disabling_calls (activities_selected option)
             else [].
Proof.
  intros Hopt. unfold DisableActivityTracing.
  destruct (activity_tracing_enabled_ s).
  2:{ intros [= _ <-]. rewrite app_nil_r. reflexivity. }
  rewrite Hopt. apply disable_activities_trace.
  intros s0 status0 s2.
  destruct (option_ s0) as [option0|]; [| discriminate].
  unfold call_ActivityFlushAll.
  destruct (deliver _ _ _) as [s3|] eqn:Hdeliver; [| discriminate].
  apply deliver_trace in Hdeliver.
  destruct (cupti_ActivityFlushAll cupti_interface_);
    cbn [Cupti.RETURN_IF_CUPTI_ERROR]; intros [= _ <-]; exact Hdeliver.
Qed.

(** C3, as the code has it: on a tracer with collector, options and hook
    in place [Disable] returns, and the calls it makes are, in this
    order: the calls that disable API tracing, if it is enabled, up to the
    first that fails, so that [Unsubscribe] is reached only when every call
    before it succeeded; the calls that disable activity tracing, if it is
    enabled, up to the first [ActivityDisable] that fails, so that
    [ActivityFlushAll] is reached only when every activity was disabled;
    [CleanUp]; [Finalize] when the options ask for it; the hook's
    [SyncAndFlush]; the annotation map gathered from all per-thread
    buffers; one [AddEvent] per gathered callback event; one [AddEvent] per
    event converted from the cached activity buffers; and then
    [collector_->Flush()], which is called exactly once and after every
    [AddEvent].  Afterwards [collector_] is null, [option_] is empty, the
    hook is reset, no activity buffer is cached and API tracing is off;
    activity tracing is off only if it was off before or every
    [ActivityDisable] and the flush succeeded. *)
Theorem Disable_protocol (s : State) (collector : CuptiTraceCollector)
    (option : CuptiTracerOptions) (hook : CuptiDriverApiHook) :
  collector_ s = Some collector ->
  option_ s = Some option ->
  cupti_driver_api_hook_ s = Some hook ->
  let api_calls :=
    if api_tracing_enabled_ s
    then attempted (api_disabling_calls option) else [] in
  let activity_calls :=
    if activity_tracing_enabled_ s
    then activity_disabling_calls (activities_selected option) else [] in
  exists s1 s2 s',
    IgnoreError (DisableApiTracing cupti_interface_) s = Some s1 /\
    trace s1 = trace s ++ api_calls /\
    IgnoreError (DisableActivityTracing cupti_interface_) s1 = Some s2 /\
    trace s2 = trace s1 ++ activity_calls /\
    Disable cupti_interface_ GetCuptiInterface event0 s = Some s' /\
    let merged := foldl merge_event ∅ (recorded_events s) in
    let collector' := SetAnnotationMap merged collector in
    let callback_events := map ewa_event (recorded_events s) in
    let activity_events :=
      cached_events GetCuptiInterface event0 collector'
        (activity_buffers_ s2) in
    let before_flush :=
      api_calls ++ activity_calls ++ [CuptiCleanUp] ++
      (if cupti_finalize option then [CuptiFinalize] else []) ++
      [HookSyncAndFlush] ++ [CollectorSetAnnotationMap merged] ++
      map CollectorAddEvent callback_events ++
      map CollectorAddEvent activity_events in
    trace s' = trace s ++ before_flush ++
               [CollectorFlush; AnnotationStackEnable false] /\
    Forall (fun c => is_Flush c = false) before_flush /\
    collector_ s' = None /\ option_ s' = None /\
    cupti_driver_api_hook_ s' = None /\ activity_buffers_ s' = [] /\
    api_tracing_enabled_ s' = false /\
    activity_tracing_enabled_ s' =
      activity_tracing_enabled_ s && negb (activities_disabled option).
Proof.
  intros Hcol Hopt Hhook api_calls activity_calls.
  destruct (Disable_order cupti_interface_ GetCuptiInterface event0 s
              collector option hook Hcol Hopt Hhook)
    as (s1 & s2 & s' & api_calls0 & activity_calls0 & Hrun1 & Htr1 & _
        & Hrun2 & Htr2 & _ & Hrun & Htrace & Hflush & Hc & Ho & Hh & Hb).
  cbv zeta in Htrace, Hflush.
  pose proof Hrun1 as Hrun1'. apply IgnoreError_Some in Hrun1' as [st1 Hrun1'].
  pose proof (DisableApiTracing_trace option s st1 s1 Hopt Hrun1') as Htr1'.
  pose proof (DisableApiTracing_flags s st1 s1 Hrun1') as (Ha1 & Hb1 & Ho1).
  rewrite Hopt in Ho1.
  pose proof Hrun2 as Hrun2'. apply IgnoreError_Some in Hrun2' as [st2 Hrun2'].
  pose proof (DisableActivityTracing_trace option s1 st2 s2 Ho1 Hrun2')
    as Htr2'.
  rewrite Hb1 in Htr2'.
  assert (Hapi : api_calls0 = api_calls).
  { rewrite Htr1 in Htr1'. apply app_inv_head in Htr1'. exact Htr1'. }
  assert (Hactivity : activity_calls0 = activity_calls).
  { rewrite Htr2 in Htr2'. apply app_inv_head in Htr2'. exact Htr2'. }
  subst api_calls0 activity_calls0.
  destruct (Disable_flags s s' option Hopt Hrun) as (Hapi' & Hact').
  exists s1, s2, s'. cbv zeta.
  split_and!; assumption.
Qed.


(** X26 (cupti_tracer.cc, Enable, EnableApiTracing and
    EnableActivityTracing): the outcome of [Enable] on a tracer whose API
    tracing is off.  The root-access flag is raised exactly when the first
    failing call of API tracing reports insufficient privileges.  API
    tracing counts as enabled as soon as [Subscribe] succeeded, also when a
    later call fails, and the tracer is then not available.  Activity
    tracing is switched on only when API tracing succeeded and the
    activity callbacks and every selected activity could be enabled.  The
    annotation stack is enabled, as the last call, exactly when API tracing
    succeeded; otherwise only calls that enable callbacks were made. *)
Theorem Enable_outcome (NumGpus : Z) (option : CuptiTracerOptions)
    (collector : CuptiTraceCollector) (need_root_access_ : bool) (s : State) :
  api_tracing_enabled_ s = false ->
  exists s' calls,
    Enable option (Some collector) need_root_access_ s
    = Some (need_root_access_
            || is_permission_denied (api_tracing_status option), s') /\
    (is_permission_denied (api_tracing_status option) = true <->
     first_error (cupti_Subscribe :: map snd (api_calls option))
     = Some CUPTI_ERROR_INSUFFICIENT_PRIVILEGES) /\
    api_tracing_enabled_ s' = is_success cupti_Subscribe /\
    activity_tracing_enabled_ s' =
      activity_tracing_enabled_ s
      || ok (api_tracing_status option) && activities_enabled option /\
    (is_success cupti_Subscribe = true -> IsAvailable NumGpus s' = false) /\
    trace s' = trace s ++ calls /\
    if ok (api_tracing_status option)
    then last calls = Some (AnnotationStackEnable true)
    else Forall is_enabling_call calls.
Proof.
  intros Hapi.
  destruct (Enable_run option collector need_root_access_ s Hapi)
    as (s' & calls & Hrun & _ & Ha & Hb & Ht & Hcalls).
  exists s', calls. split_and!; try assumption.
  - unfold api_tracing_status.
    destruct (first_error _) as [e|]; [| split; discriminate].
    destruct e; simpl; split; congruence.
  - intros Hsub. unfold IsAvailable. rewrite Ha, Hsub.
    apply andb_false_r.
Qed.

(** X27 (cupti_tracer.cc, Enable, NumGpus and ErrorIfAny): what
    [ErrorIfAny] reports after [Enable] on a tracer whose API tracing is
    off.  When the first failing call of API tracing ([Subscribe] or a call
    that enables callbacks) reports insufficient privileges, the
    root-access flag is set and [ErrorIfAny] reports the missing root
    permission, unless no GPU was found, which it reports first; the
    timestamp is not looked at.  A failure while activity tracing is
    enabled is ignored, insufficient privileges included: when the flag was
    not set before and API tracing met no such failure, the flag stays
    unset whatever [ActivityRegisterCallbacks] and [ActivityEnable]
    answer, and [ErrorIfAny] reports no GPU, a timestamp of 0, or
    nothing. *)
Theorem insufficient_privileges_reported (Hostname : string)
    (cuInit : bool) (cuDeviceGetCount : Datatypes.option Z)
    (GetTimestamp : Z) (option : CuptiTracerOptions)
    (collector : CuptiTraceCollector) (need_root_access_ : bool)
    (s : State) :
  api_tracing_enabled_ s = false ->
  exists need_root_access_' s',
  Enable option (Some collector) need_root_access_ s
  = Some (need_root_access_', s') /\
  (first_error (cupti_Subscribe :: map snd (api_calls option))
   = Some CUPTI_ERROR_INSUFFICIENT_PRIVILEGES ->
   need_root_access_' = true /\
   ErrorIfAny Hostname (NumGpus cuInit cuDeviceGetCount) need_root_access_'
     GetTimestamp =
   if NumGpus cuInit cuDeviceGetCount =? 0
   then Hostname +:+ ": No GPU detected."
   else Hostname +:+
        ": Insufficient privilege to run libcupti (you need root permission).") /\
  (need_root_access_ = false ->
   first_error (cupti_Subscribe :: map snd (api_calls option))
   <> Some CUPTI_ERROR_INSUFFICIENT_PRIVILEGES ->
   need_root_access_' = false /\
   ErrorIfAny Hostname (NumGpus cuInit cuDeviceGetCount) need_root_access_'
     GetTimestamp =
   if NumGpus cuInit cuDeviceGetCount =? 0
   then Hostname +:+ ": No GPU detected."
   else if GetTimestamp =? 0
   then Hostname +:+
        ": Failed to load libcupti (is it installed and accessible?)"
   else "").
Proof.
  intros Hapi.
  destruct (Enable_run option collector need_root_access_ s Hapi)
    as (s1 & calls & Hrun1 & _).
  eexists _, s1. split; [exact Hrun1 |].
  split.
  - intros Hfirst.
    assert (Hneed : need_root_access_
                    || is_permission_denied (api_tracing_status option)
                    = true).
    { unfold api_tracing_status. rewrite Hfirst. apply orb_true_r. }
    rewrite Hneed. split; [reflexivity |].
    unfold ErrorIfAny, ErrorWithHostname.
    destruct (NumGpus cuInit cuDeviceGetCount =? 0); reflexivity.
  - intros -> Hfirst.
    assert (Hneed : is_permission_denied (api_tracing_status option)
                    = false).
    { unfold api_tracing_status.
      destruct (first_error _) as [e|]; [| reflexivity].
      destruct e; try reflexivity. contradiction Hfirst. reflexivity. }
    rewrite Hneed. split; [reflexivity |].
    unfold ErrorIfAny, ErrorWithHostname. cbn [orb].
    destruct (NumGpus cuInit cuDeviceGetCount =? 0); [reflexivity |].
    destruct (GetTimestamp =? 0); reflexivity.
Qed.

End Facts.

(** A tracer that is not tracing, with one thread that still holds an
    annotated callback event. *)
Definition sample_idle : @State Sample.buffer_pool :=
  {| collected_annotation_and_events_ := [];
     merged_annotation_map_ := ∅;
     activity_buffers_ := [];
     estimated_num_dropped_activity_events_ := 0;
     estimated_num_activity_events_ := 0;
     cupti_dropped_activity_event_count_ := 0;
     dropped_callback_event_count_ := 3;
     num_gpus_ := 1;
     option_ := None;
     collector_ := None;
     api_tracing_enabled_ := false;
     activity_tracing_enabled_ := false;
     cupti_driver_api_hook_ := None;
     buffer_pool_ := ([] : @pool Sample.buffer_pool);
     statics := {| s_callback_api_event_count := 7;
                   s_max_annotation_strings := 0;
                   s_max_callback_api_events := 0 |};
     active_set_ := [(11, Sample.annotated_thread)];
     deactived_list_ := [];
     trace := [] |}.

#[local] Existing Instance Sample.constants.
#[local] Existing Instance Sample.buffer_pool.

Lemma Disable_availability_witness :
  exists s',
    Disable (Sample.cupti false) (Sample.cupti false) Sample.event0
      (Sample.state 1 [(11, Sample.annotated_thread)]) = Some s' /\
    api_tracing_enabled_ s' = false /\
    activity_tracing_enabled_ s' = false /\
    IsAvailable 1 s' = true.
Proof.
  assert (H : exists s',
            Disable (Sample.cupti false) (Sample.cupti false) Sample.event0
              (Sample.state 1 [(11, Sample.annotated_thread)]) = Some s')
    by (eexists; vm_compute; reflexivity).
  destruct H as [s' H]. exists s'. split; [exact H |].
  apply (Disable_availability (Sample.cupti false) (Sample.cupti false)
           Sample.event0 1 (Sample.state 1 [(11, Sample.annotated_thread)])
           s' Sample.options eq_refl H).
Defined.


Lemma Enable_outcome_witness :
  exists s' calls,
    Enable (Sample.cupti false) CUPTI_SUCCESS CUPTI_SUCCESS
      (fun _ => CUPTI_SUCCESS) (fun _ => Sample.hook) Sample.options
      (Some (Sample.collector ∅)) false sample_idle
    = Some (false, s') /\
    api_tracing_enabled_ s' = true /\
    activity_tracing_enabled_ s' = true /\
    IsAvailable 1 s' = false /\
    trace s' = calls /\
    last calls = Some (AnnotationStackEnable true).
Proof.
  destruct (Enable_outcome (Sample.cupti false) CUPTI_SUCCESS CUPTI_SUCCESS
              (fun _ => CUPTI_SUCCESS) (fun _ => Sample.hook) 1
              Sample.options (Sample.collector ∅) false sample_idle eq_refl)
    as (s' & calls & Hrun & _ & Hapi & Hactivity & Havailable & Htrace
        & Hcalls).
  exists s', calls. split_and!.
  - exact Hrun.
  - exact Hapi.
  - exact Hactivity.
  - apply Havailable. reflexivity.
  - exact Htrace.
  - exact Hcalls.
Defined.

Lemma insufficient_privileges_reported_witness :
  exists need_root_access_' s',
    Enable (Sample.cupti false) CUPTI_SUCCESS
      (CUPTI_ERROR CUPTI_ERROR_INSUFFICIENT_PRIVILEGES)
      (fun _ => CUPTI_SUCCESS) (fun _ => Sample.hook) Sample.options
      (Some (Sample.collector ∅)) false sample_idle
    = Some (need_root_access_', s') /\
    need_root_access_' = false /\
    ErrorIfAny "host" (NumGpus true (Some 1)) need_root_access_' 5 = "".
Proof.
  destruct (insufficient_privileges_reported (Sample.cupti false)
              CUPTI_SUCCESS
              (CUPTI_ERROR CUPTI_ERROR_INSUFFICIENT_PRIVILEGES)
              (fun _ => CUPTI_SUCCESS) (fun _ => Sample.hook) "host" true
              (Some 1) 5 Sample.options (Sample.collector ∅) false
              sample_idle eq_refl)
    as (need' & s' & Hrun & _ & Hquiet).
  exists need', s'. split; [exact Hrun |].
  apply Hquiet; [reflexivity | discriminate].
Defined.

Lemma Disable_protocol_witness :
  exists s',
    Disable (Sample.cupti false) (Sample.cupti false) Sample.event0
      (Sample.state 1 [(11, Sample.annotated_thread)]) = Some s' /\
    collector_ s' = None /\ option_ s' = None /\
    api_tracing_enabled_ s' = false /\
    activity_tracing_enabled_ s' = false /\
    last (trace s') = Some (AnnotationStackEnable false).
Proof.
  destruct (Disable_protocol (Sample.cupti false) (Sample.cupti false)
              Sample.event0 (Sample.state 1 [(11, Sample.annotated_thread)])
              (Sample.collector ∅) Sample.options Sample.hook
              eq_refl eq_refl eq_refl)
    as (s1 & s2 & s' & _ & _ & _ & _ & Hrun & Htrace & _ & Hc & Ho & _ & _
        & Hapi & Hactivity).
  exists s'. split_and!; try assumption.
  cbv zeta in Htrace. rewrite Htrace.
  rewrite !app_assoc. rewrite last_app. reflexivity.
Defined.

(** The sample driver with other answers to [EnableDomain] and
    [ActivityDisable]. *)
Definition sample_cupti (EnableDomain ActivityDisable : CUptiResult)
  : CuptiInterface :=
  {| cupti_EnableCallback := cupti_EnableCallback (Sample.cupti false);
     cupti_EnableDomain := fun _ _ => EnableDomain;
     cupti_Unsubscribe := cupti_Unsubscribe (Sample.cupti false);
     cupti_ActivityDisable := fun _ => ActivityDisable;
     cupti_ActivityFlushAll := cupti_ActivityFlushAll (Sample.cupti false);
     cupti_ActivityFlushAll_completed :=
       cupti_ActivityFlushAll_completed (Sample.cupti false);
     cupti_ActivityConfigureUnifiedMemoryCounter :=
       cupti_ActivityConfigureUnifiedMemoryCounter (Sample.cupti false);
     cupti_Finalize := cupti_Finalize (Sample.cupti false);
     cupti_GetDeviceId := cupti_GetDeviceId (Sample.cupti false);
     cupti_ActivityGetNumDroppedRecords :=
       cupti_ActivityGetNumDroppedRecords (Sample.cupti false);
     cupti_Disabled := false;
     cupti_GetResultString := cupti_GetResultString (Sample.cupti false);
     cupti_ActivityGetNextRecord :=
       cupti_ActivityGetNextRecord (Sample.cupti false) |}.

(** [Disable] does not always disable.  On the enabled sample tracer, when
    [ActivityDisable] fails, activity tracing is not disabled: the flag
    stays set, [ActivityFlushAll] is not called, and the two events of the
    buffer that the driver would complete in the flush never reach the
    collector.  When [EnableDomain] fails, [Unsubscribe] is not called.
    And on a tracer that was never enabled, whose options are empty,
    [Disable] reads the empty options. *)
Lemma disabling_stops_at_first_failure :
  option_map (fun s => (trace s, activity_tracing_enabled_ s))
    (Disable (sample_cupti CUPTI_SUCCESS (CUPTI_ERROR (CUPTI_ERROR_other 1)))
       (Sample.cupti false) Sample.event0
       (Sample.state 1 [(11, Sample.annotated_thread)])) =
  Some
    ([CuptiEnableDomain false CUPTI_CB_DOMAIN_DRIVER_API;
      CuptiUnsubscribe;
      CuptiActivityDisable CUPTI_ACTIVITY_KIND_MEMSET;
      CuptiCleanUp;
      HookSyncAndFlush;
      CollectorSetAnnotationMap
        {[ 5 := {| info_annotation := "train_step";
                   info_nvtx_range := "range" |} ]};
      CollectorAddEvent Sample.event0;
      CollectorFlush;
      AnnotationStackEnable false],
     true) /\
  option_map (fun s => (trace s, api_tracing_enabled_ s))
    (Disable (sample_cupti (CUPTI_ERROR (CUPTI_ERROR_other 1)) CUPTI_SUCCESS)
       (Sample.cupti false) Sample.event0
       (Sample.state 1 [(11, Sample.annotated_thread)])) =
  Some
    ([CuptiEnableDomain false CUPTI_CB_DOMAIN_DRIVER_API;
      CuptiActivityDisable CUPTI_ACTIVITY_KIND_MEMSET;
      CuptiActivityFlushAll;
      CuptiCleanUp;
      HookSyncAndFlush;
      CollectorSetAnnotationMap
        {[ 5 := {| info_annotation := "train_step";
                   info_nvtx_range := "range" |} ]};
      CollectorAddEvent Sample.event0;
      CollectorAddEvent
        {| type := Memset; source := Activity; name := "Memset 3";
           annotation := ""; nvtx_range := "";
           start_time_ns := 30; end_time_ns := 40; device_id := 0;
           correlation_id := 5; thread_id := 0; context_id := 1;
           stream_id := 2 |};
      CollectorAddEvent
        {| type := Kernel; source := Activity; name := "gemm";
           annotation := "train_step"; nvtx_range := "range";
           start_time_ns := 50; end_time_ns := 60; device_id := 0;
           correlation_id := 5; thread_id := 0; context_id := 1;
           stream_id := 2 |};
      CollectorFlush;
      AnnotationStackEnable false],
     false) /\
  Disable (Sample.cupti false) (Sample.cupti false) Sample.event0 sample_idle
  = None.
Proof. split_and!; vm_compute; reflexivity. Qed.

End TracerLifecycle.
